(** * Task Explorer: discovery, caching and tree construction

    A shallow embedding of the task discovery engine of the Task Explorer
    extension: the Ant, Gradle and script detectors with their per-module
    task caches (taskProviderAnt.ts, taskProviderGradle.ts,
    taskProviderScript.ts), the tree builder and the tree view
    (taskTree.ts), and the file watchers and the refresh of the views
    (extension.ts), followed by the properties established about them.

    Conventions of the embedding.
    - A JavaScript string is a [string]; its characters stand for UTF-16
      code units, of which the model covers those below 256.
    - A JavaScript number used as an index is a [Z]; [indexOf] answers [-1]
      when nothing is found, as in the source.
    - An [async] function is a computation in the monad [M]: it threads the
      module variable [cachedTasks] and the log of file reads, and it ends
      either with a value or with a thrown exception (a rejected promise).
    - Everything the extension obtains from its host (file system, VS Code
      workspace, configuration, Node's [path] module, the xml2js parser and
      the helpers of util.ts) is a field of the record [Host]. *)

From Stdlib Require Import ZArith List String Ascii Bool Lia Permutation.
From Stdlib Require Import OrderedTypeEx.
Import ListNotations.

Set Implicit Arguments.

Local Open Scope string_scope.
Local Open Scope Z_scope.

(** ** JavaScript strings *)

Module Js.

(** The line feed character and the string ["\n"]. *)
Definition lf : ascii := ascii_of_nat 10.
Definition LF : string := String lf EmptyString.

Definition len (s : string) : Z := Z.of_nat (String.length s).

Fixpoint drop (n : nat) (s : string) : string :=
  match n, s with
  | O, _ => s
  | S _, EmptyString => EmptyString
  | S n', String _ s' => drop n' s'
  end.

Fixpoint take (n : nat) (s : string) : string :=
  match n, s with
  | O, _ => EmptyString
  | S _, EmptyString => EmptyString
  | S n', String c s' => String c (take n' s')
  end.

(** Index arguments are clamped to [0 .. length]. *)
Definition clampIdx (s : string) (i : Z) : Z := Z.max 0 (Z.min i (len s)).

(** [s.substring(start, stop)]: both ends clamped, swapped when out of
    order. *)
Definition substring (s : string) (start stop : Z) : string :=
  let a := clampIdx s start in
  let b := clampIdx s stop in
  let lo := Z.min a b in
  let hi := Z.max a b in
  take (Z.to_nat (hi - lo)) (drop (Z.to_nat lo) s).

(** [s.substring(start)] *)
Definition substringFrom (s : string) (start : Z) : string :=
  substring s start (len s).

Definition startsWith (s p : string) : bool := String.prefix p s.

Fixpoint indexOfAux (pat s : string) (i : Z) : Z :=
  if String.prefix pat s then i
  else match s with
       | EmptyString => -1
       | String _ s' => indexOfAux pat s' (i + 1)
       end.

(** [s.indexOf(pat, from)] *)
Definition indexOf (s pat : string) (from : Z) : Z :=
  let k := clampIdx s from in
  indexOfAux pat (drop (Z.to_nat k) s) k.

Fixpoint lastIndexOfAux (pat s : string) (i : Z) (best : Z) : Z :=
  let best' := if String.prefix pat s then i else best in
  match s with
  | EmptyString => best'
  | String _ s' => lastIndexOfAux pat s' (i + 1) best'
  end.

(** [s.lastIndexOf(pat)] *)
Definition lastIndexOf (s pat : string) : Z := lastIndexOfAux pat s 0 (-1).

Definition endsWith (s p : string) : bool :=
  (String.length p <=? String.length s)%nat
  && String.eqb (drop (String.length s - String.length p) s) p.

(** White space removed by [trim]: TAB, LF, VT, FF, CR, SP and NBSP. *)
Definition isWhiteSpace (c : ascii) : bool :=
  let n := nat_of_ascii c in
  ((9 <=? n) && (n <=? 13) || (n =? 32) || (n =? 160))%nat.

Fixpoint trimLeft (s : string) : string :=
  match s with
  | EmptyString => EmptyString
  | String c s' => if isWhiteSpace c then trimLeft s' else s
  end.

Fixpoint trimRight (s : string) : string :=
  match s with
  | EmptyString => EmptyString
  | String c s' =>
      match trimRight s' with
      | EmptyString => if isWhiteSpace c then EmptyString
                       else String c EmptyString
      | r => String c r
      end
  end.

Definition trim (s : string) : string := trimRight (trimLeft s).

(** Lower case of one code unit: A-Z, and the accented capitals
    U+00C0-U+00DE but for the multiplication sign U+00D7. *)
Definition lowerChar (c : ascii) : ascii :=
  let n := nat_of_ascii c in
  if ((65 <=? n) && (n <=? 90))%nat then ascii_of_nat (n + 32)
  else if ((192 <=? n) && (n <=? 222) && negb (n =? 215))%nat
       then ascii_of_nat (n + 32)
       else c.

Fixpoint toLowerCase (s : string) : string :=
  match s with
  | EmptyString => EmptyString
  | String c s' => String (lowerChar c) (toLowerCase s')
  end.

(** A string is truthy when it is not empty. *)
Definition truthy (s : string) : bool := negb (String.eqb s "").

(** *** Objects used as string maps

    [{ [s: string]: string }].  Own keys are listed by [Object.keys]
    with the array indices first, in ascending order, and the other keys
    after them in insertion order. *)

Definition StringMap := list (string * string).

Fixpoint get (o : StringMap) (k : string) : option string :=
  match o with
  | [] => None
  | (k', v) :: o' => if String.eqb k' k then Some v else get o' k
  end.

(** The object with the own key [k] at the value [v]: an existing key
    keeps its place, a new one comes last. *)
Fixpoint define (o : StringMap) (k v : string) : StringMap :=
  match o with
  | [] => [(k, v)]
  | (k', v') :: o' =>
      if String.eqb k' k then (k', v) :: o' else (k', v') :: define o' k v
  end.

(** [o[k] = v] on an object literal, [v] being a string.  The key
    [__proto__] is not defined on the object: the assignment reaches the
    setter that [Object.prototype] has under that name, which ignores a
    value that is not an object, and the object is left without the
    key. *)
Definition set (o : StringMap) (k v : string) : StringMap :=
  if String.eqb k "__proto__" then o else define o k v.

Definition isDigit (c : ascii) : bool :=
  let n := nat_of_ascii c in ((48 <=? n) && (n <=? 57))%nat.

Fixpoint digitsValue (s : string) (acc : N) : option N :=
  match s with
  | EmptyString => Some acc
  | String c s' =>
      if isDigit c
      then digitsValue s' (10 * acc + N.of_nat (nat_of_ascii c - 48))%N
      else None
  end.

(** The array index a key denotes, if it is the canonical decimal form of
    an integer below 2^32 - 1. *)
Definition arrayIndex (k : string) : option N :=
  match k with
  | EmptyString => None
  | String c rest =>
      if (Ascii.eqb c "0" && negb (String.eqb rest ""))%bool then None
      else match digitsValue k 0%N with
           | Some n => if (n <? 4294967295)%N then Some n else None
           | None => None
           end
  end.

Fixpoint insertIndex (n : N) (k : string) (l : list (N * string))
  : list (N * string) :=
  match l with
  | [] => [(n, k)]
  | (m, k') :: l' =>
      if (n <=? m)%N then (n, k) :: l else (m, k') :: insertIndex n k l'
  end.

Fixpoint indexKeys (ks : list string) : list (N * string) :=
  match ks with
  | [] => []
  | k :: ks' =>
      match arrayIndex k with
      | Some n => insertIndex n k (indexKeys ks')
      | None => indexKeys ks'
      end
  end.

Definition isNamedKey (k : string) : bool :=
  match arrayIndex k with Some _ => false | None => true end.

(** [Object.keys(o)] *)
Definition keys (o : StringMap) : list string :=
  let ks := List.map fst o in
  (List.map snd (indexKeys ks) ++ List.filter isNamedKey ks)%list.

End Js.

(** ** Values of the host API *)

(** The JavaScript values met in settings and in task definitions. *)
Inductive JsVal :=
| JUndefined
| JBool (b : bool)
| JString (s : string)
| JArray (l : list string).

Definition jsTruthy (v : JsVal) : bool :=
  match v with
  | JUndefined => false
  | JBool b => b
  | JString s => Js.truthy s
  | JArray _ => true
  end.

(** A setting read at its declared type [string]. *)
Definition asString (v : JsVal) : string :=
  match v with JString s => s | _ => "" end.

Record Uri := mkUri { uri_path : string; uri_fsPath : string }.

Record WorkspaceFolder := mkFolder { wf_uri : Uri; wf_name : string }.

(** [Task.scope]: a workspace folder, [TaskScope.Global] (the number 1),
    [TaskScope.Workspace] (the number 2) or nothing. *)
Inductive Scope :=
| ScopeFolder (f : WorkspaceFolder)
| ScopeGlobal
| ScopeWorkspace
| ScopeUndefined.

Record ShellExecutionOptions :=
  mkOptions { cwd : string; executable : option string }.

(** [new ShellExecution(command, args, options)] and
    [new ShellExecution(commandLine, options)]. *)
Inductive ShellExecution :=
| ShellCommand (command : string) (args : list string)
               (options : ShellExecutionOptions)
| ShellCommandLine (commandLine : string) (options : ShellExecutionOptions).

Inductive TaskGroup := Build | Clean | Rebuild | Test.

(** The task definitions of the three providers ([AntTaskDefinition],
    [GradleTaskDefinition], [ScriptTaskDefinition]) as one record; a field a
    provider does not set is [None]. *)
Record TaskDefinition := mkDefinition {
  def_type : string;
  def_script : option string;
  def_path : option string;
  def_fileName : option string;
  def_uri : option Uri;
  def_scriptType : option string;
  def_cmdLine : option string;
  def_scriptFile : option bool;
  def_requiresArgs : option bool
}.

(** Reading a property of a definition object by name. *)
Definition getProp (d : TaskDefinition) (key : string) : JsVal :=
  let str (o : option string) :=
    match o with Some s => JString s | None => JUndefined end in
  let boo (o : option bool) :=
    match o with Some b => JBool b | None => JUndefined end in
  if String.eqb key "type" then JString (def_type d)
  else if String.eqb key "script" then str (def_script d)
  else if String.eqb key "path" then str (def_path d)
  else if String.eqb key "fileName" then str (def_fileName d)
  else if String.eqb key "scriptType" then str (def_scriptType d)
  else if String.eqb key "cmdLine" then str (def_cmdLine d)
  else if String.eqb key "scriptFile" then boo (def_scriptFile d)
  else if String.eqb key "requiresArgs" then boo (def_requiresArgs d)
  else JUndefined.

(** [new Task(definition, scope, name, source, execution, undefined)] *)
Record Task := mkTask {
  definition : TaskDefinition;
  scope : Scope;
  name : string;
  source : string;
  execution : option ShellExecution;
  group : option TaskGroup
}.

Definition setGroup (t : Task) (g : TaskGroup) : Task :=
  mkTask (definition t) (scope t) (name t) (source t) (execution t) (Some g).

Definition executionArgs (t : Task) : list string :=
  match execution t with
  | Some (ShellCommand _ args _) => args
  | _ => []
  end.

Definition Uri_eq_dec (a b : Uri) : {a = b} + {a <> b}.
Proof. decide equality; apply string_dec. Defined.

Definition WorkspaceFolder_eq_dec (a b : WorkspaceFolder) : {a = b} + {a <> b}.
Proof. decide equality; [apply string_dec | apply Uri_eq_dec]. Defined.

Definition option_eq_dec (A : Type) (d : forall x y : A, {x = y} + {x <> y})
  (a b : option A) : {a = b} + {a <> b}.
Proof. decide equality. Defined.

Definition Task_eq_dec (a b : Task) : {a = b} + {a <> b}.
Proof.
  pose proof string_dec. pose proof Bool.bool_dec. pose proof Uri_eq_dec.
  pose proof WorkspaceFolder_eq_dec.
  assert (forall x y : ShellExecutionOptions, {x = y} + {x <> y})
    by (decide equality; apply option_eq_dec; assumption).
  assert (forall x y : list string, {x = y} + {x <> y})
    by (apply list_eq_dec; assumption).
  decide equality; try (apply option_eq_dec); try assumption;
    decide equality; try (apply option_eq_dec); assumption.
Defined.

(** ** The host *)

(** What xml2js hands to the callback of [parseString]: an element is
    either its text (an element with neither attributes nor children), or
    an object with the attributes under [$] (missing when the element has
    none) and one array per child element name. *)
#[warnings="-register-all"]
Inductive XmlNode :=
| XText (text : string)
| XElem (attrs : option (list (string * string)))
        (children : list (string * list XmlNode)).

Fixpoint assoc (A : Type) (l : list (string * A)) (k : string) : option A :=
  match l with
  | [] => None
  | (k', v) :: l' => if String.eqb k' k then Some v else assoc l' k
  end.

Record Host := mkHost {
  (** [process.platform] *)
  platform : string;
  (** [configuration.get(key)] of the [taskExplorer] section *)
  configuration : string -> JsVal;
  (** [workspace.workspaceFolders] *)
  workspaceFolders : option (list WorkspaceFolder);
  (** [workspace.getWorkspaceFolder(uri)] *)
  getWorkspaceFolder : Uri -> option WorkspaceFolder;
  (** [workspace.findFiles(new RelativePattern(folder, glob),
      util.getExcludesGlob(folder))] *)
  findFiles : WorkspaceFolder -> string -> list Uri;
  (** util.ts: [pathExists], [readFile] and [readFileSync] ([None] when the
      read fails), [isExcluded], [existsInArray] on the [exclude] setting,
      [properCase]; [String.prototype.localeCompare] *)
  pathExists : string -> bool;
  readFile : string -> option string;
  readFileSync : string -> option string;
  isExcluded : string -> bool;
  existsInExclude : string -> bool;
  properCase : string -> string;
  localeCompare : string -> string -> Z;
  (** Node's [path] module *)
  basename : string -> string;
  dirname : string -> string;
  extname : string -> string;
  join : string -> string -> string;
  (** xml2js: the document that the callback of [parseString] is given
      as its result and that the code keeps in [json], as the name of the
      root element with the root node; [None] when the callback is given
      no document: the parser throws, or it calls back with an error
      only *)
  parseString : string -> option (string * XmlNode)
}.

(** ** Asynchronous computations *)

Inductive Exn :=
| IOError (file : string)
| TypeError (what : string).

Inductive Outcome (A : Type) :=
| Ok (a : A)
| Throw (e : Exn)
| Diverge.

Arguments Ok {A} a.
Arguments Throw {A} e.
Arguments Diverge {A}.

(** A computation over a mutable state [S] ends with a value, with a
    thrown exception (a rejected promise), or not at all. *)
Definition St (S A : Type) : Type := S -> Outcome A * S.

Definition ret {S A : Type} (a : A) : St S A := fun m => (Ok a, m).

Definition bind {S A B : Type} (c : St S A) (k : A -> St S B) : St S B :=
  fun m =>
    match c m with
    | (Ok a, m') => k a m'
    | (Throw e, m') => (Throw e, m')
    | (Diverge, m') => (Diverge, m')
    end.

Definition throw {S A : Type} (e : Exn) : St S A := fun m => (Throw e, m).

Definition diverge {S A : Type} : St S A := fun m => (Diverge, m).

(** [try { c } catch (error) { handler(error) }] *)
Definition tryCatch {S A : Type} (c : St S A) (handler : Exn -> St S A)
  : St S A :=
  fun m =>
    match c m with
    | (Throw e, m') => handler e m'
    | r => r
    end.

Notation "x <- c ;; k" := (bind c (fun x => k))
  (at level 61, c at next level, right associativity).

(** A [for ... of] or [forEach] loop whose body updates the local
    variables [acc]. *)
Fixpoint forOf {S A B : Type} (l : list A) (acc : B)
  (body : B -> A -> St S B) : St S B :=
  match l with
  | [] => ret acc
  | x :: l' => acc' <- body acc x ;; forOf l' acc' body
  end.

(** The mutable state of a provider module: its variable [cachedTasks]
    ([None] for [undefined]) and, for the proofs, the files read so far. *)
Record Mem := mkMem {
  cachedTasks : option (list Task);
  reads : list string
}.

Definition M (A : Type) : Type := St Mem A.

Definition getCache : M (option (list Task)) :=
  fun m => (Ok (cachedTasks m), m).

Definition setCache (c : option (list Task)) : M unit :=
  fun m => (Ok tt, mkMem c (reads m)).

Section WithHost.

Variable h : Host.

(** [await util.readFile(file)] *)
Definition readFileM (file : string) : M string :=
  fun m =>
    let m' := mkMem (cachedTasks m) (reads m ++ [file]) in
    match readFile h file with
    | Some contents => (Ok contents, m')
    | None => (Throw (IOError file), m')
    end.

(** [util.readFileSync(file)] *)
Definition readFileSyncM (file : string) : M string :=
  fun m =>
    let m' := mkMem (cachedTasks m) (reads m ++ [file]) in
    match readFileSync h file with
    | Some contents => (Ok contents, m')
    | None => (Throw (IOError file), m')
    end.

End WithHost.

(** Modelled from the spec: [util.removeFromArray(arr, item)], whose source
    util.ts is missing; it drops [item] from the array, here its first
    occurrence. *)
Fixpoint removeFromArray (arr : list Task) (item : Task) : list Task :=
  match arr with
  | [] => []
  | x :: arr' =>
      if Task_eq_dec x item then arr' else x :: removeFromArray arr' item
  end.

(** ** The Gradle provider (taskProviderGradle.ts) *)

Module Gradle.

(** The body of the [while] loop of [findTargets] on one line of the
    file, already trimmed. *)
Definition scanLine (scripts : Js.StringMap) (line : string)
  : Js.StringMap :=
  if (0 <? Js.len line)
     && Js.startsWith (Js.trimLeft (Js.toLowerCase line)) "task "
  then
    let idx1 := Js.indexOf (Js.trimLeft line) " " 0 in
    if negb (idx1 =? -1) then
      let idx1 := idx1 + 1 in
      let idx2 := Js.indexOf line "(" idx1 in
      let idx2 := if idx2 =? -1 then Js.indexOf line "{" idx1 else idx2 in
      if negb (idx2 =? -1) then
        let tgtName := Js.trim (Js.substring line idx1 idx2) in
        if Js.truthy tgtName then Js.set scripts tgtName "" else scripts
      else scripts
    else scripts
  else scripts.

(** The [while (eol !== -1)] loop; [fuel] bounds the number of
    iterations. *)
Fixpoint findTargets_loop (fuel : nat) (contents : string) (idx eol : Z)
  (scripts : Js.StringMap) : option Js.StringMap :=
  match fuel with
  | O => None
  | S fuel' =>
      if eol =? -1 then Some scripts
      else
        let line := Js.trim (Js.substring contents idx eol) in
        let scripts := scanLine scripts line in
        let idx := eol + 1 in
        let eol := Js.indexOf contents Js.LF idx in
        findTargets_loop fuel' contents idx eol scripts
  end.

(** [findTargets] after the file has been read. *)
Definition findTargets_scan (contents : string) : option Js.StringMap :=
  findTargets_loop (S (String.length contents)) contents 0
    (Js.indexOf contents Js.LF 0) [].

Section WithHost.

Variable h : Host.

Definition findTargets (fsPath : string) : M Js.StringMap :=
  contents <- readFileM h fsPath ;;
  match findTargets_scan contents with
  | Some scripts => ret scripts
  | None => diverge
  end.

Definition getCommand : string :=
  let gradle := "gradle" in
  let gradle :=
    if String.eqb (platform h) "win32" then "gradle.bat" else gradle in
  if jsTruthy (configuration h "pathToGradle")
  then asString (configuration h "pathToGradle")
  else gradle.

Definition getRelativePath (folder : WorkspaceFolder) (uri : Uri)
  : string :=
  let rootUri := wf_uri folder in
  let absolutePath :=
    Js.substring (uri_path uri) 0
      (Js.lastIndexOf (uri_path uri) "/" + 1) in
  Js.substringFrom absolutePath (Js.len (uri_path rootUri) + 1).

Definition createGradleTask (target cmd : string)
  (folder : WorkspaceFolder) (uri : Uri) : Task :=
  let relativePath := getRelativePath folder uri in
  let kind :=
    mkDefinition "gradle" (Some target)
      (Some (if 0 <? Js.len relativePath then relativePath else ""))
      (Some (basename h (uri_path uri))) (Some uri)
      None None None None in
  let cwd := dirname h (uri_fsPath uri) in
  let args := [target] in
  let options := mkOptions cwd None in
  let execution := ShellCommand getCommand args options in
  mkTask kind (ScopeFolder folder) target "gradle" (Some execution) None.

Definition readGradlefile (uri : Uri) : M (list Task) :=
  match getWorkspaceFolder h uri with
  | None => ret []
  | Some folder =>
      scripts <- findTargets (uri_fsPath uri) ;;
      ret (List.map
             (fun each => setGroup (createGradleTask each each folder uri)
                                   Build)
             (Js.keys scripts))
  end.

Definition detectGradlefiles : M (list Task) :=
  match workspaceFolders h with
  | None => ret []
  | Some folders =>
      tryCatch
        (r <- forOf folders ([], [])
               (fun acc folder =>
                  let paths :=
                    findFiles h folder "**/*.[Gg][Rr][Aa][Dd][Ll][Ee]" in
                  forOf paths acc
                    (fun acc fpath =>
                       let '(allTasks, visitedFiles) := acc in
                       if negb (isExcluded h (uri_path fpath))
                          && negb (existsb (String.eqb (uri_fsPath fpath))
                                     visitedFiles)
                       then
                         tasks <- readGradlefile fpath ;;
                         ret ((allTasks ++ tasks)%list,
                              uri_fsPath fpath :: visitedFiles)
                       else ret acc)) ;;
         ret (fst r))
        (fun error => throw error)
  end.

Definition provideGradlefiles : M (list Task) :=
  c <- getCache ;;
  match c with
  | Some tasks => ret tasks
  | None =>
      tasks <- detectGradlefiles ;;
      _ <- setCache (Some tasks) ;;
      ret tasks
  end.

End WithHost.

End Gradle.

(** ** The Ant provider (taskProviderAnt.ts) *)

Module Ant.

Section WithHost.

Variable h : Host.

(** One round of the [for (var tgt in targets)] loop. *)
Definition addTarget (defaultTask : option string)
  (scripts : Js.StringMap) (tgt : XmlNode) : Js.StringMap :=
  match tgt with
  | XElem (Some attrs) _ =>
      match assoc attrs "name" with
      | Some name =>
          if Js.truthy name then
            let isDefault :=
              match defaultTask with
              | Some d => String.eqb d name
              | None => false
              end in
            Js.set scripts
              (if isDefault then (name ++ " - Default")%string else name)
              name
          else scripts
      | None => scripts
      end
  | _ => scripts
  end.

Definition findAllAntScripts (buffer : string) : M Js.StringMap :=
  let scripts : Js.StringMap := [] in
  match parseString h buffer with
  | None => ret scripts
  | Some (root, project) =>
      if negb (String.eqb root "project") then ret scripts
      else
        match project with
        | XText _ => ret scripts
        | XElem attrs children =>
            match assoc children "target" with
            | None => ret scripts
            | Some targets =>
                match attrs with
                | None =>
                    throw (TypeError "json.project.$ is undefined")
                | Some a =>
                    let defaultTask := assoc a "default" in
                    ret (fold_left (addTarget defaultTask) targets
                           scripts)
                end
            end
        end
  end.

Definition getCommand : string :=
  let ant := "ant" in
  let ant :=
    if String.eqb (platform h) "win32" then "ant.bat" else ant in
  if jsTruthy (configuration h "pathToAnt") then
    let ant := asString (configuration h "pathToAnt") in
    if String.eqb (platform h) "win32" && Js.endsWith ant "\ant"
    then (ant ++ ".bat")%string
    else ant
  else ant.

Definition getRelativePath (folder : WorkspaceFolder) (uri : Uri)
  : string :=
  let rootUri := wf_uri folder in
  let absolutePath :=
    Js.substring (uri_path uri) 0
      (Js.lastIndexOf (uri_path uri) "/" + 1) in
  Js.substringFrom absolutePath (Js.len (uri_path rootUri) + 1).

Definition useAnsicon : bool :=
  String.eqb (platform h) "win32"
  && match configuration h "enableAnsiconForAnt" with
     | JBool true => true
     | _ => false
     end.

Definition ansiconExecutable : string :=
  let ansicon := "ansicon.exe" in
  let ansiPath := asString (configuration h "pathToAnsicon") in
  if Js.truthy ansiPath && pathExists h ansiPath then
    let ansicon := ansiPath in
    if negb (Js.endsWith ansicon "ansicon.exe")
       && negb (Js.endsWith ansicon "\")
    then join h ansicon "ansicon.exe"
    else if negb (Js.endsWith ansicon "ansicon.exe")
         then (ansicon ++ "ansicon.exe")%string
         else ansicon
  else ansicon.

Definition createAntTask (target cmdName : string)
  (folder : WorkspaceFolder) (uri : Uri) : Task :=
  let antFile := basename h (uri_path uri) in
  let relativePath := getRelativePath folder uri in
  let kind :=
    mkDefinition "ant" (Some target)
      (Some (if 0 <? Js.len relativePath then relativePath else ""))
      (Some antFile) (Some uri) None None None None in
  let cwd := dirname h (uri_fsPath uri) in
  let args := [target] in
  let '(args, options) :=
    if useAnsicon
    then (["-logger"; "org.apache.tools.ant.listener.AnsiColorLogger";
           target],
          mkOptions cwd (Some ansiconExecutable))
    else (args, mkOptions cwd None) in
  let args :=
    if negb (String.eqb (Js.toLowerCase antFile) "build.xml")
    then (args ++ ["-f"; antFile])%list
    else args in
  let execution := ShellCommand getCommand args options in
  mkTask kind (ScopeFolder folder)
    (if Js.truthy cmdName then cmdName else target)
    "ant" (Some execution) None.

(** The tasks [readAntfile] builds from the map of scripts. *)
Definition tasksOfScripts (scripts : Js.StringMap)
  (folder : WorkspaceFolder) (uri : Uri) : list Task :=
  List.map
    (fun each =>
       let target :=
         match Js.get scripts each with
         | Some v => if Js.truthy v then v else each
         | None => each
         end in
       setGroup (createAntTask target each folder uri) Build)
    (Js.keys scripts).

Definition readAntfile (uri : Uri) : M (list Task) :=
  match getWorkspaceFolder h uri with
  | None => ret []
  | Some folder =>
      contents <- readFileM h (uri_fsPath uri) ;;
      scripts <- findAllAntScripts contents ;;
      ret (tasksOfScripts scripts folder uri)
  end.

(** The glob of a folder's scan, with the [includeAnt] setting. *)
Definition scanPattern : string :=
  let xtraIncludes := configuration h "includeAnt" in
  match xtraIncludes with
  | JArray (x :: l) =>
      (fold_left (fun p inc => p ++ "," ++ inc) (x :: l)
         "{**/[Bb]uild.xml" ++ "}")%string
  | JString s =>
      if 0 <? Js.len s
      then ("{**/[Bb]uild.xml" ++ "," ++ s ++ "}")%string
      else "**/[Bb]uild.xml"
  | _ => "**/[Bb]uild.xml"
  end.

Definition detectAntScripts : M (list Task) :=
  match workspaceFolders h with
  | None => ret []
  | Some folders =>
      tryCatch
        (r <- forOf folders ([], [])
               (fun acc folder =>
                  let paths := findFiles h folder scanPattern in
                  forOf paths acc
                    (fun acc fpath =>
                       let '(allTasks, visitedFiles) := acc in
                       if negb (isExcluded h (uri_path fpath))
                          && negb (existsb (String.eqb (uri_fsPath fpath))
                                     visitedFiles)
                       then
                         tasks <- readAntfile fpath ;;
                         ret ((allTasks ++ tasks)%list,
                              uri_fsPath fpath :: visitedFiles)
                       else ret acc)) ;;
         ret (fst r))
        (fun error => throw error)
  end.

Definition provideAntScripts : M (list Task) :=
  c <- getCache ;;
  match c with
  | Some tasks => ret tasks
  | None =>
      tasks <- detectAntScripts ;;
      _ <- setCache (Some tasks) ;;
      ret tasks
  end.

End WithHost.

End Ant.

(** ** Per-file invalidation of the Ant and Gradle caches

    [invalidateTasksCacheAnt] and [invalidateTasksCacheGradle] are the same
    function but for the reader of the file, [readAntfile] or
    [readGradlefile]. *)

Section Invalidate.

Variable h : Host.
Variable readfile : Uri -> M (list Task).

(** [cstDef.uri.fsPath] of a cached task *)
Definition cachedFsPath (each : Task) : M string :=
  match def_uri (definition each) with
  | Some u => ret (uri_fsPath u)
  | None => throw (TypeError "cstDef.uri is undefined")
  end.

Definition invalidateTasksCache (opt : option Uri) : M unit :=
  c <- getCache ;;
  match opt, c with
  | Some opt, Some cached =>
      rmvTasks <- forOf cached []
        (fun rmvTasks each =>
           p <- cachedFsPath each ;;
           ret (if String.eqb p (uri_fsPath opt) || negb (pathExists h p)
                then (rmvTasks ++ [each])%list
                else rmvTasks)) ;;
      let cached := fold_left removeFromArray rmvTasks cached in
      _ <- setCache (Some cached) ;;
      cached <-
        (if pathExists h (uri_fsPath opt)
            && negb (existsInExclude h (uri_path opt))
         then
           tasks <- readfile opt ;;
           let cached := (cached ++ tasks)%list in
           _ <- setCache (Some cached) ;;
           ret cached
         else ret cached) ;;
      if (0 <? Z.of_nat (List.length cached)) then ret tt
      else setCache None
  | _, _ => setCache None
  end.

End Invalidate.

Definition invalidateTasksCacheAnt (h : Host) : option Uri -> M unit :=
  invalidateTasksCache h (Ant.readAntfile h).

Definition invalidateTasksCacheGradle (h : Host) : option Uri -> M unit :=
  invalidateTasksCache h (Gradle.readGradlefile h).

(** ** The script provider (taskProviderScript.ts) *)

Module Script.

Record ScriptDef := mkScriptDef {
  sd_exec : string;
  sd_type : string;
  sd_args : list string;
  sd_enabled : JsVal
}.

Definition dquote : string := String (ascii_of_nat 34) EmptyString.

(** [(new RegExp("%[1-9]")).test(contents)]: a percent sign followed by
    one of the digits 1 to 9, anywhere. *)
Definition isDigit19 (c : ascii) : bool :=
  let n := nat_of_ascii c in ((49 <=? n) && (n <=? 57))%nat.

Fixpoint testPercentDigit (contents : string) : bool :=
  match contents with
  | EmptyString => false
  | String c rest =>
      (Ascii.eqb c "%"
       && match rest with
          | String d _ => isDigit19 d
          | EmptyString => false
          end)
      || testPercentDigit rest
  end.

Section WithHost.

Variable h : Host.

Definition pathOr (key default : string) : string :=
  if jsTruthy (configuration h key) then asString (configuration h key)
  else default.

Definition scriptTable : list (string * ScriptDef) :=
  [ ("sh", mkScriptDef "" "bash" [] (configuration h "enableBash"));
    ("py", mkScriptDef (pathOr "pathToPython" "python") "python" []
             (configuration h "enablePython"));
    ("rb", mkScriptDef (pathOr "pathToRuby" "ruby") "ruby" []
             (configuration h "enableRuby"));
    ("ps1", mkScriptDef "powershell" "powershell" []
              (configuration h "enablePowershell"));
    ("pl", mkScriptDef (pathOr "pathToPerl" "perl") "perl" []
             (configuration h "enablePerl"));
    ("bat", mkScriptDef "cmd.exe" "batch" ["/c"]
              (configuration h "enableBatch"));
    ("nsi", mkScriptDef (pathOr "pathToNsis" "makensis.exe") "nsis" []
              (configuration h "enableNsis")) ].

(** [scriptTable[path.extname(fsPath).substring(1)]] *)
Definition scriptDefOf (fsPath : string) : option ScriptDef :=
  assoc scriptTable (Js.substringFrom (extname h fsPath) 1).

Definition getRelativePath (folder : WorkspaceFolder) (uri : Uri)
  : string :=
  let rootUri := wf_uri folder in
  let absolutePath :=
    Js.substring (uri_path uri) 0
      (Js.lastIndexOf (uri_path uri) "/" + 1) in
  Js.substringFrom absolutePath (Js.len (uri_path rootUri) + 1).

Definition createScriptTask (scriptDef : option ScriptDef)
  (folder : option WorkspaceFolder) (uri : Uri) : M Task :=
  let cwd := dirname h (uri_fsPath uri) in
  let fileName := basename h (uri_fsPath uri) in
  let sep := if String.eqb (platform h) "win32" then "\" else "/" in
  match scriptDef with
  | None => throw (TypeError "scriptDef is undefined")
  | Some scriptDef =>
      let cmdLine :=
        if negb (Js.indexOf (sd_exec scriptDef) " " 0 =? -1)
        then (dquote ++ sd_exec scriptDef ++ dquote)%string
        else sd_exec scriptDef in
      requiresArgs <-
        (if String.eqb (sd_type scriptDef) "batch"
         then contents <- readFileSyncM h (uri_fsPath uri) ;;
              ret (testPercentDigit contents)
         else ret false) ;;
      match folder with
      | None => throw (TypeError "folder is undefined")
      | Some folder =>
          let relativePath := getRelativePath folder uri in
          let cmdLine :=
            fold_left (fun c a => (c ++ " " ++ a)%string)
              (sd_args scriptDef) cmdLine in
          let quoteFile := negb (Js.indexOf fileName " " 0 =? -1) in
          let cmdLine :=
            (cmdLine ++ " "
             ++ (if quoteFile
                 then dquote ++ "." ++ sep ++ fileName ++ dquote
                 else "." ++ sep ++ fileName))%string in
          let kind :=
            mkDefinition "script" None
              (Some (if 0 <? Js.len relativePath then relativePath
                     else ""))
              (Some fileName) (Some uri)
              (Some (sd_type scriptDef)) (Some cmdLine) (Some true)
              (Some requiresArgs) in
          let execution := ShellCommandLine cmdLine (mkOptions cwd None) in
          ret (mkTask kind (ScopeFolder folder) fileName
                 (sd_type scriptDef) (Some execution) None)
      end
  end.

Definition detectScriptFiles : M (list Task) :=
  match workspaceFolders h with
  | None => ret []
  | Some folders =>
      tryCatch
        (r <- forOf folders ([], [])
               (fun acc folder =>
                  let paths :=
                    findFiles h folder "**/*.{sh,py,rb,ps1,pl,bat,nsi}" in
                  forOf paths acc
                    (fun acc fpath =>
                       let '(allTasks, visitedFiles) := acc in
                       if negb (isExcluded h (uri_path fpath))
                          && negb (existsb (String.eqb (uri_fsPath fpath))
                                     visitedFiles)
                       then
                         task <- createScriptTask
                                   (scriptDefOf (uri_fsPath fpath))
                                   (Some folder) fpath ;;
                         ret ((allTasks ++ [task])%list,
                              uri_fsPath fpath :: visitedFiles)
                       else ret acc)) ;;
         ret (fst r))
        (fun error => throw error)
  end.

Definition provideScriptFiles : M (list Task) :=
  c <- getCache ;;
  match c with
  | Some tasks => ret tasks
  | None =>
      tasks <- detectScriptFiles ;;
      _ <- setCache (Some tasks) ;;
      ret tasks
  end.

(** The callback of [cachedTasks.forEach] is an [async] function: a
    missing [uri] rejects its promise and nothing is thrown. *)
Definition isTaskOf (opt : Uri) (each : Task) : bool :=
  match def_uri (definition each) with
  | Some u => String.eqb (uri_fsPath u) (uri_fsPath opt)
  | None => false
  end.

Definition invalidateTasksCacheScript (opt : option Uri) : M unit :=
  match opt with
  | Some opt =>
      let folder := getWorkspaceFolder h opt in
      c <- getCache ;;
      match c with
      | None => throw (TypeError "cachedTasks is undefined")
      | Some cached =>
          let rmvTasks := List.filter (isTaskOf opt) cached in
          let cached := fold_left removeFromArray rmvTasks cached in
          _ <- setCache (Some cached) ;;
          task <- createScriptTask (scriptDefOf (uri_fsPath opt))
                    folder opt ;;
          setCache (Some (cached ++ [task])%list)
      end
  | None => setCache None
  end.

End WithHost.

End Script.

(** ** The tree builder (taskTree.ts, taskFile.ts, taskItem.ts) *)

(** [Map.prototype.set]: an existing key keeps its place. *)
Fixpoint assocSet (A : Type) (l : list (string * A)) (k : string) (v : A)
  : list (string * A) :=
  match l with
  | [] => [(k, v)]
  | (k', v') :: l' =>
      if String.eqb k' k then (k', v) :: l' else (k', v') :: assocSet l' k v
  end.

(** [Array.prototype.sort] with a comparison function: a stable sort, here
    by insertion. *)
Fixpoint insertBy (A : Type) (cmp : A -> A -> Z) (x : A) (l : list A)
  : list A :=
  match l with
  | [] => [x]
  | y :: l' => if cmp x y <? 0 then x :: l else y :: insertBy cmp x l'
  end.

Definition sortBy (A : Type) (cmp : A -> A -> Z) (l : list A) : list A :=
  fold_left (fun sorted x => insertBy cmp x sorted) l [].

Module Tree.

(** A [TaskItem] leaf: its label and the task it wraps. *)
Record TaskItem := mkTaskItem { item_label : string; item_task : Task }.

(** [TaskFile] nodes are objects shared between the folder that lists
    them, the maps that index them and the group that adopts them: they
    live in a heap and are named by their address. *)
Definition ref := nat.

(** An element of [TaskFile.scripts]: a [TaskItem] in a file node, a
    [TaskFile] in a group node. *)
Inductive Child :=
| ChildItem (item : TaskItem)
| ChildFile (file : ref).

Record TaskFile := mkTaskFile {
  tf_label : string;
  tf_path : string;
  tf_folder : string;
  tf_fileName : string;
  taskSource : string;
  isGroup : bool;
  scripts : list Child
}.

(** Modelled from the spec: the class [TaskFolder] (taskFolder.ts), whose
    source is missing: one node per workspace folder, labelled with the
    folder's name, owning the ordered sequence of its files;
    [addTaskFile] appends to it and [removeTaskFile] removes from it. *)
Record TaskFolder := mkTaskFolder {
  folder_label : string;
  workspaceFolder : WorkspaceFolder;
  taskFiles : list ref
}.

(** Modelled from the spec: [new TaskFolder(folder)] of the missing
    taskFolder.ts, a folder node without files yet. *)
Definition newTaskFolder (ws : WorkspaceFolder) : TaskFolder :=
  mkTaskFolder (wf_name ws) ws [].

(** Modelled from the spec: [TaskFolder.addTaskFile] of the missing
    taskFolder.ts, which appends a file to the folder. *)
Definition addTaskFile (folder : TaskFolder) (r : ref) : TaskFolder :=
  mkTaskFolder (folder_label folder) (workspaceFolder folder)
    (taskFiles folder ++ [r])%list.

(** Modelled from the spec: [TaskFolder.removeTaskFile] of the missing
    taskFolder.ts, which removes a file, named by its address, from the
    folder. *)

Fixpoint removeRef (l : list ref) (r : ref) : list ref :=
  match l with
  | [] => []
  | x :: l' => if Nat.eqb x r then l' else x :: removeRef l' r
  end.

Definition removeTaskFile (folder : TaskFolder) (r : ref) : TaskFolder :=
  mkTaskFolder (folder_label folder) (workspaceFolder folder)
    (removeRef (taskFiles folder) r).

Definition Heap := list TaskFile.

Definition addScript (f : TaskFile) (c : Child) : TaskFile :=
  mkTaskFile (tf_label f) (tf_path f) (tf_folder f) (tf_fileName f)
    (taskSource f) (isGroup f) (scripts f ++ [c])%list.

Definition setScripts (f : TaskFile) (l : list Child) : TaskFile :=
  mkTaskFile (tf_label f) (tf_path f) (tf_folder f) (tf_fileName f)
    (taskSource f) (isGroup f) l.

Fixpoint update (hp : Heap) (r : ref) (g : TaskFile -> TaskFile) : Heap :=
  match hp, r with
  | [], _ => []
  | f :: hp', O => g f :: hp'
  | f :: hp', S r' => f :: update hp' r' g
  end.

(** The state of [buildTaskTree]: the maps [folders], [files] and
    [subfolders], and the heap of the [TaskFile] objects. *)
Record TreeState := mkTreeState {
  folders : list (string * TaskFolder);
  files : list (string * ref);
  subfolders : list (string * ref);
  heap : Heap
}.

Section WithHost.

Variable h : Host.

Definition getTaskName (script : string) (relativePath : option string)
  (forcePathInName : option bool) : string :=
  match relativePath, forcePathInName with
  | Some rp, Some true =>
      if Js.truthy rp
      then (script ++ " - " ++ Js.substring rp 0 (Js.len rp - 1))%string
      else script
  | _, _ => script
  end.

Definition isInstallTask (task : Task) : bool :=
  let fullName :=
    getTaskName "install" (def_path (definition task)) None in
  String.eqb fullName (name task).

Definition isWorkspaceFolder (value : Scope) : bool :=
  match value with
  | ScopeFolder _ => true
  | _ => false
  end.

(** [TaskFile.getLabel] *)
Definition getLabel (taskDef : TaskDefinition) (source relativePath : string)
  (group : bool) : string :=
  let label := if String.eqb source "Workspace" then "vscode" else source in
  let fileName :=
    match def_fileName taskDef with Some f => f | None => "" end in
  let hasPath :=
    (0 <? Js.len relativePath) && negb (String.eqb relativePath ".vscode") in
  let chop := Js.substring relativePath 0 (Js.len relativePath - 1) in
  if negb group
     && String.eqb source "ant" && Js.truthy fileName
     && negb (String.eqb fileName "build.xml")
     && negb (String.eqb fileName "Build.xml")
  then
    if hasPath
    then (label ++ " (" ++ Js.toLowerCase chop ++ "/"
          ++ Js.toLowerCase fileName ++ ")")%string
    else (label ++ " (" ++ Js.toLowerCase fileName ++ ")")%string
  else if negb group && hasPath
  then
    if Js.endsWith relativePath "\" || Js.endsWith relativePath "/"
    then (label ++ " (" ++ Js.toLowerCase chop ++ ")")%string
    else (label ++ " (" ++ Js.toLowerCase relativePath ++ ")")%string
  else Js.toLowerCase label.

(** [TaskFile.getFileNameFromSource] with [incRelPathForCode = true] *)
Definition getFileNameFromSource (source : string)
  (taskDef : TaskDefinition) : string :=
  match def_fileName taskDef with
  | Some f =>
      if Js.truthy f then basename h f
      else if String.eqb source "Workspace" then ".vscode\tasks.json"
      else if String.eqb source "tsc" then "tsconfig.json"
      else "package.json"
  | None =>
      if String.eqb source "Workspace" then ".vscode\tasks.json"
      else if String.eqb source "tsc" then "tsconfig.json"
      else "package.json"
  end.

(** [new TaskFile(context, folder, taskDef, source, relativePath, group)];
    the resource URI, the tooltip and the icon are left out. *)
Definition newTaskFile (folder : TaskFolder) (taskDef : TaskDefinition)
  (source relativePath : string) (group : bool) : TaskFile :=
  mkTaskFile (getLabel taskDef source relativePath group)
    relativePath (folder_label folder)
    (if group then "group" else getFileNameFromSource source taskDef)
    source group [].

(** [new TaskItem(context, taskFile, task)]; the random identifier, the
    running state and the icon are left out. *)
Definition newTaskItem (task : Task) : TaskItem :=
  let taskName := name task in
  let cut := Js.indexOf taskName " - " 0 in
  let taskName :=
    if negb (cut =? -1)
       && (negb (Js.indexOf taskName "/" 0 =? -1)
           || negb (Js.indexOf taskName "\" 0 =? -1)
           || negb (Js.indexOf taskName " - tsconfig.json" 0 =? -1))
    then Js.substring taskName 0 cut
    else taskName in
  mkTaskItem taskName task.

(** The relative path of a tsc task is in its name; [None] when the
    directory found there is excluded. *)
Definition tscRelativePath (each : Task) (ws : WorkspaceFolder)
  (relativePath : string) : option string :=
  if String.eqb (source each) "tsc"
     && negb (Js.indexOf (name each) " - " 0 =? -1)
     && (Js.indexOf (name each) " - tsconfig.json" 0 =? -1)
  then
    let relativePath :=
      dirname h
        (Js.substringFrom (name each)
           (Js.indexOf (name each) " - " 0 + 3)) in
    if isExcluded h (join h (uri_path (wf_uri ws)) relativePath)
    then None
    else Some relativePath
  else Some relativePath.

(** One round of the first loop of [buildTaskTree]. *)
Definition placeTask (st : TreeState) (each : Task) : TreeState :=
  let settingName := ("enable" ++ properCase h (source each))%string in
  match scope each with
  | ScopeFolder ws =>
      if jsTruthy (configuration h settingName)
         && isWorkspaceFolder (scope each)
         && negb (isInstallTask each)
      then
        let folder :=
          match assoc (folders st) (wf_name ws) with
          | Some f => f
          | None => newTaskFolder ws
          end in
        let folders1 :=
          match assoc (folders st) (wf_name ws) with
          | Some _ => folders st
          | None => assocSet (folders st) (wf_name ws) folder
          end in
        let def := definition each in
        let relativePath :=
          match def_path def with
          | Some p => if Js.truthy p then p else ""
          | None => ""
          end in
        match tscRelativePath each ws relativePath with
        | None =>
            mkTreeState folders1 (files st) (subfolders st) (heap st)
        | Some relativePath =>
            let id :=
              (source each ++ ":" ++ join h (wf_name ws) relativePath)%string in
            let id :=
              match def_fileName def, def_scriptFile def with
              | Some f, Some true => id
              | Some f, _ => if Js.truthy f then join h id f else id
              | None, _ => id
              end in
            let taskItem := ChildItem (newTaskItem each) in
            match assoc (files st) id with
            | Some r =>
                mkTreeState folders1 (files st) (subfolders st)
                  (update (heap st) r (fun f => addScript f taskItem))
            | None =>
                let r := List.length (heap st) in
                let taskFile :=
                  newTaskFile folder def (source each) relativePath false in
                mkTreeState
                  (assocSet folders1 (wf_name ws) (addTaskFile folder r))
                  (assocSet (files st) id r) (subfolders st)
                  (heap st ++ [addScript taskFile taskItem])%list
            end
        end
      else st
  | _ => st
  end.

Definition sourceOf (hp : Heap) (r : ref) : string :=
  match nth_error hp r with
  | Some f => taskSource f
  | None => ""
  end.

Definition childLabel (hp : Heap) (c : Child) : string :=
  match c with
  | ChildItem i => item_label i
  | ChildFile r =>
      match nth_error hp r with
      | Some f => tf_label f
      | None => ""
      end
  end.

Definition sortScripts (hp : Heap) (f : TaskFile) : TaskFile :=
  setScripts f
    (sortBy (fun a b => localeCompare h (childLabel hp a) (childLabel hp b))
       (scripts f)).

Definition sortFiles (hp : Heap) (l : list ref) : list ref :=
  sortBy (fun a b => localeCompare h (sourceOf hp a) (sourceOf hp b)) l.

(** The state of the second loop while it works on one folder. *)
Record Promo := mkPromo {
  p_folder : TaskFolder;
  p_subfolders : list (string * ref);
  p_heap : Heap
}.

(** [each.scripts[0].task.definition] *)
Definition firstDefinition (f : TaskFile) : St Promo TaskDefinition :=
  match scripts f with
  | ChildItem i :: _ => ret (definition (item_task i))
  | _ => throw (TypeError "each.scripts[0].task is undefined")
  end.

(** One round of the loop that promotes files into groups; [prevTask]
    is the loop's variable of that name. *)
Definition promote (prevTask : option ref) (each : ref)
  : St Promo (option ref) :=
  fun st =>
    let hp := p_heap st in
    let same :=
      match prevTask with
      | Some p => String.eqb (sourceOf hp p) (sourceOf hp each)
      | None => false
      end in
    match prevTask, same with
    | Some prev, true =>
        let id := (folder_label (p_folder st) ++ sourceOf hp each)%string in
        match assoc (p_subfolders st) id with
        | Some g =>
            (Ok (Some each),
             mkPromo (p_folder st) (p_subfolders st)
               (update hp g (fun f => addScript f (ChildFile each))))
        | None =>
            match nth_error hp each with
            | None => (Throw (TypeError "each is undefined"), st)
            | Some f =>
                match firstDefinition f st with
                | (Ok def, _) =>
                    let g := List.length hp in
                    let subfolder :=
                      newTaskFile (p_folder st) def (taskSource f)
                        (tf_path f) true in
                    let subfolder :=
                      addScript (addScript subfolder (ChildFile prev))
                        (ChildFile each) in
                    (Ok (Some each),
                     mkPromo (addTaskFile (p_folder st) g)
                       (assocSet (p_subfolders st) id g)
                       (hp ++ [subfolder])%list)
                | (Throw e, st') => (Throw e, st')
                | (Diverge, st') => (Diverge, st')
                end
            end
        end
    | _, _ => (Ok (Some each), st)
    end.

(** The files to remove from the folder once the groups are made. *)
Definition isGrouped (st : Promo) (each : ref) : bool :=
  match nth_error (p_heap st) each with
  | Some f =>
      negb (isGroup f)
      && match assoc (p_subfolders st)
                 (folder_label (p_folder st) ++ taskSource f) with
         | Some _ => true
         | None => false
         end
  | None => false
  end.

Definition setTaskFiles (l : list ref) : St Promo unit :=
  fun st =>
    (Ok tt,
     mkPromo (mkTaskFolder (folder_label (p_folder st))
                (workspaceFolder (p_folder st)) l)
       (p_subfolders st) (p_heap st)).

Definition getPromo : St Promo Promo := fun st => (Ok st, st).

(** The body of [folders.forEach] in the second loop. *)
Definition processFolder : St Promo unit :=
  st <- getPromo ;;
  let hp :=
    fold_left (fun hp r => update hp r (sortScripts hp))
      (taskFiles (p_folder st)) (p_heap st) in
  _ <- (fun st => (Ok tt, mkPromo (p_folder st) (p_subfolders st) hp)) ;;
  let sorted := sortFiles hp (taskFiles (p_folder st)) in
  _ <- setTaskFiles sorted ;;
  _ <- forOf sorted None promote ;;
  st <- getPromo ;;
  let taskTypesRmv := List.filter (isGrouped st) (taskFiles (p_folder st)) in
  let kept := fold_left removeRef taskTypesRmv (taskFiles (p_folder st)) in
  st <- getPromo ;;
  setTaskFiles (sortFiles (p_heap st) kept).

(** The second loop over all the folders, in the order of the map. *)
Fixpoint processFolders (l : list (string * TaskFolder))
  (sub : list (string * ref)) (hp : Heap)
  : Outcome (list (string * TaskFolder)) * (list (string * ref) * Heap) :=
  match l with
  | [] => (Ok [], (sub, hp))
  | (key, folder) :: l' =>
      match processFolder (mkPromo folder sub hp) with
      | (Ok _, st) =>
          match processFolders l' (p_subfolders st) (p_heap st) with
          | (Ok done, r) => (Ok ((key, p_folder st) :: done), r)
          | other => other
          end
      | (Throw e, st) => (Throw e, (p_subfolders st, p_heap st))
      | (Diverge, st) => (Diverge, (p_subfolders st, p_heap st))
      end
  end.

Definition emptyTree : TreeState := mkTreeState [] [] [] [].

(** [buildTaskTree(tasks)]: the folders of the result with the heap
    their files live in. *)
Definition buildTaskTree (tasks : list Task)
  : Outcome (list TaskFolder * Heap) :=
  let st := fold_left placeTask tasks emptyTree in
  match processFolders (folders st) (subfolders st) (heap st) with
  | (Ok fs, (_, hp)) => Ok (List.map snd fs, hp)
  | (Throw e, _) => Throw e
  | (Diverge, _) => Diverge
  end.

(** The tasks that have a [TaskItem] in the heap. *)
Definition itemsOf (f : TaskFile) : list Task :=
  flat_map (fun c => match c with
                     | ChildItem i => [item_task i]
                     | ChildFile _ => []
                     end) (scripts f).

Definition placedTasks (hp : Heap) : list Task := flat_map itemsOf hp.

End WithHost.

End Tree.

(** ** The provider modules side by side *)

(** The state of the three provider modules whose source is at hand, each
    with its variable [cachedTasks] and the files it has read, and the
    calls made to the invalidation functions of the providers whose source
    is not (taskProviderMake.ts, taskProviderGrunt.ts,
    taskProviderGulp.ts), by name and in order. *)
Record Providers := mkProviders {
  antModule : Mem;
  gradleModule : Mem;
  scriptModule : Mem;
  foreignCalls : list string
}.

(** A computation of taskProviderAnt.ts, run on the state of its module. *)
Definition inAnt {A : Type} (c : M A) : St Providers A :=
  fun w =>
    let '(r, m) := c (antModule w) in
    (r, mkProviders m (gradleModule w) (scriptModule w) (foreignCalls w)).

(** A computation of taskProviderGradle.ts. *)
Definition inGradle {A : Type} (c : M A) : St Providers A :=
  fun w =>
    let '(r, m) := c (gradleModule w) in
    (r, mkProviders (antModule w) m (scriptModule w) (foreignCalls w)).

(** A computation of taskProviderScript.ts. *)
Definition inScript {A : Type} (c : M A) : St Providers A :=
  fun w =>
    let '(r, m) := c (scriptModule w) in
    (r, mkProviders (antModule w) (gradleModule w) m (foreignCalls w)).

(** A call of a function of a provider whose source is missing. *)
Definition foreign (fn : string) : St Providers unit :=
  fun w =>
    (Ok tt,
     mkProviders (antModule w) (gradleModule w) (scriptModule w)
       (foreignCalls w ++ [fn])%list).

(** A call of an [async] function whose promise is dropped: what the
    function does before it ends is done, and a rejection is lost. *)
Definition detach {S A : Type} (c : St S A) : St S unit :=
  fun w => (Ok tt, snd (c w)).

(** ** The tree view (taskTree.ts, class TaskTreeDataProvider) *)

Module Explorer.

(** The elements of the view.  The [TaskFile] objects of a tree live in
    the heap the tree was built in, which a node carries with it. *)
Inductive TreeItem :=
| FolderNode (hp : Tree.Heap) (folder : Tree.TaskFolder)
| FileNode (hp : Tree.Heap) (file : Tree.ref)
| ItemNode (item : Tree.TaskItem)
| NoScripts.

(** The fields of a [TaskTreeDataProvider]: [taskTree] ([None] for
    [null]) and the number of times [_onDidChangeTreeData] has fired. *)
Record View := mkView {
  taskTree : option (list TreeItem);
  fired : nat
}.

Definition childNode (hp : Tree.Heap) (c : Tree.Child) : TreeItem :=
  match c with
  | Tree.ChildItem i => ItemNode i
  | Tree.ChildFile r => FileNode hp r
  end.

(** [taskItem.task.execution.options] *)
Definition optionsOf (e : ShellExecution) : ShellExecutionOptions :=
  match e with
  | ShellCommand _ _ o => o
  | ShellCommandLine _ o => o
  end.

(** [s.lastIndexOf(pat, from)]: the last match that begins at [from] or
    before it. *)
Fixpoint lastIndexOfUpTo (pat s : string) (i limit best : Z) : Z :=
  let best' :=
    if (i <=? limit) && String.prefix pat s then i else best in
  match s with
  | EmptyString => best'
  | String _ s' => lastIndexOfUpTo pat s' (i + 1) limit best'
  end.

Definition lastIndexOfFrom (s pat : string) (from : Z) : Z :=
  lastIndexOfUpTo pat s 0 (Js.clampIdx s from) (-1).

(** What jsonc-parser's [visit] reports to the visitor of
    [findScriptPosition], which has a handler for the end of an object,
    for a literal value and for a property name; the other events, errors
    among them, change nothing. *)
Inductive JsonValue :=
| JsonString (s : string)
| JsonOther.

Inductive JsonEvent :=
| OnObjectEnd
| OnLiteralValue (value : JsonValue) (offset : Z)
| OnObjectProperty (property : string) (offset : Z)
| OnOther.

(** The variables of [findScriptPosition] that its visitor updates;
    [inTaskLabel] is ['label'] or undefined. *)
Record Visit := mkVisit {
  scriptOffset : Z;
  inScripts : bool;
  inTasks : bool;
  inTaskLabel : bool
}.

Section WithHost.

Variable h : Host.

(** [invalidateTasksCache(invalidate)]: the invalidation functions are
    called without a file, and their promises are dropped. *)
Definition invalidateTasksCache (invalidate : JsVal) : St Providers unit :=
  let all :=
    _ <- detach (inAnt (invalidateTasksCacheAnt h None)) ;;
    _ <- foreign "invalidateTasksCacheMake" ;;
    _ <- detach (inScript (Script.invalidateTasksCacheScript h None)) ;;
    _ <- foreign "invalidateTasksCacheGrunt" ;;
    foreign "invalidateTasksCacheGulp" in
  match invalidate with
  | JString s =>
      if Js.truthy s then
        if String.eqb s "ant"
        then detach (inAnt (invalidateTasksCacheAnt h None))
        else if String.eqb s "grunt"
        then foreign "invalidateTasksCacheGrunt"
        else if String.eqb s "gulp"
        then foreign "invalidateTasksCacheGulp"
        else if String.eqb s "make"
        then foreign "invalidateTasksCacheMake"
        else detach (inScript (Script.invalidateTasksCacheScript h None))
      else all
  | _ => all
  end.

(** [refresh(invalidate)], which returns nothing. *)
Definition refresh (invalidate : JsVal) : St (View * Providers) JsVal :=
  fun w =>
    let '(v, p) := w in
    let p :=
      match invalidate with
      | JBool false => p
      | _ => snd (invalidateTasksCache invalidate p)
      end in
    (Ok JUndefined, (mkView None (S (fired v)), p)).

(** [run(taskItem)] on the task of the item; [input] is what the input
    box resolves to once it is shown, [None] when the user dismisses it.
    The result is the task handed to [tasks.executeTask], if any.  The
    constructor of [ShellExecution] takes a command line that is a
    string. *)
Definition run (input : option string) : St Task (option Task) :=
  fun task =>
    match def_requiresArgs (definition task) with
    | Some true =>
        match input with
        | Some str =>
            match execution task with
            | None =>
                (Throw (TypeError "taskItem.task.execution is undefined"),
                 task)
            | Some e =>
                let commandLine :=
                  if Js.truthy str
                  then
                    Some (match def_cmdLine (definition task) with
                          | Some c => c
                          | None => "undefined"
                          end ++ " " ++ str)%string
                  else def_cmdLine (definition task) in
                match commandLine with
                | None => (Throw (TypeError "commandLine"), task)
                | Some c =>
                    let task :=
                      mkTask (definition task) (scope task) (name task)
                        (source task)
                        (Some (ShellCommandLine c (optionsOf e)))
                        (group task) in
                    (Ok (Some task), task)
                end
            end
        | None => (Ok None, task)
        end
    | _ => (Ok (Some task), task)
    end.

(** One event of the JSON parser on the visitor of
    [findScriptPosition], for the item [script]. *)
Definition visitStep (script : Tree.TaskItem) (v : Visit) (e : JsonEvent)
  : Visit :=
  match e with
  | OnObjectEnd =>
      if inScripts v
      then mkVisit (scriptOffset v) false (inTasks v) (inTaskLabel v)
      else v
  | OnLiteralValue value offset =>
      if inTaskLabel v then
        let scriptOffset :=
          match value with
          | JsonString s =>
              if String.eqb (name (Tree.item_task script)) s
              then offset else scriptOffset v
          | JsonOther => scriptOffset v
          end in
        mkVisit scriptOffset (inScripts v) (inTasks v) false
      else v
  | OnObjectProperty property offset =>
      if String.eqb property "scripts"
      then mkVisit (scriptOffset v) true (inTasks v) (inTaskLabel v)
      else if inScripts v then
        let label :=
          Tree.getTaskName property
            (def_path (definition (Tree.item_task script))) (Some true) in
        if String.eqb (name (Tree.item_task script)) label
        then mkVisit offset (inScripts v) (inTasks v) (inTaskLabel v)
        else v
      else if String.eqb property "tasks"
      then
        mkVisit (if inTaskLabel v then scriptOffset v else offset)
          (inScripts v) true (inTaskLabel v)
      else if String.eqb property "label" && inTasks v
              && negb (inTaskLabel v)
      then mkVisit (scriptOffset v) (inScripts v) (inTasks v) true
      else mkVisit (scriptOffset v) (inScripts v) (inTasks v) false
  | OnOther => v
  end.

(** The [while] loop of the search in a makefile; [fuel] bounds the
    number of its rounds. *)
Fixpoint makeLoop (fuel : nat) (documentText taskName : string)
  (scriptOffset bLine : Z) (line : string) : option Z :=
  match fuel with
  | O => None
  | S fuel' =>
      if negb (bLine =? -1) && negb (bLine =? scriptOffset)
         && negb (scriptOffset =? -1) && (Js.indexOf line ":" 0 =? -1)
      then
        let scriptOffset :=
          Js.indexOf documentText taskName (scriptOffset + 1) in
        let bLine := lastIndexOfFrom documentText Js.LF scriptOffset + 1 in
        let eLine := Js.indexOf documentText Js.LF scriptOffset in
        let line :=
          if negb (bLine =? -1) then
            let eLine :=
              if eLine =? -1 then Js.len documentText else eLine in
            Js.trim (Js.substring documentText bLine eLine)
          else line in
        makeLoop fuel' documentText taskName scriptOffset bLine line
      else Some scriptOffset
  end.

(** The search of a target in a makefile. *)
Definition findInMakefile (fuel : nat) (documentText taskName : string)
  : option Z :=
  let scriptOffset := Js.indexOf documentText (taskName ++ ":") 0 in
  if scriptOffset =? -1 then
    let scriptOffset := Js.indexOf documentText taskName 0 in
    let bLine := lastIndexOfFrom documentText Js.LF scriptOffset + 1 in
    let eLine := Js.indexOf documentText Js.LF scriptOffset in
    let eLine := if eLine =? -1 then Js.len documentText else eLine in
    let line := Js.trim (Js.substring documentText bLine eLine) in
    match makeLoop fuel documentText taskName scriptOffset bLine line with
    | Some scriptOffset =>
        Some (if scriptOffset =? -1 then 0 else scriptOffset)
    | None => None
    end
  else Some scriptOffset.

(** The first of two patterns that the document has, [-1] when it has
    neither. *)
Definition indexOfEither (documentText p q : string) : Z :=
  let scriptOffset := Js.indexOf documentText p 0 in
  if scriptOffset =? -1 then Js.indexOf documentText q 0 else scriptOffset.

(** [findScriptPosition(document, script)]; [events] is what the JSON
    parser reports on the text of the document. *)
Definition findScriptPosition (fuel : nat) (documentText : string)
  (events : list JsonEvent) (script : option Tree.TaskItem) : Outcome Z :=
  match script with
  | None => Throw (TypeError "script is undefined")
  | Some script =>
      let taskSource := source (Tree.item_task script) in
      let taskName := name (Tree.item_task script) in
      if String.eqb taskSource "make" then
        match findInMakefile fuel documentText taskName with
        | Some scriptOffset => Ok scriptOffset
        | None => Diverge
        end
      else if String.eqb taskSource "ant" then
        let scriptOffset :=
          indexOfEither documentText
            ("name=" ++ Script.dquote ++ taskName) ("name='" ++ taskName) in
        Ok (if scriptOffset =? -1 then 0 else scriptOffset + 6)
      else if String.eqb taskSource "gulp" then
        let scriptOffset :=
          indexOfEither documentText
            ("gulp.task('" ++ taskName)
            ("gulp.task(" ++ Script.dquote ++ taskName) in
        Ok (if scriptOffset =? -1 then 0 else scriptOffset)
      else if String.eqb taskSource "grunt" then
        let scriptOffset :=
          indexOfEither documentText
            ("grunt.registerTask('" ++ taskName)
            ("grunt.registerTask(" ++ Script.dquote ++ taskName) in
        Ok (if scriptOffset =? -1 then 0 else scriptOffset)
      else if String.eqb taskSource "npm"
              || String.eqb taskSource "Workspace"
      then
        Ok (scriptOffset
              (fold_left (visitStep script) events
                 (mkVisit 0 false false false)))
      else Ok 0
  end.

(** What [open] reads of the selected node: of a [TaskFile] its resource,
    which a group has not, and its command, which no [TaskFile] has; of a
    [TaskItem] the resource of its file and the item. *)
Inductive Selection :=
| SelectedFile (resourceUri : option Uri)
| SelectedItem (resourceUri : Uri) (item : Tree.TaskItem).

(** [open(selection)]: the document shown with the offset of its
    selection, if one is shown; [openTextDocument] gives the text of a
    document and [visit] the events of the JSON parser on a text. *)
Definition open (openTextDocument : Uri -> option string)
  (visit : string -> list JsonEvent) (fuel : nat) (selection : Selection)
  : Outcome (option (Uri * Z)) :=
  let uri :=
    match selection with
    | SelectedFile u => u
    | SelectedItem u _ => Some u
    end in
  match uri with
  | None => Ok None
  | Some uri =>
      match selection with
      | SelectedFile _ => Throw (TypeError "selection.command is undefined")
      | SelectedItem _ item =>
          if pathExists h (uri_fsPath uri) then
            match openTextDocument uri with
            | None => Throw (IOError (uri_fsPath uri))
            | Some documentText =>
                match findScriptPosition fuel documentText
                        (visit documentText) (Some item) with
                | Ok offset => Ok (Some (uri, offset))
                | Throw e => Throw e
                | Diverge => Diverge
                end
            end
          else Ok None
      end
  end.

(** [getChildren(element)]; [taskItems] is what [tasks.fetchTasks()]
    resolves to when it is asked. *)
Definition getChildren (taskItems : option (list Task))
  (element : option TreeItem) : St View (list TreeItem) :=
  fun v =>
    let built :=
      match taskTree v, taskItems with
      | None, Some tasks =>
          match Tree.buildTaskTree h tasks with
          | Ok (folders, hp) =>
              Ok (mkView
                    (Some (match folders with
                           | [] => [NoScripts]
                           | _ => List.map (FolderNode hp) folders
                           end))
                    (fired v))
          | Throw e => Throw e
          | Diverge => Diverge
          end
      | _, _ => Ok v
      end in
    match built with
    | Ok v =>
        (Ok match element with
            | Some (FolderNode hp folder) =>
                List.map (FileNode hp) (Tree.taskFiles folder)
            | Some (FileNode hp r) =>
                match nth_error hp r with
                | Some f => List.map (childNode hp) (Tree.scripts f)
                | None => []
                end
            | Some (ItemNode _) => []
            | Some NoScripts => []
            | None =>
                match taskTree v with
                | Some t => t
                | None => []
                end
            end,
         v)
    | Throw e => (Throw e, v)
    | Diverge => (Diverge, v)
    end.

End WithHost.

End Explorer.

(** ** The extension (extension.ts) *)

Module Extension.

(** A listener of a file system watcher: the one that logs the event and
    calls [refreshTree(taskType, _e)], or [_e => undefined]. *)
Inductive Listener :=
| RefreshTree (taskType : string)
| Ignore.

(** A watcher as [workspace.createFileSystemWatcher(fileBlob)] makes it,
    with the listeners that have subscribed to its three events, in the
    order of their subscription; subscribing adds a listener. *)
Record FileSystemWatcher := mkWatcher {
  globPattern : string;
  onDidChange : list Listener;
  onDidDelete : list Listener;
  onDidCreate : list Listener
}.

(** The map [watchers], keyed by task type. *)
Definition Watchers := list (string * FileSystemWatcher).

Definition subscribeChange (w : FileSystemWatcher) (l : Listener)
  : FileSystemWatcher :=
  mkWatcher (globPattern w) (onDidChange w ++ [l])%list (onDidDelete w)
    (onDidCreate w).

Definition subscribeDelete (w : FileSystemWatcher) (l : Listener)
  : FileSystemWatcher :=
  mkWatcher (globPattern w) (onDidChange w) (onDidDelete w ++ [l])%list
    (onDidCreate w).

Definition subscribeCreate (w : FileSystemWatcher) (l : Listener)
  : FileSystemWatcher :=
  mkWatcher (globPattern w) (onDidChange w) (onDidDelete w)
    (onDidCreate w ++ [l])%list.

(** [enabled !== false] *)
Definition notFalse (enabled : JsVal) : bool :=
  match enabled with
  | JBool false => false
  | _ => true
  end.

(** [registerFileWatcher(context, taskType, fileBlob, isScriptType,
    enabled)]; an argument left out is [JUndefined], and [isScriptType] is
    [false] when left out. *)
Definition registerFileWatcher (watchers : Watchers)
  (taskType fileBlob : string) (isScriptType : bool) (enabled : JsVal)
  : Watchers :=
  let watcher := assoc watchers taskType in
  let subscribe (w : FileSystemWatcher) (l : Listener) :=
    let w := if negb isScriptType then subscribeChange w l else w in
    subscribeCreate (subscribeDelete w l) l in
  if notFalse enabled then
    let watcher :=
      match watcher with
      | Some w => w
      | None => mkWatcher fileBlob [] [] []
      end in
    assocSet watchers taskType (subscribe watcher (RefreshTree taskType))
  else
    match watcher with
    | Some w => assocSet watchers taskType (subscribe w Ignore)
    | None => watchers
    end.

(** The characters of a string, each as a string. *)
Fixpoint characters (s : string) : list string :=
  match s with
  | EmptyString => []
  | String c s' => String c EmptyString :: characters s'
  end.

Section WithHost.

Variable h : Host.

(** [registerFileWatcherAnt(context, enabled)].  Its [for ... in] loop
    goes through the properties of the method [watchers.keys], which has
    none to enumerate, and does nothing. *)
Definition registerFileWatcherAnt (watchers : Watchers) (enabled : JsVal)
  : Watchers :=
  let watchers :=
    registerFileWatcher watchers "ant" "**/[Bb]uild.xml" false enabled in
  let includeAnt :=
    match configuration h "includeAnt" with
    | JArray l => l
    | JString s => characters s
    | _ => []
    end in
  fold_left
    (fun watchers inc =>
       registerFileWatcher watchers ("ant-" ++ inc) inc false enabled)
    includeAnt watchers.

(** [registerFileWatchers(context)] *)
Definition registerFileWatchers (watchers : Watchers) : Watchers :=
  let on (key : string) := jsTruthy (configuration h key) in
  let watchers :=
    if on "enableAnt" then registerFileWatcherAnt watchers JUndefined
    else watchers in
  let watchers :=
    if on "enableApplescript"
    then registerFileWatcher watchers "applescript"
           "**/*.[Aa][Pp][Pp][Ll][Ee][Ss][Cc][Rr][Ii][Pp][tt]" true
           JUndefined
    else watchers in
  let watchers :=
    if on "enableAppPublisher"
    then registerFileWatcher watchers "app-publisher" "**/.publishrc*" true
           JUndefined
    else watchers in
  let watchers :=
    if on "enableBash"
    then registerFileWatcher watchers "bash" "**/*.[Ss][Hh]" true JUndefined
    else watchers in
  let watchers :=
    if on "enableBatch"
    then
      registerFileWatcher
        (registerFileWatcher watchers "batch" "**/*.[Bb][Aa][Tt]" true
           JUndefined)
        "batch" "**/*.[Cc][Mm][Dd]" true JUndefined
    else watchers in
  let watchers :=
    if on "enableGradle"
    then registerFileWatcher watchers "grunt"
           "**/*.[Gg][Rr][Aa][Dd][Ll][Ee]" false JUndefined
    else watchers in
  let watchers :=
    if on "enableGrunt"
    then registerFileWatcher watchers "grunt"
           "**/[Gg][Rr][Uu][Nn][Tt][Ff][Ii][Ll][Ee].[Jj][Ss]" false
           JUndefined
    else watchers in
  let watchers :=
    if on "enableGulp"
    then registerFileWatcher watchers "gulp"
           "**/[Gg][Uu][Ll][Pp][Ff][Ii][Ll][Ee].[Jj][Ss]" false JUndefined
    else watchers in
  let watchers :=
    if on "enableMake"
    then registerFileWatcher watchers "make" "**/[Mm]akefile" false
           JUndefined
    else watchers in
  let watchers :=
    if on "enableNpm"
    then registerFileWatcher watchers "npm" "**/package.json" false
           JUndefined
    else watchers in
  let watchers :=
    if on "enableNsis"
    then registerFileWatcher watchers "nsis" "**/*.[Nn][Ss][Ii]" true
           JUndefined
    else watchers in
  let watchers :=
    if on "enablePerl"
    then registerFileWatcher watchers "perl" "**/*.[Pp][Ll]" true JUndefined
    else watchers in
  let watchers :=
    if on "enablePowershell"
    then registerFileWatcher watchers "powershell" "**/*.[Pp][Ss]1" true
           JUndefined
    else watchers in
  let watchers :=
    if on "enablePython"
    then registerFileWatcher watchers "python"
           "**/[Ss][Ee][Tt][Uu][Pp].[Pp][Yy]" true JUndefined
    else watchers in
  let watchers :=
    if on "enableRuby"
    then registerFileWatcher watchers "ruby" "**/*.[Rr][Bb]" true JUndefined
    else watchers in
  let watchers :=
    if on "enableTsc"
    then registerFileWatcher watchers "tsc" "**/tsconfig.json" false
           JUndefined
    else watchers in
  if on "enableWorkspace"
  then registerFileWatcher watchers "workspace" "**/.vscode/tasks.json" false
         JUndefined
  else watchers.

(** The variables of the module: the map [watchers], the two tree
    providers ([None] while undefined), and the provider modules. *)
Record State := mkState {
  watchers : Watchers;
  treeDataProvider : option Explorer.View;
  treeDataProvider2 : option Explorer.View;
  providers : Providers
}.

(** [registerExplorer(name, context)]: the provider of a new view, when
    the workspace has folders. *)
Definition registerExplorer : option Explorer.View :=
  match workspaceFolders h with
  | Some _ => Some (Explorer.mkView None 0)
  | None => None
  end.

(** A method of the provider [treeDataProvider], of [treeDataProvider2]. *)
Definition inSideBar {A : Type} (c : St (Explorer.View * Providers) A)
  : St State A :=
  fun s =>
    match treeDataProvider s with
    | Some v =>
        let '(r, (v', p')) := c (v, providers s) in
        (r, mkState (watchers s) (Some v') (treeDataProvider2 s) p')
    | None => (Throw (TypeError "treeDataProvider is undefined"), s)
    end.

Definition inExplorerView {A : Type} (c : St (Explorer.View * Providers) A)
  : St State A :=
  fun s =>
    match treeDataProvider2 s with
    | Some v =>
        let '(r, (v', p')) := c (v, providers s) in
        (r, mkState (watchers s) (treeDataProvider s) (Some v') p')
    | None => (Throw (TypeError "treeDataProvider2 is undefined"), s)
    end.

Definition getState : St State State := fun s => (Ok s, s).

Definition isDefined (A : Type) (o : option A) : bool :=
  match o with
  | Some _ => true
  | None => false
  end.

Definition ofTaskType (taskType : option string) : JsVal :=
  match taskType with
  | Some t => JString t
  | None => JUndefined
  end.

(** [refreshTree(taskType, uri)]; [refresh] takes one argument, so that
    the file of the event is passed in vain. *)
Definition refreshTree (taskType : option string) (uri : option Uri)
  : St State unit :=
  let refreshedTasks := JBool false in
  let taskType :=
    match taskType with
    | Some t =>
        if Js.truthy t && negb (Js.indexOf t "ant-" 0 =? -1)
        then Some "ant" else Some t
    | None => None
    end in
  s <- getState ;;
  refreshedTasks <-
    (if jsTruthy (configuration h "enableSideBar")
        && isDefined (treeDataProvider s)
     then inSideBar (Explorer.refresh h (ofTaskType taskType))
     else ret refreshedTasks) ;;
  s <- getState ;;
  if jsTruthy (configuration h "enableExplorerView")
     && isDefined (treeDataProvider2 s)
  then
    if negb (jsTruthy refreshedTasks)
    then
      _ <- inExplorerView (Explorer.refresh h (ofTaskType taskType)) ;;
      ret tt
    else
      _ <- inExplorerView
             (Explorer.refresh h
                (match taskType with
                 | Some t =>
                     if negb (String.eqb t "visible-event")
                     then JBool false else JString t
                 | None => JBool false
                 end)) ;;
      ret tt
  else ret tt.

(** [activate(context, disposables)], as far as the variables of the
    module go: the tree providers of the views that are enabled, then the
    watchers; the map [watchers] starts empty. *)
Definition activate (p : Providers) : State :=
  let treeDataProvider :=
    if jsTruthy (configuration h "enableSideBar") then registerExplorer
    else None in
  let treeDataProvider2 :=
    if jsTruthy (configuration h "enableExplorerView") then registerExplorer
    else None in
  mkState (registerFileWatchers []) treeDataProvider treeDataProvider2 p.

(** What a listener does with the event of a file; the promise of
    [refreshTree] is dropped. *)
Definition onFileEvent (l : Listener) (uri : Uri) : St State unit :=
  match l with
  | RefreshTree taskType => detach (refreshTree (Some taskType) (Some uri))
  | Ignore => ret tt
  end.

End WithHost.

End Extension.

(** ** Vocabulary of the statements *)

(** Whether a character occurs in a string. *)
Fixpoint contains (c : ascii) (s : string) : bool :=
  match s with
  | EmptyString => false
  | String d s' => Ascii.eqb d c || contains c s'
  end.

(** The lines of a text that end with a line feed, without it; [cur] is the
    beginning of the line being read. *)
Fixpoint linesFrom (s cur : string) : list string :=
  match s with
  | EmptyString => []
  | String c s' =>
      if Ascii.eqb c Js.lf then cur :: linesFrom s' EmptyString
      else linesFrom s' (cur ++ String c EmptyString)%string
  end.

Definition terminatedLines (s : string) : list string :=
  linesFrom s EmptyString.

(** Where the scanner of the Gradle detector ends the name of a task on a
    line: at the first opening parenthesis after the [task ] token or,
    when the line has none, at the first opening brace. *)
Definition delimiter (line : string) : Z :=
  let p := Js.indexOf line "(" 5 in
  if p =? -1 then Js.indexOf line "{" 5 else p.

(** The next delimiter of a line after the [task ] token: the first
    character from index 5 on that is an opening parenthesis or an opening
    brace, [-1] when the line has neither. *)
Definition nextDelimiter (line : string) : Z :=
  let p := Js.indexOf line "(" 5 in
  let b := Js.indexOf line "{" 5 in
  if p =? -1 then b
  else if b =? -1 then p
  else Z.min p b.

(** After the token the line has an opening brace and, only further on,
    an opening parenthesis. *)
Definition parenthesisAfterBrace (line : string) : bool :=
  let p := Js.indexOf line "(" 5 in
  let b := Js.indexOf line "{" 5 in
  negb (b =? -1) && (b <? p).

(** The name under which the Ant detector accepts a [target] element, if it
    does: the value of its [name] attribute when that is not empty. *)
Definition targetName (tgt : XmlNode) : option string :=
  match tgt with
  | XElem (Some attrs) _ =>
      match assoc attrs "name" with
      | Some n => if Js.truthy n then Some n else None
      | None => None
      end
  | _ => None
  end.

Definition targetNames (targets : list XmlNode) : list string :=
  flat_map (fun tgt => match targetName tgt with
                       | Some n => [n]
                       | None => []
                       end) targets.

(** The key of a target in the map of scripts, under a [default]
    attribute. *)
Definition scriptKey (defaultTask : option string) (n : string) : string :=
  match defaultTask with
  | Some d => if String.eqb d n then (n ++ " - Default")%string else n
  | None => n
  end.

(** A descriptor runs the target [X]. *)
Definition runsTarget (X : string) (t : Task) : bool :=
  match def_script (definition t) with
  | Some s => String.eqb s X
  | None => false
  end.

(** A text has a match of the pattern [%[1-9]]: a percent sign that one of
    the digits 1 to 9 follows. *)
Definition matchesPercentDigit (contents : string) : Prop :=
  exists pre d post,
    contents = (pre ++ String "%" (String d post))%string
    /\ (49 <= nat_of_ascii d <= 57)%nat.

(** The test of the first loop of [invalidateTasksCache]: the cached task
    comes from the file of the event, or from a file that is gone. *)
Definition staleFor (h : Host) (opt : Uri) (each : Task) : bool :=
  match def_uri (definition each) with
  | Some u =>
      String.eqb (uri_fsPath u) (uri_fsPath opt)
      || negb (pathExists h (uri_fsPath u))
  | None => false
  end.

(** The descriptors of a cache whose source file is [file]. *)
Definition fromFile (file : Uri) (each : Task) : bool :=
  match def_uri (definition each) with
  | Some u => String.eqb (uri_fsPath u) (uri_fsPath file)
  | None => false
  end.

Definition cacheList (m : Mem) : list Task :=
  match cachedTasks m with
  | Some l => l
  | None => []
  end.

(** What the invalidation of a cache expects of the reader of a file: it
    leaves the cache alone, it reads no other file, and its descriptors
    name the file as their source. *)
Definition readsOneFile (readfile : Uri -> M (list Task)) : Prop :=
  forall (u : Uri) (m : Mem),
    exists r l,
      readfile u m = (r, mkMem (cachedTasks m) (reads m ++ l))
      /\ (l = [] \/ l = [uri_fsPath u])
      /\ forall tasks, r = Ok tasks ->
                       forall t, In t tasks -> def_uri (definition t) = Some u.

(** The body that the full scans of the three providers share: a file that
    is neither excluded nor visited yet is read by [perFile] and its
    descriptors are added. *)
Definition scanStep (h : Host) (perFile : Uri -> M (list Task))
  (acc : list Task * list string) (fpath : Uri)
  : M (list Task * list string) :=
  let '(allTasks, visitedFiles) := acc in
  if negb (isExcluded h (uri_path fpath))
     && negb (existsb (String.eqb (uri_fsPath fpath)) visitedFiles)
  then
    tasks <- perFile fpath ;;
    ret ((allTasks ++ tasks)%list, uri_fsPath fpath :: visitedFiles)
  else ret acc.

Definition scanWith (h : Host) (pattern : string)
  (perFile : WorkspaceFolder -> Uri -> M (list Task)) : M (list Task) :=
  match workspaceFolders h with
  | None => ret []
  | Some folders =>
      tryCatch
        (r <- forOf folders ([], [])
               (fun acc folder =>
                  forOf (findFiles h folder pattern) acc
                    (scanStep h (perFile folder))) ;;
         ret (fst r))
        (fun error => throw error)
  end.

(** What the script provider does with one file of its scan. *)
Definition scriptFile (h : Host) (folder : WorkspaceFolder) (fpath : Uri)
  : M (list Task) :=
  task <- Script.createScriptTask h (Script.scriptDefOf h (uri_fsPath fpath))
            (Some folder) fpath ;;
  ret [task].

(** A scan that goes through has met no file of the kind [bad], files
    being named by their path on disk. *)
Definition scanned (h : Host) (bad : string -> Prop) (paths : list Uri)
  (r : Outcome (list Task * list string)) : Prop :=
  match r with
  | Ok acc =>
      (forall p, In p (snd acc) -> ~ bad p)
      /\ forall f, In f paths -> isExcluded h (uri_path f) = false ->
                   ~ bad (uri_fsPath f)
  | Throw _ => True
  | Diverge => False
  end.

(** The type's enable flag of a descriptor is on. *)
Definition typeEnabled (h : Host) (each : Task) : bool :=
  jsTruthy (configuration h ("enable" ++ properCase h (source each))%string).

(** A descriptor of the TypeScript compiler whose name gives, after [ - ],
    the path of a configuration file other than a [tsconfig.json] at the
    root, in a directory that is excluded. *)
Definition tscDirExcluded (h : Host) (each : Task) (ws : WorkspaceFolder)
  : bool :=
  String.eqb (source each) "tsc"
  && negb (Js.indexOf (name each) " - " 0 =? -1)
  && (Js.indexOf (name each) " - tsconfig.json" 0 =? -1)
  && isExcluded h
       (join h (uri_path (wf_uri ws))
          (dirname h
             (Js.substringFrom (name each)
                (Js.indexOf (name each) " - " 0 + 3)))).

(** The file nodes that the map [files] names are in the heap. *)
Definition filesInHeap (st : Tree.TreeState) : Prop :=
  forall id r, assoc (Tree.files st) id = Some r ->
               (r < List.length (Tree.heap st))%nat.

(** A child of a node is a task item. *)
Definition isItem (c : Tree.Child) : bool :=
  match c with
  | Tree.ChildItem _ => true
  | Tree.ChildFile _ => false
  end.

(** A node as the first loop of the tree builder makes them: not a group,
    with at least one child, all its children task items. *)
Definition fileNode (f : Tree.TaskFile) : Prop :=
  Tree.isGroup f = false
  /\ Tree.scripts f <> []
  /\ forallb isItem (Tree.scripts f) = true.

(** The same, as a test on the nodes [l] of a heap. *)
Definition fileNodes (hp : Tree.Heap) (l : list Tree.ref) : bool :=
  forallb
    (fun r =>
       match nth_error hp r with
       | Some f =>
           negb (Tree.isGroup f)
           && negb (Nat.eqb (List.length (Tree.scripts f)) 0)
           && forallb isItem (Tree.scripts f)
       | None => false
       end) l.

(** Equal types are neighbours: a type that gives way to another does not
    come back. *)
Fixpoint contiguous (l : list string) : bool :=
  match l with
  | [] => true
  | a :: l' =>
      match l' with
      | [] => true
      | b :: _ =>
          (String.eqb a b || negb (existsb (String.eqb a) l'))
          && contiguous l'
      end
  end.

(** The nodes of a sequence that have the type [t]. *)
Definition ofType (hp : Tree.Heap) (t : string) (l : list Tree.ref)
  : list Tree.ref :=
  List.filter (fun r => String.eqb (Tree.sourceOf hp r) t) l.

(** The group nodes of a sequence that have the type [t]. *)
Definition isGroupOf (hp : Tree.Heap) (t : string) (r : Tree.ref) : bool :=
  match nth_error hp r with
  | Some f => Tree.isGroup f && String.eqb (Tree.taskSource f) t
  | None => false
  end.

Definition groupsOfType (hp : Tree.Heap) (t : string) (l : list Tree.ref)
  : list Tree.ref :=
  List.filter (isGroupOf hp t) l.

(** The value of the variable [prevTask] after the loop has gone through
    the nodes [l]. *)
Definition lastOpt (l : list Tree.ref) : option Tree.ref :=
  fold_left (fun _ x => Some x) l None.

(** The state of the promotion loop of a folder labelled [lbl] after it has
    gone through the nodes [P] of the sorted sequence [S], having made the
    groups [G]; [hp1] and [SF0] are the heap and the map of groups the loop
    started from. *)
Definition walked (lbl : string) (hp1 : Tree.Heap)
  (SF0 : list (string * Tree.ref)) (S P G : list Tree.ref)
  (st : Tree.Promo) : Prop :=
  Tree.folder_label (Tree.p_folder st) = lbl
  /\ Tree.taskFiles (Tree.p_folder st) = (S ++ G)%list
  /\ (List.length hp1 <= List.length (Tree.p_heap st))%nat
  /\ (forall r, (r < List.length hp1)%nat ->
                nth_error (Tree.p_heap st) r = nth_error hp1 r)
  /\ NoDup (List.map (Tree.sourceOf (Tree.p_heap st)) G)
  /\ (forall g, In g G ->
        (List.length hp1 <= g)%nat
        /\ exists grp,
             nth_error (Tree.p_heap st) g = Some grp
             /\ Tree.isGroup grp = true
             /\ assoc (Tree.p_subfolders st)
                  (lbl ++ Tree.taskSource grp)%string = Some g
             /\ Tree.scripts grp
                = List.map Tree.ChildFile
                    (ofType hp1 (Tree.taskSource grp) P))
  /\ (forall t, (2 <= List.length (ofType hp1 t P))%nat ->
                exists g, In g G /\ Tree.sourceOf (Tree.p_heap st) g = t)
  /\ (forall t, (List.length (ofType hp1 t P) <= 1)%nat ->
                assoc (Tree.p_subfolders st) (lbl ++ t)%string
                = assoc SF0 (lbl ++ t)%string).

(** Every element of a list comes before those that follow it, for a
    comparison function. *)
Fixpoint ascending (A : Type) (cmp : A -> A -> Z) (l : list A) : Prop :=
  match l with
  | [] => True
  | a :: l' => (forall b, In b l' -> cmp a b <= 0) /\ ascending cmp l'
  end.

(** The files [l] that a scan has read, by their path on disk: none of
    them twice, each a file [f] of the search that is not excluded and for
    which [readable] holds. *)
Definition scanLog (h : Host) (pattern : string) (readable : Uri -> Prop)
  (l : list string) : Prop :=
  NoDup l
  /\ forall p, In p l ->
       exists folders folder f,
         workspaceFolders h = Some folders
         /\ In folder folders
         /\ In f (findFiles h folder pattern)
         /\ isExcluded h (uri_path f) = false
         /\ uri_fsPath f = p
         /\ readable f.

(** The state of a scan that began with the log [log] and the cache [c],
    and that has marked the files [visited] as visited. *)
Definition scanTrace (h : Host) (pattern : string) (readable : Uri -> Prop)
  (log : list string) (c : option (list Task)) (visited : list string)
  (m : Mem) : Prop :=
  cachedTasks m = c
  /\ exists l,
       reads m = (log ++ l)%list
       /\ scanLog h pattern readable l
       /\ forall p, In p l -> In p visited.

(** The extension of a file is [bat], the key of the batch scripts in the
    table of the script provider. *)
Definition isBatchFile (h : Host) (f : Uri) : Prop :=
  Js.substringFrom (extname h (uri_fsPath f)) 1 = "bat".

(** A file lies in a folder of the workspace. *)
Definition inWorkspace (h : Host) (f : Uri) : Prop :=
  getWorkspaceFolder h f <> None.

(** A pattern occurs in a string. *)
Definition occurs (pat s : string) : bool :=
  negb (Js.indexOf s pat 0 =? -1).

(** The test of the first loop of the tree builder on a descriptor. *)
Definition accepted (h : Host) (each : Task) : bool :=
  typeEnabled h each
  && Tree.isWorkspaceFolder (scope each)
  && negb (Tree.isInstallTask each).

(** The heap of a tree under construction: its first [n] nodes are the
    file nodes that the first loop has made, the nodes after them are
    groups, and the map of groups names nodes among these. *)
Definition layered (n : nat) (sub : list (string * Tree.ref))
  (hp : Tree.Heap) : Prop :=
  (n <= List.length hp)%nat
  /\ (forall r, (r < n)%nat ->
                exists f, nth_error hp r = Some f /\ fileNode f)
  /\ (forall r f, (n <= r)%nat -> nth_error hp r = Some f ->
                  Tree.isGroup f = true)
  /\ (forall id g, assoc sub id = Some g ->
                   (n <= g < List.length hp)%nat).

(** A task with another execution. *)
Definition withExecution (t : Task) (e : ShellExecution) : Task :=
  mkTask (definition t) (scope t) (name t) (source t) (Some e) (group t).

(** A watcher after some calls: it has the glob it had and the listeners
    it had, in their order, with others after them. *)
Definition grown (w w' : Extension.FileSystemWatcher) : Prop :=
  Extension.globPattern w' = Extension.globPattern w
  /\ (exists l, Extension.onDidChange w'
                = (Extension.onDidChange w ++ l)%list)
  /\ (exists l, Extension.onDidDelete w'
                = (Extension.onDidDelete w ++ l)%list)
  /\ (exists l, Extension.onDidCreate w'
                = (Extension.onDidCreate w ++ l)%list).

(** The offset of an event of the JSON parser is in a document. *)
Definition eventInDocument (documentText : string) (e : Explorer.JsonEvent)
  : Prop :=
  match e with
  | Explorer.OnLiteralValue _ offset
  | Explorer.OnObjectProperty _ offset =>
      0 <= offset <= Js.len documentText
  | _ => True
  end.

(** A step of [registerFileWatchers]: what is done when a setting is
    on. *)
Definition whenOn (h : Host) (key : string)
  (f : Extension.Watchers -> Extension.Watchers)
  (watchers : Extension.Watchers) : Extension.Watchers :=
  if jsTruthy (configuration h key) then f watchers else watchers.

(** The task type that [refreshTree] passes on: [ant] for the type of a
    watcher of an extra Ant file. *)
Definition refreshedType (taskType : option string) : JsVal :=
  match taskType with
  | Some t =>
      if Js.truthy t && occurs "ant-" t then JString "ant" else JString t
  | None => JUndefined
  end.

(** A view is enabled and has its provider. *)
Definition sideBarShown (h : Host) (s : Extension.State) : bool :=
  jsTruthy (configuration h "enableSideBar")
  && Extension.isDefined (Extension.treeDataProvider s).

Definition explorerViewShown (h : Host) (s : Extension.State) : bool :=
  jsTruthy (configuration h "enableExplorerView")
  && Extension.isDefined (Extension.treeDataProvider2 s).

(** The tasks of the items of a node of a heap. *)
Definition itemsAt (hp : Tree.Heap) (r : Tree.ref) : list Task :=
  match nth_error hp r with
  | Some f => Tree.itemsOf f
  | None => []
  end.

(** The tasks that the view shows under a child of a folder: under a
    file the tasks of its items, under a group those of the items of its
    files. *)
Definition childTasks (hp : Tree.Heap) (c : Tree.Child) : list Task :=
  match c with
  | Tree.ChildItem i => [Tree.item_task i]
  | Tree.ChildFile r => itemsAt hp r
  end.

Definition nodeTasks (hp : Tree.Heap) (r : Tree.ref) : list Task :=
  match nth_error hp r with
  | Some f => flat_map (childTasks hp) (Tree.scripts f)
  | None => []
  end.

(** The tasks of a tree, folder after folder. *)
Definition shownTasks (hp : Tree.Heap) (folders : list Tree.TaskFolder)
  : list Task :=
  flat_map (fun folder => flat_map (nodeTasks hp) (Tree.taskFiles folder))
    folders.

(** The nodes of a tree in a heap whose first [n] nodes are the files
    that the first loop has made: a child of a folder is one of these
    files, or a group whose children are such files. *)
Definition shaped (n : nat) (hp : Tree.Heap) (r : Tree.ref) : Prop :=
  (r < n)%nat
  \/ ((n <= r < List.length hp)%nat
      /\ exists grp,
           nth_error hp r = Some grp
           /\ Tree.isGroup grp = true
           /\ forall c, In c (Tree.scripts grp) ->
                        exists r', c = Tree.ChildFile r' /\ (r' < n)%nat).

(** A tree has the two levels that [shownTasks] goes through: the
    children of its folders are files, whose children are task items, or
    groups, whose children are such files. *)
Definition twoLevels (hp : Tree.Heap) (folders : list Tree.TaskFolder)
  : Prop :=
  forall folder r,
    In folder folders -> In r (Tree.taskFiles folder) ->
    exists f,
      nth_error hp r = Some f
      /\ (fileNode f
          \/ (Tree.isGroup f = true
              /\ forall c, In c (Tree.scripts f) ->
                   exists r' f', c = Tree.ChildFile r'
                                 /\ nth_error hp r' = Some f'
                                 /\ fileNode f')).

(** What a later state of the second loop keeps of a heap: the files
    that the first loop has made keep their type and, to their order,
    their items; the groups are as they were. *)
Definition preserved (n : nat) (hp hp' : Tree.Heap) : Prop :=
  (List.length hp <= List.length hp')%nat
  /\ (forall r, (r < n)%nat ->
                Tree.sourceOf hp' r = Tree.sourceOf hp r
                /\ Permutation (itemsAt hp' r) (itemsAt hp r))
  /\ (forall r, (n <= r < List.length hp)%nat ->
                nth_error hp' r = nth_error hp r).

(** A comparison function is a total order on the strings. *)
Definition totalOrder (cmp : string -> string -> Z) : Prop :=
  (forall a b c, cmp a b <= 0 -> cmp b c <= 0 -> cmp a c <= 0)
  /\ (forall a b, 0 <= cmp a b -> cmp b a <= 0)
  /\ (forall a b, cmp a b <= 0 -> cmp b a <= 0 -> a = b).

(** The keys of the map of groups tell the folders apart: the name of a
    workspace folder followed by the type of one of its descriptors is
    not the name of another folder followed by the type of one of
    its. *)
Definition keysApart (tasks : list Task) : Prop :=
  forall t1 t2 ws1 ws2,
    In t1 tasks -> In t2 tasks ->
    scope t1 = ScopeFolder ws1 -> scope t2 = ScopeFolder ws2 ->
    (wf_name ws1 ++ source t1 = wf_name ws2 ++ source t2)%string ->
    wf_name ws1 = wf_name ws2.

(** The tests of the first loop of the tree builder on a descriptor:
    the descriptor is given a task item in the tree. *)
Definition placed (h : Host) (each : Task) : bool :=
  accepted h each
  && match scope each with
     | ScopeFolder ws => negb (tscDirExcluded h each ws)
     | _ => false
     end.

(** The folders and the heap of the first loop of the tree builder on
    descriptors of [tasks]: a folder bears its key as label, and no key is
    there twice; every node of the heap is a file of one folder; and a
    file of a folder has the type of a descriptor of that folder. *)
Definition firstLoop (tasks : list Task)
  (folders : list (string * Tree.TaskFolder)) (hp : Tree.Heap) : Prop :=
  (forall key F, In (key, F) folders -> Tree.folder_label F = key)
  /\ NoDup (List.map fst folders)
  /\ Permutation (flat_map (fun e => Tree.taskFiles (snd e)) folders)
       (seq 0 (List.length hp))
  /\ (forall key F r,
        In (key, F) folders -> In r (Tree.taskFiles F) ->
        exists t ws,
          In t tasks /\ scope t = ScopeFolder ws /\ wf_name ws = key
          /\ Tree.sourceOf hp r = source t).

(** ** A host for the examples

    A POSIX workspace with one folder, [/ws], whose disk, search results,
    settings and XML parser are given as tables.  The functions of Node's
    [path] module and of util.ts are simple stand-ins, good for the plain
    absolute paths of the examples. *)

Module Demo.

Definition root : WorkspaceFolder := mkFolder (mkUri "/ws" "/ws") "ws".

Definition file (p : string) : Uri := mkUri p p.

Definition baseOf (p : string) : string :=
  Js.substringFrom p (Js.lastIndexOf p "/" + 1).

Definition dirOf (p : string) : string :=
  let i := Js.lastIndexOf p "/" in
  if i =? -1 then "." else Js.substring p 0 i.

Definition extOf (p : string) : string :=
  let i := Js.lastIndexOf (baseOf p) "." in
  if i <=? 0 then "" else Js.substringFrom (baseOf p) i.

Definition joinPaths (a b : string) : string :=
  if String.eqb b "" then a
  else if String.eqb a "" then b
  else if Js.endsWith a "/" then (a ++ b)%string
  else (a ++ "/" ++ b)%string.

Definition upperChar (c : ascii) : ascii :=
  let n := nat_of_ascii c in
  if ((97 <=? n) && (n <=? 122))%nat then ascii_of_nat (n - 32) else c.

Definition capitalize (s : string) : string :=
  match s with
  | EmptyString => EmptyString
  | String c s' => String (upperChar c) s'
  end.

Definition compareStrings (a b : string) : Z :=
  match String.compare a b with
  | Lt => -1
  | Eq => 0
  | Gt => 1
  end.

Definition host (config : string -> JsVal) (found : list Uri)
  (disk : list (string * string))
  (xml : list (string * (string * XmlNode)))
  (excluded : string -> bool) : Host :=
  {| platform := "linux";
     configuration := config;
     workspaceFolders := Some [root];
     getWorkspaceFolder := fun _ => Some root;
     findFiles := fun _ _ => found;
     pathExists :=
       fun p => match assoc disk p with Some _ => true | None => false end;
     readFile := assoc disk;
     readFileSync := assoc disk;
     isExcluded := excluded;
     existsInExclude := excluded;
     properCase := capitalize;
     localeCompare := compareStrings;
     basename := baseOf;
     dirname := dirOf;
     extname := extOf;
     join := joinPaths;
     parseString := assoc xml |}.

(** Every type enabled, no other setting. *)
Definition allEnabled (key : string) : JsVal :=
  if Js.startsWith key "enable" then JBool true else JUndefined.

Definition nothingExcluded (p : string) : bool := false.

Definition emptyMem : Mem := mkMem None [].

(** An Ant project with the targets [compile] and [dist], the first its
    default. *)
Definition buildXml : string := "<project default='compile'>...</project>".

Definition targets : list XmlNode :=
  [XElem (Some [("name", "compile")]) [];
   XElem (Some [("name", "dist"); ("depends", "compile")]) []].

Definition buildDoc : string * XmlNode :=
  ("project",
   XElem (Some [("name", "demo"); ("default", "compile")])
     [("target", targets)]).

(** The same project without the [default] attribute. *)
Definition plainXml : string := "<project name='demo'>...</project>".

Definition plainDoc : string * XmlNode :=
  ("project", XElem (Some [("name", "demo")]) [("target", targets)]).

(** A project element without any attribute: xml2js gives it no [$]. *)
Definition bareXml : string := "<project>...</project>".

Definition bareDoc : string * XmlNode :=
  ("project", XElem None [("target", targets)]).

Definition antHost (found : list Uri) (disk : list (string * string))
  : Host :=
  host allEnabled found disk
    [(buildXml, buildDoc); (plainXml, plainDoc); (bareXml, bareDoc)]
    nothingExcluded.

(** Two build files, the first with a project element without
    attributes. *)
Definition antBare : Host :=
  antHost [file "/ws/build.xml"; file "/ws/lib/build.xml"]
    [("/ws/build.xml", bareXml); ("/ws/lib/build.xml", buildXml)].



(** A workspace of scripts and Gradle files. *)
Definition plainHost (found : list Uri) (disk : list (string * string))
  : Host :=
  host allEnabled found disk [] nothingExcluded.



(** A workspace whose directory [src] is excluded, and the task that the
    TypeScript extension provides for [src/tsconfig.json]. *)
Definition tscHost : Host :=
  host allEnabled [] [] [] (fun p => String.eqb p "/ws/src").

Definition tscTask : Task :=
  mkTask (mkDefinition "typescript" None None None None None None None None)
    (ScopeFolder root) "build - src/tsconfig.json" "tsc" None None.

(** The descriptor of an Ant target named [install]. *)
Definition antInstall : Task :=
  Ant.createAntTask (antHost [] []) "install" "install" root
    (file "/ws/build.xml").

(** A folder with three Ant build files and one Gradle file: the
    descriptors of its scans and the state of the tree builder after its
    first loop. *)
Definition treeHost : Host :=
  host allEnabled
    [file "/ws/build.xml"; file "/ws/sub1/build.xml";
     file "/ws/sub2/build.xml"; file "/ws/app/build.gradle"]
    [("/ws/build.xml", buildXml); ("/ws/sub1/build.xml", buildXml);
     ("/ws/sub2/build.xml", plainXml);
     ("/ws/app/build.gradle", "task run {" ++ Js.LF)%string]
    [(buildXml, buildDoc); (plainXml, plainDoc)]
    (fun p => String.eqb (extOf p) ".gradle").

Definition gradleHost : Host :=
  plainHost [file "/ws/app/build.gradle"]
    [("/ws/app/build.gradle", "task run {" ++ Js.LF)%string].

Definition treeTasks : list Task :=
  match fst (Ant.detectAntScripts treeHost emptyMem),
        fst (Gradle.detectGradlefiles gradleHost emptyMem) with
  | Ok ant, Ok gradle => (gradle ++ ant)%list
  | _, _ => []
  end.

Definition placed : Tree.TreeState :=
  fold_left (Tree.placeTask treeHost) treeTasks Tree.emptyTree.

Definition treeFolder : Tree.TaskFolder :=
  match Tree.folders placed with
  | (_, folder) :: _ => folder
  | [] => Tree.newTaskFolder root
  end.

(** Two workspace folders: [xy], with two Ant build files, and [x], with
    one descriptor of a type [yant] that another extension provides and
    that the settings enable.  The name of the first folder followed by
    [ant] is the name of the second followed by [yant]. *)
Definition folderXY : WorkspaceFolder := mkFolder (mkUri "/xy" "/xy") "xy".

Definition folderX : WorkspaceFolder := mkFolder (mkUri "/x" "/x") "x".

Definition lonely : Task :=
  mkTask (mkDefinition "yant" None None None None None None None None)
    (ScopeFolder folderX) "lonely" "yant" None None.

Definition collisionTasks : list Task :=
  [Ant.createAntTask (antHost [] []) "build" "build" folderXY
     (file "/xy/build.xml");
   Ant.createAntTask (antHost [] []) "build" "build" folderXY
     (file "/xy/lib/build.xml");
   lonely].

(** Two shell scripts; the cache of the script provider after its scan;
    the same workspace once [a.sh] is deleted. *)
Definition scriptsBefore : Host :=
  plainHost [file "/ws/a.sh"; file "/ws/b.sh"]
    [("/ws/a.sh", "echo a"); ("/ws/b.sh", "echo b")].

Definition scriptCache : list Task :=
  match fst (Script.detectScriptFiles scriptsBefore emptyMem) with
  | Ok tasks => tasks
  | _ => []
  end.

Definition scriptsAfter : Host :=
  plainHost [file "/ws/b.sh"] [("/ws/b.sh", "echo b")].

End Demo.

(** * Properties *)

(** ** Strings *)

Lemma append_assoc (a b c : string) :
  ((a ++ b) ++ c = a ++ (b ++ c))%string.
Proof. induction a as [|x a IH]; simpl; [reflexivity | now rewrite IH]. Qed.

Lemma append_nil_r (a : string) : (a ++ "")%string = a.
Proof. induction a as [|x a IH]; simpl; [reflexivity | now rewrite IH]. Qed.

Lemma length_append (a b : string) :
  String.length (a ++ b) = (String.length a + String.length b)%nat.
Proof. induction a as [|x a IH]; simpl; [reflexivity | now rewrite IH]. Qed.

Lemma len_append (a b : string) : Js.len (a ++ b) = Js.len a + Js.len b.
Proof. unfold Js.len. rewrite length_append. lia. Qed.

Lemma len_nonneg (a : string) : 0 <= Js.len a.
Proof. unfold Js.len. lia. Qed.

Lemma drop_append (a b : string) : Js.drop (String.length a) (a ++ b) = b.
Proof. induction a as [|x a IH]; simpl; [now destruct b | exact IH]. Qed.

Lemma take_append (a b : string) : Js.take (String.length a) (a ++ b) = a.
Proof. induction a as [|x a IH]; simpl; [now destruct b | now rewrite IH]. Qed.

Lemma take_drop (n : nat) (s : string) :
  (Js.take n s ++ Js.drop n s)%string = s.
Proof.
  revert s; induction n as [|n IH]; intros [|c s]; simpl; try reflexivity.
  now rewrite IH.
Qed.

Lemma prefix_nil (s : string) : String.prefix "" s = true.
Proof. now destruct s. Qed.

Lemma endsWith_split (s p : string) :
  Js.endsWith s p = true -> exists a, s = (a ++ p)%string.
Proof.
  unfold Js.endsWith. intros H. apply andb_true_iff in H as [_ H].
  apply String.eqb_eq in H.
  remember (String.length s - String.length p)%nat as n.
  exists (Js.take n s). rewrite <- H. symmetry. apply take_drop.
Qed.

Lemma indexOfAux_absent (c : ascii) (s : string) (i : Z) :
  contains c s = false -> Js.indexOfAux (String c "") s i = -1.
Proof.
  revert i; induction s as [|d s IH]; intros i H; simpl in *.
  - reflexivity.
  - apply orb_false_iff in H as [Hd Hs].
    destruct (ascii_dec c d) as [->|_].
    + now rewrite Ascii.eqb_refl in Hd.
    + now apply IH.
Qed.

Lemma indexOfAux_first (c : ascii) (l rest : string) (i : Z) :
  contains c l = false ->
  Js.indexOfAux (String c "") (l ++ String c rest) i = i + Js.len l.
Proof.
  revert i; induction l as [|d l IH]; intros i H; simpl in *.
  - destruct (ascii_dec c c) as [_|n]; [|now elim n].
    rewrite prefix_nil. unfold Js.len; simpl; lia.
  - apply orb_false_iff in H as [Hd Hl].
    destruct (ascii_dec c d) as [->|_].
    + now rewrite Ascii.eqb_refl in Hd.
    + rewrite IH by assumption. unfold Js.len; simpl String.length. lia.
Qed.

Lemma indexOf_at (done rest pat : string) :
  Js.indexOf (done ++ rest) pat (Js.len done)
  = Js.indexOfAux pat rest (Js.len done).
Proof.
  unfold Js.indexOf, Js.clampIdx. rewrite len_append.
  pose proof (len_nonneg done). pose proof (len_nonneg rest).
  replace (Z.max 0 (Z.min (Js.len done) (Js.len done + Js.len rest)))
    with (Js.len done) by lia.
  unfold Js.len at 1. rewrite Nat2Z.id, drop_append. reflexivity.
Qed.

Lemma substring_middle (done l rest : string) :
  Js.substring (done ++ l ++ rest) (Js.len done) (Js.len done + Js.len l) = l.
Proof.
  unfold Js.substring, Js.clampIdx. rewrite !len_append.
  pose proof (len_nonneg done). pose proof (len_nonneg l).
  pose proof (len_nonneg rest).
  replace (Z.max 0 (Z.min (Js.len done) (Js.len done + (Js.len l + Js.len rest))))
    with (Js.len done) by lia.
  replace (Z.max 0 (Z.min (Js.len done + Js.len l)
                      (Js.len done + (Js.len l + Js.len rest))))
    with (Js.len done + Js.len l) by lia.
  replace (Z.min (Js.len done) (Js.len done + Js.len l)) with (Js.len done) by lia.
  replace (Z.max (Js.len done) (Js.len done + Js.len l) - Js.len done)
    with (Js.len l) by lia.
  unfold Js.len. rewrite !Nat2Z.id, drop_append. apply take_append.
Qed.

Lemma first_line (s : string) :
  contains Js.lf s = false
  \/ exists l rest, s = (l ++ String Js.lf rest)%string
                    /\ contains Js.lf l = false.
Proof.
  induction s as [|c s IH].
  - now left.
  - destruct (Ascii.eqb c Js.lf) eqn:E.
    + right. apply Ascii.eqb_eq in E as ->. now exists ""%string, s.
    + destruct IH as [IH | (l & rest & -> & Hl)].
      * left. simpl. now rewrite E.
      * right. exists (String c l), rest. simpl. now rewrite E.
Qed.

Lemma linesFrom_skip (l s cur : string) :
  contains Js.lf l = false -> linesFrom (l ++ s) cur = linesFrom s (cur ++ l).
Proof.
  revert cur; induction l as [|c l IH]; intros cur H; simpl in *.
  - now rewrite append_nil_r.
  - apply orb_false_iff in H as [Hc Hl]. rewrite Hc, IH by assumption.
    now rewrite append_assoc.
Qed.

Lemma linesFrom_unterminated (l cur : string) :
  contains Js.lf l = false -> linesFrom l cur = [].
Proof.
  intros H. rewrite <- (append_nil_r l), linesFrom_skip by assumption.
  reflexivity.
Qed.

Lemma terminatedLines_cons (l rest : string) :
  contains Js.lf l = false ->
  terminatedLines (l ++ String Js.lf rest) = l :: terminatedLines rest.
Proof.
  intros H. unfold terminatedLines. rewrite linesFrom_skip by assumption.
  simpl. reflexivity.
Qed.

Lemma linesFrom_append (a s cur : string) :
  linesFrom (a ++ String Js.lf s) cur
  = (linesFrom (a ++ Js.LF) cur ++ terminatedLines s)%list.
Proof.
  revert cur; induction a as [|c a IH]; intros cur; simpl.
  - reflexivity.
  - destruct (Ascii.eqb c Js.lf); [simpl; f_equal|]; apply IH.
Qed.

Lemma terminatedLines_append (pre s : string) :
  pre = ""%string \/ Js.endsWith pre Js.LF = true ->
  terminatedLines (pre ++ s)
  = (terminatedLines pre ++ terminatedLines s)%list.
Proof.
  intros [-> | H]; [reflexivity|].
  apply endsWith_split in H as [a ->]. unfold terminatedLines at 1 2.
  rewrite append_assoc. simpl. apply linesFrom_append.
Qed.

(** Where [indexOf] looks for a pattern and what it answers. *)
Lemma indexOfAux_range (pat s : string) :
  forall i, Js.indexOfAux pat s i = -1
            \/ i <= Js.indexOfAux pat s i <= i + Js.len s.
Proof.
  induction s as [|d s IH]; intros i; cbn [Js.indexOfAux].
  - destruct (String.prefix pat ""); [right | now left].
    unfold Js.len; simpl; lia.
  - destruct (String.prefix pat (String d s)).
    + right. pose proof (len_nonneg (String d s)). lia.
    + destruct (IH (i + 1)) as [E | E]; [now left | right].
      unfold Js.len in *. simpl String.length. lia.
Qed.

Lemma clampIdx_range (s : string) (i : Z) :
  0 <= Js.clampIdx s i <= Js.len s.
Proof. unfold Js.clampIdx. pose proof (len_nonneg s). lia. Qed.

Lemma indexOf_range (s pat : string) (from : Z) :
  Js.indexOf s pat from = -1
  \/ Js.clampIdx s from <= Js.indexOf s pat from <= Js.len s.
Proof.
  unfold Js.indexOf. pose proof (clampIdx_range s from) as Hc.
  set (k := Js.clampIdx s from) in *.
  destruct (indexOfAux_range pat (Js.drop (Z.to_nat k) s) k) as [E | E];
    [now left | right].
  assert (Js.len (Js.drop (Z.to_nat k) s) = Js.len s - k).
  { rewrite <- (take_drop (Z.to_nat k) s) at 2. rewrite len_append.
    assert (Js.len (Js.take (Z.to_nat k) s) = k); [|lia].
    clear E. unfold Js.len in *.
    assert (forall n s, (n <= String.length s)%nat ->
                        String.length (Js.take n s) = n) as Ht.
    { clear. induction n as [|n IH]; intros [|c s] H; simpl in *;
        try reflexivity; try lia. rewrite IH; lia. }
    rewrite Ht; lia. }
  lia.
Qed.

Lemma filter_all_false (A : Type) (p : A -> bool) (l : list A) :
  (forall x, In x l -> p x = false) -> List.filter p l = [].
Proof.
  induction l as [|x l IH]; intros H; simpl; [reflexivity|].
  rewrite (H x) by now left. apply IH. intros y Hy. apply H. now right.
Qed.

Lemma filter_all_true (A : Type) (p : A -> bool) (l : list A) :
  (forall x, In x l -> p x = true) -> List.filter p l = l.
Proof.
  induction l as [|x l IH]; intros H; simpl; [reflexivity|].
  rewrite (H x) by now left. f_equal. apply IH. intros y Hy. apply H.
  now right.
Qed.

Lemma filter_unique (A : Type) (f : A -> string) (l : list A) (a : A) :
  NoDup (List.map f l) -> In a l ->
  List.filter (fun x => String.eqb (f x) (f a)) l = [a].
Proof.
  induction l as [|x l IH]; simpl; intros Hnd Ha; [contradiction|].
  inversion Hnd as [|? ? Hx Hl]; subst.
  destruct Ha as [->|Ha].
  - rewrite String.eqb_refl. f_equal. apply filter_all_false.
    intros y Hy. apply String.eqb_neq. intros E. apply Hx.
    rewrite <- E. now apply in_map.
  - destruct (String.eqb_spec (f x) (f a)) as [E|_]; [|now apply IH].
    elim Hx. rewrite E. now apply in_map.
Qed.

(** ** The Gradle scanner *)

Lemma findTargets_loop_lines (fuel : nat) :
  forall done rest scripts,
    (String.length rest < fuel)%nat ->
    Gradle.findTargets_loop fuel (done ++ rest) (Js.len done)
      (Js.indexOf (done ++ rest) Js.LF (Js.len done)) scripts
    = Some (fold_left Gradle.scanLine
              (List.map Js.trim (terminatedLines rest)) scripts).
Proof.
  induction fuel as [|fuel IH]; intros done rest scripts Hfuel; [lia|].
  destruct (first_line rest) as [Hno | (l & rest' & -> & Hl)].
  - assert (E : Js.indexOf (done ++ rest) Js.LF (Js.len done) = -1)
      by (rewrite indexOf_at; now apply indexOfAux_absent).
    rewrite E. simpl. unfold terminatedLines.
    now rewrite linesFrom_unterminated.
  - assert (E : Js.indexOf (done ++ l ++ String Js.lf rest') Js.LF (Js.len done)
                = Js.len done + Js.len l)
      by (rewrite indexOf_at; now apply indexOfAux_first).
    rewrite E. cbn [Gradle.findTargets_loop].
    pose proof (len_nonneg done). pose proof (len_nonneg l).
    destruct (Z.eqb_spec (Js.len done + Js.len l) (-1)) as [F|_]; [lia|].
    rewrite substring_middle, terminatedLines_cons by assumption.
    assert (E1 : (done ++ l ++ String Js.lf rest'
                  = (done ++ l ++ Js.LF) ++ rest')%string)
      by (now rewrite !append_assoc).
    assert (E2 : Js.len done + Js.len l + 1 = Js.len (done ++ l ++ Js.LF))
      by (rewrite !len_append; change (Js.len Js.LF) with 1; lia).
    rewrite E1, E2. simpl. apply IH.
    rewrite length_append in Hfuel. simpl in Hfuel. lia.
Qed.

(** The scanner ends on every file: it has folded the body of its loop
    over the lines that end with a line feed. *)
Lemma findTargets_scan_lines (contents : string) :
  Gradle.findTargets_scan contents
  = Some (fold_left Gradle.scanLine
            (List.map Js.trim (terminatedLines contents)) []).
Proof.
  unfold Gradle.findTargets_scan.
  apply (findTargets_loop_lines (fuel := S (String.length contents)) "" contents).
  lia.
Qed.

Lemma terminatedLines_ignore_tail (pre last : string) :
  contains Js.lf last = false ->
  terminatedLines (pre ++ last) = terminatedLines pre.
Proof.
  intros H. unfold terminatedLines. generalize ""%string as cur.
  induction pre as [|c pre IH]; intros cur; simpl.
  - now apply linesFrom_unterminated.
  - destruct (Ascii.eqb c Js.lf); [f_equal|]; apply IH.
Qed.

(** ** C10: the last line of a Gradle file

    C10: the scanner of the Gradle detector looks at the content only up to
    its last line feed: what follows the last line feed changes nothing,
    and a content without a line feed yields no target at all, even when it
    is a task declaration such as [task foo {]. *)
Theorem gradle_unterminated_last_line (pre last : string) :
  contains Js.lf last = false ->
  Gradle.findTargets_scan (pre ++ last) = Gradle.findTargets_scan pre
  /\ Gradle.findTargets_scan last = Some [].
Proof.
  intros H. rewrite !findTargets_scan_lines. split.
  - now rewrite terminatedLines_ignore_tail.
  - unfold terminatedLines. now rewrite linesFrom_unterminated.
Qed.

Lemma isWhiteSpace_lowerChar (c : ascii) :
  Js.isWhiteSpace (Js.lowerChar c) = Js.isWhiteSpace c.
Proof.
  destruct c as [b0 b1 b2 b3 b4 b5 b6 b7];
    destruct b0, b1, b2, b3, b4, b5, b6, b7; reflexivity.
Qed.

Lemma lowerChar_space (c : ascii) :
  " "%char = Js.lowerChar c -> c = " "%char.
Proof.
  destruct c as [b0 b1 b2 b3 b4 b5 b6 b7];
    destruct b0, b1, b2, b3, b4, b5, b6, b7; vm_compute;
    intros H; solve [reflexivity | discriminate H].
Qed.

Lemma lowerChar_letter (c x : ascii) :
  x = Js.lowerChar c -> Js.isWhiteSpace x = false ->
  Js.isWhiteSpace c = false /\ c <> " "%char.
Proof.
  intros H Hx. rewrite <- isWhiteSpace_lowerChar, <- H. split; [assumption|].
  intros ->. subst x. discriminate Hx.
Qed.

Lemma indexOf_zero (s pat : string) :
  Js.indexOf s pat 0 = Js.indexOfAux pat s 0.
Proof.
  unfold Js.indexOf, Js.clampIdx. pose proof (len_nonneg s).
  replace (Z.max 0 (Z.min 0 (Js.len s))) with 0 by lia. reflexivity.
Qed.

(** On a line that opens with the [task ] token, the name starts at
    index 5. *)
Lemma task_token (line : string) :
  Js.startsWith (Js.toLowerCase line) "task " = true ->
  (0 <? Js.len line) = true
  /\ Js.trimLeft (Js.toLowerCase line) = Js.toLowerCase line
  /\ Js.indexOf (Js.trimLeft line) " " 0 = 4.
Proof.
  unfold Js.startsWith. intros H.
  destruct line as [|c0 [|c1 [|c2 [|c3 [|c4 r]]]]];
    cbn [Js.toLowerCase String.prefix] in H;
    repeat match type of H with
           | context [ascii_dec ?a ?b] =>
               let e := fresh "e" in
               destruct (ascii_dec a b) as [e|_]
           end; try discriminate H.
  pose proof (@lowerChar_letter _ _ e eq_refl) as [W0 N0].
  pose proof (@lowerChar_letter _ _ e0 eq_refl) as [_ N1].
  pose proof (@lowerChar_letter _ _ e1 eq_refl) as [_ N2].
  pose proof (@lowerChar_letter _ _ e2 eq_refl) as [_ N3].
  apply lowerChar_space in e3; subst c4.
  split; [reflexivity|]. split.
  - cbn [Js.toLowerCase Js.trimLeft].
    now rewrite isWhiteSpace_lowerChar, W0.
  - cbn [Js.trimLeft]. rewrite W0, indexOf_zero.
    cbn [Js.indexOfAux String.prefix].
    repeat match goal with
           | |- context [ascii_dec ?a ?b] =>
               destruct (ascii_dec a b); [congruence|]
           end.
    destruct (ascii_dec " " " ") as [_|ne]; [|now elim ne].
    now rewrite prefix_nil.
Qed.

(** What the body of the loop does with such a line. *)
Lemma scanLine_task (scripts : Js.StringMap) (line : string) :
  Js.startsWith (Js.toLowerCase line) "task " = true ->
  Gradle.scanLine scripts line
  = if delimiter line =? -1 then scripts
    else
      let tgtName := Js.trim (Js.substring line 5 (delimiter line)) in
      if Js.truthy tgtName then Js.set scripts tgtName "" else scripts.
Proof.
  intros H. destruct (task_token line H) as (Hlen & Htrim & Hidx).
  unfold Gradle.scanLine, delimiter.
  rewrite Hlen, Htrim, H, Hidx. cbn [andb negb Z.eqb Z.add Pos.add].
  change (4 + 1) with 5.
  destruct (Js.indexOf line "(" 5 =? -1) eqn:E1; simpl.
  - destruct (Js.indexOf line "{" 5 =? -1); reflexivity.
  - rewrite E1. reflexivity.
Qed.

(** ** Objects as maps *)

Lemma In_insertIndex (n : N) (k x : string) (l : list (N * string)) :
  In x (List.map snd (Js.insertIndex n k l)) <-> x = k \/ In x (List.map snd l).
Proof.
  induction l as [|[m k'] l IH]; simpl.
  - intuition.
  - destruct (n <=? m)%N; simpl; [intuition|]. rewrite IH. intuition.
Qed.

Lemma In_indexKeys (x : string) (ks : list string) :
  In x (List.map snd (Js.indexKeys ks)) <-> In x ks /\ Js.isNamedKey x = false.
Proof.
  induction ks as [|k ks IH]; simpl.
  - intuition.
  - destruct (Js.arrayIndex k) as [n|] eqn:E.
    + rewrite In_insertIndex, IH. unfold Js.isNamedKey.
      split; [intros [->|[? ?]]|intros [[->|?] ?]]; try rewrite E; auto.
    + rewrite IH. unfold Js.isNamedKey.
      split; [intros [? ?]|intros [[->|?] ?]]; auto.
      rewrite E in *. discriminate.
Qed.

(** [Object.keys] lists the keys of the object, each of them. *)
Lemma keys_In (o : Js.StringMap) (k : string) :
  In k (Js.keys o) <-> In k (List.map fst o).
Proof.
  unfold Js.keys. rewrite in_app_iff, In_indexKeys, filter_In.
  destruct (Js.isNamedKey k); intuition congruence.
Qed.

Lemma define_In (o : Js.StringMap) (k v x : string) :
  In x (List.map fst (Js.define o k v)) <-> x = k \/ In x (List.map fst o).
Proof.
  induction o as [|[k' v'] o IH]; simpl.
  - intuition.
  - destruct (String.eqb_spec k' k) as [->|Hne]; simpl; [intuition|].
    rewrite IH. intuition.
Qed.

(** An assignment gives the object its key, unless the key is
    [__proto__]. *)
Lemma set_In (o : Js.StringMap) (k v x : string) :
  In x (List.map fst (Js.set o k v))
  <-> (x = k /\ k <> "__proto__"%string) \/ In x (List.map fst o).
Proof.
  unfold Js.set. destruct (String.eqb_spec k "__proto__") as [E|Hne].
  - intuition.
  - rewrite define_In. intuition.
Qed.

Lemma set_keeps (o : Js.StringMap) (k v x : string) :
  In x (List.map fst o) -> In x (List.map fst (Js.set o k v)).
Proof. intros H. apply set_In. now right. Qed.

Lemma proto_not_in_set (o : Js.StringMap) (k v : string) :
  ~ In "__proto__"%string (List.map fst o) ->
  ~ In "__proto__"%string (List.map fst (Js.set o k v)).
Proof. rewrite set_In. intros H [[-> K]|K]; [now elim K | contradiction]. Qed.

Lemma define_NoDup (o : Js.StringMap) (k v : string) :
  NoDup (List.map fst o) -> NoDup (List.map fst (Js.define o k v)).
Proof.
  induction o as [|[k' v'] o IH]; simpl; intros H.
  - repeat constructor. intros [].
  - inversion H as [|x l Hx Hl]; subst.
    destruct (String.eqb_spec k' k) as [->|Hne]; simpl.
    + now constructor.
    + constructor; [|now apply IH].
      rewrite define_In. intros [E|K]; [now elim Hne | contradiction].
Qed.

Lemma set_NoDup (o : Js.StringMap) (k v : string) :
  NoDup (List.map fst o) -> NoDup (List.map fst (Js.set o k v)).
Proof.
  unfold Js.set. destruct (String.eqb k "__proto__");
    [auto | apply define_NoDup].
Qed.

Lemma insertIndex_perm (n : N) (k : string) (l : list (N * string)) :
  Permutation (List.map snd (Js.insertIndex n k l)) (k :: List.map snd l).
Proof.
  induction l as [|[m k'] l IH]; simpl; [reflexivity|].
  destruct (n <=? m)%N; simpl; [reflexivity|].
  rewrite IH. apply perm_swap.
Qed.

Lemma indexKeys_NoDup (ks : list string) :
  NoDup ks -> NoDup (List.map snd (Js.indexKeys ks)).
Proof.
  induction ks as [|k ks IH]; simpl; intros H; [constructor|].
  inversion H as [|x l Hx Hl]; subst.
  destruct (Js.arrayIndex k) as [n|]; [|now apply IH].
  apply (Permutation_NoDup (Permutation_sym (insertIndex_perm n k _))).
  constructor; [|now apply IH].
  rewrite In_indexKeys. now intros [K _].
Qed.

(** [Object.keys] lists no key twice. *)
Lemma keys_NoDup (o : Js.StringMap) :
  NoDup (List.map fst o) -> NoDup (Js.keys o).
Proof.
  intros H. unfold Js.keys. apply NoDup_app.
  - now apply indexKeys_NoDup.
  - now apply NoDup_filter.
  - intros x Hx Hy. apply In_indexKeys in Hx as [_ Hx].
    apply filter_In in Hy as [_ Hy]. congruence.
Qed.

Lemma scanLine_cases (scripts : Js.StringMap) (line : string) :
  Gradle.scanLine scripts line = scripts
  \/ exists tgtName, Gradle.scanLine scripts line = Js.set scripts tgtName "".
Proof.
  unfold Gradle.scanLine.
  repeat match goal with
         | |- context [if ?b then _ else _] => destruct b
         end; eauto.
Qed.

Lemma scanLines_keep (lines : list string) :
  forall (scripts : Js.StringMap) (k : string),
    In k (List.map fst scripts) ->
    In k (List.map fst (fold_left Gradle.scanLine lines scripts)).
Proof.
  induction lines as [|l lines IH]; intros scripts k H; simpl; [assumption|].
  apply IH.
  destruct (scanLine_cases scripts l) as [-> | [n ->]]; [assumption|].
  apply set_In. now right.
Qed.

(** ** C6: the descriptor of a line of a Gradle file *)

(** The scanner ends the name at the next delimiter, but for a line with
    a parenthesis after its brace. *)
Lemma delimiter_next (line : string) :
  parenthesisAfterBrace line = false -> delimiter line = nextDelimiter line.
Proof.
  unfold parenthesisAfterBrace, delimiter, nextDelimiter.
  destruct (Z.eqb_spec (Js.indexOf line "(" 5) (-1)) as [_|Hp];
    [reflexivity|].
  destruct (Z.eqb_spec (Js.indexOf line "{" 5) (-1)) as [_|Hb];
    [reflexivity|].
  cbn [negb andb]. intros H. apply Z.ltb_ge in H. lia.
Qed.

(** C6, as amended: a line of a Gradle file that ends with a line feed and
    that, once trimmed, opens with the token [task ] in any letter case is
    read as follows.  The delimiter is the next opening parenthesis or
    opening brace after the token.  When there is one, when no
    parenthesis follows a brace that comes first, and when the trimmed
    text between the token and the delimiter is neither empty nor
    [__proto__], the detector emits a descriptor with that text as name
    and as only invocation argument.  When there is no delimiter the line
    yields no descriptor: the file read without the line gives the same
    targets. *)
Theorem gradle_task_line (h : Host) (uri : Uri) (folder : WorkspaceFolder)
  (pre line post : string) (m : Mem) :
  contains Js.lf line = false ->
  pre = ""%string \/ Js.endsWith pre Js.LF = true ->
  getWorkspaceFolder h uri = Some folder ->
  readFile h (uri_fsPath uri) = Some (pre ++ line ++ Js.LF ++ post)%string ->
  Js.startsWith (Js.toLowerCase (Js.trim line)) "task " = true ->
  let l := Js.trim line in
  let tgtName := Js.trim (Js.substring l 5 (nextDelimiter l)) in
  let descriptor :=
    setGroup (Gradle.createGradleTask h tgtName tgtName folder uri) Build in
  exists tasks,
    fst (Gradle.readGradlefile h uri m) = Ok tasks
    /\ (nextDelimiter l <> -1 ->
        parenthesisAfterBrace l = false ->
        tgtName <> ""%string ->
        tgtName <> "__proto__"%string ->
        In descriptor tasks
        /\ name descriptor = tgtName
        /\ executionArgs descriptor = [tgtName])
    /\ (nextDelimiter l = -1 ->
        Gradle.findTargets_scan (pre ++ line ++ Js.LF ++ post)
        = Gradle.findTargets_scan (pre ++ post)).
Proof.
  intros Hline Hpre Hfolder Hread Htask l tgtName descriptor.
  assert (Hlines : terminatedLines (pre ++ line ++ Js.LF ++ post)
                   = (terminatedLines pre
                      ++ line :: terminatedLines post)%list).
  { rewrite terminatedLines_append by assumption.
    change (line ++ Js.LF ++ post)%string
      with (line ++ String Js.lf post)%string.
    now rewrite terminatedLines_cons. }
  unfold Gradle.readGradlefile, Gradle.findTargets, bind, readFileM.
  rewrite Hfolder, Hread, findTargets_scan_lines, Hlines.
  rewrite map_app, fold_left_app. cbn [List.map fold_left ret fst].
  eexists. split; [reflexivity|]. split.
  - intros Hd Hslip Hne Hproto. split; [|split; reflexivity].
    unfold descriptor.
    apply in_map with (f := fun each =>
      setGroup (Gradle.createGradleTask h each each folder uri) Build).
    apply keys_In, scanLines_keep. rewrite scanLine_task by assumption.
    fold l. rewrite (delimiter_next l Hslip).
    destruct (Z.eqb_spec (nextDelimiter l) (-1)) as [E|_]; [contradiction|].
    cbv zeta. fold tgtName. unfold Js.truthy.
    destruct (String.eqb_spec tgtName "") as [E|_]; [contradiction|].
    apply set_In. left. now split.
  - intros Hd. rewrite findTargets_scan_lines.
    rewrite terminatedLines_append, map_app, fold_left_app by assumption.
    rewrite scanLine_task by assumption. fold l.
    assert (Hcode : delimiter l = -1).
    { revert Hd. unfold nextDelimiter, delimiter.
      destruct (Z.eqb_spec (Js.indexOf l "(" 5) (-1)) as [_|Hp]; [auto|].
      destruct (Z.eqb_spec (Js.indexOf l "{" 5) (-1)) as [_|Hb]; [auto|].
      destruct (indexOf_range l "(" 5) as [K|K]; [contradiction|].
      destruct (indexOf_range l "{" 5) as [K'|K']; [contradiction|].
      pose proof (clampIdx_range l 5). lia. }
    rewrite Hcode. reflexivity.
Qed.

Lemma gradle_task_line_witness :
  let h := Demo.plainHost []
             [("/ws/app/build.gradle",
               "task foo(type: Exec) {" ++ Js.LF ++ "task bar" ++ Js.LF)%string] in
  let uri := Demo.file "/ws/app/build.gradle" in
  let foo :=
    setGroup (Gradle.createGradleTask h "foo" "foo" Demo.root uri) Build in
  (exists tasks,
     fst (Gradle.readGradlefile h uri Demo.emptyMem) = Ok tasks
     /\ In foo tasks
     /\ name foo = "foo"
     /\ executionArgs foo = ["foo"])
  /\ Gradle.findTargets_scan
       (("task foo(type: Exec) {" ++ Js.LF) ++ "task bar" ++ Js.LF ++ "")
     = Gradle.findTargets_scan (("task foo(type: Exec) {" ++ Js.LF) ++ "").
Proof.
  split.
  - destruct (@gradle_task_line
                (Demo.plainHost []
                   [("/ws/app/build.gradle",
                     "task foo(type: Exec) {" ++ Js.LF ++ "task bar"
                     ++ Js.LF)%string])
                (Demo.file "/ws/app/build.gradle") Demo.root ""
                "task foo(type: Exec) {" ("task bar" ++ Js.LF) Demo.emptyMem
                eq_refl (or_introl eq_refl) eq_refl eq_refl eq_refl)
      as (tasks & Hrun & Hfound & _).
    exists tasks. split; [exact Hrun|].
    apply Hfound; [vm_compute; discriminate | reflexivity
                  | vm_compute; discriminate | vm_compute; discriminate].
  - destruct (@gradle_task_line
                (Demo.plainHost []
                   [("/ws/app/build.gradle",
                     "task foo(type: Exec) {" ++ Js.LF ++ "task bar"
                     ++ Js.LF)%string])
                (Demo.file "/ws/app/build.gradle") Demo.root
                ("task foo(type: Exec) {" ++ Js.LF) "task bar" ""
                Demo.emptyMem
                eq_refl (or_intror eq_refl) eq_refl eq_refl eq_refl)
      as (tasks & _ & _ & Hnone).
    apply Hnone. reflexivity.
Defined.

(** C6 fails as stated: the last line of a file, when no line feed ends
    it, yields no descriptor although it declares a task with its brace. *)
Lemma gradle_task_line_counterexample :
  let h := Demo.plainHost [] [("/ws/app/build.gradle", "task foo {")] in
  let uri := Demo.file "/ws/app/build.gradle" in
  let l := Js.trim "task foo {" in
  Js.startsWith (Js.toLowerCase l) "task " = true
  /\ nextDelimiter l = 9
  /\ Js.trim (Js.substring l 5 (nextDelimiter l)) = "foo"
  /\ fst (Gradle.readGradlefile h uri Demo.emptyMem) = Ok [].
Proof. repeat split. Qed.

(** What the amended claim leaves out.  The scanner looks for a
    parenthesis on the whole line before it looks for a brace, so that a
    parenthesis in the body of a task that opens on the line of its
    declaration ends up in the name; and a task named [__proto__] is lost
    in the object that collects the names. *)
Lemma gradle_parenthesis_after_brace :
  Gradle.findTargets_scan ("task foo { dependsOn(bar) }" ++ Js.LF)
  = Some [("foo { dependsOn", "")].
Proof. reflexivity. Qed.

Lemma gradle_task_named_proto :
  Gradle.findTargets_scan
    ("task __proto__ {" ++ Js.LF ++ "task ok {" ++ Js.LF)
  = Some [("ok", "")].
Proof. reflexivity. Qed.

Lemma gradle_unterminated_last_line_witness :
  Gradle.findTargets_scan (("task a {" ++ Js.LF) ++ "task foo {")
  = Gradle.findTargets_scan ("task a {" ++ Js.LF)
  /\ Gradle.findTargets_scan "task foo {" = Some [].
Proof.
  apply (@gradle_unterminated_last_line ("task a {" ++ Js.LF) "task foo {").
  reflexivity.
Defined.

(** ** C1: the arguments of an Ant task *)

(** C1, as amended: the invocation arguments of the descriptor of an Ant
    target are the target name, followed by ["-f"] and the file name when
    the name of the build file differs from [build.xml] in more than letter
    case; when the colorizing wrapper is enabled on Windows the target name
    is preceded by ["-logger"] and the name of the logger class. *)
Theorem ant_task_arguments (h : Host) (target cmdName : string)
  (folder : WorkspaceFolder) (uri : Uri) :
  let fileName := basename h (uri_path uri) in
  executionArgs (Ant.createAntTask h target cmdName folder uri)
  = ((if Ant.useAnsicon h
      then ["-logger"; "org.apache.tools.ant.listener.AnsiColorLogger"; target]
      else [target])
     ++ (if String.eqb (Js.toLowerCase fileName) "build.xml"
         then []
         else ["-f"; fileName]))%list.
Proof.
  unfold Ant.createAntTask, executionArgs.
  destruct (Ant.useAnsicon h);
    destruct (String.eqb (Js.toLowerCase (basename h (uri_path uri)))
                "build.xml"); simpl; now rewrite ?app_nil_r.
Qed.

(** C1 fails as stated: for [custom.xml] the file option comes after the
    target name, not before it. *)
Lemma ant_task_arguments_counterexample :
  let h := Demo.antHost [] [] in
  let uri := Demo.file "/ws/sub/custom.xml" in
  let args :=
    executionArgs (Ant.createAntTask h "compile" "compile" Demo.root uri) in
  basename h (uri_path uri) = "custom.xml"
  /\ args = ["compile"; "-f"; "custom.xml"]
  /\ args <> ["-f"; "custom.xml"; "compile"].
Proof. repeat split. discriminate. Qed.

(** ** C5: the default target of an Ant file *)

Lemma targetName_truthy (tgt : XmlNode) (n : string) :
  targetName tgt = Some n -> Js.truthy n = true.
Proof.
  destruct tgt as [|[attrs|] ch]; simpl; try discriminate.
  destruct (assoc attrs "name") as [x|]; [|discriminate].
  destruct (Js.truthy x) eqn:E; [|discriminate]. now intros [= <-].
Qed.

Lemma targetNames_truthy (targets : list XmlNode) (n : string) :
  In n (targetNames targets) -> Js.truthy n = true.
Proof.
  unfold targetNames. rewrite in_flat_map. intros (tgt & _ & H).
  destruct (targetName tgt) as [x|] eqn:E; [|contradiction].
  destruct H as [<-|[]]. now apply targetName_truthy with tgt.
Qed.

Lemma addTarget_targetName (d : option string) (scripts : Js.StringMap)
  (tgt : XmlNode) :
  Ant.addTarget d scripts tgt
  = match targetName tgt with
    | Some n => Js.set scripts (scriptKey d n) n
    | None => scripts
    end.
Proof.
  destruct tgt as [|[attrs|] ch]; simpl; try reflexivity.
  destruct (assoc attrs "name") as [x|]; [|reflexivity].
  destruct (Js.truthy x); [|reflexivity]. unfold scriptKey.
  now destruct d.
Qed.

Lemma set_entries (o : Js.StringMap) (k v : string) (e : string * string) :
  In e (Js.set o k v) -> In e o \/ e = (k, v).
Proof.
  unfold Js.set. destruct (String.eqb k "__proto__"); [now left|].
  induction o as [|[k' v'] o IH]; simpl.
  - intuition.
  - destruct (String.eqb_spec k' k) as [->|Hne]; simpl; intuition.
Qed.

(** The value that an assignment leaves under its key. *)
Lemma get_define (o : Js.StringMap) (k v k' : string) :
  Js.get (Js.define o k v) k'
  = if String.eqb k k' then Some v else Js.get o k'.
Proof.
  induction o as [|[x y] o IH]; simpl.
  - reflexivity.
  - destruct (String.eqb_spec x k) as [->|Hxk]; simpl.
    + now destruct (String.eqb k k').
    + rewrite IH. destruct (String.eqb_spec x k') as [->|Hxk'];
        [|reflexivity].
      destruct (String.eqb_spec k k'); congruence.
Qed.

Lemma get_set (o : Js.StringMap) (k v k' : string) :
  Js.get (Js.set o k v) k'
  = if String.eqb k k' && negb (String.eqb k "__proto__")
    then Some v else Js.get o k'.
Proof.
  unfold Js.set. destruct (String.eqb k "__proto__").
  - now rewrite andb_false_r.
  - now rewrite get_define, andb_true_r.
Qed.

Lemma get_In (o : Js.StringMap) (k v : string) :
  Js.get o k = Some v -> In (k, v) o.
Proof.
  induction o as [|[k' v'] o IH]; simpl; [discriminate|].
  destruct (String.eqb_spec k' k) as [->|Hne]; [intros [= ->]|]; auto.
Qed.

Lemma In_get (o : Js.StringMap) (k : string) :
  In k (List.map fst o) -> exists v, Js.get o k = Some v.
Proof.
  induction o as [|[k' v'] o IH]; simpl; [contradiction|].
  destruct (String.eqb_spec k' k) as [->|Hne]; [eauto|].
  intros [E|H]; [contradiction | auto].
Qed.

(** The map of scripts holds, for each accepted target, its name under its
    key, and nothing else. *)
Lemma scripts_entries (d : option string) (targets : list XmlNode) :
  forall (scripts : Js.StringMap) (e : string * string),
    In e (fold_left (Ant.addTarget d) targets scripts) ->
    In e scripts
    \/ (In (snd e) (targetNames targets) /\ fst e = scriptKey d (snd e)).
Proof.
  induction targets as [|tgt targets IH]; intros scripts e H; simpl in *;
    [now left|].
  apply IH in H. rewrite addTarget_targetName in H. unfold targetNames.
  destruct H as [H | [H1 H2]].
  - destruct (targetName tgt) as [n|]; [|now left].
    apply set_entries in H as [H | ->]; [now left|].
    right. simpl. auto.
  - right. split; [|assumption]. simpl. apply in_or_app. now right.
Qed.

Lemma scripts_keys (d : option string) (targets : list XmlNode) :
  forall (scripts : Js.StringMap) (n : string),
    In n (targetNames targets) ->
    scriptKey d n <> "__proto__"%string ->
    In (scriptKey d n)
       (List.map fst (fold_left (Ant.addTarget d) targets scripts)).
Proof.
  induction targets as [|tgt targets IH]; intros scripts n H Hproto;
    simpl in *; [contradiction|].
  unfold targetNames in H. simpl in H. apply in_app_or in H as [H|H].
  - destruct (targetName tgt) as [x|] eqn:E; [|contradiction].
    destruct H as [<-|[]].
    assert (K : In (scriptKey d x)
                  (List.map fst (Ant.addTarget d scripts tgt)))
      by (rewrite addTarget_targetName, E; apply set_In; now left).
    revert K. generalize (Ant.addTarget d scripts tgt) (scriptKey d x).
    clear. induction targets as [|t ts IHts]; intros s k K; simpl;
      [assumption|].
    apply IHts. rewrite addTarget_targetName.
    destruct (targetName t); [now apply set_keeps | assumption].
  - now apply IH.
Qed.

(** The map of scripts never has the key [__proto__]. *)
Lemma scripts_no_proto (d : option string) (targets : list XmlNode) :
  forall scripts : Js.StringMap,
    ~ In "__proto__"%string (List.map fst scripts) ->
    ~ In "__proto__"%string
        (List.map fst (fold_left (Ant.addTarget d) targets scripts)).
Proof.
  induction targets as [|tgt targets IH]; intros scripts H; simpl;
    [assumption|].
  apply IH. rewrite addTarget_targetName.
  destruct (targetName tgt); [now apply proto_not_in_set | assumption].
Qed.

(** The target that the map of scripts holds under the key of a target
    whose key no target after it shares. *)
Lemma scripts_get (d : option string) (targets : list XmlNode) (n : string) :
  forall scripts : Js.StringMap,
    In n (targetNames targets) ->
    scriptKey d n <> "__proto__"%string ->
    (forall n', In n' (targetNames targets) ->
                scriptKey d n' = scriptKey d n -> n' = n) ->
    Js.get (fold_left (Ant.addTarget d) targets scripts) (scriptKey d n)
    = Some n.
Proof.
  assert (Hkeep : forall targets scripts,
            (forall n', In n' (targetNames targets) ->
                        scriptKey d n' = scriptKey d n -> n' = n) ->
            Js.get scripts (scriptKey d n) = Some n ->
            Js.get (fold_left (Ant.addTarget d) targets scripts)
              (scriptKey d n) = Some n).
  { clear. induction targets as [|tgt targets IH]; intros scripts Hinj Hget;
      simpl; [assumption|].
    unfold targetNames in Hinj. simpl in Hinj.
    apply IH; [intros n' Hn'; apply Hinj, in_or_app; now right|].
    rewrite addTarget_targetName.
    destruct (targetName tgt) as [x|]; [|assumption].
    rewrite get_set.
    destruct (String.eqb_spec (scriptKey d x) (scriptKey d n)) as [E|_];
      [|assumption].
    rewrite (Hinj x) by (auto; apply in_or_app; left; now left).
    now destruct (negb _). }
  induction targets as [|tgt targets IH]; intros scripts H Hproto Hinj;
    simpl in *; [contradiction|].
  unfold targetNames in H, Hinj. simpl in H, Hinj.
  apply in_app_or in H as [H|H].
  - destruct (targetName tgt) as [x|] eqn:E; [|contradiction].
    destruct H as [<-|[]].
    apply Hkeep; [intros n' Hn'; apply Hinj, in_or_app; now right|].
    rewrite addTarget_targetName, E, get_set, String.eqb_refl.
    apply String.eqb_neq in Hproto. now rewrite Hproto.
  - apply IH; [assumption.. |].
    intros n' Hn'. apply Hinj, in_or_app. now right.
Qed.

(** The descriptor built for a key of the map of scripts. *)
Lemma tasksOfScripts_In (h : Host) (scripts : Js.StringMap)
  (folder : WorkspaceFolder) (uri : Uri) (k v : string) :
  In k (List.map fst scripts) ->
  Js.get scripts k = Some v -> Js.truthy v = true ->
  In (setGroup (Ant.createAntTask h v k folder uri) Build)
     (Ant.tasksOfScripts h scripts folder uri).
Proof.
  intros Hk Hget Hv. unfold Ant.tasksOfScripts.
  apply keys_In in Hk.
  apply in_map with (f := fun each =>
    setGroup
      (Ant.createAntTask h
         match Js.get scripts each with
         | Some v0 => if Js.truthy v0 then v0 else each
         | None => each
         end each folder uri) Build) in Hk.
  now rewrite Hget, Hv in Hk.
Qed.

Lemma findAllAntScripts_project (h : Host) (buffer : string)
  (attrs : list (string * string)) (children : list (string * list XmlNode))
  (targets : list XmlNode) (m : Mem) :
  parseString h buffer = Some ("project", XElem (Some attrs) children) ->
  assoc children "target" = Some targets ->
  Ant.findAllAntScripts h buffer m
  = (Ok (fold_left (Ant.addTarget (assoc attrs "default")) targets []), m).
Proof.
  intros Hp Ht. unfold Ant.findAllAntScripts. now rewrite Hp, Ht.
Qed.

Lemma append_inv_r (a b c : string) : (a ++ b = a ++ c)%string -> b = c.
Proof. induction a as [|x a IH]; simpl; [auto | intros [= H]; auto]. Qed.


Lemma createAntTask_script (h : Host) (target cmdName : string)
  (folder : WorkspaceFolder) (uri : Uri) :
  def_script (definition (Ant.createAntTask h target cmdName folder uri))
  = Some target.
Proof. unfold Ant.createAntTask. now destruct (Ant.useAnsicon h). Qed.

Lemma createAntTask_name (h : Host) (target cmdName : string)
  (folder : WorkspaceFolder) (uri : Uri) :
  name (Ant.createAntTask h target cmdName folder uri)
  = if Js.truthy cmdName then cmdName else target.
Proof. unfold Ant.createAntTask. now destruct (Ant.useAnsicon h). Qed.

Lemma createAntTask_isDefault (h : Host) (target cmdName : string)
  (folder : WorkspaceFolder) (uri : Uri) :
  getProp (definition (Ant.createAntTask h target cmdName folder uri))
    "isDefault" = JUndefined.
Proof. unfold Ant.createAntTask. now destruct (Ant.useAnsicon h). Qed.

(** The descriptors of an Ant file, when no two accepted targets share a
    key: one for each accepted target whose key is not [__proto__], named
    by the key of the target. *)
Lemma ant_descriptors (h : Host) (d : option string)
  (targets : list XmlNode) (folder : WorkspaceFolder) (uri : Uri) (t : Task) :
  (forall a b, In a (targetNames targets) -> In b (targetNames targets) ->
               scriptKey d a = scriptKey d b -> a = b) ->
  In t (Ant.tasksOfScripts h (fold_left (Ant.addTarget d) targets [])
          folder uri)
  <-> exists n, In n (targetNames targets)
                /\ scriptKey d n <> "__proto__"%string
                /\ t = setGroup
                         (Ant.createAntTask h n (scriptKey d n) folder uri)
                         Build.
Proof.
  intros Hinj. set (scripts := fold_left (Ant.addTarget d) targets []).
  split.
  - unfold Ant.tasksOfScripts. rewrite in_map_iff. intros (k & <- & Hk).
    apply keys_In in Hk.
    assert (Hproto : k <> "__proto__"%string).
    { intros ->. revert Hk. apply scripts_no_proto. intros []. }
    apply In_get in Hk as [v Hget]. rewrite Hget.
    apply get_In, scripts_entries in Hget as [[] | [Hv Hkey]].
    simpl in Hv, Hkey. rewrite (targetNames_truthy _ _ Hv).
    exists v. rewrite <- Hkey. now repeat split.
  - intros (n & Hn & Hproto & ->).
    pose proof (scripts_keys d targets [] n Hn Hproto) as Hk.
    fold scripts in Hk.
    apply tasksOfScripts_In; [assumption | |].
    + apply scripts_get; [assumption.. |].
      intros n' Hn' E. now apply Hinj.
    + now apply targetNames_truthy with targets.
Qed.

Lemma addTargets_NoDup (d : option string) (targets : list XmlNode) :
  forall scripts : Js.StringMap,
    NoDup (List.map fst scripts) ->
    NoDup (List.map fst (fold_left (Ant.addTarget d) targets scripts)).
Proof.
  induction targets as [|tgt targets IH]; intros scripts H; simpl;
    [assumption|].
  apply IH. rewrite addTarget_targetName.
  destruct (targetName tgt); [now apply set_NoDup | assumption].
Qed.

Lemma filter_map_swap (A B : Type) (p : B -> bool) (f : A -> B)
  (l : list A) :
  List.filter p (List.map f l)
  = List.map f (List.filter (fun x => p (f x)) l).
Proof.
  induction l as [|x l IH]; simpl; [reflexivity|].
  destruct (p (f x)); simpl; now rewrite IH.
Qed.

Lemma default_key_not_proto (X : string) :
  (X ++ " - Default")%string <> "__proto__"%string.
Proof.
  intros E. apply (f_equal String.length) in E.
  rewrite length_append in E. simpl in E. lia.
Qed.

(** C5, as amended: when the project of an Ant file declares [default]
    to be [X], the name of one of its targets, and no target is named
    [X - Default], exactly one descriptor runs target [X], and its display
    name is [X - Default]; it carries no [isDefault] property; and the
    descriptors of the other targets are those of a project with the same
    targets and attributes but no [default]. *)
Theorem ant_default_target (h : Host) (buffer1 buffer2 : string)
  (attrs1 attrs2 : list (string * string))
  (children1 children2 : list (string * list XmlNode))
  (targets : list XmlNode) (X : string)
  (folder : WorkspaceFolder) (uri : Uri) (m : Mem) :
  parseString h buffer1 = Some ("project", XElem (Some attrs1) children1) ->
  parseString h buffer2 = Some ("project", XElem (Some attrs2) children2) ->
  assoc children1 "target" = Some targets ->
  assoc children2 "target" = Some targets ->
  assoc attrs1 "default" = Some X ->
  assoc attrs2 "default" = None ->
  In X (targetNames targets) ->
  ~ In (X ++ " - Default")%string (targetNames targets) ->
  exists scripts1 scripts2,
    fst (Ant.findAllAntScripts h buffer1 m) = Ok scripts1
    /\ fst (Ant.findAllAntScripts h buffer2 m) = Ok scripts2
    /\ let withDefault := Ant.tasksOfScripts h scripts1 folder uri in
       let without := Ant.tasksOfScripts h scripts2 folder uri in
       let forX :=
         Ant.createAntTask h X (X ++ " - Default")%string folder uri in
       List.filter (runsTarget X) withDefault = [setGroup forX Build]
       /\ name forX = (X ++ " - Default")%string
       /\ getProp (definition forX) "isDefault" = JUndefined
       /\ forall t, def_script (definition t) <> Some X ->
                    (In t withDefault <-> In t without).
Proof.
  intros Hp1 Hp2 Ht1 Ht2 Hd1 Hd2 HX Hfree.
  rewrite (findAllAntScripts_project h buffer1 m Hp1 Ht1).
  rewrite (findAllAntScripts_project h buffer2 m Hp2 Ht2).
  rewrite Hd1, Hd2. do 2 eexists. do 2 (split; [reflexivity|]). cbv zeta.
  assert (Hinj1 : forall a b,
             In a (targetNames targets) -> In b (targetNames targets) ->
             scriptKey (Some X) a = scriptKey (Some X) b -> a = b).
  { intros a b Ha Hb. unfold scriptKey.
    destruct (String.eqb_spec X a) as [<-|Na];
      destruct (String.eqb_spec X b) as [<-|Nb]; intros E; subst; tauto. }
  assert (Hinj2 : forall a b,
             In a (targetNames targets) -> In b (targetNames targets) ->
             scriptKey None a = scriptKey None b -> a = b)
    by (intros a b _ _ E; exact E).
  assert (HkeyX : scriptKey (Some X) X = (X ++ " - Default")%string)
    by (unfold scriptKey; now rewrite String.eqb_refl).
  set (scripts := fold_left (Ant.addTarget (Some X)) targets []).
  assert (HinX : In (X ++ " - Default")%string (Js.keys scripts)).
  { apply keys_In. rewrite <- HkeyX. apply scripts_keys; [assumption|].
    rewrite HkeyX. apply default_key_not_proto. }
  assert (HgetX : Js.get scripts (X ++ " - Default")%string = Some X).
  { rewrite <- HkeyX. apply scripts_get; [assumption | |].
    - rewrite HkeyX. apply default_key_not_proto.
    - intros n' Hn' E. now apply Hinj1. }
  split; [|split; [|split]].
  - unfold Ant.tasksOfScripts. rewrite filter_map_swap.
    rewrite (filter_ext_in _ (fun k => String.eqb k (X ++ " - Default"))).
    + rewrite (@filter_unique _ (fun k => k) (Js.keys scripts)
                 (X ++ " - Default")%string).
      * cbn [List.map]. rewrite HgetX.
        now rewrite (targetNames_truthy _ _ HX).
      * rewrite map_id. apply keys_NoDup, addTargets_NoDup. constructor.
      * assumption.
    + intros k Hk. apply keys_In, In_get in Hk as [v Hget]. rewrite Hget.
      apply get_In, scripts_entries in Hget as [[] | [Hv Hkey]].
      cbn [fst snd] in Hv, Hkey. rewrite (targetNames_truthy _ _ Hv).
      unfold runsTarget. cbn [setGroup definition].
      rewrite createAntTask_script.
      destruct (String.eqb_spec v X) as [->|Hne].
      * rewrite Hkey, HkeyX. symmetry. apply String.eqb_refl.
      * symmetry. apply String.eqb_neq. rewrite Hkey. unfold scriptKey.
        destruct (String.eqb_spec X v) as [E|_]; [now elim Hne|].
        intros E. apply Hfree. now rewrite <- E.
  - rewrite createAntTask_name. now destruct X.
  - apply createAntTask_isDefault.
  - intros t Hscript. unfold scripts.
    rewrite (ant_descriptors h (Some X) targets folder uri t Hinj1).
    rewrite (ant_descriptors h None targets folder uri t Hinj2).
    split; intros (n & Hn & Hproto & ->); exists n; (split; [assumption|]);
      unfold setGroup in Hscript; simpl in Hscript;
      rewrite createAntTask_script in Hscript;
      revert Hproto; unfold scriptKey;
      destruct (String.eqb_spec X n) as [->|_];
      try (now elim Hscript); intros Hproto; now split.
Qed.

Lemma ant_default_target_witness :
  let h := Demo.antHost [] [] in
  let uri := Demo.file "/ws/build.xml" in
  exists scripts1 scripts2,
    fst (Ant.findAllAntScripts h Demo.buildXml Demo.emptyMem) = Ok scripts1
    /\ fst (Ant.findAllAntScripts h Demo.plainXml Demo.emptyMem) = Ok scripts2
    /\ let withDefault := Ant.tasksOfScripts h scripts1 Demo.root uri in
       let without := Ant.tasksOfScripts h scripts2 Demo.root uri in
       let forX :=
         Ant.createAntTask h "compile" "compile - Default" Demo.root uri in
       List.filter (runsTarget "compile") withDefault = [setGroup forX Build]
       /\ name forX = "compile - Default"
       /\ getProp (definition forX) "isDefault" = JUndefined
       /\ forall t, def_script (definition t) <> Some "compile" ->
                    (In t withDefault <-> In t without).
Proof.
  intros h uri.
  apply (@ant_default_target h Demo.buildXml Demo.plainXml
           [("name", "demo"); ("default", "compile")] [("name", "demo")]
           [("target", Demo.targets)] [("target", Demo.targets)]
           Demo.targets "compile" Demo.root uri Demo.emptyMem);
    try reflexivity.
  - simpl. now left.
  - simpl. intros [H|[H|[]]]; discriminate H.
Defined.

(** C5 fails as stated: the descriptor of the default target carries no
    [isDefault] flag. *)
Lemma ant_default_target_counterexample :
  let h := Demo.antHost [] [("/ws/build.xml", Demo.buildXml)] in
  exists t rest,
    fst (Ant.readAntfile h (Demo.file "/ws/build.xml") Demo.emptyMem)
    = Ok (t :: rest)
    /\ name t = "compile - Default"
    /\ def_script (definition t) = Some "compile"
    /\ getProp (definition t) "isDefault" <> JBool true.
Proof.
  do 2 eexists. split; [vm_compute; reflexivity|].
  repeat split. discriminate.
Qed.

(** ** C7: batch files that take arguments *)

Lemma isDigit19_range (d : ascii) :
  Script.isDigit19 d = true <-> (49 <= nat_of_ascii d <= 57)%nat.
Proof.
  unfold Script.isDigit19. rewrite andb_true_iff, !Nat.leb_le. tauto.
Qed.

(** The hand-written matcher finds what the pattern describes. *)
Lemma testPercentDigit_matches (contents : string) :
  Script.testPercentDigit contents = true <-> matchesPercentDigit contents.
Proof.
  split.
  - induction contents as [|c rest IH]; simpl; [discriminate|].
    intros H. apply orb_true_iff in H as [H|H].
    + apply andb_true_iff in H as [Hc Hd]. apply Ascii.eqb_eq in Hc as ->.
      destruct rest as [|d r]; [discriminate|].
      exists ""%string, d, r. split; [reflexivity|].
      now apply isDigit19_range.
    + destruct (IH H) as (pre & d & post & -> & Hd).
      now exists (String c pre), d, post.
  - intros (pre & d & post & -> & Hd).
    induction pre as [|c pre IH]; simpl.
    + apply isDigit19_range in Hd. now rewrite Hd.
    + rewrite IH. apply orb_true_r.
Qed.

(** C7: the descriptor of a batch file has [requiresArgs] true if and only
    if the content of the file has a match of [%[1-9]], and false
    otherwise. *)
Theorem batch_requires_args (h : Host) (folder : WorkspaceFolder) (uri : Uri)
  (contents : string) (m : Mem) :
  extname h (uri_fsPath uri) = ".bat" ->
  readFileSync h (uri_fsPath uri) = Some contents ->
  exists t,
    fst (Script.createScriptTask h (Script.scriptDefOf h (uri_fsPath uri))
           (Some folder) uri m) = Ok t
    /\ (def_requiresArgs (definition t) = Some true
        <-> matchesPercentDigit contents)
    /\ (~ matchesPercentDigit contents ->
        def_requiresArgs (definition t) = Some false).
Proof.
  intros Hext Hread. unfold Script.scriptDefOf. rewrite Hext.
  unfold Script.createScriptTask, bind, readFileSyncM. simpl.
  rewrite Hread. simpl. eexists. split; [reflexivity|]. simpl.
  rewrite <- testPercentDigit_matches.
  destruct (Script.testPercentDigit contents); split;
    try split; congruence.
Qed.

Lemma batch_requires_args_witness :
  let h := Demo.plainHost [] [("/ws/run.bat", "echo %1")] in
  let uri := Demo.file "/ws/run.bat" in
  exists t,
    fst (Script.createScriptTask h (Script.scriptDefOf h (uri_fsPath uri))
           (Some Demo.root) uri Demo.emptyMem) = Ok t
    /\ (def_requiresArgs (definition t) = Some true
        <-> matchesPercentDigit "echo %1")
    /\ (~ matchesPercentDigit "echo %1" ->
        def_requiresArgs (definition t) = Some false).
Proof.
  intros h uri.
  apply (@batch_requires_args h Demo.root uri "echo %1" Demo.emptyMem);
    reflexivity.
Defined.

(** ** The caches and their invalidation *)

Lemma removeFromArray_head (items : list Task) :
  forall (x : Task) (l : list Task),
    ~ In x items ->
    fold_left removeFromArray items (x :: l)
    = x :: fold_left removeFromArray items l.
Proof.
  induction items as [|y items IH]; intros x l H; simpl; [reflexivity|].
  destruct (Task_eq_dec x y) as [->|_]; [elim H; now left|].
  apply IH. intros K. apply H. now right.
Qed.

(** Removing from an array, one by one, the elements a test selects comes
    to filtering the array by the opposite test. *)
Lemma removeFromArray_filter (p : Task -> bool) (l : list Task) :
  fold_left removeFromArray (List.filter p l) l
  = List.filter (fun t => negb (p t)) l.
Proof.
  induction l as [|x l IH]; simpl; [reflexivity|].
  destruct (p x) eqn:E; simpl.
  - destruct (Task_eq_dec x x) as [_|n]; [exact IH | now elim n].
  - rewrite removeFromArray_head, IH; [reflexivity|].
    rewrite filter_In. intros [_ K]. congruence.
Qed.

Lemma collect_stale (h : Host) (opt : Uri) (cached : list Task) :
  (forall t, In t cached -> def_uri (definition t) <> None) ->
  forall (acc : list Task) (m : Mem),
    forOf cached acc
      (fun rmvTasks each =>
         p <- cachedFsPath each ;;
         ret (if String.eqb p (uri_fsPath opt) || negb (pathExists h p)
              then (rmvTasks ++ [each])%list
              else rmvTasks)) m
    = (Ok (acc ++ List.filter (staleFor h opt) cached)%list, m).
Proof.
  induction cached as [|x cached IH]; intros Huri acc m; simpl.
  - now rewrite app_nil_r.
  - unfold bind at 1. unfold cachedFsPath at 1, staleFor at 1.
    destruct (def_uri (definition x)) as [u|] eqn:E;
      [|elim (Huri x); [now left | assumption]].
    simpl. rewrite IH by (intros t Ht; apply Huri; now right).
    destruct (String.eqb (uri_fsPath u) (uri_fsPath opt)
              || negb (pathExists h (uri_fsPath u))); simpl;
      [now rewrite <- app_assoc | reflexivity].
Qed.

(** What a file event does to a populated cache of the Ant or of the Gradle
    provider. *)
Lemma invalidateTasksCache_run (h : Host) (readfile : Uri -> M (list Task))
  (opt : Uri) (cached : list Task) (log : list string) :
  (forall t, In t cached -> def_uri (definition t) <> None) ->
  let kept := List.filter (fun t => negb (staleFor h opt t)) cached in
  let settle (c : list Task) (log' : list string) :=
    mkMem (if 0 <? Z.of_nat (List.length c) then Some c else None) log' in
  invalidateTasksCache h readfile (Some opt) (mkMem (Some cached) log)
  = if pathExists h (uri_fsPath opt)
       && negb (existsInExclude h (uri_path opt))
    then match readfile opt (mkMem (Some kept) log) with
         | (Ok tasks, m1) => (Ok tt, settle (kept ++ tasks)%list (reads m1))
         | (Throw e, m1) => (Throw e, m1)
         | (Diverge, m1) => (Diverge, m1)
         end
    else (Ok tt, settle kept log).
Proof.
  intros Huri kept settle. unfold invalidateTasksCache, bind at 1, getCache.
  cbn [cachedTasks]. unfold bind at 1.
  rewrite (collect_stale h opt cached Huri). cbn [app].
  rewrite removeFromArray_filter. fold kept.
  unfold bind at 1. unfold setCache at 1. cbn [reads].
  destruct (pathExists h (uri_fsPath opt)
            && negb (existsInExclude h (uri_path opt))).
  - unfold bind.
    destruct (readfile opt (mkMem (Some kept) log)) as [[tasks|e|] m1];
      try reflexivity.
    unfold setCache, ret, settle. cbn [reads].
    now destruct (0 <? Z.of_nat (List.length (kept ++ tasks))).
  - unfold bind, ret, setCache, settle. cbn [reads].
    now destruct (0 <? Z.of_nat (List.length kept)).
Qed.

Lemma filter_filter_comm (A : Type) (p q : A -> bool) (l : list A) :
  List.filter p (List.filter q l) = List.filter q (List.filter p l).
Proof.
  induction l as [|x l IH]; simpl; [reflexivity|].
  destruct (p x) eqn:P, (q x) eqn:Q; simpl; rewrite ?P, ?Q, IH; reflexivity.
Qed.


Lemma settle_cacheList (c : list Task) (log : list string) :
  cacheList
    (mkMem (if 0 <? Z.of_nat (List.length c) then Some c else None) log) = c.
Proof. destruct c; reflexivity. Qed.

(** The frame of a file event on a cache of the Ant or of the Gradle
    provider: the descriptors of another file that is still on disk stay as
    they are, no file but that of the event is read, and on a delete event
    nothing is read and no descriptor of the deleted file is left. *)
Lemma invalidate_frame (h : Host) (readfile : Uri -> M (list Task))
  (A B : Uri) (cached : list Task) (log : list string) :
  readsOneFile readfile ->
  (forall t, In t cached -> def_uri (definition t) <> None) ->
  uri_fsPath B <> uri_fsPath A ->
  pathExists h (uri_fsPath B) = true ->
  let m' := snd (invalidateTasksCache h readfile (Some A)
                   (mkMem (Some cached) log)) in
  List.filter (fromFile B) (cacheList m') = List.filter (fromFile B) cached
  /\ (reads m' = log \/ reads m' = (log ++ [uri_fsPath A])%list)
  /\ (pathExists h (uri_fsPath A) = false ->
      List.filter (fromFile A) (cacheList m') = [] /\ reads m' = log).
Proof.
  intros Hrf Huri HAB HB m'.
  set (kept := List.filter (fun t => negb (staleFor h A t)) cached).
  assert (HkB : List.filter (fromFile B) kept = List.filter (fromFile B) cached).
  { unfold kept. rewrite filter_filter_comm. apply filter_all_true.
    intros t Ht. apply filter_In in Ht as [_ Ht].
    unfold fromFile in Ht. unfold staleFor.
    destruct (def_uri (definition t)) as [u|]; [|discriminate].
    apply String.eqb_eq in Ht. rewrite Ht, HB.
    destruct (String.eqb_spec (uri_fsPath B) (uri_fsPath A)); [contradiction|].
    reflexivity. }
  assert (HkA : List.filter (fromFile A) kept = []).
  { apply filter_all_false. intros t Ht. apply filter_In in Ht as [_ Ht].
    unfold fromFile. unfold staleFor in Ht.
    destruct (def_uri (definition t)) as [u|]; [|reflexivity].
    now destruct (String.eqb (uri_fsPath u) (uri_fsPath A)). }
  subst m'. rewrite invalidateTasksCache_run by assumption. fold kept.
  destruct (pathExists h (uri_fsPath A)) eqn:EA; cbn [andb].
  - destruct (existsInExclude h (uri_path A)); cbn [negb snd].
    + rewrite settle_cacheList. cbn [reads]. split; [assumption|].
      split; [now left | discriminate].
    + destruct (Hrf A (mkMem (Some kept) log)) as (r & l & -> & Hl & Htasks).
      cbn [cachedTasks reads].
      destruct r as [tasks|e|]; cbn [snd reads cacheList cachedTasks].
      * rewrite settle_cacheList, filter_app, HkB.
        rewrite (@filter_all_false _ (fromFile B) tasks).
        -- rewrite app_nil_r. split; [reflexivity|]. split; [|discriminate].
           destruct Hl as [-> | ->]; [left; apply app_nil_r | now right].
        -- intros t Ht. unfold fromFile.
           rewrite (Htasks tasks eq_refl t Ht).
           destruct (String.eqb_spec (uri_fsPath A) (uri_fsPath B));
             congruence.
      * split; [assumption|]. split; [|discriminate].
        destruct Hl as [-> | ->]; [left; apply app_nil_r | now right].
      * split; [assumption|]. split; [|discriminate].
        destruct Hl as [-> | ->]; [left; apply app_nil_r | now right].
  - cbn [snd]. rewrite settle_cacheList. cbn [reads].
    split; [assumption|]. split; [now left|]. intros _. now split.
Qed.

Lemma mem_eta (m : Mem) : m = mkMem (cachedTasks m) (reads m ++ []).
Proof. destruct m. cbn. now rewrite app_nil_r. Qed.

Lemma findAllAntScripts_state (h : Host) (buffer : string) (m : Mem) :
  snd (Ant.findAllAntScripts h buffer m) = m.
Proof.
  unfold Ant.findAllAntScripts.
  destruct (parseString h buffer) as [[root [t|attrs ch]]|]; try reflexivity;
    destruct (negb (String.eqb root "project")); try reflexivity.
  destruct (assoc ch "target"); [|reflexivity].
  destruct attrs; reflexivity.
Qed.

Lemma createAntTask_uri (h : Host) (target cmdName : string)
  (folder : WorkspaceFolder) (uri : Uri) :
  def_uri (definition (Ant.createAntTask h target cmdName folder uri))
  = Some uri.
Proof. unfold Ant.createAntTask. now destruct (Ant.useAnsicon h). Qed.

Lemma readAntfile_readsOneFile (h : Host) : readsOneFile (Ant.readAntfile h).
Proof.
  intros u m. unfold Ant.readAntfile.
  destruct (getWorkspaceFolder h u) as [folder|].
  - unfold bind, readFileM.
    destruct (readFile h (uri_fsPath u)) as [contents|].
    + pose proof (findAllAntScripts_state h contents
                    (mkMem (cachedTasks m) (reads m ++ [uri_fsPath u]))) as Hs.
      destruct (Ant.findAllAntScripts h contents _) as [[scripts|e|] m1];
        simpl in Hs; subst m1.
      * exists (Ok (Ant.tasksOfScripts h scripts folder u)), [uri_fsPath u].
        split; [reflexivity|]. split; [now right|].
        intros tasks [= <-] t Ht. unfold Ant.tasksOfScripts in Ht.
        apply in_map_iff in Ht as (k & <- & _). apply createAntTask_uri.
      * exists (Throw e), [uri_fsPath u]. repeat split; auto; discriminate.
      * exists Diverge, [uri_fsPath u]. repeat split; auto; discriminate.
    + exists (Throw (IOError (uri_fsPath u))), [uri_fsPath u].
      repeat split; auto; discriminate.
  - exists (Ok []), []. split; [unfold ret; f_equal; apply mem_eta|].
    split; [now left|]. intros tasks [= <-] t [].
Qed.

Lemma readGradlefile_readsOneFile (h : Host) :
  readsOneFile (Gradle.readGradlefile h).
Proof.
  intros u m. unfold Gradle.readGradlefile.
  destruct (getWorkspaceFolder h u) as [folder|].
  - unfold bind, Gradle.findTargets, bind, readFileM.
    destruct (readFile h (uri_fsPath u)) as [contents|].
    + rewrite findTargets_scan_lines. unfold ret.
      eexists (Ok _), [uri_fsPath u].
      split; [reflexivity|]. split; [now right|].
      intros tasks [= <-] t Ht.
      apply in_map_iff in Ht as (k & <- & _). reflexivity.
    + exists (Throw (IOError (uri_fsPath u))), [uri_fsPath u].
      repeat split; auto; discriminate.
  - exists (Ok []), []. split; [unfold ret; f_equal; apply mem_eta|].
    split; [now left|]. intros tasks [= <-] t [].
Qed.

(** The Ant and the Gradle caches do what C3 asks. *)
Lemma ant_gradle_invalidate_frame (h : Host) (A B : Uri)
  (cached : list Task) (log : list string) :
  (forall t, In t cached -> def_uri (definition t) <> None) ->
  uri_fsPath B <> uri_fsPath A ->
  pathExists h (uri_fsPath B) = true ->
  let frame (m' : Mem) :=
    List.filter (fromFile B) (cacheList m') = List.filter (fromFile B) cached
    /\ (reads m' = log \/ reads m' = (log ++ [uri_fsPath A])%list)
    /\ (pathExists h (uri_fsPath A) = false ->
        List.filter (fromFile A) (cacheList m') = [] /\ reads m' = log) in
  frame (snd (invalidateTasksCacheAnt h (Some A) (mkMem (Some cached) log)))
  /\ frame (snd (invalidateTasksCacheGradle h (Some A)
                   (mkMem (Some cached) log))).
Proof.
  intros Huri HAB HB frame. split.
  - apply invalidate_frame; auto using readAntfile_readsOneFile.
  - apply invalidate_frame; auto using readGradlefile_readsOneFile.
Qed.

(** An event before the first scan leaves the Ant and the Gradle caches
    unpopulated and raises nothing. *)
Lemma invalidate_unpopulated (h : Host) (readfile : Uri -> M (list Task))
  (opt : option Uri) (log : list string) :
  invalidateTasksCache h readfile opt (mkMem None log)
  = (Ok tt, mkMem None log).
Proof. now destruct opt. Qed.

(** ** C3: a delete event on the cache of the script provider *)

(** C3 fails on the script provider: with [a.sh] and [b.sh] in the cache,
    the delete event for [a.sh], which is no longer on disk, leaves the
    descriptor of [b.sh] as it is but puts a descriptor of [a.sh] back in
    the cache. *)
Theorem script_delete_event_readds_descriptor :
  let h := Demo.scriptsAfter in
  let A := Demo.file "/ws/a.sh" in
  let B := Demo.file "/ws/b.sh" in
  let m' := snd (Script.invalidateTasksCacheScript h (Some A)
                   (mkMem (Some Demo.scriptCache) [])) in
  pathExists h (uri_fsPath A) = false
  /\ List.length (List.filter (fromFile A) Demo.scriptCache) = 1%nat
  /\ List.length (List.filter (fromFile B) Demo.scriptCache) = 1%nat
  /\ List.filter (fromFile B) (cacheList m')
     = List.filter (fromFile B) Demo.scriptCache
  /\ List.length (List.filter (fromFile A) (cacheList m')) = 1%nat.
Proof. vm_compute. repeat split. Qed.

(** ** C8: events on a cache that is not populated *)

(** C8 fails on the script provider: a file event that arrives while
    [cachedTasks] is still undefined throws a [TypeError]. *)
Theorem script_invalidate_unpopulated (h : Host) (opt : Uri)
  (log : list string) :
  Script.invalidateTasksCacheScript h (Some opt) (mkMem None log)
  = (Throw (TypeError "cachedTasks is undefined"), mkMem None log).
Proof. reflexivity. Qed.

(** On the script provider the delete event of a file the cache does not
    know adds a descriptor for it. *)
Lemma script_delete_unknown_inserts :
  let h := Demo.scriptsAfter in
  let A := Demo.file "/ws/a.sh" in
  let cached := List.filter (fromFile (Demo.file "/ws/b.sh")) Demo.scriptCache in
  let m' := snd (Script.invalidateTasksCacheScript h (Some A)
                   (mkMem (Some cached) [])) in
  List.filter (fromFile A) cached = []
  /\ pathExists h (uri_fsPath A) = false
  /\ List.length (List.filter (fromFile A) (cacheList m')) = 1%nat.
Proof. vm_compute. repeat split. Qed.

(** ** C2: the full scans *)

Lemma forOf_ext (S A B : Type) (body body' : B -> A -> St S B) (l : list A) :
  (forall acc x m, body acc x m = body' acc x m) ->
  forall acc m, forOf l acc body m = forOf l acc body' m.
Proof.
  intros H. induction l as [|x l IH]; intros acc m; simpl; [reflexivity|].
  unfold bind. rewrite H. destruct (body' acc x m) as [[a|e|] m']; auto.
Qed.

Lemma detectAntScripts_scanWith (h : Host) :
  Ant.detectAntScripts h
  = scanWith h (Ant.scanPattern h) (fun _ => Ant.readAntfile h).
Proof. reflexivity. Qed.

Lemma detectGradlefiles_scanWith (h : Host) :
  Gradle.detectGradlefiles h
  = scanWith h "**/*.[Gg][Rr][Aa][Dd][Ll][Ee]"
      (fun _ => Gradle.readGradlefile h).
Proof. reflexivity. Qed.

Lemma detectScriptFiles_scanWith (h : Host) (m : Mem) :
  Script.detectScriptFiles h m
  = scanWith h "**/*.{sh,py,rb,ps1,pl,bat,nsi}" (scriptFile h) m.
Proof.
  unfold Script.detectScriptFiles, scanWith.
  destruct (workspaceFolders h) as [folders|]; [|reflexivity].
  unfold tryCatch, bind at 1 3. f_equal.
  rewrite forOf_ext with (body' := fun acc folder =>
    forOf (findFiles h folder "**/*.{sh,py,rb,ps1,pl,bat,nsi}") acc
      (scanStep h (scriptFile h folder))); [reflexivity|].
  intros acc folder m0. apply forOf_ext. clear.
  intros [allTasks visited] fpath m. unfold scanStep, scriptFile.
  destruct (negb (isExcluded h (uri_path fpath))
            && negb (existsb (String.eqb (uri_fsPath fpath)) visited));
    [|reflexivity].
  unfold bind.
  now destruct (Script.createScriptTask h _ (Some folder) fpath m)
    as [[t|e|] m'].
Qed.

Section ScanRejects.

Variable h : Host.
Variable perFile : WorkspaceFolder -> Uri -> M (list Task).

(** The files, named by their path on disk, that [perFile] fails on. *)
Variable bad : string -> Prop.

Hypothesis perFile_throws :
  forall folder g m,
    bad (uri_fsPath g) -> exists e m', perFile folder g m = (Throw e, m').

Hypothesis perFile_ends :
  forall folder g m, fst (perFile folder g m) <> Diverge.

Lemma scan_folder (folder : WorkspaceFolder) (paths : list Uri) :
  forall acc m,
    (forall p, In p (snd acc) -> ~ bad p) ->
    scanned h bad paths (fst (forOf paths acc (scanStep h (perFile folder)) m)).
Proof.
  induction paths as [|f paths IH]; intros [allTasks visited] m Hv; simpl.
  - split; [assumption | intros f []].
  - unfold bind, scanStep at 1.
    destruct (isExcluded h (uri_path f)) eqn:Ex; cbn [negb andb].
    + specialize (IH (allTasks, visited) m Hv). unfold ret at 1.
      destruct (forOf paths _ _ m) as [[acc'|e|] m']; simpl in *; auto.
      destruct IH as [IH1 IH2]. split; [assumption|].
      intros g [<-|Hg] Hg'; [congruence | auto].
    + destruct (existsb (String.eqb (uri_fsPath f)) visited) eqn:Vis;
        cbn [negb].
      * specialize (IH (allTasks, visited) m Hv). unfold ret at 1.
        destruct (forOf paths _ _ m) as [[acc'|e|] m']; simpl in *; auto.
        destruct IH as [IH1 IH2]. split; [assumption|].
        intros g [<-|Hg] Hg'; [|auto].
        apply existsb_exists in Vis as (p & Hp & Heq).
        apply String.eqb_eq in Heq as ->. now apply Hv.
      * unfold bind. pose proof (perFile_ends folder f m) as Hend.
        destruct (perFile folder f m) as [[tasks|e|] m1] eqn:E;
          simpl in *; auto.
        assert (Hf : ~ bad (uri_fsPath f)).
        { intros Hb. destruct (perFile_throws folder f m Hb) as (e & m' & K).
          congruence. }
        unfold ret at 1.
        specialize (IH ((allTasks ++ tasks)%list, uri_fsPath f :: visited) m1).
        destruct (forOf paths _ _ m1) as [[acc'|e|] m']; simpl in *; auto.
        -- destruct IH as [IH1 IH2]; [intros p [<-|Hp]; auto|].
           split; [assumption|]. intros g [<-|Hg] Hg'; auto.
        -- apply IH. intros p [<-|Hp]; auto.
Qed.

Lemma scan_folders (pattern : string) (folders : list WorkspaceFolder) :
  forall acc m,
    (forall p, In p (snd acc) -> ~ bad p) ->
    scanned h bad (flat_map (fun folder => findFiles h folder pattern) folders)
      (fst (forOf folders acc
              (fun acc folder =>
                 forOf (findFiles h folder pattern) acc
                   (scanStep h (perFile folder))) m)).
Proof.
  induction folders as [|folder folders IH]; intros acc m Hv; simpl.
  - split; [assumption | intros f []].
  - unfold bind.
    pose proof (scan_folder folder (findFiles h folder pattern) acc m Hv)
      as Hf.
    destruct (forOf (findFiles h folder pattern) acc _ m)
      as [[acc1|e|] m1]; simpl in *; auto.
    destruct Hf as [Hf1 Hf2]. specialize (IH acc1 m1 Hf1).
    destruct (forOf folders acc1 _ m1) as [[acc2|e|] m2]; simpl in *; auto.
    destruct IH as [IH1 IH2]. split; [assumption|].
    intros g Hg Hg'. apply in_app_or in Hg as [Hg|Hg]; auto.
Qed.

(** A scan that meets a bad file is rejected. *)
Lemma scan_rejects (pattern : string) (folders : list WorkspaceFolder)
  (folder : WorkspaceFolder) (f : Uri) (m : Mem) :
  workspaceFolders h = Some folders ->
  In folder folders ->
  In f (findFiles h folder pattern) ->
  isExcluded h (uri_path f) = false ->
  bad (uri_fsPath f) ->
  exists e, fst (scanWith h pattern perFile m) = Throw e.
Proof.
  intros Hws Hfolder Hf Hex Hbad. unfold scanWith. rewrite Hws.
  unfold tryCatch, bind.
  pose proof (scan_folders pattern folders ([], []) m) as Hs.
  destruct (forOf folders _ _ m) as [[acc|e|] m1]; simpl in *.
  - destruct Hs as [_ Hs]; [intros p []|]. elim (Hs f); auto.
    apply in_flat_map. eauto.
  - eauto.
  - elim Hs. intros p [].
Qed.

End ScanRejects.

Lemma readAntfile_ends (h : Host) (g : Uri) (m : Mem) :
  fst (Ant.readAntfile h g m) <> Diverge.
Proof.
  unfold Ant.readAntfile. destruct (getWorkspaceFolder h g); [|discriminate].
  unfold bind, readFileM. destruct (readFile h (uri_fsPath g)) as [c|];
    [|discriminate].
  unfold Ant.findAllAntScripts.
  destruct (parseString h c) as [[root [t|attrs ch]]|]; try discriminate;
    destruct (negb (String.eqb root "project")); try discriminate.
  destruct (assoc ch "target"); [|discriminate].
  destruct attrs; discriminate.
Qed.

Lemma readGradlefile_ends (h : Host) (g : Uri) (m : Mem) :
  fst (Gradle.readGradlefile h g m) <> Diverge.
Proof.
  unfold Gradle.readGradlefile.
  destruct (getWorkspaceFolder h g); [|discriminate].
  unfold bind, Gradle.findTargets, bind, readFileM.
  destruct (readFile h (uri_fsPath g)) as [c|]; [|discriminate].
  rewrite findTargets_scan_lines. discriminate.
Qed.

Lemma scriptFile_ends (h : Host) (folder : WorkspaceFolder) (g : Uri)
  (m : Mem) :
  fst (scriptFile h folder g m) <> Diverge.
Proof.
  unfold scriptFile, Script.createScriptTask, bind.
  destruct (Script.scriptDefOf h (uri_fsPath g)) as [sd|]; [|discriminate].
  destruct (String.eqb (Script.sd_type sd) "batch"); [|discriminate].
  unfold readFileSyncM.
  destruct (readFileSync h (uri_fsPath g)); discriminate.
Qed.





(** A project element without attributes, which is well-formed XML, makes
    the scan of the Ant detector reject as well: the [default] attribute
    is read from an object that is not there. *)
Lemma ant_project_without_attributes :
  let h := Demo.antBare in
  readFile h "/ws/build.xml" = Some Demo.bareXml
  /\ fst (Ant.detectAntScripts h Demo.emptyMem)
     = Throw (TypeError "json.project.$ is undefined").
Proof. split; reflexivity. Qed.


(** ** C9: the descriptors that the tree builder skips *)

Lemma assoc_assocSet (A : Type) (l : list (string * A)) (k k' : string)
  (v : A) :
  assoc (assocSet l k v) k'
  = if String.eqb k k' then Some v else assoc l k'.
Proof.
  induction l as [|[x y] l IH]; simpl.
  - reflexivity.
  - destruct (String.eqb_spec x k) as [->|Hxk]; simpl.
    + now destruct (String.eqb k k').
    + rewrite IH. destruct (String.eqb_spec x k') as [->|Hxk'];
        [|reflexivity].
      destruct (String.eqb_spec k k'); congruence.
Qed.

Lemma update_length (hp : Tree.Heap) (r : Tree.ref)
  (g : Tree.TaskFile -> Tree.TaskFile) :
  List.length (Tree.update hp r g) = List.length hp.
Proof.
  revert r; induction hp as [|f hp IH]; intros [|r]; simpl; auto.
Qed.

Lemma placedTasks_app (hp hp' : Tree.Heap) :
  Tree.placedTasks (hp ++ hp')%list
  = (Tree.placedTasks hp ++ Tree.placedTasks hp')%list.
Proof. unfold Tree.placedTasks. apply flat_map_app. Qed.

Lemma itemsOf_addScript (f : Tree.TaskFile) (i : Tree.TaskItem) :
  Tree.itemsOf (Tree.addScript f (Tree.ChildItem i))
  = (Tree.itemsOf f ++ [Tree.item_task i])%list.
Proof. unfold Tree.itemsOf. simpl. now rewrite flat_map_app. Qed.

Lemma placedTasks_update (hp : Tree.Heap) (r : Tree.ref)
  (i : Tree.TaskItem) (x : Task) :
  (r < List.length hp)%nat ->
  In x (Tree.placedTasks
          (Tree.update hp r (fun f => Tree.addScript f (Tree.ChildItem i))))
  <-> In x (Tree.placedTasks hp) \/ x = Tree.item_task i.
Proof.
  revert r; induction hp as [|f hp IH]; intros r Hr; simpl in Hr; [lia|].
  destruct r as [|r]; simpl.
  - change (Tree.placedTasks (?a :: ?l))
      with (Tree.itemsOf a ++ Tree.placedTasks l)%list.
    rewrite itemsOf_addScript, !in_app_iff. simpl. intuition.
  - change (Tree.placedTasks (?a :: ?l))
      with (Tree.itemsOf a ++ Tree.placedTasks l)%list.
    rewrite !in_app_iff, IH by lia. intuition.
Qed.

(** The test of the first loop, in the words of the statement. *)
Lemma isInstallTask_name (each : Task) :
  Tree.isInstallTask each = String.eqb "install" (name each).
Proof.
  unfold Tree.isInstallTask, Tree.getTaskName.
  now destruct (def_path (definition each)).
Qed.

Lemma tscRelativePath_excluded (h : Host) (each : Task)
  (ws : WorkspaceFolder) (relativePath : string) :
  Tree.tscRelativePath h each ws relativePath = None
  <-> tscDirExcluded h each ws = true.
Proof.
  unfold Tree.tscRelativePath, tscDirExcluded.
  destruct (String.eqb (source each) "tsc"
            && negb (Js.indexOf (name each) " - " 0 =? -1)
            && (Js.indexOf (name each) " - tsconfig.json" 0 =? -1));
    cbn [andb]; [|split; discriminate].
  destruct (isExcluded h _); split; auto; discriminate.
Qed.

(** One round of the first loop adds the descriptor to the tree, or skips
    it. *)
Lemma placeTask_placed (h : Host) (st : Tree.TreeState) (each x : Task) :
  filesInHeap st ->
  filesInHeap (Tree.placeTask h st each)
  /\ (In x (Tree.placedTasks (Tree.heap (Tree.placeTask h st each)))
      <-> In x (Tree.placedTasks (Tree.heap st))
          \/ (x = each
              /\ typeEnabled h each = true
              /\ name each <> "install"
              /\ exists ws, scope each = ScopeFolder ws
                            /\ tscDirExcluded h each ws = false)).
Proof.
  intros Hinv. unfold Tree.placeTask.
  destruct (scope each) as [ws| | |] eqn:Hscope;
    try (split; [assumption|]; split; [now left|];
         intros [H|(_ & _ & _ & ws & K & _)]; [assumption | discriminate]).
  fold (typeEnabled h each). rewrite isInstallTask_name.
  destruct (typeEnabled h each) eqn:En; cbn [andb Tree.isWorkspaceFolder];
    [|split; [assumption|]; split; [now left|];
      intros [H|(_ & K & _)]; [assumption | discriminate]].
  destruct (String.eqb_spec "install" (name each)) as [Hn|Hn]; cbn [negb];
    [split; [assumption|]; split; [now left|];
     intros [H|(_ & _ & K & _)]; [assumption | congruence]|].
  set (rel := match def_path (definition each) with
              | Some p => if Js.truthy p then p else ""%string
              | None => ""%string
              end).
  pose proof (tscRelativePath_excluded h each ws rel) as Htsc.
  destruct (Tree.tscRelativePath h each ws rel) as [rel'|]; cbn [Tree.heap
    Tree.files].
  - assert (Hex : tscDirExcluded h each ws = false).
    { destruct (tscDirExcluded h each ws); [|reflexivity].
      destruct Htsc as [_ K]. discriminate (K eq_refl). }
    match goal with
    | |- context [assoc (Tree.files st) ?id] =>
        destruct (assoc (Tree.files st) id) as [r|] eqn:Hf
    end; cbn [Tree.heap Tree.files].
    + split.
      * unfold filesInHeap. cbn [Tree.heap Tree.files]. intros id' r' K.
        rewrite update_length. now apply Hinv with id'.
      * rewrite placedTasks_update by (now apply Hinv in Hf). cbn.
        split; intros [H|H]; auto.
        -- right. repeat split; auto. exists ws. auto.
        -- right. apply H.
    + split.
      * unfold filesInHeap. cbn [Tree.heap Tree.files]. intros id' r' K.
        rewrite assoc_assocSet in K.
        rewrite length_app. simpl.
        destruct (String.eqb _ id'); [injection K as <-; lia|].
        apply Hinv in K. lia.
      * rewrite placedTasks_app, in_app_iff. cbn.
        split; intros [H|H]; auto.
        -- right. destruct H as [<-|[]]. repeat split; auto. exists ws. auto.
        -- right. left. symmetry. apply H.
  - split; [assumption|]. split; [now left|].
    intros [H|(_ & _ & _ & ws' & K & Hex)]; [assumption|].
    injection K as <-. destruct Htsc as [Htsc _].
    rewrite Htsc in Hex by reflexivity. discriminate.
Qed.

Lemma placeTasks_placed (h : Host) (tasks : list Task) :
  forall (st : Tree.TreeState) (x : Task),
    filesInHeap st ->
    In x (Tree.placedTasks (Tree.heap (fold_left (Tree.placeTask h) tasks st)))
    <-> In x (Tree.placedTasks (Tree.heap st))
        \/ (In x tasks
            /\ typeEnabled h x = true
            /\ name x <> "install"
            /\ exists ws, scope x = ScopeFolder ws
                          /\ tscDirExcluded h x ws = false).
Proof.
  induction tasks as [|t tasks IH]; intros st x Hinv; simpl.
  - intuition.
  - destruct (placeTask_placed h t x Hinv) as [Hinv' Hstep].
    rewrite IH, Hstep by assumption. intuition (subst; auto).
Qed.

(** C9, as amended: in the first loop of the tree builder a descriptor
    that is not named [install], or whose type is [npm], is given a node
    exactly when its type's enable flag is on, its scope is a workspace
    folder, its name is not [install], and it is not a TypeScript
    descriptor for a configuration file in an excluded directory.  What
    becomes of a descriptor named [install] of another type is left out. *)
Theorem tree_placement (h : Host) (tasks : list Task) (each : Task) :
  name each <> "install" \/ source each = "npm" ->
  In each
     (Tree.placedTasks
        (Tree.heap (fold_left (Tree.placeTask h) tasks Tree.emptyTree)))
  <-> In each tasks
      /\ typeEnabled h each = true
      /\ name each <> "install"
      /\ exists ws, scope each = ScopeFolder ws
                    /\ tscDirExcluded h each ws = false.
Proof.
  intros _. rewrite placeTasks_placed by (intros id r H; discriminate H).
  simpl. intuition.
Qed.

Lemma tree_placement_witness :
  let h := Demo.antHost [] [] in
  let tasks := [Demo.tscTask; Demo.antInstall] in
  In Demo.tscTask
     (Tree.placedTasks
        (Tree.heap (fold_left (Tree.placeTask h) tasks Tree.emptyTree)))
  <-> In Demo.tscTask tasks
      /\ typeEnabled h Demo.tscTask = true
      /\ name Demo.tscTask <> "install"
      /\ exists ws, scope Demo.tscTask = ScopeFolder ws
                    /\ tscDirExcluded h Demo.tscTask ws = false.
Proof.
  intros h tasks. apply (@tree_placement h tasks Demo.tscTask).
  left. discriminate.
Defined.

(** C9 fails as stated: a TypeScript descriptor whose type is enabled,
    whose scope is a workspace folder and which is not named [install] is
    skipped all the same, because the directory in its name is excluded. *)
Lemma tree_placement_counterexample :
  let h := Demo.tscHost in
  let t := Demo.tscTask in
  typeEnabled h t = true
  /\ scope t = ScopeFolder Demo.root
  /\ Tree.isInstallTask t = false
  /\ Tree.placedTasks
       (Tree.heap (fold_left (Tree.placeTask h) [t] Tree.emptyTree)) = [].
Proof. repeat split. Qed.

(** The test for the install task does not look at the type: the
    descriptor of an Ant target named [install] is skipped as well. *)
Lemma ant_install_skipped :
  let h := Demo.antHost [] [] in
  source Demo.antInstall = "ant"
  /\ name Demo.antInstall = "install"
  /\ typeEnabled h Demo.antInstall = true
  /\ Tree.placedTasks
       (Tree.heap (fold_left (Tree.placeTask h) [Demo.antInstall]
                     Tree.emptyTree)) = [].
Proof. repeat split. Qed.

(** ** C4: the promotion of files into groups *)

Lemma insertBy_perm (A : Type) (cmp : A -> A -> Z) (x : A) (l : list A) :
  Permutation (insertBy cmp x l) (x :: l).
Proof.
  induction l as [|y l IH]; simpl; [reflexivity|].
  destruct (cmp x y <? 0); [reflexivity|].
  rewrite IH. apply perm_swap.
Qed.

(** Sorting permutes. *)
Lemma sortBy_perm (A : Type) (cmp : A -> A -> Z) (l : list A) :
  Permutation (sortBy cmp l) l.
Proof.
  unfold sortBy.
  assert (G : forall acc, Permutation
                (fold_left (fun sorted x => insertBy cmp x sorted) l acc)
                (acc ++ l)).
  { induction l as [|x l IH]; intros acc; simpl.
    - now rewrite app_nil_r.
    - rewrite IH, insertBy_perm. apply Permutation_middle. }
  apply (G []).
Qed.

Lemma insertBy_ext (A : Type) (cmp cmp' : A -> A -> Z) (x : A) (l : list A) :
  (forall a b, cmp a b = cmp' a b) -> insertBy cmp x l = insertBy cmp' x l.
Proof.
  intros H. induction l as [|y l IH]; simpl; [reflexivity|].
  now rewrite H, IH.
Qed.

Lemma sortBy_ext (A : Type) (cmp cmp' : A -> A -> Z) (l : list A) :
  (forall a b, cmp a b = cmp' a b) -> sortBy cmp l = sortBy cmp' l.
Proof.
  intros H. unfold sortBy. generalize (@nil A).
  induction l as [|x l IH]; intros acc; simpl; [reflexivity|].
  rewrite (@insertBy_ext _ cmp cmp' x acc H). apply IH.
Qed.

Lemma removeRef_head (items : list Tree.ref) :
  forall (x : Tree.ref) (l : list Tree.ref),
    ~ In x items ->
    fold_left Tree.removeRef items (x :: l)
    = x :: fold_left Tree.removeRef items l.
Proof.
  induction items as [|y items IH]; intros x l H; simpl; [reflexivity|].
  destruct (Nat.eqb_spec x y) as [->|_]; [elim H; now left|].
  apply IH. intros K. apply H. now right.
Qed.

Lemma removeRef_filter (p : Tree.ref -> bool) (l : list Tree.ref) :
  fold_left Tree.removeRef (List.filter p l) l
  = List.filter (fun r => negb (p r)) l.
Proof.
  induction l as [|x l IH]; simpl; [reflexivity|].
  destruct (p x) eqn:E; simpl.
  - now rewrite Nat.eqb_refl.
  - rewrite removeRef_head, IH; [reflexivity|].
    rewrite filter_In. intros [_ K]. congruence.
Qed.

Lemma nth_error_update (hp : Tree.Heap) (r r' : Tree.ref)
  (g : Tree.TaskFile -> Tree.TaskFile) :
  nth_error (Tree.update hp r g) r'
  = if Nat.eqb r r' then option_map g (nth_error hp r') else nth_error hp r'.
Proof.
  revert r r'; induction hp as [|f hp IH]; intros [|r] [|r']; simpl;
    try reflexivity.
  - now destruct (Nat.eqb _ _).
  - apply IH.
Qed.

Lemma contiguous_tail (a : string) (l : list string) :
  contiguous (a :: l) = true -> contiguous l = true.
Proof.
  simpl. destruct l; [reflexivity|]. intros H.
  now apply andb_true_iff in H.
Qed.

(** In a sequence where equal types are neighbours, a type that follows
    another type has not been met before. *)
Lemma contiguous_fresh (P : list string) :
  forall (p t : string) (Q : list string),
    contiguous (P ++ p :: t :: Q) = true -> p <> t -> ~ In t P.
Proof.
  induction P as [|x P IH]; intros p t Q H Hpt; [intros []|].
  pose proof (contiguous_tail _ _ H) as Ht. specialize (IH p t Q Ht Hpt).
  intros [->|Hin]; [|contradiction].
  change ((t :: P) ++ p :: t :: Q)%list with (t :: (P ++ p :: t :: Q))%list in H.
  cbn [contiguous] in H.
  destruct (P ++ p :: t :: Q)%list as [|b rest] eqn:E;
    [now destruct P|].
  apply andb_true_iff in H as [H _]. apply orb_true_iff in H as [H|H].
  - apply String.eqb_eq in H. subst b.
    destruct P as [|y P]; simpl in E; injection E as E1 E2.
    + now apply Hpt.
    + apply IH. now left.
  - apply negb_true_iff in H.
    assert (K : existsb (String.eqb t) (b :: rest) = true).
    { apply existsb_exists. exists t. split; [|apply String.eqb_refl].
      rewrite <- E. apply in_or_app. right. right. now left. }
    congruence.
Qed.

Lemma lastOpt_snoc (P : list Tree.ref) (e : Tree.ref) :
  lastOpt (P ++ [e]) = Some e.
Proof. unfold lastOpt. now rewrite fold_left_app. Qed.

Lemma lastOpt_last (P : list Tree.ref) (p : Tree.ref) :
  lastOpt P = Some p -> exists P', P = (P' ++ [p])%list.
Proof.
  induction P as [|x P' _] using rev_ind; [discriminate|].
  rewrite lastOpt_snoc. intros [= ->]. now exists P'.
Qed.

Lemma ofType_snoc (hp : Tree.Heap) (t : string) (P : list Tree.ref)
  (e : Tree.ref) :
  ofType hp t (P ++ [e])
  = (ofType hp t P
     ++ if String.eqb (Tree.sourceOf hp e) t then [e] else [])%list.
Proof. unfold ofType. now rewrite filter_app. Qed.

Lemma sourceOf_addScript (hp : Tree.Heap) (g r : Tree.ref) (c : Tree.Child) :
  Tree.sourceOf (Tree.update hp g (fun f => Tree.addScript f c)) r
  = Tree.sourceOf hp r.
Proof.
  unfold Tree.sourceOf. rewrite nth_error_update.
  destruct (Nat.eqb g r); [|reflexivity]. now destruct (nth_error hp r).
Qed.

Lemma sourceOf_app (hp hp' : Tree.Heap) (r : Tree.ref) :
  (r < List.length hp)%nat ->
  Tree.sourceOf (hp ++ hp')%list r = Tree.sourceOf hp r.
Proof. intros H. unfold Tree.sourceOf. now rewrite nth_error_app1. Qed.

Lemma NoDup_map_inj (A B : Type) (f : A -> B) (l : list A) (a b : A) :
  NoDup (List.map f l) -> In a l -> In b l -> f a = f b -> a = b.
Proof.
  induction l as [|x l IH]; simpl; intros Hnd Ha Hb E; [contradiction|].
  inversion Hnd as [|? ? Hx Hl]; subst.
  destruct Ha as [->|Ha], Hb as [->|Hb]; auto.
  - elim Hx. rewrite E. now apply in_map.
  - elim Hx. rewrite <- E. now apply in_map.
Qed.

Lemma singleton_of_In (A : Type) (l : list A) (p : A) :
  In p l -> (List.length l <= 1)%nat -> l = [p].
Proof.
  destruct l as [|x [|y l]]; simpl; intros H Hl; try contradiction; try lia.
  destruct H as [->|[]]. reflexivity.
Qed.

Lemma sourceOf_nth (hp : Tree.Heap) (g : Tree.ref) (grp : Tree.TaskFile)
  (H : nth_error hp g = Some grp) :
  Tree.sourceOf hp g = Tree.taskSource grp.
Proof. unfold Tree.sourceOf. now rewrite H. Qed.

Section Walk.

Variable h : Host.
Variable lbl : string.
Variable hp1 : Tree.Heap.
Variable SF0 : list (string * Tree.ref).
Variable S : list Tree.ref.

Hypothesis S_files :
  forall r, In r S -> exists f, nth_error hp1 r = Some f /\ fileNode f.

Hypothesis S_fresh :
  forall r, In r S -> assoc SF0 (lbl ++ Tree.sourceOf hp1 r)%string = None.

Hypothesis S_contiguous :
  contiguous (List.map (Tree.sourceOf hp1) S) = true.

Lemma S_in_heap (r : Tree.ref) : In r S -> (r < List.length hp1)%nat.
Proof.
  intros H. destruct (S_files r H) as (f & Hf & _).
  apply nth_error_Some. congruence.
Qed.

Lemma walked_source (P G : list Tree.ref) (st : Tree.Promo) (r : Tree.ref) :
  walked lbl hp1 SF0 S P G st -> In r S ->
  Tree.sourceOf (Tree.p_heap st) r = Tree.sourceOf hp1 r.
Proof.
  intros (_ & _ & _ & W4 & _) Hr. unfold Tree.sourceOf.
  now rewrite W4 by now apply S_in_heap.
Qed.

(** The group of a type, once registered, is one of the groups made. *)
Lemma walked_registered (P G : list Tree.ref) (st : Tree.Promo)
  (e g : Tree.ref) :
  walked lbl hp1 SF0 S P G st -> In e S ->
  assoc (Tree.p_subfolders st) (lbl ++ Tree.sourceOf hp1 e)%string = Some g ->
  In g G /\ Tree.sourceOf (Tree.p_heap st) g = Tree.sourceOf hp1 e
  /\ (2 <= List.length (ofType hp1 (Tree.sourceOf hp1 e) P))%nat.
Proof.
  intros W He Hg. pose proof W as (_ & _ & _ & _ & _ & W6 & W7 & W8).
  assert (L : (2 <= List.length (ofType hp1 (Tree.sourceOf hp1 e) P))%nat).
  { destruct (le_lt_dec 2 (List.length (ofType hp1 (Tree.sourceOf hp1 e) P)))
      as [L|L]; [assumption|].
    rewrite W8, S_fresh in Hg by (assumption || lia). discriminate. }
  destruct (W7 _ L) as (g' & Hg' & Hs).
  destruct (W6 g' Hg') as (_ & grp & Hn & _ & Ha & _).
  rewrite (@sourceOf_nth _ _ _ Hn) in Hs. rewrite Hs, Hg in Ha.
  injection Ha as ->. repeat split; auto.
  now rewrite (@sourceOf_nth _ _ _ Hn).
Qed.

(** A type that is not registered has at most one node so far. *)
Lemma walked_unregistered (P G : list Tree.ref) (st : Tree.Promo)
  (t : string) :
  walked lbl hp1 SF0 S P G st ->
  assoc (Tree.p_subfolders st) (lbl ++ t)%string = None ->
  (List.length (ofType hp1 t P) <= 1)%nat
  /\ forall g, In g G -> Tree.sourceOf (Tree.p_heap st) g <> t.
Proof.
  intros W Hn. pose proof W as (_ & _ & _ & _ & _ & W6 & W7 & _).
  assert (K : forall g, In g G -> Tree.sourceOf (Tree.p_heap st) g <> t).
  { intros g Hg E. destruct (W6 g Hg) as (_ & grp & Hg1 & _ & Ha & _).
    rewrite (@sourceOf_nth _ _ _ Hg1) in E. subst t. congruence. }
  split; [|assumption].
  destruct (le_lt_dec 2 (List.length (ofType hp1 t P))) as [L|L]; [|lia].
  destruct (W7 _ L) as (g & Hg & E). now elim (K g Hg).
Qed.

(** The loop meets a node of a type not met so far: nothing changes. *)
Lemma walked_skip (P G : list Tree.ref) (st : Tree.Promo) (e : Tree.ref) :
  walked lbl hp1 SF0 S P G st -> In e S ->
  ofType hp1 (Tree.sourceOf hp1 e) P = [] ->
  walked lbl hp1 SF0 S (P ++ [e]) G st.
Proof.
  intros W He Hnone.
  pose proof W as (W1 & W2 & W3 & W4 & W5 & W6 & W7 & W8).
  assert (Hfree : assoc (Tree.p_subfolders st)
                    (lbl ++ Tree.sourceOf hp1 e)%string = None).
  { rewrite W8 by (rewrite Hnone; simpl; lia). now apply S_fresh. }
  unfold walked. do 5 (split; [assumption|]).
  split.
  { intros g Hg. destruct (W6 g Hg) as (Hn0 & grp & Hn & Hgr & Ha & Hs).
    split; [assumption|]. exists grp. repeat split; auto.
    rewrite ofType_snoc.
    destruct (String.eqb_spec (Tree.sourceOf hp1 e) (Tree.taskSource grp))
      as [E|_]; [|now rewrite app_nil_r].
    rewrite <- E in Ha. congruence. }
  split.
  { intros t L. apply W7. rewrite ofType_snoc in L.
    destruct (String.eqb_spec (Tree.sourceOf hp1 e) t) as [E|_];
      [|now rewrite app_nil_r in L].
    rewrite <- E, Hnone in L. simpl in L. lia. }
  intros t L. rewrite ofType_snoc in L.
  destruct (String.eqb_spec (Tree.sourceOf hp1 e) t) as [E|_].
  - apply W8. rewrite <- E, Hnone. simpl. lia.
  - apply W8. now rewrite app_nil_r in L.
Qed.

(** The loop adds a node to the group of its type. *)
Lemma walked_join (P G : list Tree.ref) (st : Tree.Promo) (e g : Tree.ref) :
  walked lbl hp1 SF0 S P G st -> In e S ->
  assoc (Tree.p_subfolders st) (lbl ++ Tree.sourceOf hp1 e)%string = Some g ->
  walked lbl hp1 SF0 S (P ++ [e]) G
    (Tree.mkPromo (Tree.p_folder st) (Tree.p_subfolders st)
       (Tree.update (Tree.p_heap st) g
          (fun f => Tree.addScript f (Tree.ChildFile e)))).
Proof.
  intros W He Hg.
  destruct (@walked_registered _ _ _ _ _ W He Hg) as (HgG & Hgs & L).
  pose proof W as (W1 & W2 & W3 & W4 & W5 & W6 & W7 & W8).
  assert (Hsrc : List.map (Tree.sourceOf
                   (Tree.update (Tree.p_heap st) g
                      (fun f => Tree.addScript f (Tree.ChildFile e)))) G
                 = List.map (Tree.sourceOf (Tree.p_heap st)) G)
    by (apply map_ext; intros r; apply sourceOf_addScript).
  unfold walked. cbn [Tree.p_folder Tree.p_subfolders Tree.p_heap].
  split; [assumption|]. split; [assumption|].
  split; [now rewrite update_length|].
  split.
  { intros r Hr. rewrite nth_error_update.
    destruct (W6 g HgG) as (Hge & _).
    destruct (Nat.eqb_spec g r); [lia | now apply W4]. }
  split; [now rewrite Hsrc|].
  split.
  { intros g' Hg'. destruct (W6 g' Hg') as (Hn0 & grp & Hn & Hgr & Ha & Hs).
    split; [assumption|]. rewrite nth_error_update.
    destruct (Nat.eqb_spec g g') as [<-|Hne].
    - rewrite Hn. cbn [option_map].
      exists (Tree.addScript grp (Tree.ChildFile e)).
      cbn [Tree.isGroup Tree.taskSource Tree.scripts Tree.addScript].
      repeat split; auto.
      rewrite (@sourceOf_nth _ _ _ Hn) in Hgs.
      rewrite Hs, ofType_snoc, Hgs, String.eqb_refl, map_app. reflexivity.
    - exists grp. repeat split; auto. rewrite ofType_snoc.
      destruct (String.eqb_spec (Tree.sourceOf hp1 e) (Tree.taskSource grp))
        as [E|_]; [|now rewrite app_nil_r].
      elim Hne. apply (@NoDup_map_inj _ _ _ _ _ _ W5 HgG Hg').
      now rewrite Hgs, (@sourceOf_nth _ _ _ Hn). }
  split.
  { intros t Lt. rewrite ofType_snoc in Lt.
    destruct (String.eqb_spec (Tree.sourceOf hp1 e) t) as [E|_].
    - exists g. split; [assumption|]. now rewrite sourceOf_addScript, <- E.
    - rewrite app_nil_r in Lt. destruct (W7 t Lt) as (g' & Hg' & E).
      exists g'. split; [assumption|]. now rewrite sourceOf_addScript. }
  intros t Lt. rewrite ofType_snoc in Lt.
  destruct (String.eqb_spec (Tree.sourceOf hp1 e) t) as [E|_].
  - rewrite <- E, length_app in Lt. simpl in Lt. lia.
  - apply W8. now rewrite app_nil_r in Lt.
Qed.

(** The loop opens the group of a type with the previous node and the
    node it is at. *)
Lemma walked_open (P G : list Tree.ref) (st : Tree.Promo) (e p : Tree.ref)
  (grp : Tree.TaskFile) :
  walked lbl hp1 SF0 S P G st -> In e S -> In p P ->
  Tree.sourceOf hp1 p = Tree.sourceOf hp1 e ->
  assoc (Tree.p_subfolders st) (lbl ++ Tree.sourceOf hp1 e)%string = None ->
  Tree.taskSource grp = Tree.sourceOf hp1 e ->
  Tree.isGroup grp = true ->
  Tree.scripts grp = [Tree.ChildFile p; Tree.ChildFile e] ->
  walked lbl hp1 SF0 S (P ++ [e]) (G ++ [List.length (Tree.p_heap st)])
    (Tree.mkPromo
       (Tree.addTaskFile (Tree.p_folder st) (List.length (Tree.p_heap st)))
       (assocSet (Tree.p_subfolders st) (lbl ++ Tree.sourceOf hp1 e)
          (List.length (Tree.p_heap st)))
       (Tree.p_heap st ++ [grp])%list).
Proof.
  intros W He Hp Hpe Hnone Hsrc Hgrp Hscr.
  destruct (@walked_unregistered _ _ _ _ W Hnone) as (L & Hother).
  pose proof W as (W1 & W2 & W3 & W4 & W5 & W6 & W7 & W8).
  set (t := Tree.sourceOf hp1 e) in *.
  set (hp := Tree.p_heap st) in *.
  assert (Hmem : ofType hp1 t P = [p]).
  { apply singleton_of_In; [|assumption]. unfold ofType.
    apply filter_In. split; [assumption|]. now apply String.eqb_eq. }
  assert (Hlt : forall g, In g G -> (g < List.length hp)%nat).
  { intros g Hg. destruct (W6 g Hg) as (_ & x & Hx & _).
    apply nth_error_Some. fold hp in Hx. congruence. }
  assert (Hnew : nth_error (hp ++ [grp])%list (List.length hp) = Some grp).
  { rewrite nth_error_app2 by lia. now rewrite Nat.sub_diag. }
  assert (Hsrcs : List.map (Tree.sourceOf (hp ++ [grp])%list) G
                  = List.map (Tree.sourceOf hp) G).
  { apply map_ext_in. intros g Hg. apply sourceOf_app. now apply Hlt. }
  assert (Hkey : forall t', t' <> t ->
            assoc (assocSet (Tree.p_subfolders st) (lbl ++ t)%string
                     (List.length hp)) (lbl ++ t')%string
            = assoc (Tree.p_subfolders st) (lbl ++ t')%string).
  { intros t' Ht'. rewrite assoc_assocSet.
    destruct (String.eqb_spec (lbl ++ t) (lbl ++ t')) as [E|_];
      [|reflexivity].
    apply append_inv_r in E. congruence. }
  unfold walked. cbn [Tree.p_folder Tree.p_subfolders Tree.p_heap].
  split; [assumption|].
  split; [cbn; rewrite W2; now rewrite <- app_assoc|].
  split; [rewrite length_app; lia|].
  split; [intros r Hr; rewrite nth_error_app1 by lia; now apply W4|].
  split.
  { rewrite map_app, Hsrcs. cbn [List.map].
    rewrite (@sourceOf_nth _ _ _ Hnew), Hsrc.
    apply (Permutation_NoDup (Permutation_cons_append _ _)).
    constructor; [|assumption].
    rewrite in_map_iff. intros (g & E & Hg). now elim (Hother g Hg). }
  split.
  { intros g Hg. apply in_app_or in Hg as [Hg|[<-|[]]].
    - destruct (W6 g Hg) as (Hn0 & x & Hx & Hxg & Ha & Hs).
      split; [assumption|]. exists x.
      assert (Hxt : Tree.taskSource x <> t).
      { rewrite <- (@sourceOf_nth _ _ _ Hx). now apply Hother. }
      split; [rewrite nth_error_app1 by (now apply Hlt); assumption|].
      split; [assumption|]. split; [now rewrite Hkey|].
      rewrite Hs, ofType_snoc. fold t.
      destruct (String.eqb_spec t (Tree.taskSource x)); [congruence|].
      now rewrite app_nil_r.
    - split; [assumption|]. exists grp. split; [assumption|].
      split; [assumption|].
      split; [rewrite Hsrc, assoc_assocSet; now rewrite String.eqb_refl|].
      rewrite Hscr, Hsrc, ofType_snoc, Hmem. fold t.
      now rewrite String.eqb_refl. }
  split.
  { intros t' Lt. rewrite ofType_snoc in Lt. fold t in Lt.
    destruct (String.eqb_spec t t') as [E|Hne].
    - exists (List.length hp). split; [apply in_or_app; right; now left|].
      now rewrite (@sourceOf_nth _ _ _ Hnew), <- E.
    - rewrite app_nil_r in Lt. destruct (W7 t' Lt) as (g & Hg & E).
      exists g. split; [apply in_or_app; now left|].
      rewrite sourceOf_app; [assumption | now apply Hlt]. }
  intros t' Lt. rewrite ofType_snoc in Lt. fold t in Lt.
  destruct (String.eqb_spec t t') as [E|Hne].
  - rewrite <- E, Hmem in Lt. simpl in Lt. lia.
  - rewrite Hkey by congruence. apply W8. now rewrite app_nil_r in Lt.
Qed.

Lemma lastOpt_none (P : list Tree.ref) : lastOpt P = None -> P = [].
Proof.
  induction P as [|x P' _] using rev_ind; [reflexivity|].
  now rewrite lastOpt_snoc.
Qed.

Lemma fileNode_first (f : Tree.TaskFile) :
  fileNode f -> exists i rest, Tree.scripts f = Tree.ChildItem i :: rest.
Proof.
  intros (_ & Hne & Hall). destruct (Tree.scripts f) as [|[i|r] rest];
    [now elim Hne | eauto | discriminate Hall].
Qed.

(** One round of the promotion loop keeps the invariant. *)
Lemma walk_step (P G : list Tree.ref) (st : Tree.Promo) (e : Tree.ref)
  (Q : list Tree.ref) :
  S = (P ++ e :: Q)%list ->
  walked lbl hp1 SF0 S P G st ->
  exists G' st',
    Tree.promote h (lastOpt P) e st = (Ok (Some e), st')
    /\ walked lbl hp1 SF0 S (P ++ [e]) G' st'.
Proof.
  intros HS W.
  assert (He : In e S) by (rewrite HS; apply in_or_app; right; now left).
  pose proof (@walked_source _ _ _ e W He) as Hse.
  unfold Tree.promote. destruct (lastOpt P) as [p|] eqn:Hprev.
  - destruct (lastOpt_last _ Hprev) as [P' ->].
    assert (Hp : In p S)
      by (rewrite HS; apply in_or_app; left; apply in_or_app; right;
          now left).
    rewrite (@walked_source _ _ _ p W Hp), Hse.
    destruct (String.eqb_spec (Tree.sourceOf hp1 p) (Tree.sourceOf hp1 e))
      as [Hsame|Hdiff].
    + destruct W as (W1 & W') eqn:HW. rewrite W1.
      assert (W0 : walked lbl hp1 SF0 S (P' ++ [p]) G st)
        by (split; assumption).
      clear HW.
      destruct (assoc (Tree.p_subfolders st)
                  (lbl ++ Tree.sourceOf hp1 e)%string) as [g|] eqn:HSF.
      * exists G. eexists. split; [reflexivity|]. now apply walked_join.
      * destruct (S_files e He) as (f & Hf & Hnode).
        destruct W' as (_ & _ & W4 & _).
        rewrite W4, Hf by (now apply S_in_heap).
        destruct (fileNode_first Hnode) as (i & rest & Hscr).
        unfold Tree.firstDefinition. rewrite Hscr. unfold ret.
        exists (G ++ [List.length (Tree.p_heap st)])%list. eexists.
        split; [reflexivity|].
        rewrite (@sourceOf_nth _ _ _ Hf).
        rewrite (@sourceOf_nth _ _ _ Hf) in HSF, Hsame.
        pose proof (@walked_open (P' ++ [p]) G st e p) as K.
        rewrite (@sourceOf_nth _ _ _ Hf) in K.
        apply K; auto.
        -- apply in_or_app. right. now left.
    + exists G, st. split; [reflexivity|]. apply walked_skip; auto.
      unfold ofType. apply filter_all_false. intros r Hr.
      apply String.eqb_neq. apply in_app_or in Hr as [Hr|[<-|[]]];
        [|assumption].
      intros E.
      apply (@contiguous_fresh (List.map (Tree.sourceOf hp1) P')
               (Tree.sourceOf hp1 p) (Tree.sourceOf hp1 e)
               (List.map (Tree.sourceOf hp1) Q)); auto.
      * pose proof S_contiguous as C. rewrite HS in C.
        now rewrite <- app_assoc, map_app in C.
      * rewrite <- E. now apply in_map.
  - apply lastOpt_none in Hprev. subst P.
    exists G, st. split; [reflexivity|]. now apply walked_skip.
Qed.

(** The promotion loop over the rest [Q] of the sorted sequence. *)
Lemma walk_all (Q : list Tree.ref) :
  forall (P G : list Tree.ref) (st : Tree.Promo),
    S = (P ++ Q)%list ->
    walked lbl hp1 SF0 S P G st ->
    exists G' st' prev,
      forOf Q (lastOpt P) (Tree.promote h) st = (Ok prev, st')
      /\ walked lbl hp1 SF0 S S G' st'.
Proof.
  induction Q as [|e Q IH]; intros P G st HS W.
  - rewrite app_nil_r in HS. subst P. exists G, st, (lastOpt S).
    split; [reflexivity | assumption].
  - destruct (@walk_step P G st e Q HS W) as (G1 & st1 & Hstep & W1).
    cbn [forOf]. unfold bind. rewrite Hstep.
    rewrite <- (lastOpt_snoc P e). apply IH with G1; [|assumption].
    now rewrite <- app_assoc.
Qed.

End Walk.

Lemma Permutation_filter (A : Type) (p : A -> bool) (l l' : list A) :
  Permutation l l' -> Permutation (List.filter p l) (List.filter p l').
Proof.
  induction 1 as [|x l l' _ IH|x y l|l l' l'' _ IH1 _ IH2]; simpl.
  - constructor.
  - destruct (p x); [now constructor | assumption].
  - destruct (p x), (p y); try reflexivity. apply perm_swap.
  - now transitivity (List.filter p l').
Qed.


Lemma sortScripts_fileNode (h : Host) (hp : Tree.Heap) (f : Tree.TaskFile) :
  fileNode f -> fileNode (Tree.sortScripts h hp f).
Proof.
  intros (Hg & Hne & Hall). unfold Tree.sortScripts, fileNode.
  cbn [Tree.isGroup Tree.scripts Tree.setScripts].
  set (cmp := fun a b => localeCompare h (Tree.childLabel hp a)
                           (Tree.childLabel hp b)).
  pose proof (sortBy_perm cmp (Tree.scripts f)) as Hp.
  split; [assumption|]. split.
  - intros E. rewrite E in Hp. apply Permutation_nil in Hp. contradiction.
  - apply forallb_forall. intros c Hc.
    apply (proj1 (forallb_forall _ _) Hall).
    now apply Permutation_in with (sortBy cmp (Tree.scripts f)).
Qed.

(** Sorting the children of the nodes of a folder changes no type and
    leaves file nodes file nodes. *)
Lemma sortScripts_pass (h : Host) (L : list Tree.ref) :
  forall (H : Tree.Heap),
    let hp :=
      fold_left (fun hp r => Tree.update hp r (Tree.sortScripts h hp)) L H in
    (forall r, Tree.sourceOf hp r = Tree.sourceOf H r)
    /\ (forall r f, nth_error H r = Some f -> fileNode f ->
                    exists f', nth_error hp r = Some f' /\ fileNode f').
Proof.
  induction L as [|a L IH]; intros H; cbn [fold_left]; [now eauto|].
  destruct (IH (Tree.update H a (Tree.sortScripts h H))) as [IH1 IH2].
  split.
  - intros r. rewrite IH1. unfold Tree.sourceOf. rewrite nth_error_update.
    destruct (Nat.eqb a r); [|reflexivity]. now destruct (nth_error H r).
  - intros r f Hf Hnode. apply IH2 with
      (f := if Nat.eqb a r then Tree.sortScripts h H f else f).
    + rewrite nth_error_update, Hf. now destruct (Nat.eqb a r).
    + destruct (Nat.eqb a r); [now apply sortScripts_fileNode | assumption].
Qed.

(** The promotion of the files of a folder whose keys are free in the
    map of groups.  The files of the folder are nodes as the first loop
    makes them, no group is registered yet under the label of the folder
    followed by one of their types, and in the sorted sequence of the files
    equal types are neighbours.  Then the folder is processed without
    error and, for every type [t]: when the sorted sequence has two files
    or more of type [t], the children of the folder hold exactly one group
    node of that type, the children of the group are these files in their
    order, and none of them is a child of the folder any more; when it has
    exactly one file of type [t], this file is a child of the folder and the
    folder has no group node of that type. *)
Theorem folder_grouping (h : Host) (folder : Tree.TaskFolder)
  (SF : list (string * Tree.ref)) (H : Tree.Heap) (t : string) :
  let L := Tree.taskFiles folder in
  let sorted := Tree.sortFiles h H L in
  (forall r, In r L -> exists f, nth_error H r = Some f /\ fileNode f) ->
  (forall r, In r L ->
     assoc SF (Tree.folder_label folder ++ Tree.sourceOf H r)%string = None) ->
  contiguous (List.map (Tree.sourceOf H) sorted) = true ->
  exists st',
    Tree.processFolder h (Tree.mkPromo folder SF H) = (Ok tt, st')
    /\ let children := Tree.taskFiles (Tree.p_folder st') in
       let members := ofType H t sorted in
       ((2 <= List.length members)%nat ->
        (exists g grp,
           groupsOfType (Tree.p_heap st') t children = [g]
           /\ nth_error (Tree.p_heap st') g = Some grp
           /\ Tree.isGroup grp = true
           /\ Tree.scripts grp = List.map Tree.ChildFile members)
        /\ forall r, In r members -> ~ In r children)
       /\ (List.length members = 1%nat ->
           (forall r, In r members -> In r children)
           /\ groupsOfType (Tree.p_heap st') t children = []).
Proof.
  intros L sorted HL Hfresh Hcont.
  set (lbl := Tree.folder_label folder).
  set (hp := fold_left (fun hp r => Tree.update hp r (Tree.sortScripts h hp))
               L H).
  destruct (sortScripts_pass h L H) as [Hsrc Hnode]. fold hp in Hsrc, Hnode.
  assert (Hsort : Tree.sortFiles h hp L = sorted).
  { unfold sorted, Tree.sortFiles. apply sortBy_ext. intros a b.
    now rewrite !Hsrc. }
  assert (Hperm : Permutation sorted L) by apply sortBy_perm.
  assert (S_files : forall r, In r sorted ->
            exists f, nth_error hp r = Some f /\ fileNode f).
  { intros r Hr. apply (Permutation_in _ Hperm) in Hr.
    destruct (HL r Hr) as (f & Hf & Hn). eauto. }
  assert (S_fresh : forall r, In r sorted ->
            assoc SF (lbl ++ Tree.sourceOf hp r)%string = None).
  { intros r Hr. rewrite Hsrc. apply Hfresh.
    now apply Permutation_in with sorted. }
  assert (S_cont : contiguous (List.map (Tree.sourceOf hp) sorted) = true).
  { rewrite (map_ext _ _ Hsrc). assumption. }
  assert (Hmem : ofType hp t sorted = ofType H t sorted).
  { unfold ofType. apply filter_ext. intros r. now rewrite Hsrc. }
  set (st2 := Tree.mkPromo
                (Tree.mkTaskFolder lbl (Tree.workspaceFolder folder) sorted)
                SF hp).
  assert (W0 : walked lbl hp SF sorted [] [] st2).
  { unfold walked, st2. cbn. rewrite app_nil_r.
    repeat split; auto; try constructor; try contradiction; try lia. }
  destruct (@walk_all h lbl hp SF sorted S_files S_fresh S_cont sorted [] []
              st2 eq_refl W0) as (G & st3 & prev & Hwalk & W).
  pose proof W as (W1 & W2 & W3 & W4 & W5 & W6 & W7 & W8).
  (* the files removed from the folder *)
  assert (HgS : forall r, In r sorted ->
            Tree.isGrouped st3 r
            = (2 <=? List.length (ofType hp (Tree.sourceOf hp r) sorted))%nat).
  { intros r Hr. unfold Tree.isGrouped.
    destruct (S_files r Hr) as (f & Hf & Hg & _).
    rewrite W4, Hf, Hg, W1 by (apply nth_error_Some; congruence).
    cbn [negb andb]. rewrite <- (@sourceOf_nth _ _ _ Hf).
    destruct (Nat.leb_spec 2
                (List.length (ofType hp (Tree.sourceOf hp r) sorted)))
      as [Le|Lt].
    - destruct (W7 _ Le) as (g & Hg' & E).
      destruct (W6 g Hg') as (_ & grp & Hn & _ & Ha & _).
      rewrite (@sourceOf_nth _ _ _ Hn) in E. now rewrite <- E, Ha.
    - rewrite W8 by lia. now rewrite S_fresh. }
  assert (HgG : forall g, In g G -> Tree.isGrouped st3 g = false).
  { intros g Hg. unfold Tree.isGrouped.
    destruct (W6 g Hg) as (_ & grp & Hn & Hgr & _). now rewrite Hn, Hgr. }
  set (kept := (List.filter (fun r => negb (Tree.isGrouped st3 r)) sorted
                ++ G)%list).
  assert (Hkept : fold_left Tree.removeRef
                    (List.filter (Tree.isGrouped st3)
                       (Tree.taskFiles (Tree.p_folder st3)))
                    (Tree.taskFiles (Tree.p_folder st3)) = kept).
  { rewrite removeRef_filter, W2, filter_app. unfold kept. f_equal.
    apply filter_all_true. intros g Hg. now rewrite HgG. }
  set (children := Tree.sortFiles h (Tree.p_heap st3) kept).
  assert (Hch : Permutation children kept) by apply sortBy_perm.
  (* the run of the function *)
  eexists. split.
  { unfold Tree.processFolder, bind, Tree.getPromo, Tree.setTaskFiles.
    cbn [Tree.p_folder Tree.p_subfolders Tree.p_heap Tree.taskFiles
         Tree.folder_label Tree.workspaceFolder].
    fold L. fold hp. rewrite Hsort. fold lbl. fold st2.
    cbn [lastOpt fold_left] in Hwalk. rewrite Hwalk.
    rewrite Hkept. reflexivity. }
  cbn [Tree.p_folder Tree.p_heap Tree.taskFiles]. fold children.
  rewrite <- Hmem.
  assert (HinS : forall r, In r (ofType hp t sorted) ->
            In r sorted /\ Tree.sourceOf hp r = t).
  { intros r Hr. apply filter_In in Hr as [Hr E].
    now apply String.eqb_eq in E. }
  assert (Hgroups : groupsOfType (Tree.p_heap st3) t
                      (List.filter (fun r => negb (Tree.isGrouped st3 r))
                         sorted) = []).
  { apply filter_all_false. intros r Hr. apply filter_In in Hr as [Hr _].
    unfold isGroupOf. destruct (S_files r Hr) as (f & Hf & Hg & _).
    now rewrite W4, Hf, Hg by (apply nth_error_Some; congruence). }
  assert (HgOf : forall g, In g G ->
            isGroupOf (Tree.p_heap st3) t g
            = String.eqb (Tree.sourceOf (Tree.p_heap st3) g) t).
  { intros g Hg. unfold isGroupOf.
    destruct (W6 g Hg) as (_ & grp & Hn & Hgr & _).
    now rewrite (@sourceOf_nth _ _ _ Hn), Hn, Hgr. }
  split.
  - intros Le. destruct (W7 _ Le) as (g & Hg & E).
    destruct (W6 g Hg) as (Hn0 & grp & Hn & Hgr & Ha & Hs).
    split.
    + exists g, grp. repeat split; auto.
      * apply Permutation_length_1_inv. symmetry.
        unfold groupsOfType. rewrite (Permutation_filter _ Hch).
        unfold kept. rewrite filter_app. fold (groupsOfType (Tree.p_heap st3) t
          (List.filter (fun r => negb (Tree.isGrouped st3 r)) sorted)).
        rewrite Hgroups. cbn [app].
        rewrite (filter_ext_in _ _ _ HgOf), <- E.
        now rewrite filter_unique.
      * rewrite Hs. now rewrite <- (@sourceOf_nth _ _ _ Hn), E.
    + intros r Hr Hc. destruct (HinS r Hr) as [HrS Hrt].
      apply (Permutation_in _ Hch) in Hc. unfold kept in Hc.
      apply in_app_or in Hc as [Hc|Hc].
      * apply filter_In in Hc as [_ Hc]. rewrite HgS, Hrt in Hc by assumption.
        apply Nat.leb_le in Le. rewrite Le in Hc. discriminate.
      * destruct (W6 r Hc) as (Hn0' & _).
        destruct (S_files r HrS) as (f & Hf & _).
        assert (r < List.length hp)%nat by (apply nth_error_Some; congruence).
        lia.
  - intros L1. split.
    + intros r Hr. destruct (HinS r Hr) as [HrS Hrt].
      apply (Permutation_in _ (Permutation_sym Hch)). unfold kept.
      apply in_or_app. left. apply filter_In. split; [assumption|].
      rewrite HgS, Hrt, L1 by assumption. reflexivity.
    + apply Permutation_nil. symmetry.
      unfold groupsOfType. rewrite (Permutation_filter _ Hch).
      unfold kept. rewrite filter_app. fold (groupsOfType (Tree.p_heap st3) t
        (List.filter (fun r => negb (Tree.isGrouped st3 r)) sorted)).
      rewrite Hgroups. cbn [app].
      rewrite filter_all_false; [reflexivity|].
      intros g Hg. rewrite HgOf by assumption. apply String.eqb_neq.
      intros E. destruct (W6 g Hg) as (_ & grp & Hn & _ & Ha & _).
      rewrite (@sourceOf_nth _ _ _ Hn) in E. rewrite E, W8 in Ha by lia.
      destruct (ofType hp t sorted) as [|r rest] eqn:Em; [discriminate|].
      destruct (HinS r) as [HrS Hrt]; [now left|].
      rewrite <- Hrt, S_fresh in Ha by assumption. discriminate.
Qed.

(** *** What the theorem asks holds where the tree builder applies it *)

Lemma insertBy_In (A : Type) (cmp : A -> A -> Z) (x y : A) (l : list A) :
  In y (insertBy cmp x l) <-> y = x \/ In y l.
Proof.
  split; intros H.
  - apply (Permutation_in _ (insertBy_perm cmp x l)) in H.
    destruct H as [<-|H]; auto.
  - apply (Permutation_in _ (Permutation_sym (insertBy_perm cmp x l))).
    destruct H as [->|H]; [now left | now right].
Qed.

Section SortedByType.

Variable A : Type.
Variable cmp : A -> A -> Z.

Hypothesis cmp_trans :
  forall a b c, cmp a b <= 0 -> cmp b c <= 0 -> cmp a c <= 0.

Hypothesis cmp_total : forall a b, 0 <= cmp a b -> cmp b a <= 0.

Lemma insertBy_ascending (x : A) (l : list A) :
  ascending cmp l -> ascending cmp (insertBy cmp x l).
Proof.
  induction l as [|y l IH]; simpl; [tauto|]. intros [Hy Hl].
  destruct (Z.ltb_spec (cmp x y) 0) as [Lt|Ge]; simpl.
  - split; [|split; assumption].
    intros b [<-|Hb]; [lia|]. apply cmp_trans with y; [lia | auto].
  - split; [|now apply IH].
    intros b Hb. apply insertBy_In in Hb as [->|Hb]; auto.
Qed.

Lemma sortBy_ascending (l : list A) : ascending cmp (sortBy cmp l).
Proof.
  unfold sortBy.
  assert (G : forall acc, ascending cmp acc ->
                ascending cmp (fold_left (fun s x => insertBy cmp x s) l acc)).
  { induction l as [|x l IH]; intros acc Hacc; simpl; [assumption|].
    now apply IH, insertBy_ascending. }
  now apply G.
Qed.

End SortedByType.

Lemma ascending_contiguous (cmp : string -> string -> Z) (l : list string) :
  (forall a b, cmp a b <= 0 -> cmp b a <= 0 -> a = b) ->
  ascending cmp l -> contiguous l = true.
Proof.
  intros Hanti. induction l as [|a [|b rest] IH]; intros Hl; try reflexivity.
  destruct Hl as [Ha Hrest].
  change (contiguous (a :: b :: rest))
    with ((String.eqb a b || negb (existsb (String.eqb a) (b :: rest)))
          && contiguous (b :: rest)).
  rewrite IH by assumption. rewrite andb_true_r.
  destruct (String.eqb_spec a b) as [_|Hne]; [reflexivity|]. cbn [orb].
  apply negb_true_iff.
  destruct (existsb (String.eqb a) (b :: rest)) eqn:E; [|reflexivity].
  apply existsb_exists in E as (x & Hx & Eq). apply String.eqb_eq in Eq.
  subst x. elim Hne. apply Hanti; [apply Ha; now left|].
  destruct Hx as [->|Hx]; [contradiction|]. destruct Hrest as [Hb _]. auto.
Qed.

Lemma ascending_map (A : Type) (f : A -> string)
  (cmp : string -> string -> Z) (l : list A) :
  ascending (fun a b => cmp (f a) (f b)) l -> ascending cmp (List.map f l).
Proof.
  induction l as [|a l IH]; simpl; [tauto|]. intros [Ha Hl].
  split; [|auto]. intros b Hb. apply in_map_iff in Hb as (x & <- & Hx). auto.
Qed.

(** When [localeCompare] is a total order on the types, the sort by type
    makes equal types neighbours. *)
Lemma sortFiles_contiguous (h : Host) (H : Tree.Heap) (L : list Tree.ref) :
  (forall a b c, localeCompare h a b <= 0 -> localeCompare h b c <= 0 ->
                 localeCompare h a c <= 0) ->
  (forall a b, 0 <= localeCompare h a b -> localeCompare h b a <= 0) ->
  (forall a b, localeCompare h a b <= 0 -> localeCompare h b a <= 0 ->
               a = b) ->
  contiguous (List.map (Tree.sourceOf H) (Tree.sortFiles h H L)) = true.
Proof.
  intros Htrans Htotal Hanti.
  apply ascending_contiguous with (cmp := localeCompare h); [assumption|].
  apply ascending_map. unfold Tree.sortFiles. apply sortBy_ascending.
  - intros a b c. apply Htrans.
  - intros a b. apply Htotal.
Qed.

Lemma In_assocSet (A : Type) (l : list (string * A)) (k : string) (v : A)
  (e : string * A) :
  In e (assocSet l k v) -> In e l \/ snd e = v.
Proof.
  induction l as [|[k' v'] l IH]; simpl.
  - intros [<-|[]]. now right.
  - destruct (String.eqb k' k); simpl; intros [<-|H]; auto.
    destruct (IH H); auto.
Qed.

Lemma fileNode_addScript (f : Tree.TaskFile) (i : Tree.TaskItem) :
  Tree.isGroup f = false ->
  forallb isItem (Tree.scripts f) = true ->
  fileNode (Tree.addScript f (Tree.ChildItem i)).
Proof.
  intros Hg Hall. unfold fileNode.
  cbn [Tree.addScript Tree.isGroup Tree.scripts].
  split; [assumption|]. split.
  - now destruct (Tree.scripts f).
  - rewrite forallb_app, Hall. reflexivity.
Qed.

Lemma Forall_update (P : Tree.TaskFile -> Prop) (hp : Tree.Heap)
  (r : Tree.ref) (g : Tree.TaskFile -> Tree.TaskFile) :
  (forall f, P f -> P (g f)) -> Forall P hp -> Forall P (Tree.update hp r g).
Proof.
  intros Hg. revert r. induction hp as [|f hp IH]; intros r Hall;
    [destruct r; constructor|].
  inversion Hall; subst. destruct r; simpl; constructor; auto.
Qed.

Lemma placeTask_nodes (h : Host) (st : Tree.TreeState) (each : Task) :
  Forall fileNode (Tree.heap st)
  /\ (forall e, In e (Tree.folders st) ->
        forall r, In r (Tree.taskFiles (snd e)) ->
                  (r < List.length (Tree.heap st))%nat)
  /\ Tree.subfolders st = [] ->
  Forall fileNode (Tree.heap (Tree.placeTask h st each))
  /\ (forall e, In e (Tree.folders (Tree.placeTask h st each)) ->
        forall r, In r (Tree.taskFiles (snd e)) ->
                  (r < List.length (Tree.heap (Tree.placeTask h st each)))%nat)
  /\ Tree.subfolders (Tree.placeTask h st each) = [].
Proof.
  intros (Hnodes & Hrefs & Hsub). unfold Tree.placeTask.
  destruct (scope each) as [ws| | |]; auto.
  destruct (jsTruthy _ && Tree.isWorkspaceFolder (ScopeFolder ws)
            && negb (Tree.isInstallTask each)); auto.
  set (folder := match assoc (Tree.folders st) (wf_name ws) with
                 | Some f => f
                 | None => Tree.newTaskFolder ws
                 end).
  set (folders1 := match assoc (Tree.folders st) (wf_name ws) with
                   | Some _ => Tree.folders st
                   | None => assocSet (Tree.folders st) (wf_name ws) folder
                   end).
  assert (Hfolder : forall r, In r (Tree.taskFiles folder) ->
                      (r < List.length (Tree.heap st))%nat).
  { unfold folder. destruct (assoc (Tree.folders st) (wf_name ws)) as [f|] eqn:E;
      [|intros r []].
    intros r Hr. apply (Hrefs (wf_name ws, f)); [|assumption].
    clear - E. induction (Tree.folders st) as [|[k v] l IH];
      simpl in *; [discriminate|].
    destruct (String.eqb_spec k (wf_name ws)) as [->|_];
      [injection E as ->; now left | right; auto]. }
  assert (Hrefs1 : forall e, In e folders1 ->
            forall r, In r (Tree.taskFiles (snd e)) ->
                      (r < List.length (Tree.heap st))%nat).
  { unfold folders1. destruct (assoc (Tree.folders st) (wf_name ws));
      [assumption|].
    intros e He r Hr. apply In_assocSet in He as [He|He]; [eauto|].
    rewrite He in Hr. auto. }
  destruct (Tree.tscRelativePath h each ws _) as [rel|];
    cbn [Tree.heap Tree.folders Tree.subfolders]; [|auto].
  match goal with
  | |- context [assoc (Tree.files st) ?id] =>
      destruct (assoc (Tree.files st) id) as [r|]
  end; cbn [Tree.heap Tree.folders Tree.subfolders].
  - split; [|split; [|assumption]].
    + apply Forall_update; [|assumption].
      intros f (Hg & _ & Hall). now apply fileNode_addScript.
    + intros e He r' Hr'. rewrite update_length. eauto.
  - split; [|split; [|assumption]].
    + apply Forall_app. split; [assumption|]. constructor; [|constructor].
      now apply fileNode_addScript.
    + intros e He r' Hr'. rewrite length_app. cbn [List.length].
      apply In_assocSet in He as [He|He].
      * specialize (Hrefs1 e He r' Hr'). lia.
      * rewrite He in Hr'. cbn [Tree.addTaskFile Tree.taskFiles] in Hr'.
        apply in_app_or in Hr' as [Hr'|[<-|[]]]; [|lia].
        specialize (Hfolder r' Hr'). lia.
Qed.

(** The first loop of the tree builder leaves the folders as the
    promotion of their files expects them: their files are file nodes and
    no group is registered. *)
Lemma placed_folders (h : Host) (tasks : list Task)
  (key : string) (folder : Tree.TaskFolder) :
  let st := fold_left (Tree.placeTask h) tasks Tree.emptyTree in
  In (key, folder) (Tree.folders st) ->
  Tree.subfolders st = []
  /\ forall r, In r (Tree.taskFiles folder) ->
               exists f, nth_error (Tree.heap st) r = Some f /\ fileNode f.
Proof.
  assert (G : forall st,
            Forall fileNode (Tree.heap st)
            /\ (forall e, In e (Tree.folders st) ->
                  forall r, In r (Tree.taskFiles (snd e)) ->
                            (r < List.length (Tree.heap st))%nat)
            /\ Tree.subfolders st = [] ->
            let st' := fold_left (Tree.placeTask h) tasks st in
            Forall fileNode (Tree.heap st')
            /\ (forall e, In e (Tree.folders st') ->
                  forall r, In r (Tree.taskFiles (snd e)) ->
                            (r < List.length (Tree.heap st'))%nat)
            /\ Tree.subfolders st' = []).
  { induction tasks as [|t tasks IH]; intros st Hst; simpl; [assumption|].
    apply IH. now apply placeTask_nodes. }
  intros st Hin.
  destruct (G Tree.emptyTree) as (Hnodes & Hrefs & Hsub).
  { cbn. repeat split; auto. intros e []. }
  fold st in Hnodes, Hrefs, Hsub. split; [assumption|].
  intros r Hr. specialize (Hrefs (key, folder) Hin r Hr).
  destruct (nth_error (Tree.heap st) r) as [f|] eqn:E.
  - exists f. split; [reflexivity|].
    apply (proj1 (Forall_forall _ _) Hnodes). now apply nth_error_In with r.
  - apply nth_error_None in E. lia.
Qed.

Lemma fileNodes_spec (hp : Tree.Heap) (l : list Tree.ref) :
  fileNodes hp l = true ->
  forall r, In r l -> exists f, nth_error hp r = Some f /\ fileNode f.
Proof.
  unfold fileNodes. rewrite forallb_forall. intros H r Hr.
  specialize (H r Hr). destruct (nth_error hp r) as [f|]; [|discriminate].
  exists f. split; [reflexivity|].
  apply andb_true_iff in H as [H H3]. apply andb_true_iff in H as [H1 H2].
  apply negb_true_iff in H1, H2. repeat split; auto.
  intros E. rewrite E in H2. discriminate.
Qed.

Lemma folder_grouping_witness :
  let h := Demo.treeHost in
  let H := Tree.heap Demo.placed in
  let sorted := Tree.sortFiles h H (Tree.taskFiles Demo.treeFolder) in
  exists st',
    Tree.processFolder h (Tree.mkPromo Demo.treeFolder [] H) = (Ok tt, st')
    /\ let children := Tree.taskFiles (Tree.p_folder st') in
       let members := ofType H "ant" sorted in
       ((2 <= List.length members)%nat ->
        (exists g grp,
           groupsOfType (Tree.p_heap st') "ant" children = [g]
           /\ nth_error (Tree.p_heap st') g = Some grp
           /\ Tree.isGroup grp = true
           /\ Tree.scripts grp = List.map Tree.ChildFile members)
        /\ forall r, In r members -> ~ In r children)
       /\ (List.length members = 1%nat ->
           (forall r, In r members -> In r children)
           /\ groupsOfType (Tree.p_heap st') "ant" children = []).
Proof.
  intros h H sorted.
  apply (@folder_grouping h Demo.treeFolder [] H "ant").
  - apply fileNodes_spec. vm_compute. reflexivity.
  - intros r _. reflexivity.
  - vm_compute. reflexivity.
Defined.

(** C4 on the code.  The map of groups is one for all the folders, and
    its keys are the label of a folder followed by a type, with nothing
    in between.  In a workspace with the folders [xy] and [x], the first
    loop gives [xy] two Ant files and [x] one file of the type [yant].
    The second loop puts the Ant files in a group under the key [xyant];
    the file of [x] has the same key, is taken for a file that is in a
    group, and is removed from its folder, which is left without a child:
    a folder with exactly one file of a type does not keep it, and the
    descriptor of the file is not in the tree. *)
Theorem folder_grouping_key_collision :
  let h := Demo.antHost [] [] in
  let st := fold_left (Tree.placeTask h) Demo.collisionTasks Tree.emptyTree in
  List.map (fun e => (Tree.folder_label (snd e), Tree.taskFiles (snd e)))
    (Tree.folders st)
  = [("xy", [0; 1]%nat); ("x", [2]%nat)]
  /\ List.map (Tree.sourceOf (Tree.heap st)) [0; 1; 2]%nat
     = ["ant"; "ant"; "yant"]
  /\ itemsAt (Tree.heap st) 2%nat = [Demo.lonely]
  /\ exists folders hp,
       Tree.buildTaskTree h Demo.collisionTasks = Ok (folders, hp)
       /\ List.map (fun f => (Tree.folder_label f, Tree.taskFiles f)) folders
          = [("xy", [3]%nat); ("x", [])]
       /\ option_map Tree.scripts (nth_error hp 3%nat)
          = Some [Tree.ChildFile 0%nat; Tree.ChildFile 1%nat]
       /\ ~ In Demo.lonely (shownTasks hp folders).
Proof.
  split; [reflexivity|]. split; [reflexivity|]. split; [reflexivity|].
  do 2 eexists. split; [vm_compute; reflexivity|].
  split; [reflexivity|]. split; [reflexivity|].
  vm_compute. intros [H|[H|[]]]; discriminate H.
Qed.

(** * Further properties *)

(** ** The full scans and the caches they fill *)

(** A loop keeps what each of its rounds keeps. *)
Lemma forOf_invariant (S A B : Type) (I : B -> S -> Prop) (E : S -> Prop)
  (body : B -> A -> St S B) (l : list A) :
  (forall acc x m,
     In x l -> I acc m ->
     match body acc x m with
     | (Ok acc', m') => I acc' m'
     | (Throw _, m') => E m'
     | (Diverge, _) => False
     end) ->
  forall acc m,
    I acc m ->
    match forOf l acc body m with
    | (Ok acc', m') => I acc' m'
    | (Throw _, m') => E m'
    | (Diverge, _) => False
    end.
Proof.
  induction l as [|x l IH]; intros Hbody acc m HI; simpl; [exact HI|].
  unfold bind. pose proof (Hbody acc x m (or_introl eq_refl) HI) as Hx.
  destruct (body acc x m) as [[acc'|e|] m']; try exact Hx.
  apply IH; [|exact Hx]. intros acc0 y m0 Hy. apply Hbody. now right.
Qed.

Section ScanLog.

Variable h : Host.
Variable pattern : string.
Variable perFile : WorkspaceFolder -> Uri -> M (list Task).
Variable readable : Uri -> Prop.

Hypothesis perFile_log :
  forall folder g m,
    exists l,
      snd (perFile folder g m) = mkMem (cachedTasks m) (reads m ++ l)
      /\ (l = [] \/ (l = [uri_fsPath g] /\ readable g)).

Hypothesis perFile_ends :
  forall folder g m, fst (perFile folder g m) <> Diverge.

Variable log : list string.
Variable c : option (list Task).

Lemma scanStep_log (folders : list WorkspaceFolder) (folder : WorkspaceFolder)
  (acc : list Task * list string) (f : Uri) (m : Mem) :
  workspaceFolders h = Some folders ->
  In folder folders ->
  In f (findFiles h folder pattern) ->
  scanTrace h pattern readable log c (snd acc) m ->
  match scanStep h (perFile folder) acc f m with
  | (Ok acc', m') => scanTrace h pattern readable log c (snd acc') m'
  | (Throw _, m') =>
      exists visited, scanTrace h pattern readable log c visited m'
  | (Diverge, _) => False
  end.
Proof.
  intros Hws Hfolder Hf HI. destruct acc as [allTasks visited].
  unfold scanStep. cbn [snd] in HI.
  destruct (isExcluded h (uri_path f)) eqn:Ex; cbn [negb andb];
    [exact HI|].
  destruct (existsb (String.eqb (uri_fsPath f)) visited) eqn:Ev;
    cbn [negb]; [exact HI|].
  assert (Hfresh : ~ In (uri_fsPath f) visited).
  { intros K. assert (existsb (String.eqb (uri_fsPath f)) visited = true).
    { apply existsb_exists. exists (uri_fsPath f). split; [assumption|].
      apply String.eqb_refl. }
    congruence. }
  unfold bind.
  destruct (perFile_log folder f m) as (l' & Hm' & Hl').
  pose proof (perFile_ends folder f m) as Hends.
  destruct (perFile folder f m) as [r m']. cbn [fst snd] in *.
  assert (Hnext :
            scanTrace h pattern readable log c (uri_fsPath f :: visited) m').
  { destruct HI as (Hc & l & Hl & [Hnd Hfound] & Hin). subst m'.
    split; [assumption|]. cbn [reads].
    exists (l ++ l')%list. split; [now rewrite Hl, app_assoc|].
    destruct Hl' as [-> | [-> Hr]].
    - rewrite app_nil_r. split; [now split|]. intros p Hp. right.
      now apply Hin.
    - split; [split|].
      + apply NoDup_app; [assumption | repeat constructor; intros [] |].
        intros p Hp [<-|[]]. apply Hfresh. now apply Hin.
      + intros p Hp. apply in_app_or in Hp as [Hp | [<-|[]]].
        * now apply Hfound.
        * exists folders, folder, f. now repeat split.
      + intros p Hp. apply in_app_or in Hp as [Hp | [<-|[]]].
        * right. now apply Hin.
        * now left. }
  destruct r as [tasks|e|];
    [exact Hnext | now exists (uri_fsPath f :: visited) | now elim Hends].
Qed.

(** A full scan ends, leaves the cache alone, and reads each file once at
    most, none that is excluded. *)
Lemma scanWith_log (m : Mem) :
  log = reads m -> c = cachedTasks m ->
  fst (scanWith h pattern perFile m) <> Diverge
  /\ cachedTasks (snd (scanWith h pattern perFile m)) = c
  /\ exists l,
       reads (snd (scanWith h pattern perFile m)) = (log ++ l)%list
       /\ scanLog h pattern readable l.
Proof.
  intros Hlog Hc. unfold scanWith.
  assert (H0 : scanTrace h pattern readable log c [] m).
  { split; [now symmetry|]. exists []. rewrite app_nil_r.
    split; [now symmetry|]. split; [|intros p []].
    split; [constructor | intros p []]. }
  assert (Hend : forall visited m',
            scanTrace h pattern readable log c visited m' ->
            cachedTasks m' = c
            /\ exists l, reads m' = (log ++ l)%list
                         /\ scanLog h pattern readable l).
  { intros visited m' (Hc' & l & Hl & Hlog' & _). split; [assumption|].
    now exists l. }
  destruct (workspaceFolders h) as [folders|] eqn:Hws;
    [|split; [discriminate | now apply (Hend [])]].
  pose proof
    (@forOf_invariant Mem WorkspaceFolder (list Task * list string)
       (fun acc m => scanTrace h pattern readable log c (snd acc) m)
       (fun m => exists visited, scanTrace h pattern readable log c visited m)
       (fun acc folder =>
          forOf (findFiles h folder pattern) acc (scanStep h (perFile folder)))
       folders) as Houter.
  unfold tryCatch, bind, ret, throw.
  specialize (Houter
    (fun acc folder m0 Hfolder HI =>
       @forOf_invariant Mem Uri (list Task * list string)
         (fun acc m => scanTrace h pattern readable log c (snd acc) m)
         (fun m => exists visited, scanTrace h pattern readable log c visited m)
         (scanStep h (perFile folder)) (findFiles h folder pattern)
         (fun acc1 f m1 Hf HI1 =>
            @scanStep_log folders folder acc1 f m1 Hws Hfolder Hf HI1)
         acc m0 HI)
    ([], []) m H0).
  destruct (forOf folders ([], []) _ m) as [[acc|e|] m']; cbn [fst snd].
  - split; [discriminate | now apply (Hend (snd acc))].
  - split; [discriminate|]. destruct Houter as [visited Hv].
    now apply (Hend visited).
  - now elim Houter.
Qed.

End ScanLog.
Lemma readAntfile_log (h : Host) (g : Uri) (m : Mem) :
  exists l,
    snd (Ant.readAntfile h g m) = mkMem (cachedTasks m) (reads m ++ l)
    /\ (l = [] \/ (l = [uri_fsPath g] /\ inWorkspace h g)).
Proof.
  unfold Ant.readAntfile, inWorkspace.
  destruct (getWorkspaceFolder h g) as [folder|].
  - exists [uri_fsPath g]. split; [|right; split; [reflexivity|discriminate]].
    unfold bind, readFileM.
    destruct (readFile h (uri_fsPath g)) as [contents|]; [|reflexivity].
    pose proof (findAllAntScripts_state h contents
                  (mkMem (cachedTasks m) (reads m ++ [uri_fsPath g]))) as Hs.
    destruct (Ant.findAllAntScripts h contents _) as [[scripts|e|] m1];
      simpl in Hs; now subst m1.
  - exists []. split; [apply mem_eta | now left].
Qed.

Lemma readGradlefile_log (h : Host) (g : Uri) (m : Mem) :
  exists l,
    snd (Gradle.readGradlefile h g m) = mkMem (cachedTasks m) (reads m ++ l)
    /\ (l = [] \/ (l = [uri_fsPath g] /\ inWorkspace h g)).
Proof.
  unfold Gradle.readGradlefile, inWorkspace.
  destruct (getWorkspaceFolder h g) as [folder|].
  - exists [uri_fsPath g]. split; [|right; split; [reflexivity|discriminate]].
    unfold bind, Gradle.findTargets, bind, readFileM.
    destruct (readFile h (uri_fsPath g)) as [contents|]; [|reflexivity].
    now rewrite findTargets_scan_lines.
  - exists []. split; [apply mem_eta | now left].
Qed.

(** The batch scripts are those whose extension is [bat]. *)
Lemma scriptDefOf_batch (h : Host) (p : string) (d : Script.ScriptDef) :
  Script.scriptDefOf h p = Some d -> Script.sd_type d = "batch" ->
  Js.substringFrom (extname h p) 1 = "bat".
Proof.
  unfold Script.scriptDefOf, Script.scriptTable.
  generalize (Js.substringFrom (extname h p) 1). intros ext. cbn [assoc].
  repeat match goal with
         | |- context [String.eqb ?k ext] =>
             destruct (String.eqb_spec k ext) as [<-|_];
             [intros [= <-]; cbn; try discriminate; reflexivity|]
         end.
  discriminate.
Qed.

Lemma scriptFile_log (h : Host) (folder : WorkspaceFolder) (g : Uri)
  (m : Mem) :
  exists l,
    snd (scriptFile h folder g m) = mkMem (cachedTasks m) (reads m ++ l)
    /\ (l = [] \/ (l = [uri_fsPath g] /\ isBatchFile h g)).
Proof.
  unfold scriptFile, Script.createScriptTask, isBatchFile.
  destruct (Script.scriptDefOf h (uri_fsPath g)) as [d|] eqn:Ed.
  - destruct (String.eqb_spec (Script.sd_type d) "batch") as [Eb|Eb].
    + exists [uri_fsPath g].
      split; [|right; split; [reflexivity|]; eapply scriptDefOf_batch; eauto].
      unfold bind, readFileSyncM.
      now destruct (readFileSync h (uri_fsPath g)).
    + exists []. split; [apply mem_eta | now left].
  - exists []. split; [apply mem_eta | now left].
Qed.

Lemma detectAntScripts_log (h : Host) (m : Mem) :
  fst (Ant.detectAntScripts h m) <> Diverge
  /\ cachedTasks (snd (Ant.detectAntScripts h m)) = cachedTasks m
  /\ exists l,
       reads (snd (Ant.detectAntScripts h m)) = (reads m ++ l)%list
       /\ scanLog h (Ant.scanPattern h) (inWorkspace h) l.
Proof.
  rewrite detectAntScripts_scanWith. apply scanWith_log; try reflexivity.
  - intros _ g m0. apply readAntfile_log.
  - intros _ g m0. apply readAntfile_ends.
Qed.

Lemma detectGradlefiles_log (h : Host) (m : Mem) :
  fst (Gradle.detectGradlefiles h m) <> Diverge
  /\ cachedTasks (snd (Gradle.detectGradlefiles h m)) = cachedTasks m
  /\ exists l,
       reads (snd (Gradle.detectGradlefiles h m)) = (reads m ++ l)%list
       /\ scanLog h "**/*.[Gg][Rr][Aa][Dd][Ll][Ee]" (inWorkspace h) l.
Proof.
  rewrite detectGradlefiles_scanWith. apply scanWith_log; try reflexivity.
  - intros _ g m0. apply readGradlefile_log.
  - intros _ g m0. apply readGradlefile_ends.
Qed.

Lemma detectScriptFiles_log (h : Host) (m : Mem) :
  fst (Script.detectScriptFiles h m) <> Diverge
  /\ cachedTasks (snd (Script.detectScriptFiles h m)) = cachedTasks m
  /\ exists l,
       reads (snd (Script.detectScriptFiles h m)) = (reads m ++ l)%list
       /\ scanLog h "**/*.{sh,py,rb,ps1,pl,bat,nsi}" (isBatchFile h) l.
Proof.
  rewrite detectScriptFiles_scanWith. apply scanWith_log; try reflexivity.
  - apply scriptFile_log.
  - apply scriptFile_ends.
Qed.

(** A full scan of each of the three providers ends, with its tasks or
    with an error; it leaves the cache of its module alone; it reads no
    file twice, and the files it reads are files that the search found in
    a folder of the workspace and that are not excluded.  The Ant and the
    Gradle scans read those of them that lie in a workspace folder, the
    script scan reads the batch scripts among them and no other script. *)
Theorem full_scan_log (h : Host) (m : Mem) :
  let scan (detect : Host -> M (list Task)) (pattern : string)
        (readable : Uri -> Prop) :=
    fst (detect h m) <> Diverge
    /\ cachedTasks (snd (detect h m)) = cachedTasks m
    /\ exists l,
         reads (snd (detect h m)) = (reads m ++ l)%list
         /\ scanLog h pattern readable l in
  scan Ant.detectAntScripts (Ant.scanPattern h) (inWorkspace h)
  /\ scan Gradle.detectGradlefiles "**/*.[Gg][Rr][Aa][Dd][Ll][Ee]"
       (inWorkspace h)
  /\ scan Script.detectScriptFiles "**/*.{sh,py,rb,ps1,pl,bat,nsi}"
       (isBatchFile h).
Proof.
  intros scan. unfold scan.
  auto using detectAntScripts_log, detectGradlefiles_log,
    detectScriptFiles_log.
Qed.

(** The life of a cache.  A request that a provider answers leaves the
    answer in the cache of its module, an empty one too, and the next
    request is answered from the cache, with no file read, whatever has
    become of the workspace; a scan that is rejected leaves the cache
    unpopulated, so that the next request scans again. *)
Theorem provide_lifecycle (h h' : Host) (m : Mem) :
  let settled (provide : Host -> M (list Task)) :=
    match provide h m with
    | (Ok tasks, m1) =>
        cachedTasks m1 = Some tasks /\ provide h' m1 = (Ok tasks, m1)
    | (Throw _, m1) => cachedTasks m = None /\ cachedTasks m1 = None
    | (Diverge, _) => False
    end in
  settled Ant.provideAntScripts
  /\ settled Gradle.provideGradlefiles
  /\ settled Script.provideScriptFiles.
Proof.
  destruct (detectAntScripts_log h m) as (Ha1 & Ha2 & _).
  destruct (detectGradlefiles_log h m) as (Hg1 & Hg2 & _).
  destruct (detectScriptFiles_log h m) as (Hs1 & Hs2 & _).
  intros settled. unfold settled. split; [|split].
  - unfold Ant.provideAntScripts, bind at 1, getCache.
    destruct (cachedTasks m) as [tasks|] eqn:Hc.
    + unfold ret. split; [assumption|].
      unfold Ant.provideAntScripts, bind, getCache. now rewrite Hc.
    + unfold bind.
      destruct (Ant.detectAntScripts h m) as [[tasks|e|] m1];
        cbn [fst snd] in *; [|now split | now elim Ha1].
      unfold setCache, ret. cbn [cachedTasks]. split; [reflexivity|].
      unfold Ant.provideAntScripts, bind, getCache. reflexivity.
  - unfold Gradle.provideGradlefiles, bind at 1, getCache.
    destruct (cachedTasks m) as [tasks|] eqn:Hc.
    + unfold ret. split; [assumption|].
      unfold Gradle.provideGradlefiles, bind, getCache. now rewrite Hc.
    + unfold bind.
      destruct (Gradle.detectGradlefiles h m) as [[tasks|e|] m1];
        cbn [fst snd] in *; [|now split | now elim Hg1].
      unfold setCache, ret. cbn [cachedTasks]. split; [reflexivity|].
      unfold Gradle.provideGradlefiles, bind, getCache. reflexivity.
  - unfold Script.provideScriptFiles, bind at 1, getCache.
    destruct (cachedTasks m) as [tasks|] eqn:Hc.
    + unfold ret. split; [assumption|].
      unfold Script.provideScriptFiles, bind, getCache. now rewrite Hc.
    + unfold bind.
      destruct (Script.detectScriptFiles h m) as [[tasks|e|] m1];
        cbn [fst snd] in *; [|now split | now elim Hs1].
      unfold setCache, ret. cbn [cachedTasks]. split; [reflexivity|].
      unfold Script.provideScriptFiles, bind, getCache. reflexivity.
Qed.

(** ** File events on the caches *)

(** When the file of an event is gone, or excluded, and every descriptor
    of the cache came from it or from files that are gone, the cache of
    the Ant provider and that of the Gradle provider become unpopulated,
    not empty, and nothing is read: the next request scans the workspace
    again. *)
Theorem last_file_event_unpopulates (h : Host) (A : Uri)
  (cached : list Task) (log : list string) :
  (forall t, In t cached -> staleFor h A t = true) ->
  pathExists h (uri_fsPath A) && negb (existsInExclude h (uri_path A))
  = false ->
  invalidateTasksCacheAnt h (Some A) (mkMem (Some cached) log)
  = (Ok tt, mkMem None log)
  /\ invalidateTasksCacheGradle h (Some A) (mkMem (Some cached) log)
     = (Ok tt, mkMem None log).
Proof.
  intros Hstale Hgone.
  assert (Huri : forall t, In t cached -> def_uri (definition t) <> None).
  { intros t Ht K. specialize (Hstale t Ht). unfold staleFor in Hstale.
    rewrite K in Hstale. discriminate. }
  assert (Hkept : List.filter (fun t => negb (staleFor h A t)) cached = []).
  { apply filter_all_false. intros t Ht. now rewrite (Hstale t Ht). }
  unfold invalidateTasksCacheAnt, invalidateTasksCacheGradle.
  rewrite !invalidateTasksCache_run by assumption.
  rewrite Hgone, Hkept. now split.
Qed.

Lemma last_file_event_unpopulates_witness :
  let h := Demo.antHost [] [] in
  let A := Demo.file "/ws/build.xml" in
  invalidateTasksCacheAnt h (Some A) (mkMem (Some [Demo.antInstall]) [])
  = (Ok tt, mkMem None [])
  /\ invalidateTasksCacheGradle h (Some A) (mkMem (Some [Demo.antInstall]) [])
     = (Ok tt, mkMem None []).
Proof.
  apply (@last_file_event_unpopulates (Demo.antHost [] [])
           (Demo.file "/ws/build.xml") [Demo.antInstall] []).
  - intros t [<-|[]]. reflexivity.
  - reflexivity.
Defined.

(** An event on a populated cache of the script provider that goes
    through leaves the descriptors of the other files as they are, in
    their order, and after them one descriptor for the file of the event,
    named after the file: the descriptors the cache had for that file are
    replaced, whether the event is a change, a creation or a deletion. *)
Theorem script_event_replaces (h : Host) (A : Uri) (cached : list Task)
  (log : list string) (m' : Mem) :
  Script.invalidateTasksCacheScript h (Some A) (mkMem (Some cached) log)
  = (Ok tt, m') ->
  exists task,
    cachedTasks m'
    = Some (List.filter (fun t => negb (fromFile A t)) cached ++ [task])%list
    /\ fromFile A task = true
    /\ name task = basename h (uri_fsPath A).
Proof.
  unfold Script.invalidateTasksCacheScript, bind at 1, getCache.
  cbn [cachedTasks].
  change (List.filter (Script.isTaskOf A) cached)
    with (List.filter (fromFile A) cached).
  rewrite removeFromArray_filter.
  set (kept := List.filter (fun t => negb (fromFile A t)) cached).
  unfold bind at 1, setCache at 1. cbn [reads]. unfold bind.
  destruct (Script.createScriptTask h (Script.scriptDefOf h (uri_fsPath A))
              (getWorkspaceFolder h A) A (mkMem (Some kept) log))
    as [[task|e|] m1] eqn:Ec; try discriminate.
  unfold setCache. intros [= <-]. exists task. split; [reflexivity|].
  unfold Script.createScriptTask in Ec.
  destruct (Script.scriptDefOf h (uri_fsPath A)) as [d|]; [|discriminate].
  unfold bind in Ec.
  destruct (if String.eqb (Script.sd_type d) "batch"
            then _ else _) as [[requiresArgs|e|] m2]; try discriminate.
  destruct (getWorkspaceFolder h A) as [folder|]; [|discriminate].
  unfold ret in Ec. injection Ec as <- _. split; [|reflexivity].
  unfold fromFile. cbn. apply String.eqb_refl.
Qed.

Lemma script_event_replaces_witness :
  let h := Demo.scriptsAfter in
  let A := Demo.file "/ws/a.sh" in
  let m' := snd (Script.invalidateTasksCacheScript h (Some A)
                   (mkMem (Some Demo.scriptCache) [])) in
  exists task,
    cachedTasks m'
    = Some (List.filter (fun t => negb (fromFile A t)) Demo.scriptCache
            ++ [task])%list
    /\ fromFile A task = true
    /\ name task = basename h (uri_fsPath A).
Proof.
  apply (@script_event_replaces Demo.scriptsAfter (Demo.file "/ws/a.sh")
           Demo.scriptCache []).
  vm_compute. reflexivity.
Defined.

(** The table of the script provider has the seven extensions of the
    search in lower case; a file the search finds under another spelling
    of its extension, [BAT] for one, has no entry, and the scan that comes
    to it is rejected, with the descriptors of all the other files. *)
Theorem script_scan_unknown_extension (h : Host)
  (folders : list WorkspaceFolder) (folder : WorkspaceFolder) (f : Uri)
  (m : Mem) :
  workspaceFolders h = Some folders ->
  In folder folders ->
  In f (findFiles h folder "**/*.{sh,py,rb,ps1,pl,bat,nsi}") ->
  isExcluded h (uri_path f) = false ->
  ~ In (Js.substringFrom (extname h (uri_fsPath f)) 1)
       ["sh"; "py"; "rb"; "ps1"; "pl"; "bat"; "nsi"] ->
  exists e, fst (Script.detectScriptFiles h m) = Throw e.
Proof.
  intros Hws Hfolder Hf Hex Hext. rewrite detectScriptFiles_scanWith.
  apply (@scan_rejects h (scriptFile h)
           (fun p => Script.scriptDefOf h p = None))
    with (folders := folders) (folder := folder) (f := f);
    try assumption.
  - intros folder0 g m0 Hbad. unfold scriptFile, Script.createScriptTask.
    rewrite Hbad. unfold bind, throw. eauto.
  - apply scriptFile_ends.
  - unfold Script.scriptDefOf, Script.scriptTable.
    revert Hext. generalize (Js.substringFrom (extname h (uri_fsPath f)) 1).
    intros ext Hext. cbn [assoc].
    repeat match goal with
           | |- context [String.eqb ?k ext] =>
               destruct (String.eqb_spec k ext) as [<-|_];
               [elim Hext; cbn; tauto|]
           end.
    reflexivity.
Qed.

Lemma script_scan_unknown_extension_witness :
  exists e,
    fst (Script.detectScriptFiles
           (Demo.plainHost [Demo.file "/ws/RUN.BAT"] []) Demo.emptyMem)
    = Throw e.
Proof.
  apply (@script_scan_unknown_extension
           (Demo.plainHost [Demo.file "/ws/RUN.BAT"] [])
           [Demo.root] Demo.root (Demo.file "/ws/RUN.BAT") Demo.emptyMem).
  - reflexivity.
  - now left.
  - now left.
  - reflexivity.
  - vm_compute. intros H.
    repeat (destruct H as [H|H]; [discriminate H|]). exact H.
Defined.

(** ** The path of a descriptor *)

Lemma lastIndexOfAux_absent (c : ascii) (s : string) (i best : Z) :
  contains c s = false -> Js.lastIndexOfAux (String c "") s i best = best.
Proof.
  revert i; induction s as [|d s IH]; intros i H; simpl in *.
  - reflexivity.
  - apply orb_false_iff in H as [Hd Hs].
    destruct (ascii_dec c d) as [->|_].
    + now rewrite Ascii.eqb_refl in Hd.
    + now apply IH.
Qed.

(** The last occurrence of a character that the rest of a string has
    not. *)
Lemma lastIndexOfAux_last (c : ascii) (a rest : string) :
  contains c rest = false ->
  forall i best,
    Js.lastIndexOfAux (String c "") (a ++ String c rest) i best
    = i + Js.len a.
Proof.
  intros Hrest. induction a as [|d a IH]; intros i best; simpl.
  - destruct (ascii_dec c c) as [_|n]; [|now elim n].
    rewrite prefix_nil, lastIndexOfAux_absent by assumption.
    unfold Js.len; simpl; lia.
  - rewrite IH. unfold Js.len; simpl String.length. lia.
Qed.

Lemma substring_prefix (l rest : string) :
  Js.substring (l ++ rest) 0 (Js.len l) = l.
Proof. exact (substring_middle "" l rest). Qed.

Lemma substringFrom_suffix (done l : string) :
  Js.substringFrom (done ++ l) (Js.len done) = l.
Proof.
  unfold Js.substringFrom. rewrite len_append.
  rewrite <- (append_nil_r l) at 1. apply substring_middle.
Qed.

(** The relative path that the three providers compute. *)
Lemma relativePath_of (root path dir file : string) :
  path = (root ++ "/" ++ dir ++ file)%string ->
  contains "/" file = false ->
  dir = ""%string \/ Js.endsWith dir "/" = true ->
  Js.substringFrom
    (Js.substring path 0 (Js.lastIndexOf path "/" + 1))
    (Js.len root + 1)
  = dir.
Proof.
  intros -> Hfile Hdir.
  assert (Hlast : Js.lastIndexOf (root ++ "/" ++ dir ++ file) "/" + 1
                  = Js.len (root ++ "/" ++ dir)).
  { unfold Js.lastIndexOf. destruct Hdir as [-> | Hdir].
    - cbn [append]. rewrite lastIndexOfAux_last by assumption.
      rewrite len_append. reflexivity.
    - apply endsWith_split in Hdir as [a ->].
      replace (root ++ "/" ++ (a ++ "/") ++ file)%string
        with ((root ++ "/" ++ a) ++ String "/" file)%string
        by (now rewrite !append_assoc).
      rewrite lastIndexOfAux_last by assumption.
      rewrite !len_append. change (Js.len "/") with 1. lia. }
  rewrite Hlast.
  replace (root ++ "/" ++ dir ++ file)%string
    with ((root ++ "/" ++ dir) ++ file)%string
    by (now rewrite !append_assoc).
  rewrite substring_prefix.
  replace (root ++ "/" ++ dir)%string with ((root ++ "/") ++ dir)%string
    by (now rewrite append_assoc).
  replace (Js.len root + 1) with (Js.len (root ++ "/"))
    by (rewrite len_append; reflexivity).
  apply substringFrom_suffix.
Qed.

(** The [path] of a descriptor is the directory of its file relative to
    its workspace folder, with the slash that ends it, and it is empty for
    a file at the root of the folder.  Here the path of the file is the
    path of the folder, a slash, the directory [dir] and the name [file],
    which has no slash. *)
Theorem descriptor_path (h : Host) (folder : WorkspaceFolder) (uri : Uri)
  (dir file : string) :
  uri_path uri = (uri_path (wf_uri folder) ++ "/" ++ dir ++ file)%string ->
  contains "/" file = false ->
  dir = ""%string \/ Js.endsWith dir "/" = true ->
  (forall target cmdName,
     def_path (definition (Ant.createAntTask h target cmdName folder uri))
     = Some dir)
  /\ (forall target cmd,
        def_path (definition (Gradle.createGradleTask h target cmd folder uri))
        = Some dir)
  /\ (forall scriptDef m task m',
        Script.createScriptTask h scriptDef (Some folder) uri m
        = (Ok task, m') ->
        def_path (definition task) = Some dir).
Proof.
  intros Hpath Hfile Hdir.
  pose proof (@relativePath_of (uri_path (wf_uri folder)) (uri_path uri)
                dir file Hpath Hfile Hdir) as Hrel.
  assert (Hif : forall s : string, (if 0 <? Js.len s then s else "") = s).
  { intros [|c s]; [reflexivity|]. unfold Js.len. simpl String.length.
    destruct (0 <? Z.of_nat (S (String.length s))) eqn:E; [reflexivity|].
    apply Z.ltb_ge in E. lia. }
  split; [|split].
  - intros target cmdName. unfold Ant.createAntTask, Ant.getRelativePath.
    rewrite Hrel. destruct (Ant.useAnsicon h); cbn; now rewrite Hif.
  - intros target cmd. unfold Gradle.createGradleTask, Gradle.getRelativePath.
    rewrite Hrel. cbn. now rewrite Hif.
  - intros scriptDef m task m'. unfold Script.createScriptTask.
    destruct scriptDef as [d|]; [|discriminate]. unfold bind.
    destruct (if String.eqb (Script.sd_type d) "batch" then _ else _)
      as [[requiresArgs|e|] m2]; try discriminate.
    unfold ret, Script.getRelativePath. rewrite Hrel. intros [= <- _].
    cbn. now rewrite Hif.
Qed.

Lemma descriptor_path_witness :
  let h := Demo.antHost [] [] in
  let uri := Demo.file "/ws/sub/lib/build.xml" in
  (forall target cmdName,
     def_path (definition (Ant.createAntTask h target cmdName Demo.root uri))
     = Some "sub/lib/")
  /\ (forall target cmd,
        def_path
          (definition (Gradle.createGradleTask h target cmd Demo.root uri))
        = Some "sub/lib/")
  /\ (forall scriptDef m task m',
        Script.createScriptTask h scriptDef (Some Demo.root) uri m
        = (Ok task, m') ->
        def_path (definition task) = Some "sub/lib/").
Proof.
  apply (@descriptor_path (Demo.antHost [] []) Demo.root
           (Demo.file "/ws/sub/lib/build.xml") "sub/lib/" "build.xml").
  - reflexivity.
  - reflexivity.
  - right. reflexivity.
Defined.

(** ** The names of the descriptors of a file *)


Lemma scanLines_NoDup (lines : list string) :
  forall scripts : Js.StringMap,
    NoDup (List.map fst scripts) ->
    NoDup (List.map fst (fold_left Gradle.scanLine lines scripts)).
Proof.
  induction lines as [|line lines IH]; intros scripts H; simpl;
    [assumption|].
  apply IH.
  destruct (scanLine_cases scripts line) as [-> | [tgtName ->]];
    [assumption | now apply set_NoDup].
Qed.


Lemma scriptKey_truthy (d : option string) (n : string) :
  Js.truthy n = true -> Js.truthy (scriptKey d n) = true.
Proof.
  unfold scriptKey. destruct d as [x|]; [|auto].
  destruct (String.eqb x n); [|auto]. now destruct n.
Qed.

(** The descriptors of an Ant file whose root is a [project] with
    attributes and with targets.  No two descriptors bear the same name.
    Each of them runs a target of the file that has a name, and is named
    by the key of that target: the name of the target, followed by
    [ - Default] when the target is the default of the project.  A target
    that has a name, whose key is not [__proto__] and is the key of no
    target of another name, has a descriptor that is named by its key and
    runs it. *)
Theorem ant_descriptor_names (h : Host) (uri : Uri)
  (folder : WorkspaceFolder) (contents : string)
  (attrs : list (string * string)) (children : list (string * list XmlNode))
  (targets : list XmlNode) (m : Mem) :
  getWorkspaceFolder h uri = Some folder ->
  readFile h (uri_fsPath uri) = Some contents ->
  parseString h contents = Some ("project", XElem (Some attrs) children) ->
  assoc children "target" = Some targets ->
  let d := assoc attrs "default" in
  exists tasks,
    fst (Ant.readAntfile h uri m) = Ok tasks
    /\ NoDup (List.map name tasks)
    /\ (forall t, In t tasks ->
          exists n, In n (targetNames targets)
                    /\ name t = scriptKey d n
                    /\ def_script (definition t) = Some n)
    /\ (forall n, In n (targetNames targets) ->
          scriptKey d n <> "__proto__"%string ->
          (forall n', In n' (targetNames targets) ->
                      scriptKey d n' = scriptKey d n -> n' = n) ->
          exists t, In t tasks
                    /\ name t = scriptKey d n
                    /\ def_script (definition t) = Some n).
Proof.
  intros Hfolder Hread Hparse Htargets d.
  set (scripts := fold_left (Ant.addTarget d) targets []).
  exists (Ant.tasksOfScripts h scripts folder uri).
  assert (Hrun : fst (Ant.readAntfile h uri m)
                 = Ok (Ant.tasksOfScripts h scripts folder uri)).
  { unfold Ant.readAntfile. rewrite Hfolder. unfold bind, readFileM.
    rewrite Hread.
    now rewrite (findAllAntScripts_project h contents _ Hparse Htargets). }
  assert (Hentry : forall k, In k (Js.keys scripts) ->
            exists n, In n (targetNames targets) /\ k = scriptKey d n
                      /\ Js.get scripts k = Some n).
  { intros k Hk. apply keys_In, In_get in Hk as [v Hget].
    pose proof Hget as He.
    apply get_In, scripts_entries in He as [[] | [Hv Hkey]].
    exists v. now repeat split. }
  assert (Hname : forall k, In k (Js.keys scripts) ->
            name (setGroup
                    (Ant.createAntTask h
                       match Js.get scripts k with
                       | Some v => if Js.truthy v then v else k
                       | None => k
                       end k folder uri) Build) = k).
  { intros k Hk. destruct (Hentry k Hk) as (n & Hn & -> & _).
    cbn [setGroup name]. rewrite createAntTask_name.
    now rewrite scriptKey_truthy by now apply targetNames_truthy with targets. }
  split; [exact Hrun|]. split; [|split].
  - unfold Ant.tasksOfScripts. rewrite map_map.
    rewrite (map_ext_in _ (fun k => k) _ Hname), map_id.
    apply keys_NoDup, addTargets_NoDup. constructor.
  - intros t Ht. unfold Ant.tasksOfScripts in Ht.
    apply in_map_iff in Ht as (k & <- & Hk).
    destruct (Hentry k Hk) as (n & Hn & Hkey & Hget).
    exists n. split; [assumption|]. split.
    + rewrite (Hname k Hk). exact Hkey.
    + cbn [setGroup definition]. rewrite createAntTask_script, Hget.
      now rewrite (targetNames_truthy _ _ Hn).
  - intros n Hn Hproto Hinj.
    pose proof (scripts_keys d targets [] n Hn Hproto) as Hk.
    fold scripts in Hk. apply keys_In in Hk.
    pose proof (scripts_get d targets [] Hn Hproto Hinj) as Hget.
    fold scripts in Hget.
    eexists. split; [|split].
    + unfold Ant.tasksOfScripts. apply in_map_iff. eexists. split;
        [reflexivity | exact Hk].
    + apply (Hname _ Hk).
    + cbn [setGroup definition]. rewrite createAntTask_script, Hget.
      now rewrite (targetNames_truthy _ _ Hn).
Qed.

Lemma ant_descriptor_names_witness :
  let h := Demo.antHost [] [("/ws/build.xml", Demo.buildXml)] in
  let d := Some "compile" in
  exists tasks,
    fst (Ant.readAntfile h (Demo.file "/ws/build.xml") Demo.emptyMem)
    = Ok tasks
    /\ NoDup (List.map name tasks)
    /\ (forall t, In t tasks ->
          exists n, In n (targetNames Demo.targets)
                    /\ name t = scriptKey d n
                    /\ def_script (definition t) = Some n)
    /\ (exists t, In t tasks
                  /\ name t = "compile - Default"
                  /\ def_script (definition t) = Some "compile")
    /\ (exists t, In t tasks
                  /\ name t = "dist"
                  /\ def_script (definition t) = Some "dist").
Proof.
  destruct (@ant_descriptor_names
              (Demo.antHost [] [("/ws/build.xml", Demo.buildXml)])
              (Demo.file "/ws/build.xml") Demo.root Demo.buildXml
              [("name", "demo"); ("default", "compile")]
              [("target", Demo.targets)] Demo.targets Demo.emptyMem
              eq_refl eq_refl eq_refl eq_refl)
    as (tasks & Hrun & Hnames & Heach & Hall).
  exists tasks. split; [exact Hrun|]. split; [exact Hnames|].
  split; [exact Heach|]. split.
  - apply (Hall "compile").
    + now left.
    + vm_compute. discriminate.
    + intros n' [<-|[<-|[]]]; [reflexivity | vm_compute; discriminate].
  - apply (Hall "dist").
    + right. now left.
    + vm_compute. discriminate.
    + intros n' [<-|[<-|[]]]; [vm_compute; discriminate | reflexivity].
Defined.

Lemma trimRight_idempotent (s : string) :
  Js.trimRight (Js.trimRight s) = Js.trimRight s.
Proof.
  induction s as [|c s IH]; simpl; [reflexivity|].
  destruct (Js.trimRight s) as [|d r] eqn:E.
  - destruct (Js.isWhiteSpace c) eqn:W; simpl; [reflexivity|].
    now rewrite W.
  - simpl in IH. simpl. now rewrite IH.
Qed.

Lemma trimLeft_head (s : string) :
  match Js.trimLeft s with
  | EmptyString => True
  | String c _ => Js.isWhiteSpace c = false
  end.
Proof.
  induction s as [|c s IH]; simpl; [exact I|].
  destruct (Js.isWhiteSpace c) eqn:W; [exact IH | exact W].
Qed.

Lemma trimRight_head (s : string) :
  match s with
  | EmptyString => True
  | String c _ => Js.isWhiteSpace c = false
  end ->
  Js.trimLeft (Js.trimRight s) = Js.trimRight s.
Proof.
  destruct s as [|c s]; simpl; [reflexivity|]. intros W.
  destruct (Js.trimRight s); rewrite ?W; simpl; rewrite ?W; reflexivity.
Qed.

(** Trimming what is trimmed changes nothing. *)
Lemma trim_idempotent (s : string) : Js.trim (Js.trim s) = Js.trim s.
Proof.
  unfold Js.trim.
  rewrite (trimRight_head (Js.trimLeft s) (trimLeft_head s)).
  apply trimRight_idempotent.
Qed.

Lemma contains_trimLeft (c : ascii) (s : string) :
  contains c s = false -> contains c (Js.trimLeft s) = false.
Proof.
  induction s as [|d s IH]; simpl; [reflexivity|]. intros H.
  destruct (Js.isWhiteSpace d); [|exact H].
  apply orb_false_iff in H as [_ H]. now apply IH.
Qed.

Lemma contains_trimRight (c : ascii) (s : string) :
  contains c s = false -> contains c (Js.trimRight s) = false.
Proof.
  induction s as [|d s IH]; simpl; [reflexivity|]. intros H.
  apply orb_false_iff in H as [Hd H]. specialize (IH H).
  destruct (Js.trimRight s) as [|e r].
  - destruct (Js.isWhiteSpace d); simpl; [reflexivity|].
    now rewrite Hd.
  - simpl in *. now rewrite Hd, IH.
Qed.

Lemma contains_take (c : ascii) (n : nat) :
  forall s, contains c s = false -> contains c (Js.take n s) = false.
Proof.
  induction n as [|n IH]; intros [|d s] H; simpl in *; try reflexivity.
  apply orb_false_iff in H as [Hd H]. now rewrite Hd, IH.
Qed.


Lemma indexOfAux_none (c : ascii) (s : string) :
  forall i, 0 <= i -> Js.indexOfAux (String c "") s i = -1 ->
            contains c s = false.
Proof.
  induction s as [|d s IH]; intros i Hi H; simpl in *; [reflexivity|].
  destruct (ascii_dec c d) as [->|Hne].
  - rewrite prefix_nil in H. lia.
  - apply orb_false_iff. split; [|apply (IH (i + 1)); [lia | assumption]].
    apply Ascii.eqb_neq. congruence.
Qed.

(** The text before the first occurrence of a character has not that
    character. *)
Lemma indexOfAux_before (c : ascii) (s : string) :
  forall i, 0 <= i -> Js.indexOfAux (String c "") s i <> -1 ->
            contains c
              (Js.take (Z.to_nat (Js.indexOfAux (String c "") s i - i)) s)
            = false.
Proof.
  induction s as [|d s IH]; intros i Hi H; simpl in *.
  - now destruct (Z.to_nat (-1 - i)).
  - destruct (ascii_dec c d) as [->|Hne].
    + rewrite prefix_nil. now rewrite Z.sub_diag.
    + specialize (IH (i + 1) ltac:(lia) H).
      destruct (indexOfAux_range (String c "") s (i + 1)) as [E | E];
        [contradiction|].
      replace (Z.to_nat (Js.indexOfAux (String c "") s (i + 1) - i))
        with (S (Z.to_nat (Js.indexOfAux (String c "") s (i + 1) - (i + 1))))
        by lia.
      simpl. rewrite IH. apply orb_false_iff. split; [|reflexivity].
      apply Ascii.eqb_neq. congruence.
Qed.


(** The text between an index and the delimiter that the Gradle scanner
    finds from there has no opening parenthesis. *)
Lemma before_delimiter (line : string) (idx1 : Z) :
  let p := Js.indexOf line "(" idx1 in
  let idx2 := if p =? -1 then Js.indexOf line "{" idx1 else p in
  idx2 <> -1 ->
  contains "(" (Js.substring line idx1 idx2) = false.
Proof.
  intros p idx2 Hidx2.
  pose proof (clampIdx_range line idx1) as Hk.
  assert (Hsub : Js.clampIdx line idx1 <= idx2 <= Js.len line ->
                 Js.substring line idx1 idx2
                 = Js.take (Z.to_nat (idx2 - Js.clampIdx line idx1))
                     (Js.drop (Z.to_nat (Js.clampIdx line idx1)) line)).
  { intros Hr. unfold Js.substring.
    replace (Js.clampIdx line idx2) with idx2
      by (unfold Js.clampIdx; lia).
    rewrite Z.min_l, Z.max_r by lia. reflexivity. }
  subst idx2. unfold p in *. clear p.
  destruct (Js.indexOf line "(" idx1 =? -1) eqn:E.
  - apply Z.eqb_eq in E.
    destruct (indexOf_range line "{" idx1) as [K | K]; [contradiction|].
    rewrite Hsub by assumption. apply contains_take.
    unfold Js.indexOf in E.
    now apply indexOfAux_none with (i := Js.clampIdx line idx1).
  - apply Z.eqb_neq in E.
    destruct (indexOf_range line "(" idx1) as [K | K]; [contradiction|].
    rewrite Hsub by assumption. unfold Js.indexOf in *.
    apply indexOfAux_before; [lia | assumption].
Qed.

(** A name that the Gradle scanner adds to its map is not empty, is
    trimmed and has no opening parenthesis. *)
Lemma scanLine_key (scripts : Js.StringMap) (line k : string) :
  In k (List.map fst (Gradle.scanLine scripts line)) ->
  In k (List.map fst scripts)
  \/ (k <> ""%string /\ Js.trim k = k /\ contains "(" k = false).
Proof.
  unfold Gradle.scanLine.
  destruct ((0 <? Js.len line)
            && Js.startsWith (Js.trimLeft (Js.toLowerCase line)) "task ");
    [|now left].
  set (idx1 := Js.indexOf (Js.trimLeft line) " " 0).
  destruct (negb (idx1 =? -1)); [|now left].
  cbv zeta.
  pose proof (before_delimiter line (idx1 + 1)) as Hd. cbv zeta in Hd.
  set (idx2 := if Js.indexOf line "(" (idx1 + 1) =? -1
               then Js.indexOf line "{" (idx1 + 1)
               else Js.indexOf line "(" (idx1 + 1)) in *.
  destruct (idx2 =? -1) eqn:E2; cbn [negb]; [now left|].
  apply Z.eqb_neq in E2. specialize (Hd E2).
  destruct (Js.truthy (Js.trim (Js.substring line (idx1 + 1) idx2))) eqn:Et;
    [|now left].
  rewrite set_In. intros [[-> _] | H]; [right | now left].
  split; [|split].
  - intros K. rewrite K in Et. discriminate.
  - apply trim_idempotent.
  - unfold Js.trim. now apply contains_trimRight, contains_trimLeft.
Qed.

Lemma scanLines_keys (lines : list string) :
  forall (scripts : Js.StringMap) (k : string),
    In k (List.map fst (fold_left Gradle.scanLine lines scripts)) ->
    In k (List.map fst scripts)
    \/ (k <> ""%string /\ Js.trim k = k /\ contains "(" k = false).
Proof.
  induction lines as [|line lines IH]; intros scripts k H; simpl in *;
    [now left|].
  apply IH in H as [H | H]; [|now right]. now apply scanLine_key in H.
Qed.

(** The descriptors of a Gradle file: no two of them bear the same name,
    and each has a name that is not empty, that neither begins nor ends
    with white space and that has no opening parenthesis, and runs the
    task of that name. *)
Theorem gradle_descriptor_names (h : Host) (uri : Uri) (m : Mem)
  (tasks : list Task) :
  fst (Gradle.readGradlefile h uri m) = Ok tasks ->
  NoDup (List.map name tasks)
  /\ forall t, In t tasks ->
       name t <> ""%string
       /\ Js.trim (name t) = name t
       /\ contains "(" (name t) = false
       /\ executionArgs t = [name t].
Proof.
  unfold Gradle.readGradlefile.
  destruct (getWorkspaceFolder h uri) as [folder|];
    [|intros [= <-]; split; [constructor | intros t []]].
  unfold bind, Gradle.findTargets, bind, readFileM.
  destruct (readFile h (uri_fsPath uri)) as [contents|]; [|discriminate].
  rewrite findTargets_scan_lines. unfold ret. cbn [fst].
  set (scripts := fold_left Gradle.scanLine
                    (List.map Js.trim (terminatedLines contents)) []).
  intros [= <-]. split.
  - rewrite map_map. cbn [setGroup name Gradle.createGradleTask].
    rewrite map_id. apply keys_NoDup, scanLines_NoDup. constructor.
  - intros t Ht. apply in_map_iff in Ht as (k & <- & Hk).
    cbn [setGroup name Gradle.createGradleTask].
    apply keys_In, scanLines_keys in Hk as [[] | (H1 & H2 & H3)].
    repeat split; assumption.
Qed.

Lemma gradle_descriptor_names_witness :
  let tasks :=
    List.map
      (fun each =>
         setGroup
           (Gradle.createGradleTask Demo.gradleHost each each Demo.root
              (Demo.file "/ws/app/build.gradle")) Build) ["run"] in
  NoDup (List.map name tasks)
  /\ forall t, In t tasks ->
       name t <> ""%string
       /\ Js.trim (name t) = name t
       /\ contains "(" (name t) = false
       /\ executionArgs t = [name t].
Proof.
  apply (@gradle_descriptor_names Demo.gradleHost
           (Demo.file "/ws/app/build.gradle") Demo.emptyMem).
  vm_compute. reflexivity.
Defined.

(** ** The tree builder as a whole *)

Lemma itemsOf_sortScripts (h : Host) (hp : Tree.Heap) (f : Tree.TaskFile) :
  Permutation (Tree.itemsOf (Tree.sortScripts h hp f)) (Tree.itemsOf f).
Proof.
  unfold Tree.itemsOf, Tree.sortScripts. cbn [Tree.scripts Tree.setScripts].
  apply Permutation_flat_map, sortBy_perm.
Qed.

Lemma placedTasks_update_perm (g : Tree.TaskFile -> Tree.TaskFile) :
  (forall f, Permutation (Tree.itemsOf (g f)) (Tree.itemsOf f)) ->
  forall (hp : Tree.Heap) (r : Tree.ref),
    Permutation (Tree.placedTasks (Tree.update hp r g)) (Tree.placedTasks hp).
Proof.
  intros Hg. induction hp as [|f hp IH]; intros r; [reflexivity|].
  destruct r as [|r]; cbn [Tree.update]; unfold Tree.placedTasks;
    cbn [flat_map].
  - now apply Permutation_app_tail.
  - apply Permutation_app_head, IH.
Qed.

Lemma layered_update (n : nat) (sub : list (string * Tree.ref))
  (hp : Tree.Heap) (r : Tree.ref) (g : Tree.TaskFile -> Tree.TaskFile) :
  (forall f, fileNode f -> fileNode (g f)) ->
  (forall f, Tree.isGroup (g f) = Tree.isGroup f) ->
  layered n sub hp -> layered n sub (Tree.update hp r g).
Proof.
  intros Hfile Hgroup (Hn & Hfiles & Hgroups & Hsub). unfold layered.
  rewrite update_length. split; [assumption|]. split; [|split].
  - intros r' Hr'. destruct (Hfiles r' Hr') as (f & Hf & Hnode).
    rewrite nth_error_update, Hf.
    destruct (Nat.eqb r r'); cbn [option_map]; eauto.
  - intros r' f Hr'. rewrite nth_error_update.
    destruct (Nat.eqb r r'); [|now apply Hgroups].
    destruct (nth_error hp r') as [f0|] eqn:E; [|discriminate].
    cbn [option_map]. intros [= <-]. rewrite Hgroup. now apply (Hgroups r').
  - assumption.
Qed.

(** The first step of the second loop on a folder: sorting the children
    of its nodes. *)
Lemma sortScripts_layered (h : Host) (n : nat)
  (sub : list (string * Tree.ref)) (L : list Tree.ref) :
  forall hp : Tree.Heap,
    layered n sub hp ->
    let hp1 :=
      fold_left (fun hp r => Tree.update hp r (Tree.sortScripts h hp)) L hp in
    layered n sub hp1
    /\ Permutation (Tree.placedTasks hp1) (Tree.placedTasks hp).
Proof.
  induction L as [|r L IH]; intros hp Hl; cbn [fold_left]; [now split|].
  destruct (IH (Tree.update hp r (Tree.sortScripts h hp))) as [H1 H2].
  - apply layered_update; [apply sortScripts_fileNode | reflexivity
                           | assumption].
  - split; [assumption|]. rewrite H2.
    apply placedTasks_update_perm. apply itemsOf_sortScripts.
Qed.

Lemma placedTasks_adopt (hp : Tree.Heap) (g e : Tree.ref) :
  Tree.placedTasks
    (Tree.update hp g (fun f => Tree.addScript f (Tree.ChildFile e)))
  = Tree.placedTasks hp.
Proof.
  revert g; induction hp as [|f hp IH]; intros g; [reflexivity|].
  destruct g as [|g]; cbn [Tree.update]; unfold Tree.placedTasks;
    cbn [flat_map].
  - f_equal. unfold Tree.itemsOf, Tree.addScript. cbn [Tree.scripts].
    rewrite flat_map_app. cbn. apply app_nil_r.
  - f_equal. apply IH.
Qed.

(** One round of the promotion loop on a layered heap goes through and
    keeps the heap layered, with the task items it has. *)
Lemma promote_layered (h : Host) (n : nat) (prev : option Tree.ref)
  (each : Tree.ref) (st : Tree.Promo) :
  (each < n)%nat ->
  layered n (Tree.p_subfolders st) (Tree.p_heap st) ->
  exists st',
    Tree.promote h prev each st = (Ok (Some each), st')
    /\ layered n (Tree.p_subfolders st') (Tree.p_heap st')
    /\ Tree.placedTasks (Tree.p_heap st') = Tree.placedTasks (Tree.p_heap st)
    /\ Tree.folder_label (Tree.p_folder st')
       = Tree.folder_label (Tree.p_folder st).
Proof.
  intros Heach Hl. pose proof Hl as (Hn & Hfiles & Hgroups & Hsub).
  unfold Tree.promote.
  destruct prev as [p|]; [|now exists st].
  destruct (String.eqb (Tree.sourceOf (Tree.p_heap st) p)
              (Tree.sourceOf (Tree.p_heap st) each)); [|now exists st].
  set (id := (Tree.folder_label (Tree.p_folder st)
              ++ Tree.sourceOf (Tree.p_heap st) each)%string).
  destruct (assoc (Tree.p_subfolders st) id) as [g|] eqn:Eg.
  - eexists. split; [reflexivity|].
    cbn [Tree.p_subfolders Tree.p_heap Tree.p_folder].
    split; [|split; [apply placedTasks_adopt | reflexivity]].
    destruct (Hsub id g Eg) as [Hg1 Hg2].
    unfold layered. rewrite update_length. split; [assumption|].
    split; [|split].
    + intros r Hr. rewrite nth_error_update.
      destruct (Nat.eqb_spec g r) as [->|_]; [lia | now apply Hfiles].
    + intros r f Hr. rewrite nth_error_update.
      destruct (Nat.eqb g r); [|now apply Hgroups].
      destruct (nth_error (Tree.p_heap st) r) as [f0|] eqn:E;
        [|discriminate].
      cbn [option_map]. intros [= <-]. cbn. now apply (Hgroups r).
    + assumption.
  - destruct (Hfiles each Heach) as (f & Hf & Hnode). rewrite Hf.
    destruct (fileNode_first Hnode) as (i & rest & Hscripts).
    unfold Tree.firstDefinition. rewrite Hscripts. unfold ret.
    eexists. split; [reflexivity|].
    cbn [Tree.p_subfolders Tree.p_heap Tree.p_folder].
    split; [|split; [|reflexivity]].
    + unfold layered. rewrite length_app. cbn [List.length].
      split; [lia|]. split; [|split].
      * intros r Hr. rewrite nth_error_app1 by lia. now apply Hfiles.
      * intros r f0 Hr Hf0.
        destruct (Nat.lt_ge_cases r (List.length (Tree.p_heap st)))
          as [Lt|Ge].
        -- rewrite nth_error_app1 in Hf0 by lia. now apply (Hgroups r).
        -- rewrite nth_error_app2 in Hf0 by lia.
           destruct (r - List.length (Tree.p_heap st))%nat as [|k];
             [|now destruct k].
           injection Hf0 as <-. reflexivity.
      * intros id' g. rewrite assoc_assocSet.
        destruct (String.eqb id id').
        -- intros [= <-]. lia.
        -- intros Hg. apply Hsub in Hg. lia.
    + rewrite placedTasks_app. unfold Tree.placedTasks at 2.
      cbn. apply app_nil_r.
Qed.

(** The second loop on one folder. *)
Lemma processFolder_layered (h : Host) (n : nat) (folder : Tree.TaskFolder)
  (sub : list (string * Tree.ref)) (hp : Tree.Heap) :
  (forall r, In r (Tree.taskFiles folder) -> (r < n)%nat) ->
  layered n sub hp ->
  exists st',
    Tree.processFolder h (Tree.mkPromo folder sub hp) = (Ok tt, st')
    /\ layered n (Tree.p_subfolders st') (Tree.p_heap st')
    /\ Permutation (Tree.placedTasks (Tree.p_heap st')) (Tree.placedTasks hp)
    /\ Tree.folder_label (Tree.p_folder st') = Tree.folder_label folder.
Proof.
  intros Hrefs Hl.
  set (L := Tree.taskFiles folder).
  set (hp1 := fold_left (fun hp r => Tree.update hp r (Tree.sortScripts h hp))
                L hp).
  destruct (sortScripts_layered h L Hl) as [Hl1 Hp1]. fold hp1 in Hl1, Hp1.
  set (sorted := Tree.sortFiles h hp1 L).
  set (st2 := Tree.mkPromo
                (Tree.mkTaskFolder (Tree.folder_label folder)
                   (Tree.workspaceFolder folder) sorted) sub hp1).
  assert (Hloop :
    match forOf sorted None (Tree.promote h) st2 with
    | (Ok _, st) =>
        layered n (Tree.p_subfolders st) (Tree.p_heap st)
        /\ Tree.placedTasks (Tree.p_heap st) = Tree.placedTasks hp1
        /\ Tree.folder_label (Tree.p_folder st) = Tree.folder_label folder
    | (Throw _, _) => False
    | (Diverge, _) => False
    end).
  { apply (@forOf_invariant Tree.Promo Tree.ref (option Tree.ref)
             (fun _ st =>
                layered n (Tree.p_subfolders st) (Tree.p_heap st)
                /\ Tree.placedTasks (Tree.p_heap st) = Tree.placedTasks hp1
                /\ Tree.folder_label (Tree.p_folder st)
                   = Tree.folder_label folder)
             (fun _ => False)).
    - intros prev each st Hin (HIl & HIp & HIf).
      assert (Heach : (each < n)%nat).
      { apply Hrefs. apply Permutation_in with sorted; [|assumption].
        apply sortBy_perm. }
      destruct (@promote_layered h n prev each st Heach HIl)
        as (st' & -> & Hl' & Hp' & Hf').
      split; [assumption|]. split; congruence.
    - unfold st2. cbn [Tree.p_subfolders Tree.p_heap Tree.p_folder
                         Tree.folder_label].
      split; [exact Hl1 | split; reflexivity]. }
  destruct (forOf sorted None (Tree.promote h) st2) as [[prev|e|] st3] eqn:Ef;
    try contradiction.
  destruct Hloop as (Hl3 & Hp3 & Hf3).
  eexists. split.
  { unfold Tree.processFolder, bind, Tree.getPromo, Tree.setTaskFiles.
    cbn [Tree.p_folder Tree.p_subfolders Tree.p_heap Tree.taskFiles
         Tree.folder_label Tree.workspaceFolder].
    fold L. fold hp1. fold sorted. fold st2. rewrite Ef. reflexivity. }
  cbn [Tree.p_folder Tree.p_subfolders Tree.p_heap Tree.folder_label].
  split; [assumption|]. split; [|assumption].
  now rewrite Hp3.
Qed.

(** The second loop on the folders of the map. *)
Lemma processFolders_layered (h : Host) (n : nat)
  (l : list (string * Tree.TaskFolder)) :
  forall (sub : list (string * Tree.ref)) (hp : Tree.Heap),
    layered n sub hp ->
    (forall e, In e l ->
       forall r, In r (Tree.taskFiles (snd e)) -> (r < n)%nat) ->
    exists fs sub' hp',
      Tree.processFolders h l sub hp = (Ok fs, (sub', hp'))
      /\ List.map (fun e => Tree.folder_label (snd e)) fs
         = List.map (fun e => Tree.folder_label (snd e)) l
      /\ Permutation (Tree.placedTasks hp') (Tree.placedTasks hp).
Proof.
  induction l as [|[key folder] l IH]; intros sub hp Hl Hrefs;
    cbn [Tree.processFolders].
  - exists [], sub, hp. now repeat split.
  - destruct (@processFolder_layered h n folder sub hp) as
      (st' & -> & Hl' & Hp' & Hf'); [|assumption|].
    { intros r Hr. apply (Hrefs (key, folder)); [now left | assumption]. }
    destruct (IH (Tree.p_subfolders st') (Tree.p_heap st') Hl')
      as (fs & sub' & hp' & -> & Hfs & Hp'').
    { intros e He. apply Hrefs. now right. }
    exists ((key, Tree.p_folder st') :: fs), sub', hp'.
    split; [reflexivity|]. split.
    + cbn [List.map snd]. now rewrite Hf', Hfs.
    + now rewrite Hp''.
Qed.

(** The first loop leaves a heap of file nodes, which the folders name,
    and no group. *)
Lemma placed_layered (h : Host) (tasks : list Task) :
  let st := fold_left (Tree.placeTask h) tasks Tree.emptyTree in
  layered (List.length (Tree.heap st)) (Tree.subfolders st) (Tree.heap st)
  /\ forall e, In e (Tree.folders st) ->
       forall r, In r (Tree.taskFiles (snd e)) ->
                 (r < List.length (Tree.heap st))%nat.
Proof.
  assert (Hall : forall st,
            Forall fileNode (Tree.heap st)
            /\ (forall e, In e (Tree.folders st) ->
                  forall r, In r (Tree.taskFiles (snd e)) ->
                            (r < List.length (Tree.heap st))%nat)
            /\ Tree.subfolders st = [] ->
            let st' := fold_left (Tree.placeTask h) tasks st in
            Forall fileNode (Tree.heap st')
            /\ (forall e, In e (Tree.folders st') ->
                  forall r, In r (Tree.taskFiles (snd e)) ->
                            (r < List.length (Tree.heap st'))%nat)
            /\ Tree.subfolders st' = []).
  { induction tasks as [|t tasks IH]; intros st H; cbn [fold_left];
      [exact H|].
    apply IH. now apply placeTask_nodes. }
  intros st. destruct (Hall Tree.emptyTree) as (Hnodes & Hrefs & Hsub).
  { cbn. repeat split; [constructor | contradiction]. }
  fold st in Hnodes, Hrefs, Hsub. split; [|exact Hrefs].
  unfold layered. rewrite Hsub. split; [lia|]. split; [|split].
  - intros r Hr. destruct (nth_error (Tree.heap st) r) as [f|] eqn:E.
    + exists f. split; [reflexivity|].
      apply (proj1 (Forall_forall _ _) Hnodes). now apply nth_error_In with r.
    + apply nth_error_None in E. lia.
  - intros r f Hr Hf.
    assert (r < List.length (Tree.heap st))%nat
      by (apply nth_error_Some; congruence).
    lia.
  - intros id g [=].
Qed.

Lemma tree_is_built_aux (h : Host) (tasks : list Task) :
  let st := fold_left (Tree.placeTask h) tasks Tree.emptyTree in
  exists folders hp,
    Tree.buildTaskTree h tasks = Ok (folders, hp)
    /\ List.map Tree.folder_label folders
       = List.map (fun e => Tree.folder_label (snd e)) (Tree.folders st).
Proof.
  intros st. destruct (placed_layered h tasks) as [Hl Hrefs].
  fold st in Hl, Hrefs.
  destruct (@processFolders_layered h _ (Tree.folders st) _ _ Hl Hrefs)
    as (fs & sub' & hp' & Hrun & Hfs & Hp).
  exists (List.map snd fs), hp'. unfold Tree.buildTaskTree. fold st.
  rewrite Hrun. split; [reflexivity|]. now rewrite map_map.
Qed.

(** ** What the tree shows *)

Lemma Permutation_flat_map_pointwise (A B : Type) (f g : A -> list B)
  (l : list A) :
  (forall x, In x l -> Permutation (f x) (g x)) ->
  Permutation (flat_map f l) (flat_map g l).
Proof.
  induction l as [|x l IH]; intros H; cbn [flat_map]; [constructor|].
  apply Permutation_app; [apply H; now left|].
  apply IH. intros y Hy. apply H. now right.
Qed.

Lemma Permutation_partition (A : Type) (p : A -> bool) (l : list A) :
  Permutation l (List.filter (fun x => negb (p x)) l ++ List.filter p l).
Proof.
  induction l as [|x l IH]; cbn [List.filter]; [constructor|].
  destruct (p x); cbn [negb app].
  - now apply Permutation_cons_app.
  - now constructor.
Qed.

Lemma filter_either (A : Type) (p q : A -> bool) (l : list A) :
  (forall x, In x l -> p x = true -> q x = false) ->
  Permutation (List.filter (fun x => p x || q x) l)
    (List.filter p l ++ List.filter q l).
Proof.
  induction l as [|x l IH]; intros H; cbn [List.filter]; [constructor|].
  assert (IH' : Permutation (List.filter (fun x => p x || q x) l)
                  (List.filter p l ++ List.filter q l))
    by (apply IH; intros y Hy; apply H; now right).
  destruct (p x) eqn:Ep; cbn [orb app].
  - rewrite (H x (or_introl eq_refl) Ep). now constructor.
  - destruct (q x); [now apply Permutation_cons_app | assumption].
Qed.

(** The elements whose key is one of the keys [T], key after key. *)
Lemma filter_by_keys (A : Type) (key : A -> string) (l : list A)
  (T : list string) :
  NoDup T ->
  Permutation
    (List.filter (fun x => existsb (String.eqb (key x)) T) l)
    (flat_map (fun t => List.filter (fun x => String.eqb (key x) t) l) T).
Proof.
  induction T as [|t T IH]; intros Hnd; cbn [existsb flat_map].
  - rewrite filter_all_false by reflexivity. constructor.
  - inversion Hnd as [|? ? Ht HT]; subst.
    rewrite filter_either.
    + apply Permutation_app_head. now apply IH.
    + intros x _ E. apply String.eqb_eq in E.
      destruct (existsb (String.eqb (key x)) T) eqn:Ex; [|reflexivity].
      apply existsb_exists in Ex as (y & Hy & Ey).
      apply String.eqb_eq in Ey. elim Ht. congruence.
Qed.

Lemma flat_map_flat_map (A B C : Type) (f : B -> list C) (g : A -> list B)
  (l : list A) :
  flat_map f (flat_map g l) = flat_map (fun x => flat_map f (g x)) l.
Proof.
  induction l as [|x l IH]; cbn [flat_map]; [reflexivity|].
  now rewrite flat_map_app, IH.
Qed.

Lemma flat_map_map (A B C : Type) (f : B -> list C) (g : A -> B)
  (l : list A) :
  flat_map f (List.map g l) = flat_map (fun x => f (g x)) l.
Proof.
  induction l as [|x l IH]; cbn [flat_map List.map]; [reflexivity|].
  now rewrite IH.
Qed.

(** The view shows, under a file, the items of the file. *)
Lemma nodeTasks_file (hp : Tree.Heap) (r : Tree.ref) (f : Tree.TaskFile) :
  nth_error hp r = Some f -> fileNode f -> nodeTasks hp r = itemsAt hp r.
Proof.
  intros Hf (_ & _ & Hall). unfold nodeTasks, itemsAt, Tree.itemsOf.
  rewrite Hf. revert Hall. generalize (Tree.scripts f) as l.
  induction l as [|c l IH]; cbn [forallb flat_map]; [reflexivity|].
  intros H. apply andb_true_iff in H as [Hc Hl].
  destruct c as [i|r']; [|discriminate]. cbn [childTasks]. now rewrite IH.
Qed.

Lemma itemsAt_update (hp : Tree.Heap) (a r : Tree.ref)
  (g : Tree.TaskFile -> Tree.TaskFile) :
  (forall f, Permutation (Tree.itemsOf (g f)) (Tree.itemsOf f)) ->
  Permutation (itemsAt (Tree.update hp a g) r) (itemsAt hp r).
Proof.
  intros Hg. unfold itemsAt. rewrite nth_error_update.
  destruct (Nat.eqb a r); [|reflexivity].
  destruct (nth_error hp r); cbn [option_map]; [apply Hg | reflexivity].
Qed.

(** The sort of the children of the files of a folder keeps their items,
    and leaves the other nodes alone. *)
Lemma sortScripts_pass_items (h : Host) (L : list Tree.ref) :
  forall (H : Tree.Heap),
    let hp :=
      fold_left (fun hp r => Tree.update hp r (Tree.sortScripts h hp)) L H in
    List.length hp = List.length H
    /\ (forall r, Permutation (itemsAt hp r) (itemsAt H r))
    /\ (forall r, ~ In r L -> nth_error hp r = nth_error H r).
Proof.
  induction L as [|a L IH]; intros H; cbn [fold_left].
  - repeat split; auto.
  - destruct (IH (Tree.update H a (Tree.sortScripts h H))) as (I1 & I2 & I3).
    split; [|split].
    + now rewrite I1, update_length.
    + intros r. rewrite I2. apply itemsAt_update.
      intros f. apply itemsOf_sortScripts.
    + intros r Hr. rewrite I3 by (intros K; apply Hr; now right).
      rewrite nth_error_update.
      destruct (Nat.eqb_spec a r) as [->|_]; [|reflexivity].
      elim Hr. now left.
Qed.

(** What a round of the promotion loop does to the map of groups and to
    the types of the nodes. *)
Lemma promote_keys (h : Host) (prev : option Tree.ref) (each : Tree.ref)
  (st st' : Tree.Promo) (r : option Tree.ref) :
  Tree.promote h prev each st = (Ok r, st') ->
  Tree.folder_label (Tree.p_folder st') = Tree.folder_label (Tree.p_folder st)
  /\ (List.length (Tree.p_heap st) <= List.length (Tree.p_heap st'))%nat
  /\ (forall x, (x < List.length (Tree.p_heap st))%nat ->
                Tree.sourceOf (Tree.p_heap st') x
                = Tree.sourceOf (Tree.p_heap st) x)
  /\ (forall k g,
        assoc (Tree.p_subfolders st') k = Some g ->
        assoc (Tree.p_subfolders st) k = Some g
        \/ k = (Tree.folder_label (Tree.p_folder st)
                ++ Tree.sourceOf (Tree.p_heap st) each)%string).
Proof.
  unfold Tree.promote.
  destruct prev as [p|]; [|intros [= _ <-]; repeat split; auto].
  destruct (String.eqb (Tree.sourceOf (Tree.p_heap st) p)
              (Tree.sourceOf (Tree.p_heap st) each));
    [|intros [= _ <-]; repeat split; auto].
  set (id := (Tree.folder_label (Tree.p_folder st)
              ++ Tree.sourceOf (Tree.p_heap st) each)%string).
  destruct (assoc (Tree.p_subfolders st) id) as [g|] eqn:Eg.
  - intros [= _ <-].
    cbn [Tree.p_folder Tree.p_heap Tree.p_subfolders].
    rewrite update_length. repeat split; auto.
    intros x _. apply sourceOf_addScript.
  - destruct (nth_error (Tree.p_heap st) each) as [f|]; [|discriminate].
    destruct (Tree.firstDefinition f st) as [[def|e|] st0]; try discriminate.
    intros [= _ <-].
    cbn [Tree.p_folder Tree.p_heap Tree.p_subfolders Tree.addTaskFile
         Tree.folder_label].
    rewrite length_app. cbn [List.length].
    split; [reflexivity|]. split; [lia|]. split.
    + intros x Hx. now apply sourceOf_app.
    + intros k g. rewrite assoc_assocSet.
      destruct (String.eqb_spec id k) as [<-|_]; [now right | now left].
Qed.

(** The same for the promotion loop over the files [Q] of a folder. *)
Lemma promotions_keys (h : Host) (Q : list Tree.ref) :
  forall (prev : option Tree.ref) (st st' : Tree.Promo)
         (r : option Tree.ref),
    forOf Q prev (Tree.promote h) st = (Ok r, st') ->
    (forall e, In e Q -> (e < List.length (Tree.p_heap st))%nat) ->
    Tree.folder_label (Tree.p_folder st')
    = Tree.folder_label (Tree.p_folder st)
    /\ (List.length (Tree.p_heap st) <= List.length (Tree.p_heap st'))%nat
    /\ (forall x, (x < List.length (Tree.p_heap st))%nat ->
                  Tree.sourceOf (Tree.p_heap st') x
                  = Tree.sourceOf (Tree.p_heap st) x)
    /\ (forall k g,
          assoc (Tree.p_subfolders st') k = Some g ->
          assoc (Tree.p_subfolders st) k = Some g
          \/ exists e, In e Q
                       /\ k = (Tree.folder_label (Tree.p_folder st)
                               ++ Tree.sourceOf (Tree.p_heap st) e)%string).
Proof.
  induction Q as [|e Q IH]; intros prev st st' r Hrun Hin; cbn [forOf] in Hrun.
  - injection Hrun as _ <-. repeat split; auto.
  - unfold bind in Hrun.
    destruct (Tree.promote h prev e st) as [[r1|x|] st1] eqn:E1;
      try discriminate.
    destruct (promote_keys h prev e st E1) as (P1 & P2 & P3 & P4).
    destruct (IH r1 st1 st' r Hrun) as (Q1 & Q2 & Q3 & Q4).
    { intros y Hy. specialize (Hin y (or_intror Hy)). lia. }
    split; [congruence|]. split; [lia|]. split.
    + intros x Hx. rewrite Q3 by lia. now apply P3.
    + intros k g Hk. apply Q4 in Hk as [Hk | (y & Hy & ->)].
      * apply P4 in Hk as [Hk | ->]; [now left|].
        right. exists e. split; [now left | reflexivity].
      * right. exists y. split; [now right|].
        rewrite P1, P3; [reflexivity|]. apply Hin. now right.
Qed.

(** The second loop on one folder whose keys in the map of groups are
    free: it makes the groups of the folder, and the tree shows under the
    folder the items that its files had. *)
Lemma processFolder_shown (h : Host) (n : nat) (folder : Tree.TaskFolder)
  (SF : list (string * Tree.ref)) (H : Tree.Heap) :
  totalOrder (localeCompare h) ->
  layered n SF H ->
  (forall r, In r (Tree.taskFiles folder) -> (r < n)%nat) ->
  (forall r, In r (Tree.taskFiles folder) ->
     assoc SF (Tree.folder_label folder ++ Tree.sourceOf H r)%string = None) ->
  exists st',
    Tree.processFolder h (Tree.mkPromo folder SF H) = (Ok tt, st')
    /\ Tree.folder_label (Tree.p_folder st') = Tree.folder_label folder
    /\ layered n (Tree.p_subfolders st') (Tree.p_heap st')
    /\ preserved n H (Tree.p_heap st')
    /\ (forall k g,
          assoc (Tree.p_subfolders st') k = Some g ->
          assoc SF k = Some g
          \/ exists r, In r (Tree.taskFiles folder)
                       /\ k = (Tree.folder_label folder
                               ++ Tree.sourceOf H r)%string)
    /\ (forall r, In r (Tree.taskFiles (Tree.p_folder st')) ->
                  shaped n (Tree.p_heap st') r)
    /\ Permutation
         (flat_map (nodeTasks (Tree.p_heap st'))
            (Tree.taskFiles (Tree.p_folder st')))
         (flat_map (itemsAt H) (Tree.taskFiles folder)).
Proof.
  intros (Htrans & Htotal & Hanti) Hl Hrefs Hfresh.
  pose proof Hl as (Hn & Hfiles & Hgroups & Hsub).
  set (L := Tree.taskFiles folder) in *.
  set (lbl := Tree.folder_label folder) in *.
  set (hp := fold_left (fun hp r => Tree.update hp r (Tree.sortScripts h hp))
               L H).
  destruct (sortScripts_pass h L H) as [Hsrc Hnode]. fold hp in Hsrc, Hnode.
  destruct (sortScripts_pass_items h L H) as (Hlen & Hitems & Hother).
  fold hp in Hlen, Hitems, Hother.
  set (sorted := Tree.sortFiles h H L).
  assert (Hsort : Tree.sortFiles h hp L = sorted).
  { unfold sorted, Tree.sortFiles. apply sortBy_ext. intros a b.
    now rewrite !Hsrc. }
  assert (Hperm : Permutation sorted L) by apply sortBy_perm.
  assert (HinL : forall r, In r sorted -> In r L)
    by (intros r; apply Permutation_in; assumption).
  assert (S_files : forall r, In r sorted ->
            exists f, nth_error hp r = Some f /\ fileNode f).
  { intros r Hr. destruct (Hfiles r (Hrefs r (HinL r Hr))) as (f & Hf & Hnd).
    eauto. }
  assert (S_fresh : forall r, In r sorted ->
            assoc SF (lbl ++ Tree.sourceOf hp r)%string = None).
  { intros r Hr. rewrite Hsrc. now apply Hfresh, HinL. }
  assert (S_cont : contiguous (List.map (Tree.sourceOf hp) sorted) = true).
  { rewrite (map_ext _ _ Hsrc). now apply sortFiles_contiguous. }
  assert (S_len : forall r, In r sorted -> (r < List.length hp)%nat).
  { intros r Hr. destruct (S_files r Hr) as (f & Hf & _).
    apply nth_error_Some. congruence. }
  set (st2 := Tree.mkPromo
                (Tree.mkTaskFolder lbl (Tree.workspaceFolder folder) sorted)
                SF hp).
  assert (W0 : walked lbl hp SF sorted [] [] st2).
  { unfold walked, st2. cbn. rewrite app_nil_r.
    repeat split; auto; try constructor; try contradiction; try lia. }
  destruct (@walk_all h lbl hp SF sorted S_files S_fresh S_cont sorted [] []
              st2 eq_refl W0) as (G & st3 & prev & Hwalk & W).
  cbn [lastOpt fold_left] in Hwalk.
  pose proof W as (W1 & W2 & W3 & W4 & W5 & W6 & W7 & W8).
  destruct (promotions_keys h sorted None st2 Hwalk S_len)
    as (_ & _ & _ & Hkeys).
  cbn [st2 Tree.p_folder Tree.p_subfolders Tree.p_heap Tree.folder_label]
    in Hkeys.
  (* the files removed from the folder *)
  assert (HgS : forall r, In r sorted ->
            Tree.isGrouped st3 r
            = (2 <=? List.length (ofType hp (Tree.sourceOf hp r) sorted))%nat).
  { intros r Hr. unfold Tree.isGrouped.
    destruct (S_files r Hr) as (f & Hf & Hg & _).
    rewrite W4, Hf, Hg, W1 by (apply nth_error_Some; congruence).
    cbn [negb andb]. rewrite <- (@sourceOf_nth _ _ _ Hf).
    destruct (Nat.leb_spec 2
                (List.length (ofType hp (Tree.sourceOf hp r) sorted)))
      as [Le|Lt].
    - destruct (W7 _ Le) as (g & Hg' & E).
      destruct (W6 g Hg') as (_ & grp & Hnth & _ & Ha & _).
      rewrite (@sourceOf_nth _ _ _ Hnth) in E. now rewrite <- E, Ha.
    - rewrite W8 by lia. now rewrite S_fresh. }
  assert (HgG : forall g, In g G -> Tree.isGrouped st3 g = false).
  { intros g Hg. unfold Tree.isGrouped.
    destruct (W6 g Hg) as (_ & grp & Hnth & Hgr & _). now rewrite Hnth, Hgr. }
  set (T := List.map (Tree.sourceOf (Tree.p_heap st3)) G).
  set (inT := fun r => existsb (String.eqb (Tree.sourceOf hp r)) T).
  assert (Hgrouped : forall r, In r sorted -> Tree.isGrouped st3 r = inT r).
  { intros r Hr. rewrite HgS by assumption. unfold inT.
    destruct (Nat.leb_spec 2
                (List.length (ofType hp (Tree.sourceOf hp r) sorted)))
      as [Le|Lt].
    - destruct (W7 _ Le) as (g & Hg & E). symmetry.
      apply existsb_exists. exists (Tree.sourceOf (Tree.p_heap st3) g).
      split; [now apply in_map|]. rewrite E. apply String.eqb_refl.
    - destruct (existsb (String.eqb (Tree.sourceOf hp r)) T) eqn:Ex;
        [|reflexivity].
      apply existsb_exists in Ex as (t & Ht & Et).
      apply String.eqb_eq in Et. subst t.
      apply in_map_iff in Ht as (g & Eg & Hg).
      destruct (W6 g Hg) as (_ & grp & Hnth & _ & Ha & _).
      rewrite (@sourceOf_nth _ _ _ Hnth) in Eg.
      rewrite Eg, W8, S_fresh in Ha by (assumption || lia). discriminate. }
  set (kept := (List.filter (fun r => negb (Tree.isGrouped st3 r)) sorted
                ++ G)%list).
  assert (Hkept : fold_left Tree.removeRef
                    (List.filter (Tree.isGrouped st3)
                       (Tree.taskFiles (Tree.p_folder st3)))
                    (Tree.taskFiles (Tree.p_folder st3)) = kept).
  { rewrite removeRef_filter, W2, filter_app. unfold kept. f_equal.
    apply filter_all_true. intros g Hg. now rewrite HgG. }
  set (children := Tree.sortFiles h (Tree.p_heap st3) kept).
  assert (Hch : Permutation children kept) by apply sortBy_perm.
  assert (Hrun : Tree.processFolder h (Tree.mkPromo folder SF H)
                 = (Ok tt,
                    Tree.mkPromo
                      (Tree.mkTaskFolder
                         (Tree.folder_label (Tree.p_folder st3))
                         (Tree.workspaceFolder (Tree.p_folder st3)) children)
                      (Tree.p_subfolders st3) (Tree.p_heap st3))).
  { unfold Tree.processFolder, bind, Tree.getPromo, Tree.setTaskFiles.
    cbn [Tree.p_folder Tree.p_subfolders Tree.p_heap Tree.taskFiles
         Tree.folder_label Tree.workspaceFolder].
    fold L. fold hp. rewrite Hsort. fold lbl. fold st2.
    rewrite Hwalk. rewrite Hkept. reflexivity. }
  destruct (@processFolder_layered h n folder SF H Hrefs Hl)
    as (st'' & Hrun'' & Hl'' & _ & _).
  rewrite Hrun in Hrun''. injection Hrun'' as <-.
  cbn [Tree.p_subfolders Tree.p_heap] in Hl''.
  eexists. split; [exact Hrun|].
  cbn [Tree.p_folder Tree.p_subfolders Tree.p_heap Tree.taskFiles
       Tree.folder_label].
  assert (Hsame : forall r, In r sorted ->
            nth_error (Tree.p_heap st3) r = nth_error hp r).
  { intros r Hr. apply W4. now apply S_len. }
  split; [exact W1|]. split; [exact Hl''|]. split; [|split; [|split]].
  - (* what is kept of the heap *)
    unfold preserved. split; [lia|]. split.
    + intros r Hr.
      assert (Hr' : (r < List.length hp)%nat) by lia.
      unfold Tree.sourceOf at 1. unfold itemsAt at 1.
      rewrite (W4 r Hr').
      fold (Tree.sourceOf hp r). fold (itemsAt hp r).
      split; [apply Hsrc | apply Hitems].
    + intros r Hr. rewrite W4 by lia. apply Hother.
      intros K. apply Hrefs in K. lia.
  - (* the keys of the map of groups *)
    intros k g Hk. apply Hkeys in Hk as [Hk | (e & He & ->)]; [now left|].
    right. exists e. split; [now apply HinL | now rewrite Hsrc].
  - (* the nodes of the folder *)
    intros r Hr. apply (Permutation_in _ Hch) in Hr. unfold kept in Hr.
    apply in_app_or in Hr as [Hr|Hr].
    + left. apply filter_In in Hr as [Hr _]. now apply Hrefs, HinL.
    + right. destruct (W6 r Hr) as (Hge & grp & Hnth & Hgr & _ & Hscr).
      split.
      * split; [lia|]. apply nth_error_Some. congruence.
      * exists grp. repeat split; auto. intros c Hc. rewrite Hscr in Hc.
        apply in_map_iff in Hc as (r' & <- & Hr').
        exists r'. split; [reflexivity|].
        apply filter_In in Hr' as [Hr' _]. now apply Hrefs, HinL.
  - (* the items under the folder *)
    rewrite (Permutation_flat_map _ Hch). unfold kept.
    rewrite flat_map_app.
    transitivity
      (flat_map (itemsAt hp) (List.filter (fun r => negb (inT r)) sorted)
       ++ flat_map (itemsAt hp) (List.filter inT sorted))%list.
    + apply Permutation_app.
      * rewrite (filter_ext_in (fun r => negb (Tree.isGrouped st3 r))
                   (fun r => negb (inT r))).
        -- apply Permutation_flat_map_pointwise. intros r Hr.
           apply filter_In in Hr as [Hr _].
           destruct (S_files r Hr) as (f & Hf & Hnd).
           rewrite (@nodeTasks_file (Tree.p_heap st3) r f)
             by (try rewrite Hsame; assumption).
           unfold itemsAt. now rewrite Hsame.
        -- intros r Hr. now rewrite Hgrouped.
      * transitivity
          (flat_map (fun t => flat_map (itemsAt hp) (ofType hp t sorted)) T).
        -- unfold T. rewrite flat_map_map.
           apply Permutation_flat_map_pointwise. intros g Hg.
           destruct (W6 g Hg) as (_ & grp & Hnth & _ & _ & Hscr).
           unfold nodeTasks. rewrite Hnth, Hscr, flat_map_map.
           cbn [childTasks]. rewrite (@sourceOf_nth _ _ _ Hnth).
           apply Permutation_flat_map_pointwise. intros r Hr.
           apply filter_In in Hr as [Hr _].
           unfold itemsAt. now rewrite Hsame.
        -- rewrite <- flat_map_flat_map. apply Permutation_flat_map.
           symmetry. unfold inT, ofType.
           apply (filter_by_keys (Tree.sourceOf hp) sorted W5).
    + rewrite <- flat_map_app.
      rewrite <- (Permutation_flat_map _ (Permutation_partition inT sorted)).
      rewrite (Permutation_flat_map _ Hperm).
      apply Permutation_flat_map_pointwise. intros r _. apply Hitems.
Qed.

Lemma preserved_refl (n : nat) (hp : Tree.Heap) : preserved n hp hp.
Proof. unfold preserved. repeat split; auto. Qed.

Lemma preserved_trans (n : nat) (hp1 hp2 hp3 : Tree.Heap) :
  preserved n hp1 hp2 -> preserved n hp2 hp3 -> preserved n hp1 hp3.
Proof.
  intros (A1 & A2 & A3) (B1 & B2 & B3). split; [lia|]. split.
  - intros r Hr. destruct (A2 r Hr) as [A21 A22].
    destruct (B2 r Hr) as [B21 B22]. split; [congruence|].
    now rewrite B22.
  - intros r Hr. rewrite B3 by lia. now apply A3.
Qed.

(** What the tree shows under a node is kept with the heap. *)
Lemma nodeTasks_preserved (n : nat) (sub sub' : list (string * Tree.ref))
  (hp hp' : Tree.Heap) (r : Tree.ref) :
  layered n sub hp -> layered n sub' hp' -> preserved n hp hp' ->
  shaped n hp r ->
  Permutation (nodeTasks hp' r) (nodeTasks hp r) /\ shaped n hp' r.
Proof.
  intros (_ & Hfiles & _) (_ & Hfiles' & _) (P1 & P2 & P3) [Hr | (Hr & Hg)].
  - split; [|now left].
    destruct (Hfiles r Hr) as (f & Hf & Hnd).
    destruct (Hfiles' r Hr) as (f' & Hf' & Hnd').
    rewrite (@nodeTasks_file _ _ _ Hf' Hnd'), (@nodeTasks_file _ _ _ Hf Hnd).
    now apply P2.
  - destruct Hg as (grp & Hnth & Hgr & Hscr).
    assert (Hnth' : nth_error hp' r = Some grp) by (rewrite P3; assumption).
    split.
    + unfold nodeTasks. rewrite Hnth, Hnth'.
      apply Permutation_flat_map_pointwise. intros c Hc.
      destruct (Hscr c Hc) as (r' & -> & Hr'). cbn [childTasks].
      now apply P2.
    + right. split; [lia|]. exists grp. now repeat split.
Qed.

(** The second loop on the folders of the map, when the keys of the map
    of groups tell the folders apart. *)
Lemma processFolders_shown (h : Host) (n : nat)
  (l : list (string * Tree.TaskFolder)) :
  totalOrder (localeCompare h) ->
  forall (sub : list (string * Tree.ref)) (hp : Tree.Heap),
    layered n sub hp ->
    (forall e, In e l ->
       forall r, In r (Tree.taskFiles (snd e)) -> (r < n)%nat) ->
    NoDup (List.map (fun e => Tree.folder_label (snd e)) l) ->
    (forall e r, In e l -> In r (Tree.taskFiles (snd e)) ->
       assoc sub (Tree.folder_label (snd e) ++ Tree.sourceOf hp r)%string
       = None) ->
    (forall e1 e2 r1 r2,
       In e1 l -> In e2 l ->
       In r1 (Tree.taskFiles (snd e1)) -> In r2 (Tree.taskFiles (snd e2)) ->
       (Tree.folder_label (snd e1) ++ Tree.sourceOf hp r1
        = Tree.folder_label (snd e2) ++ Tree.sourceOf hp r2)%string ->
       Tree.folder_label (snd e1) = Tree.folder_label (snd e2)) ->
    exists fs sub' hp',
      Tree.processFolders h l sub hp = (Ok fs, (sub', hp'))
      /\ List.map (fun e => Tree.folder_label (snd e)) fs
         = List.map (fun e => Tree.folder_label (snd e)) l
      /\ layered n sub' hp'
      /\ preserved n hp hp'
      /\ (forall e r, In e fs -> In r (Tree.taskFiles (snd e)) ->
                      shaped n hp' r)
      /\ Permutation
           (flat_map (fun e => flat_map (nodeTasks hp')
                                 (Tree.taskFiles (snd e))) fs)
           (flat_map (fun e => flat_map (itemsAt hp)
                                 (Tree.taskFiles (snd e))) l).
Proof.
  intros Hord.
  induction l as [|[key folder] l IH];
    intros sub hp Hl Hrefs Hnd Hfresh Hapart; cbn [Tree.processFolders].
  - exists [], sub, hp.
    split; [reflexivity|]. split; [reflexivity|]. split; [assumption|].
    split; [apply preserved_refl|]. split; [intros e r []|].
    constructor.
  - destruct (@processFolder_shown h n folder sub hp Hord Hl) as
      (st1 & -> & Hlab & Hl1 & Hp1 & Hkeys & Hshape & Hperm).
    { intros r Hr. apply (Hrefs (key, folder)); [now left | assumption]. }
    { intros r Hr. apply (Hfresh (key, folder)); [now left | assumption]. }
    inversion Hnd as [|? ? Hhead Htail]; subst.
    cbn [snd] in Hhead.
    assert (Hsrc1 : forall e r, In e l -> In r (Tree.taskFiles (snd e)) ->
              Tree.sourceOf (Tree.p_heap st1) r = Tree.sourceOf hp r).
    { intros e r He Hr. apply Hp1. apply (Hrefs e); [now right | assumption]. }
    destruct (IH (Tree.p_subfolders st1) (Tree.p_heap st1) Hl1)
      as (fs & sub' & hp' & -> & Hfs & Hl' & Hp' & Hshape' & Hperm').
    { intros e He. apply Hrefs. now right. }
    { assumption. }
    { intros e r He Hr. rewrite (Hsrc1 e r He Hr).
      destruct (assoc (Tree.p_subfolders st1)
                  (Tree.folder_label (snd e) ++ Tree.sourceOf hp r)%string)
        as [g|] eqn:Eg; [|reflexivity].
      exfalso. apply Hkeys in Eg as [Eg | (r1 & Hr1 & E)].
      - rewrite (Hfresh e r) in Eg; [discriminate | now right | assumption].
      - apply Hhead.
        assert (Hsame : Tree.folder_label (snd e) = Tree.folder_label folder).
        { apply (Hapart e (key, folder) r r1); auto;
            [now right | now left]. }
        rewrite <- Hsame.
        apply in_map with (f := fun e => Tree.folder_label (snd e)).
        assumption. }
    { intros e1 e2 r1 r2 H1 H2 Hr1 Hr2.
      rewrite (Hsrc1 e1 r1 H1 Hr1), (Hsrc1 e2 r2 H2 Hr2).
      apply Hapart; auto; now right. }
    exists ((key, Tree.p_folder st1) :: fs), sub', hp'.
    split; [reflexivity|]. split; [|split; [|split; [|split]]].
    + cbn [List.map snd]. now rewrite Hlab, Hfs.
    + assumption.
    + now apply preserved_trans with (Tree.p_heap st1).
    + intros e r [<-|He] Hr.
      * cbn [snd] in Hr.
        now apply (@nodeTasks_preserved n _ _ _ _ r Hl1 Hl' Hp'), Hshape.
      * now apply Hshape' with e.
    + cbn [flat_map snd]. apply Permutation_app.
      * rewrite <- Hperm. apply Permutation_flat_map_pointwise.
        intros r Hr.
        now apply (@nodeTasks_preserved n _ _ _ _ r Hl1 Hl' Hp'), Hshape.
      * rewrite Hperm'. apply Permutation_flat_map_pointwise.
        intros e He. apply Permutation_flat_map_pointwise. intros r Hr.
        apply Hp1. apply (Hrefs e); [now right | assumption].
Qed.

(** ** The first loop of the tree builder *)

Lemma assoc_In (A : Type) (l : list (string * A)) (k : string) (v : A) :
  assoc l k = Some v -> In (k, v) l.
Proof.
  induction l as [|[k' v'] l IH]; cbn [assoc]; [discriminate|].
  destruct (String.eqb_spec k' k) as [->|_].
  - intros [= ->]. now left.
  - intros H. right. now apply IH.
Qed.

Lemma assoc_none (A : Type) (l : list (string * A)) (k : string) :
  assoc l k = None -> ~ In k (List.map fst l).
Proof.
  induction l as [|[k' v'] l IH]; cbn [assoc List.map fst]; [intros _ []|].
  destruct (String.eqb_spec k' k) as [->|Hne]; [discriminate|].
  intros H [E|K]; [now elim Hne | now apply IH].
Qed.

Lemma assocSet_none (A : Type) (l : list (string * A)) (k : string) (v : A) :
  assoc l k = None -> assocSet l k v = (l ++ [(k, v)])%list.
Proof.
  induction l as [|[k' v'] l IH]; cbn [assoc assocSet app]; [reflexivity|].
  destruct (String.eqb k' k); [discriminate|].
  intros H. now rewrite IH.
Qed.

Lemma assocSet_keys (A : Type) (l : list (string * A)) (k : string)
  (v v' : A) :
  assoc l k = Some v -> List.map fst (assocSet l k v') = List.map fst l.
Proof.
  induction l as [|[k' w] l IH]; cbn [assoc assocSet]; [discriminate|].
  destruct (String.eqb_spec k' k) as [->|_]; [reflexivity|].
  intros H. cbn [List.map fst]. now rewrite IH.
Qed.

Lemma In_assocSet_entry (A : Type) (l : list (string * A)) (k k' : string)
  (v v' : A) :
  In (k', v') (assocSet l k v) -> (k' = k /\ v' = v) \/ In (k', v') l.
Proof.
  induction l as [|[x y] l IH]; cbn [assocSet].
  - intros [[= <- <-]|[]]. now left.
  - destruct (String.eqb_spec x k) as [->|_].
    + intros [[= <- <-]|H]; [now left | right; now right].
    + intros [H|H]; [right; now left|].
      destruct (IH H) as [K|K]; [now left | right; now right].
Qed.

(** The files of the folders when the folder of a key gets other
    files. *)
Lemma taskFiles_assocSet (l : list (string * Tree.TaskFolder)) (k : string)
  (F : Tree.TaskFolder) :
  assoc l k = Some F ->
  exists X,
    Permutation (flat_map (fun e => Tree.taskFiles (snd e)) l)
      (Tree.taskFiles F ++ X)
    /\ forall F',
         Permutation
           (flat_map (fun e => Tree.taskFiles (snd e)) (assocSet l k F'))
           (Tree.taskFiles F' ++ X).
Proof.
  induction l as [|[k' w] l IH]; cbn [assoc assocSet]; [discriminate|].
  destruct (String.eqb_spec k' k) as [->|_].
  - intros [= ->].
    exists (flat_map (fun e => Tree.taskFiles (snd e)) l).
    split; [reflexivity|]. intros F'. reflexivity.
  - intros H. destruct (IH H) as (X & HX & HX').
    exists (Tree.taskFiles w ++ X)%list. cbn [flat_map snd]. split.
    + rewrite HX. apply Permutation_app_swap_app.
    + intros F'. rewrite HX'. apply Permutation_app_swap_app.
Qed.

Lemma firstLoop_refs (tasks : list Task)
  (folders : list (string * Tree.TaskFolder)) (hp : Tree.Heap)
  (key : string) (F : Tree.TaskFolder) (r : Tree.ref) :
  firstLoop tasks folders hp ->
  In (key, F) folders -> In r (Tree.taskFiles F) ->
  (r < List.length hp)%nat.
Proof.
  intros (_ & _ & Hperm & _) HF Hr.
  assert (K : In r (seq 0 (List.length hp))).
  { apply (Permutation_in _ Hperm). apply in_flat_map.
    exists (key, F). now split. }
  apply in_seq in K. lia.
Qed.

(** The folder that a round of the first loop works on is in the map,
    under its name. *)
Lemma firstLoop_folder (tasks : list Task)
  (folders : list (string * Tree.TaskFolder)) (hp : Tree.Heap)
  (ws : WorkspaceFolder) :
  firstLoop tasks folders hp ->
  let folder :=
    match assoc folders (wf_name ws) with
    | Some f => f
    | None => Tree.newTaskFolder ws
    end in
  let folders1 :=
    match assoc folders (wf_name ws) with
    | Some _ => folders
    | None => assocSet folders (wf_name ws) folder
    end in
  firstLoop tasks folders1 hp /\ assoc folders1 (wf_name ws) = Some folder.
Proof.
  intros Hinv. cbv zeta.
  destruct (assoc folders (wf_name ws)) as [f|] eqn:E; [now split|].
  rewrite (@assocSet_none _ _ _ _ E).
  destruct Hinv as (H1 & H2 & H3 & H4). split.
  - split; [|split; [|split]].
    + intros key F HF. apply in_app_or in HF as [HF|[[= <- <-]|[]]];
        [now apply H1 | reflexivity].
    + rewrite map_app. cbn [List.map fst].
      apply NoDup_app; [assumption | repeat constructor; intros [] | ].
      intros x Hx [<-|[]]. now apply (@assoc_none _ _ _ E).
    + rewrite flat_map_app. cbn [flat_map snd Tree.newTaskFolder
        Tree.taskFiles]. now rewrite !app_nil_r.
    + intros key F r HF Hr.
      apply in_app_or in HF as [HF|[[= <- <-]|[]]]; [now apply (H4 key F)|].
      destruct Hr.
  - clear -E. induction folders as [|[k v] l IH]; cbn [assoc app] in *.
    + now rewrite String.eqb_refl.
    + destruct (String.eqb k (wf_name ws)); [discriminate | now apply IH].
Qed.

Lemma firstLoop_update (tasks : list Task)
  (folders : list (string * Tree.TaskFolder)) (hp : Tree.Heap)
  (r : Tree.ref) (c : Tree.Child) :
  firstLoop tasks folders hp ->
  firstLoop tasks folders (Tree.update hp r (fun f => Tree.addScript f c)).
Proof.
  intros (H1 & H2 & H3 & H4). split; [|split; [|split]]; auto.
  - now rewrite update_length.
  - intros key F x HF Hx. rewrite sourceOf_addScript. now apply (H4 key F).
Qed.

Lemma firstLoop_new (tasks : list Task)
  (folders : list (string * Tree.TaskFolder)) (hp : Tree.Heap)
  (ws : WorkspaceFolder) (folder : Tree.TaskFolder) (each : Task)
  (node : Tree.TaskFile) :
  firstLoop tasks folders hp ->
  assoc folders (wf_name ws) = Some folder ->
  In each tasks -> scope each = ScopeFolder ws ->
  Tree.taskSource node = source each ->
  firstLoop tasks
    (assocSet folders (wf_name ws)
       (Tree.addTaskFile folder (List.length hp)))
    (hp ++ [node])%list.
Proof.
  intros Hinv Hfolder Heach Hscope Hsrc.
  pose proof Hinv as (H1 & H2 & H3 & H4).
  pose proof (@assoc_In _ _ _ _ Hfolder) as HinF.
  assert (Hold : forall key F x, In (key, F) folders ->
            In x (Tree.taskFiles F) ->
            exists t ws0,
              In t tasks /\ scope t = ScopeFolder ws0 /\ wf_name ws0 = key
              /\ Tree.sourceOf (hp ++ [node])%list x = source t).
  { intros key F x HF Hx. rewrite sourceOf_app; [now apply (H4 key F)|].
    now apply (@firstLoop_refs tasks folders hp key F x Hinv HF Hx). }
  split; [|split; [|split]].
  - intros key F HF. apply In_assocSet_entry in HF as [[-> ->]|HF];
      [|now apply H1].
    cbn [Tree.addTaskFile Tree.folder_label]. now apply H1.
  - now rewrite (@assocSet_keys _ _ _ _ _ Hfolder).
  - destruct (@taskFiles_assocSet _ _ _ Hfolder) as (X & HX & HX').
    rewrite HX'. cbn [Tree.addTaskFile Tree.taskFiles].
    rewrite length_app. cbn [List.length]. rewrite Nat.add_1_r, seq_S.
    cbn [Nat.add]. rewrite <- H3, HX, <- !app_assoc.
    apply Permutation_app_head, Permutation_app_comm.
  - intros key F x HF Hx. apply In_assocSet_entry in HF as [[-> ->]|HF];
      [|now apply (Hold key F)].
    cbn [Tree.addTaskFile Tree.taskFiles] in Hx.
    apply in_app_or in Hx as [Hx|[<-|[]]];
      [now apply (Hold (wf_name ws) folder)|].
    exists each, ws. repeat split; auto.
    unfold Tree.sourceOf. rewrite nth_error_app2 by lia.
    now rewrite Nat.sub_diag.
Qed.

(** A round of the first loop keeps the folders and the heap as the
    first loop makes them. *)
Lemma placeTask_firstLoop (h : Host) (tasks : list Task)
  (st : Tree.TreeState) (each : Task) :
  In each tasks ->
  firstLoop tasks (Tree.folders st) (Tree.heap st) ->
  firstLoop tasks (Tree.folders (Tree.placeTask h st each))
    (Tree.heap (Tree.placeTask h st each)).
Proof.
  intros Heach Hinv. unfold Tree.placeTask.
  destruct (scope each) as [ws| | |] eqn:Hscope; auto.
  destruct (jsTruthy _ && Tree.isWorkspaceFolder (ScopeFolder ws)
            && negb (Tree.isInstallTask each)); auto.
  destruct (@firstLoop_folder tasks _ _ ws Hinv) as [Hinv1 Hfolder].
  cbv zeta in Hinv1, Hfolder.
  set (folder := match assoc (Tree.folders st) (wf_name ws) with
                 | Some f => f
                 | None => Tree.newTaskFolder ws
                 end) in *.
  set (folders1 := match assoc (Tree.folders st) (wf_name ws) with
                   | Some _ => Tree.folders st
                   | None => assocSet (Tree.folders st) (wf_name ws) folder
                   end) in *.
  destruct (Tree.tscRelativePath h each ws _) as [rel|];
    cbn [Tree.heap Tree.folders]; [|assumption].
  match goal with
  | |- context [assoc (Tree.files st) ?id] =>
      destruct (assoc (Tree.files st) id) as [r|]
  end; cbn [Tree.heap Tree.folders].
  - now apply firstLoop_update.
  - apply firstLoop_new with (each := each); auto.
Qed.

Lemma placeTasks_firstLoop (h : Host) (tasks : list Task) :
  let st := fold_left (Tree.placeTask h) tasks Tree.emptyTree in
  firstLoop tasks (Tree.folders st) (Tree.heap st).
Proof.
  assert (G : forall l st,
            (forall t, In t l -> In t tasks) ->
            firstLoop tasks (Tree.folders st) (Tree.heap st) ->
            firstLoop tasks
              (Tree.folders (fold_left (Tree.placeTask h) l st))
              (Tree.heap (fold_left (Tree.placeTask h) l st))).
  { induction l as [|t l IH]; intros st Hl Hinv; cbn [fold_left];
      [assumption|].
    apply IH; [intros x Hx; apply Hl; now right|].
    apply placeTask_firstLoop; [apply Hl; now left | assumption]. }
  apply G; [auto|]. cbn. repeat split; try constructor; try contradiction.
Qed.

Lemma placedTasks_add (hp : Tree.Heap) (r : Tree.ref) (i : Tree.TaskItem) :
  (r < List.length hp)%nat ->
  Permutation
    (Tree.placedTasks
       (Tree.update hp r (fun f => Tree.addScript f (Tree.ChildItem i))))
    (Tree.placedTasks hp ++ [Tree.item_task i]).
Proof.
  revert r; induction hp as [|f hp IH]; intros r Hr; cbn [List.length] in Hr;
    [lia|].
  destruct r as [|r]; cbn [Tree.update];
    change (Tree.placedTasks (?a :: ?l))
      with (Tree.itemsOf a ++ Tree.placedTasks l)%list.
  - rewrite itemsOf_addScript, <- !app_assoc.
    apply Permutation_app_head, Permutation_app_comm.
  - rewrite IH by lia. now rewrite app_assoc.
Qed.

(** A round of the first loop gives the descriptor an item when the
    descriptor passes its tests, and no other item to any. *)
Lemma placeTask_items (h : Host) (st : Tree.TreeState) (each : Task) :
  filesInHeap st ->
  Permutation (Tree.placedTasks (Tree.heap (Tree.placeTask h st each)))
    (Tree.placedTasks (Tree.heap st)
     ++ (if placed h each then [each] else [])).
Proof.
  intros Hinv. unfold Tree.placeTask, placed, accepted, typeEnabled.
  destruct (scope each) as [ws| | |] eqn:Hscope;
    try (rewrite ?andb_false_r; cbn [andb]; now rewrite app_nil_r).
  destruct (jsTruthy _ && Tree.isWorkspaceFolder (ScopeFolder ws)
            && negb (Tree.isInstallTask each));
    cbn [andb]; [|now rewrite app_nil_r].
  set (rel := match def_path (definition each) with
              | Some p => if Js.truthy p then p else ""%string
              | None => ""%string
              end).
  pose proof (tscRelativePath_excluded h each ws rel) as Htsc.
  destruct (Tree.tscRelativePath h each ws rel) as [rel'|];
    cbn [Tree.heap].
  - assert (Hex : tscDirExcluded h each ws = false).
    { destruct (tscDirExcluded h each ws); [|reflexivity].
      destruct Htsc as [_ K]. discriminate (K eq_refl). }
    rewrite Hex. cbn [negb].
    match goal with
    | |- context [assoc (Tree.files st) ?id] =>
        destruct (assoc (Tree.files st) id) as [r|] eqn:Hf
    end; cbn [Tree.heap].
    + apply (@placedTasks_add _ r (Tree.newTaskItem each)).
      now apply Hinv in Hf.
    + rewrite placedTasks_app. unfold Tree.placedTasks at 2.
      cbn. reflexivity.
  - destruct Htsc as [Htsc _]. rewrite Htsc by reflexivity.
    cbn [negb]. now rewrite app_nil_r.
Qed.

Lemma placeTasks_items (h : Host) (tasks : list Task) :
  Permutation
    (Tree.placedTasks
       (Tree.heap (fold_left (Tree.placeTask h) tasks Tree.emptyTree)))
    (List.filter (placed h) tasks).
Proof.
  assert (G : forall l st,
            filesInHeap st ->
            Permutation
              (Tree.placedTasks
                 (Tree.heap (fold_left (Tree.placeTask h) l st)))
              (Tree.placedTasks (Tree.heap st)
               ++ List.filter (placed h) l)).
  { induction l as [|t l IH]; intros st Hinv; cbn [fold_left List.filter].
    - now rewrite app_nil_r.
    - destruct (placeTask_placed h t t Hinv) as [Hinv' _].
      rewrite (IH _ Hinv'), (placeTask_items h t Hinv), <- app_assoc.
      apply Permutation_app_head. now destruct (placed h t). }
  rewrite G by (intros id r H; discriminate H). reflexivity.
Qed.

Lemma itemsAt_seq (hp : Tree.Heap) :
  Permutation (flat_map (itemsAt hp) (seq 0 (List.length hp)))
    (Tree.placedTasks hp).
Proof.
  induction hp as [|f hp IH] using rev_ind; [constructor|].
  rewrite length_app. cbn [List.length]. rewrite Nat.add_1_r, seq_S.
  cbn [Nat.add]. rewrite flat_map_app, placedTasks_app.
  apply Permutation_app.
  - rewrite <- IH. apply Permutation_flat_map_pointwise. intros r Hr.
    apply in_seq in Hr. unfold itemsAt. rewrite nth_error_app1 by lia.
    reflexivity.
  - cbn [flat_map]. unfold itemsAt, Tree.placedTasks.
    rewrite nth_error_app2, Nat.sub_diag by lia. reflexivity.
Qed.

(** ** The tree that the builder returns *)

(** The tree builder never fails: the node that the promotion loop reads
    the first item of always has one.  It returns the folders of the first
    loop, in their order.  When [localeCompare] is a total order and the
    keys of the map of groups tell the folders apart, the tree that it
    returns has files and groups of files under its folders, and it shows
    the descriptors that pass the tests of the first loop, each of them
    once. *)
Theorem tree_is_built (h : Host) (tasks : list Task) :
  let st := fold_left (Tree.placeTask h) tasks Tree.emptyTree in
  exists folders hp,
    Tree.buildTaskTree h tasks = Ok (folders, hp)
    /\ List.map Tree.folder_label folders
       = List.map (fun e => Tree.folder_label (snd e)) (Tree.folders st)
    /\ (totalOrder (localeCompare h) -> keysApart tasks ->
        twoLevels hp folders
        /\ Permutation (shownTasks hp folders)
             (List.filter (placed h) tasks)).
Proof.
  intros st.
  destruct (tree_is_built_aux h tasks) as (folders & hp & Hrun & Hfs).
  fold st in Hfs. exists folders, hp.
  split; [exact Hrun|]. split; [exact Hfs|]. intros Hord Hkeys.
  destruct (placed_layered h tasks) as [Hl Hrefs]. fold st in Hl, Hrefs.
  pose proof (placeTasks_firstLoop h tasks) as (F1 & F2 & F3 & F4).
  fold st in F1, F2, F3, F4.
  assert (Hlab : forall e, In e (Tree.folders st) ->
            Tree.folder_label (snd e) = fst e).
  { intros [key F] He. now apply F1. }
  destruct (@processFolders_shown h (List.length (Tree.heap st))
              (Tree.folders st) Hord (Tree.subfolders st) (Tree.heap st)
              Hl Hrefs)
    as (fs & sub' & hp' & Hrun' & _ & Hl' & _ & Hshape & Hperm).
  { rewrite (map_ext_in _ fst) by exact Hlab. exact F2. }
  { intros e r He Hr.
    destruct (assoc (Tree.subfolders st) _) as [g|] eqn:Eg; [|reflexivity].
    destruct Hl as (_ & _ & _ & Hsub). apply Hsub in Eg. lia. }
  { intros [k1 G1] [k2 G2] r1 r2 H1 H2 Hr1 Hr2. cbn [snd].
    rewrite (F1 _ _ H1), (F1 _ _ H2).
    destruct (F4 _ _ _ H1 Hr1) as (t1 & ws1 & Ht1 & Hs1 & <- & ->).
    destruct (F4 _ _ _ H2 Hr2) as (t2 & ws2 & Ht2 & Hs2 & <- & ->).
    now apply Hkeys. }
  unfold Tree.buildTaskTree in Hrun. fold st in Hrun.
  rewrite Hrun' in Hrun. injection Hrun as <- <-.
  split.
  - intros folder r Hfolder Hr.
    apply in_map_iff in Hfolder as (e & <- & He).
    pose proof Hl' as (_ & Hfiles & _).
    destruct (Hshape e r He Hr) as [Hlt | (_ & grp & Hnth & Hgr & Hscr)].
    + destruct (Hfiles r Hlt) as (f & Hf & Hnd). exists f. auto.
    + exists grp. split; [assumption|]. right. split; [assumption|].
      intros c Hc. destruct (Hscr c Hc) as (r' & -> & Hr').
      destruct (Hfiles r' Hr') as (f' & Hf' & Hnd'). now exists r', f'.
  - unfold shownTasks. rewrite flat_map_map, Hperm.
    rewrite <- flat_map_flat_map, (Permutation_flat_map _ F3).
    rewrite itemsAt_seq. apply placeTasks_items.
Qed.

Lemma compareStrings_totalOrder : totalOrder Demo.compareStrings.
Proof.
  unfold totalOrder, Demo.compareStrings. split; [|split].
  - intros a b c.
    destruct (String.compare a b) eqn:Eab; try lia;
      destruct (String.compare b c) eqn:Ebc; try lia; intros _ _.
    + apply String.compare_eq_iff in Eab, Ebc. subst.
      pose proof (proj2 (String_as_OT.cmp_eq c c) eq_refl) as K.
      unfold String_as_OT.cmp in K. rewrite K. lia.
    + apply String.compare_eq_iff in Eab. subst. rewrite Ebc. lia.
    + apply String.compare_eq_iff in Ebc. subst. rewrite Eab. lia.
    + apply String_as_OT.cmp_lt in Eab, Ebc.
      pose proof (String_as_OT.lt_trans _ _ _ Eab Ebc) as K.
      apply String_as_OT.cmp_lt in K. unfold String_as_OT.cmp in K.
      rewrite K. lia.
  - intros a b. rewrite (String.compare_antisym b a).
    destruct (String.compare a b); cbn [CompOpp]; lia.
  - intros a b. rewrite (String.compare_antisym b a).
    destruct (String.compare a b) eqn:E; cbn [CompOpp]; try lia.
    intros _ _. now apply String.compare_eq_iff.
Qed.


(** The descriptors of one workspace folder have their keys apart. *)
Lemma keysApart_one_folder (folder : string) (tasks : list Task) :
  forallb (fun t => match scope t with
                    | ScopeFolder ws => String.eqb (wf_name ws) folder
                    | _ => true
                    end) tasks = true ->
  keysApart tasks.
Proof.
  intros Hall t1 t2 ws1 ws2 H1 H2 Hs1 Hs2 _.
  rewrite forallb_forall in Hall.
  pose proof (Hall t1 H1) as K1. pose proof (Hall t2 H2) as K2.
  rewrite Hs1 in K1. rewrite Hs2 in K2.
  apply String.eqb_eq in K1, K2. congruence.
Qed.

Lemma tree_is_built_witness :
  exists folders hp,
    Tree.buildTaskTree Demo.treeHost Demo.treeTasks = Ok (folders, hp)
    /\ twoLevels hp folders
    /\ Permutation (shownTasks hp folders)
         (List.filter (placed Demo.treeHost) Demo.treeTasks).
Proof.
  destruct (tree_is_built Demo.treeHost Demo.treeTasks)
    as (folders & hp & Hrun & _ & Hshown).
  exists folders, hp. split; [exact Hrun|]. apply Hshown.
  - exact compareStrings_totalOrder.
  - apply keysApart_one_folder with (folder := "ws"%string).
    vm_compute. reflexivity.
Defined.

Lemma assocSet_nonempty (A : Type) (l : list (string * A)) (k : string)
  (v : A) :
  assocSet l k v <> [].
Proof.
  destruct l as [|[k' v'] l]; simpl; [discriminate|].
  destruct (String.eqb k' k); discriminate.
Qed.

(** The first loop makes a folder as soon as a descriptor passes its
    test. *)
Lemma placeTask_folders (h : Host) (st : Tree.TreeState) (each : Task) :
  Tree.folders (Tree.placeTask h st each) = []
  <-> Tree.folders st = [] /\ accepted h each = false.
Proof.
  unfold Tree.placeTask, accepted, typeEnabled.
  destruct (scope each) as [ws| | |] eqn:Es;
    try (rewrite ?andb_false_r; cbn [andb]; tauto).
  destruct (jsTruthy _ && Tree.isWorkspaceFolder (ScopeFolder ws)
            && negb (Tree.isInstallTask each)); [|tauto].
  split; [|intros [_ [=]]]. intros H. exfalso. revert H.
  assert (Hf1 : forall v,
            match assoc (Tree.folders st) (wf_name ws) with
            | Some _ => Tree.folders st
            | None => assocSet (Tree.folders st) (wf_name ws) v
            end <> []).
  { intros v. destruct (Tree.folders st) as [|e l] eqn:E; cbn [assoc].
    - apply assocSet_nonempty.
    - destruct e as [k f]. destruct (String.eqb k (wf_name ws));
        [discriminate|].
      destruct (assoc l (wf_name ws)); [discriminate|].
      apply assocSet_nonempty. }
  destruct (Tree.tscRelativePath h each ws _) as [relativePath|];
    [|cbn [Tree.folders]; apply Hf1].
  match goal with
  | |- context [assoc (Tree.files st) ?id] =>
      destruct (assoc (Tree.files st) id)
  end; cbn [Tree.folders]; [apply Hf1 | apply assocSet_nonempty].
Qed.

Lemma placeTasks_folders (h : Host) (tasks : list Task) :
  forall st : Tree.TreeState,
    Tree.folders (fold_left (Tree.placeTask h) tasks st) = []
    <-> Tree.folders st = []
        /\ forall t, In t tasks -> accepted h t = false.
Proof.
  induction tasks as [|t tasks IH]; intros st; cbn [fold_left].
  - split; [intros H; split; [assumption | intros t []] | tauto].
  - rewrite IH, placeTask_folders. split.
    + intros [[H1 H2] H3]. split; [assumption|].
      intros x [<-|Hx]; auto.
    + intros [H1 H2]. repeat split; auto.
      * apply H2. now left.
      * intros x Hx. apply H2. now right.
Qed.

(** ** The view *)

(** The root of a view that has no tree yet.  The tree is built from the
    tasks that are fetched, and the view answers with it, never with an
    error.  It answers with the one placeholder for an empty tree exactly
    when no task passes the test of the first loop of the builder: a
    task that passes it and is then left out, as a task of the TypeScript
    compiler in an excluded directory is, leaves a folder in the tree. *)
Theorem view_root (h : Host) (tasks : list Task) (v : Explorer.View) :
  Explorer.taskTree v = None ->
  exists items,
    fst (Explorer.getChildren h (Some tasks) None v) = Ok items
    /\ (items = [Explorer.NoScripts]
        <-> forall t, In t tasks -> accepted h t = false).
Proof.
  intros Hv. unfold Explorer.getChildren. rewrite Hv.
  destruct (tree_is_built_aux h tasks) as (folders & hp & Hrun & Hfs).
  rewrite Hrun. cbn [fst Explorer.taskTree]. eexists. split; [reflexivity|].
  pose proof (placeTasks_folders h tasks Tree.emptyTree) as Hplaced.
  cbn [Tree.folders Tree.emptyTree] in Hplaced.
  assert (Hiff : folders = [] <-> forall t, In t tasks -> accepted h t = false).
  { split.
    - intros E. rewrite E in Hfs. symmetry in Hfs.
      apply map_eq_nil in Hfs. now apply Hplaced in Hfs.
    - intros Hall.
      assert (E : Tree.folders
                    (fold_left (Tree.placeTask h) tasks Tree.emptyTree) = [])
        by (apply Hplaced; now split).
      rewrite E in Hfs. now apply map_eq_nil in Hfs. }
  destruct folders as [|f fs].
  - split; [intros _; now apply Hiff | reflexivity].
  - split; [cbn [List.map]; discriminate|].
    intros E. apply Hiff in E. discriminate.
Qed.

Lemma view_root_witness :
  exists items,
    fst (Explorer.getChildren Demo.tscHost (Some [Demo.tscTask]) None
           (Explorer.mkView None 0)) = Ok items
    /\ (items = [Explorer.NoScripts]
        <-> forall t, In t [Demo.tscTask] -> accepted Demo.tscHost t = false).
Proof.
  apply (@view_root Demo.tscHost [Demo.tscTask] (Explorer.mkView None 0)).
  reflexivity.
Defined.

(** ** The label of an item *)

Lemma prefix_cons (c : ascii) (p s : string) :
  String.prefix (String c p) (String c s) = String.prefix p s.
Proof.
  cbn [String.prefix]. destruct (ascii_dec c c) as [_|n];
    [reflexivity | now elim n].
Qed.

Lemma indexOfAux_separator (a b : string) :
  contains "-" a = false ->
  forall i, Js.indexOfAux " - " (a ++ " - " ++ b) i = i + Js.len a.
Proof.
  induction a as [|c a IH]; intros Ha i.
  - cbn [append Js.indexOfAux].
    rewrite !prefix_cons, prefix_nil. unfold Js.len. simpl. lia.
  - cbn [contains] in Ha. apply orb_false_iff in Ha as [Hc Ha].
    change (String c a ++ " - " ++ b)%string
      with (String c (a ++ " - " ++ b)).
    cbn [Js.indexOfAux].
    assert (Hp : String.prefix " - " (String c (a ++ " - " ++ b)) = false).
    { cbn [String.prefix]. destruct (ascii_dec " " c) as [_|_]; [|reflexivity].
      destruct a as [|d a]; [reflexivity|].
      cbn [append String.prefix]. cbn [contains] in Ha.
      apply orb_false_iff in Ha as [Hd _].
      destruct (ascii_dec "-" d) as [<-|_]; [discriminate | reflexivity]. }
    rewrite Hp, (IH Ha). unfold Js.len. simpl String.length. lia.
Qed.

(** The label of the item of a task whose name is [a - b], where [a] has
    no hyphen: it is [a], the text before the separator, when the name has
    a slash or a backslash or the text [ - tsconfig.json], and the whole
    name when it has none of them; so that an Ant target [a - Default]
    keeps its name, and a task [a - sub] of a first level directory too,
    while a task [a - sub/dir] is labelled [a]. *)
Theorem item_label_cut (t : Task) (a b : string) :
  name t = (a ++ " - " ++ b)%string ->
  contains "-" a = false ->
  Tree.item_label (Tree.newTaskItem t)
  = if occurs "/" (name t) || occurs "\" (name t)
       || occurs " - tsconfig.json" (name t)
    then a else name t.
Proof.
  intros Hname Ha. unfold Tree.newTaskItem, occurs. cbn [Tree.item_label].
  assert (Hcut : Js.indexOf (name t) " - " 0 = Js.len a).
  { rewrite Hname, indexOf_zero, indexOfAux_separator by assumption. lia. }
  rewrite Hcut.
  assert (Hne : (Js.len a =? -1) = false)
    by (apply Z.eqb_neq; pose proof (len_nonneg a); lia).
  rewrite Hne. cbn [negb andb].
  destruct (negb (Js.indexOf (name t) "/" 0 =? -1)
            || negb (Js.indexOf (name t) "\" 0 =? -1)
            || negb (Js.indexOf (name t) " - tsconfig.json" 0 =? -1));
    [|reflexivity].
  rewrite Hname. apply substring_prefix.
Qed.

Lemma item_label_cut_witness :
  Tree.item_label (Tree.newTaskItem Demo.tscTask) = "build".
Proof.
  exact (@item_label_cut Demo.tscTask "build" "src/tsconfig.json" eq_refl
           eq_refl).
Defined.

(** ** Running a task *)

(** Running a script task as the script provider makes it.  The task has
    the command line of its definition.  When it takes no arguments it is
    executed as it is, and no input is asked for.  When it takes
    arguments, it is executed as it is on an empty input, with the input
    after its command line and a space on another input, and not at all
    when the input box is dismissed. *)
Theorem run_script_task (h : Host) (scriptDef : option Script.ScriptDef)
  (folder : option WorkspaceFolder) (uri : Uri) (m m' : Mem) (task : Task) :
  Script.createScriptTask h scriptDef folder uri m = (Ok task, m') ->
  exists c o requiresArgs,
    execution task = Some (ShellCommandLine c o)
    /\ def_cmdLine (definition task) = Some c
    /\ def_requiresArgs (definition task) = Some requiresArgs
    /\ Explorer.run (Some "") task = (Ok (Some task), task)
    /\ Explorer.run None task
       = (Ok (if requiresArgs then None else Some task), task)
    /\ forall str,
         Js.truthy str = true ->
         let task' :=
           if requiresArgs
           then withExecution task (ShellCommandLine (c ++ " " ++ str) o)
           else task in
         Explorer.run (Some str) task = (Ok (Some task'), task').
Proof.
  unfold Script.createScriptTask.
  destruct scriptDef as [d|]; [|discriminate]. unfold bind.
  destruct (if String.eqb (Script.sd_type d) "batch" then _ else _)
    as [[requiresArgs|e|] m2]; try discriminate.
  destruct folder as [folder|]; [|discriminate].
  unfold ret. intros [= <- _].
  eexists _, _, requiresArgs.
  cbn [execution definition def_cmdLine def_requiresArgs].
  split; [reflexivity|]. split; [reflexivity|]. split; [reflexivity|].
  unfold Explorer.run. cbn [execution definition def_cmdLine def_requiresArgs].
  destruct requiresArgs; cbn; repeat split; intros str Hstr;
    try rewrite Hstr; reflexivity.
Qed.

Lemma run_script_task_witness :
  let h := Demo.plainHost [] [("/ws/run.bat", "echo %1")] in
  let task :=
    mkTask
      (mkDefinition "script" None (Some "") (Some "run.bat")
         (Some (Demo.file "/ws/run.bat")) (Some "batch")
         (Some "cmd.exe /c ./run.bat") (Some true) (Some true))
      (ScopeFolder Demo.root) "run.bat" "batch"
      (Some (ShellCommandLine "cmd.exe /c ./run.bat" (mkOptions "/ws" None)))
      None in
  exists c o requiresArgs,
    execution task = Some (ShellCommandLine c o)
    /\ def_cmdLine (definition task) = Some c
    /\ def_requiresArgs (definition task) = Some requiresArgs
    /\ Explorer.run (Some "") task = (Ok (Some task), task)
    /\ Explorer.run None task
       = (Ok (if requiresArgs then None else Some task), task)
    /\ forall str,
         Js.truthy str = true ->
         let task' :=
           if requiresArgs
           then withExecution task (ShellCommandLine (c ++ " " ++ str) o)
           else task in
         Explorer.run (Some str) task = (Ok (Some task'), task').
Proof.
  apply (@run_script_task
           (Demo.plainHost [] [("/ws/run.bat", "echo %1")])
           (Script.scriptDefOf
              (Demo.plainHost [] [("/ws/run.bat", "echo %1")]) "/ws/run.bat")
           (Some Demo.root) (Demo.file "/ws/run.bat") Demo.emptyMem
           (mkMem None ["/ws/run.bat"])).
  vm_compute. reflexivity.
Defined.

(** The arguments of a run do not pile up: the task of an item keeps the
    execution of its last run, and a later run builds its command line
    from the definition of the task all the same, so that it executes
    what it would have executed had the earlier run not taken place. *)
Theorem run_arguments_do_not_accumulate (input1 input2 : option string)
  (task : Task) :
  fst (Explorer.run input2 (snd (Explorer.run input1 task)))
  = fst (Explorer.run input2 task).
Proof.
  unfold Explorer.run at 2.
  destruct (def_requiresArgs (definition task)) as [[|]|] eqn:Er;
    try reflexivity.
  destruct input1 as [str1|]; [|reflexivity].
  destruct (execution task) as [e|] eqn:Ee; [|reflexivity].
  destruct (if Js.truthy str1 then _ else def_cmdLine (definition task))
    as [c|]; [|reflexivity].
  cbn [snd]. unfold Explorer.run.
  cbn [definition execution scope name source group]. rewrite Er, Ee.
  destruct input2 as [str2|]; [|reflexivity].
  destruct (if Js.truthy str2 then _ else def_cmdLine (definition task))
    as [c2|]; reflexivity.
Qed.

(** ** Opening the definition of a task *)

Lemma prefix_split (p s : string) :
  String.prefix p s = true -> exists b, s = (p ++ b)%string.
Proof.
  revert s; induction p as [|c p IH]; intros s H.
  - now exists s.
  - destruct s as [|d s]; [discriminate|]. cbn [String.prefix] in H.
    destruct (ascii_dec c d) as [<-|_]; [|discriminate].
    destruct (IH s H) as [b ->]. now exists b.
Qed.

(** Where [indexOf] finds a pattern, the pattern is. *)
Lemma indexOfAux_found (pat s : string) :
  forall i k,
    Js.indexOfAux pat s i = k -> k <> -1 -> 0 <= i ->
    exists a b, s = (a ++ pat ++ b)%string /\ k = i + Js.len a.
Proof.
  induction s as [|d s IH]; intros i k H Hk Hi; cbn [Js.indexOfAux] in H.
  - destruct (String.prefix pat "") eqn:E; [|congruence].
    apply prefix_split in E as [b E]. exists ""%string, b.
    split; [exact E | unfold Js.len; simpl; lia].
  - destruct (String.prefix pat (String d s)) eqn:E.
    + apply prefix_split in E as [b E]. exists ""%string, b.
      split; [exact E | unfold Js.len; simpl; lia].
    + destruct (IH (i + 1) k H Hk ltac:(lia)) as (a & b & -> & ->).
      exists (String d a), b. split; [reflexivity|].
      unfold Js.len. simpl String.length. lia.
Qed.

Lemma indexOf_found (s pat : string) (k : Z) :
  Js.indexOf s pat 0 = k -> k <> -1 ->
  exists a b, s = (a ++ pat ++ b)%string /\ k = Js.len a.
Proof.
  rewrite indexOf_zero. intros H Hk.
  destruct (@indexOfAux_found pat s 0 k H Hk ltac:(lia)) as (a & b & E & ->).
  now exists a, b.
Qed.

(** Opening the item of an Ant target whose build file is on disk shows
    the file.  The text is searched for [name=], a quote and the name [T]
    of the task, with the double quote first and then with the single
    one.  The selection is at offset 0 when the text has neither;
    otherwise it is six characters past the first occurrence of the form
    with the double quote when the text has that form, wherever the
    other form is, and six characters past the first occurrence of the
    form with the single quote when it has only this one: at an
    occurrence of [T]. *)
Theorem open_ant_target (h : Host) (openTextDocument : Uri -> option string)
  (visit : string -> list Explorer.JsonEvent) (fuel : nat) (uri : Uri)
  (item : Tree.TaskItem) (documentText : string) :
  source (Tree.item_task item) = "ant" ->
  pathExists h (uri_fsPath uri) = true ->
  openTextDocument uri = Some documentText ->
  let T := name (Tree.item_task item) in
  let double := ("name=" ++ Script.dquote ++ T)%string in
  let single := ("name='" ++ T)%string in
  exists offset,
    Explorer.open h openTextDocument visit fuel
      (Explorer.SelectedItem uri item) = Ok (Some (uri, offset))
    /\ offset
       = (if occurs double documentText
          then Js.indexOf documentText double 0 + 6
          else if occurs single documentText
               then Js.indexOf documentText single 0 + 6
               else 0)
    /\ (offset = 0
        <-> occurs double documentText = false
            /\ occurs single documentText = false)
    /\ (offset <> 0 ->
        Js.substring documentText offset (offset + Js.len T) = T).
Proof.
  intros Hsrc Hex Hdoc T double single. subst double single.
  unfold Explorer.open. rewrite Hex, Hdoc.
  unfold Explorer.findScriptPosition. rewrite Hsrc. cbn [String.eqb].
  replace (String.eqb "ant" "make") with false by reflexivity.
  replace (String.eqb "ant" "ant") with true by reflexivity.
  fold T. unfold Explorer.indexOfEither, occurs.
  assert (Hpoint : forall pre k,
            Js.len pre = 6 ->
            Js.indexOf documentText (pre ++ T) 0 = k -> k <> -1 ->
            0 <= k
            /\ Js.substring documentText (k + 6) (k + 6 + Js.len T) = T).
  { intros pre k Hpre Hk Hne.
    destruct (@indexOf_found _ _ _ Hk Hne) as (a & b & -> & ->).
    split; [apply len_nonneg|].
    replace (a ++ (pre ++ T) ++ b)%string with ((a ++ pre) ++ T ++ b)%string
      by (now rewrite !append_assoc).
    replace (Js.len a + 6) with (Js.len (a ++ pre))
      by (rewrite len_append; lia).
    apply substring_middle. }
  cbv zeta.
  destruct (Js.indexOf documentText ("name=" ++ Script.dquote ++ T) 0 =? -1)
    eqn:E1; cbv iota.
  - destruct (Js.indexOf documentText ("name='" ++ T) 0 =? -1) eqn:E2.
    + eexists. split; [reflexivity|]. cbn [negb].
      split; [reflexivity|]. split; [tauto|].
      intros K. now elim K.
    + apply Z.eqb_neq in E2.
      destruct (Hpoint "name='" _ eq_refl eq_refl E2) as [H0 Hs].
      eexists. split; [reflexivity|]. cbn [negb].
      split; [reflexivity|]. split; [|intros _; exact Hs].
      split; [lia | intros [_ [=]]].
  - rewrite E1. apply Z.eqb_neq in E1.
    destruct (Hpoint ("name=" ++ Script.dquote) _ eq_refl eq_refl E1)
      as [H0 Hs].
    eexists. split; [reflexivity|]. cbn [negb].
    split; [reflexivity|]. split; [|intros _; exact Hs].
    split; [intros K; exfalso; revert K H0; clear; cbn [append]; lia
           | intros [[=] _]].
Qed.

(** A build file that names the target [install] with single quotes at
    offset 14 and with double quotes at offset 38: the selection is at the
    second. *)
Lemma open_ant_target_witness :
  let documentText :=
    ("<target name='install'/><target name=" ++ Script.dquote ++ "install"
     ++ Script.dquote ++ "/>")%string in
  let h := Demo.antHost [] [("/ws/build.xml", documentText)] in
  let uri := Demo.file "/ws/build.xml" in
  let double := ("name=" ++ Script.dquote ++ "install")%string in
  let single := ("name='" ++ "install")%string in
  exists offset,
    Explorer.open h (fun _ => Some documentText) (fun _ => []) 0
      (Explorer.SelectedItem uri (Tree.newTaskItem Demo.antInstall))
    = Ok (Some (uri, offset))
    /\ offset
       = (if occurs double documentText
          then Js.indexOf documentText double 0 + 6
          else if occurs single documentText
               then Js.indexOf documentText single 0 + 6
               else 0)
    /\ (offset = 0
        <-> occurs double documentText = false
            /\ occurs single documentText = false)
    /\ (offset <> 0 ->
        Js.substring documentText offset (offset + Js.len "install")
        = "install").
Proof.
  apply (@open_ant_target
           (Demo.antHost []
              [("/ws/build.xml",
                ("<target name='install'/><target name=" ++ Script.dquote
                 ++ "install" ++ Script.dquote ++ "/>")%string)])
           (fun _ =>
              Some ("<target name='install'/><target name=" ++ Script.dquote
                    ++ "install" ++ Script.dquote ++ "/>")%string)
           (fun _ => []) 0
           (Demo.file "/ws/build.xml") (Tree.newTaskItem Demo.antInstall)
           ("<target name='install'/><target name=" ++ Script.dquote
            ++ "install" ++ Script.dquote ++ "/>")%string);
    reflexivity.
Defined.

Lemma len_take (n : nat) :
  forall s, (n <= String.length s)%nat -> String.length (Js.take n s) = n.
Proof.
  induction n as [|n IH]; intros [|c s] H; simpl in *; try reflexivity;
    try lia.
  rewrite IH; lia.
Qed.

Lemma len_drop (s : string) (k : Z) :
  0 <= k <= Js.len s -> Js.len (Js.drop (Z.to_nat k) s) = Js.len s - k.
Proof.
  intros Hk. rewrite <- (take_drop (Z.to_nat k) s) at 2.
  rewrite len_append. unfold Js.len in *. rewrite len_take; lia.
Qed.

(** A match of [indexOf] begins at the index asked for or after it, and
    ends in the string. *)
Lemma indexOf_bounds (s pat : string) (from k : Z) :
  Js.indexOf s pat from = k -> k <> -1 ->
  Js.clampIdx s from <= k /\ k + Js.len pat <= Js.len s.
Proof.
  unfold Js.indexOf. intros H Hk.
  pose proof (clampIdx_range s from) as Hc.
  destruct (@indexOfAux_found pat _ _ k H Hk ltac:(lia))
    as (a & b & E & ->).
  pose proof (len_drop s Hc) as Hd. rewrite E, !len_append in Hd.
  pose proof (len_nonneg a). pose proof (len_nonneg b). lia.
Qed.

(** The loop of the search in a makefile ends. *)
Lemma makeLoop_ends (documentText taskName : string) :
  taskName <> ""%string ->
  forall (fuel : nat) (scriptOffset bLine : Z) (line : string),
    scriptOffset = -1 \/ 0 <= scriptOffset <= Js.len documentText ->
    (if scriptOffset =? -1 then 1
     else Js.len documentText - scriptOffset + 2) <= Z.of_nat fuel ->
    exists r,
      Explorer.makeLoop fuel documentText taskName scriptOffset bLine line
      = Some r
      /\ (r = -1 \/ 0 <= r <= Js.len documentText).
Proof.
  intros Hname.
  assert (Hlen : 1 <= Js.len taskName).
  { destruct taskName; [now elim Hname|]. unfold Js.len. simpl. lia. }
  induction fuel as [|fuel IH]; intros so bLine line Hso Hfuel.
  - exfalso. destruct (Z.eqb_spec so (-1)); lia.
  - cbn [Explorer.makeLoop].
    destruct (negb (bLine =? -1) && negb (bLine =? so) && negb (so =? -1)
              && (Js.indexOf line ":" 0 =? -1)) eqn:Econd;
      [|now exists so].
    apply andb_true_iff in Econd as [Econd _].
    apply andb_true_iff in Econd as [_ Eso].
    apply negb_true_iff in Eso. rewrite Eso in Hfuel.
    apply Z.eqb_neq in Eso. destruct Hso as [Hso | Hso]; [contradiction|].
    apply IH.
    + destruct (Z.eq_dec (Js.indexOf documentText taskName (so + 1)) (-1))
        as [E | E]; [now left | right].
      destruct (@indexOf_bounds documentText taskName (so + 1) _ eq_refl E)
        as [H1 H2].
      pose proof (clampIdx_range documentText (so + 1)). lia.
    + destruct (Z.eqb_spec (Js.indexOf documentText taskName (so + 1)) (-1))
        as [E | E]; [lia|].
      destruct (@indexOf_bounds documentText taskName (so + 1) _ eq_refl E)
        as [H1 H2].
      unfold Js.clampIdx in H1. lia.
Qed.

Lemma findInMakefile_ends (documentText taskName : string) :
  taskName <> ""%string ->
  exists r,
    Explorer.findInMakefile (S (S (String.length documentText)))
      documentText taskName = Some r
    /\ 0 <= r <= Js.len documentText.
Proof.
  intros Hname. unfold Explorer.findInMakefile.
  pose proof (len_nonneg documentText) as Hlen.
  destruct (Z.eqb_spec (Js.indexOf documentText (taskName ++ ":") 0) (-1))
    as [E | E].
  - set (so := Js.indexOf documentText taskName 0).
    assert (Hso : so = -1 \/ 0 <= so <= Js.len documentText).
    { destruct (indexOf_range documentText taskName 0) as [K | K];
        [now left | right].
      pose proof (clampIdx_range documentText 0). fold so in K. lia. }
    match goal with
    | |- context [Explorer.makeLoop ?f ?d ?n ?s ?b ?l] =>
        destruct (@makeLoop_ends d n Hname f s b l Hso) as (r & -> & Hr)
    end.
    + unfold Js.len in *. destruct (Z.eqb_spec so (-1)); lia.
    + eexists. split; [reflexivity|].
      destruct (Z.eqb_spec r (-1)); lia.
  - eexists. split; [reflexivity|].
    destruct (indexOf_range documentText (taskName ++ ":") 0) as [K | K];
      [contradiction|].
    pose proof (clampIdx_range documentText 0). lia.
Qed.

Lemma visitStep_bounds (documentText : string) (script : Tree.TaskItem)
  (v : Explorer.Visit) (e : Explorer.JsonEvent) :
  eventInDocument documentText e ->
  0 <= Explorer.scriptOffset v <= Js.len documentText ->
  0 <= Explorer.scriptOffset (Explorer.visitStep script v e)
  <= Js.len documentText.
Proof.
  intros He Hv. destruct e as [|value offset|property offset|];
    cbn [Explorer.visitStep eventInDocument] in *.
  - now destruct (Explorer.inScripts v).
  - destruct (Explorer.inTaskLabel v); [|assumption].
    cbn [Explorer.scriptOffset]. destruct value as [s|]; [|assumption].
    now destruct (String.eqb _ s).
  - repeat match goal with
           | |- context [if ?b then _ else _] => destruct b
           end; cbn [Explorer.scriptOffset]; assumption.
  - assumption.
Qed.

(** The offset that [findScriptPosition] finds for an item whose task
    has a name is an offset of the document; the search in a makefile,
    which loops, comes to its end.  The offsets that the JSON parser
    reports are taken to be offsets of the document. *)
Theorem script_position_in_document (documentText : string)
  (events : list Explorer.JsonEvent) (item : Tree.TaskItem) :
  name (Tree.item_task item) <> ""%string ->
  (forall e, In e events -> eventInDocument documentText e) ->
  exists offset,
    Explorer.findScriptPosition (S (S (String.length documentText)))
      documentText events (Some item) = Ok offset
    /\ 0 <= offset <= Js.len documentText.
Proof.
  intros Hname Hevents. unfold Explorer.findScriptPosition.
  pose proof (len_nonneg documentText) as Hlen.
  assert (Heither : forall p q,
            let k := Explorer.indexOfEither documentText p q in
            k = -1 \/ (0 <= k /\ k + Z.min (Js.len p) (Js.len q)
                                 <= Js.len documentText)).
  { intros p q. unfold Explorer.indexOfEither. cbv zeta.
    destruct (Z.eqb_spec (Js.indexOf documentText p 0) (-1)) as [E | E].
    - destruct (Z.eq_dec (Js.indexOf documentText q 0) (-1)) as [E' | E'];
        [now left | right].
      destruct (@indexOf_bounds documentText q 0 _ eq_refl E').
      pose proof (clampIdx_range documentText 0). lia.
    - right. destruct (@indexOf_bounds documentText p 0 _ eq_refl E).
      pose proof (clampIdx_range documentText 0). lia. }
  destruct (String.eqb (source (Tree.item_task item)) "make").
  { destruct (findInMakefile_ends documentText Hname) as (r & -> & Hr).
    now exists r. }
  destruct (String.eqb (source (Tree.item_task item)) "ant").
  { eexists. split; [reflexivity|].
    match goal with
    | |- context [Explorer.indexOfEither ?d ?p ?q] =>
        destruct (Heither p q) as [-> | [H1 H2]]
    end; [cbn; lia|].
    rewrite !len_append in H2.
    change (Js.len "name=") with 5 in H2.
    change (Js.len "name='") with 6 in H2.
    change (Js.len Script.dquote) with 1 in H2.
    pose proof (len_nonneg (name (Tree.item_task item))).
    match goal with
    | |- context [?k =? -1] => destruct (Z.eqb_spec k (-1))
    end; lia. }
  destruct (String.eqb (source (Tree.item_task item)) "gulp").
  { eexists. split; [reflexivity|].
    match goal with
    | |- context [Explorer.indexOfEither ?d ?p ?q] =>
        destruct (Heither p q) as [-> | [H1 H2]]
    end; [cbn; lia|].
    pose proof (Z.le_min_l 0 0).
    match goal with
    | H : _ + Z.min (Js.len ?p) (Js.len ?q) <= _ |- _ =>
        pose proof (len_nonneg p); pose proof (len_nonneg q)
    end.
    match goal with
    | |- context [?k =? -1] => destruct (Z.eqb_spec k (-1))
    end; lia. }
  destruct (String.eqb (source (Tree.item_task item)) "grunt").
  { eexists. split; [reflexivity|].
    match goal with
    | |- context [Explorer.indexOfEither ?d ?p ?q] =>
        destruct (Heither p q) as [-> | [H1 H2]]
    end; [cbn; lia|].
    match goal with
    | H : _ + Z.min (Js.len ?p) (Js.len ?q) <= _ |- _ =>
        pose proof (len_nonneg p); pose proof (len_nonneg q)
    end.
    match goal with
    | |- context [?k =? -1] => destruct (Z.eqb_spec k (-1))
    end; lia. }
  destruct (String.eqb (source (Tree.item_task item)) "npm"
            || String.eqb (source (Tree.item_task item)) "Workspace").
  { eexists. split; [reflexivity|].
    assert (Hfold : forall evs v,
              (forall e, In e evs -> eventInDocument documentText e) ->
              0 <= Explorer.scriptOffset v <= Js.len documentText ->
              0 <= Explorer.scriptOffset
                     (fold_left (Explorer.visitStep item) evs v)
              <= Js.len documentText).
    { induction evs as [|e evs IH]; intros v Hevs Hv; cbn [fold_left];
        [assumption|].
      apply IH; [intros e' He'; apply Hevs; now right|].
      apply visitStep_bounds; [apply Hevs; now left | assumption]. }
    apply Hfold; [assumption | cbn; lia]. }
  exists 0. split; [reflexivity | lia].
Qed.

Lemma script_position_in_document_witness :
  let documentText := ("all: build" ++ Js.LF ++ "build:" ++ Js.LF)%string in
  let item :=
    Tree.newTaskItem
      (mkTask (mkDefinition "make" None None None None None None None None)
         (ScopeFolder Demo.root) "build" "make" None None) in
  exists offset,
    Explorer.findScriptPosition (S (S (String.length documentText)))
      documentText [] (Some item) = Ok offset
    /\ 0 <= offset <= Js.len documentText.
Proof.
  apply (@script_position_in_document
           ("all: build" ++ Js.LF ++ "build:" ++ Js.LF)%string []
           (Tree.newTaskItem
              (mkTask
                 (mkDefinition "make" None None None None None None None None)
                 (ScopeFolder Demo.root) "build" "make" None None))).
  - discriminate.
  - intros e [].
Defined.

(** ** The file watchers *)

Lemma grown_refl (w : Extension.FileSystemWatcher) : grown w w.
Proof.
  unfold grown. repeat split; exists []; now rewrite app_nil_r.
Qed.

Lemma grown_trans (a b c : Extension.FileSystemWatcher) :
  grown a b -> grown b c -> grown a c.
Proof.
  intros (G1 & [l1 C1] & [l2 D1] & [l3 E1]) (G2 & [m1 C2] & [m2 D2] & [m3 E2]).
  unfold grown. split; [congruence|]. split; [|split].
  - exists (l1 ++ m1)%list. now rewrite C2, C1, app_assoc.
  - exists (l2 ++ m2)%list. now rewrite D2, D1, app_assoc.
  - exists (l3 ++ m3)%list. now rewrite E2, E1, app_assoc.
Qed.

Lemma subscribe_grown (w : Extension.FileSystemWatcher)
  (isScriptType : bool) (l : Extension.Listener) :
  grown w
    (Extension.subscribeCreate
       (Extension.subscribeDelete
          (if negb isScriptType then Extension.subscribeChange w l else w) l)
       l).
Proof.
  unfold grown. destruct isScriptType; cbn; repeat split;
    try (now exists [l]); exists []; now rewrite app_nil_r.
Qed.

(** A call of [registerFileWatcher] leaves the watchers of the other types
    as they are. *)
Lemma registerFileWatcher_other (watchers : Extension.Watchers)
  (taskType fileBlob : string) (isScriptType : bool) (enabled : JsVal)
  (key : string) :
  String.eqb taskType key = false ->
  assoc (Extension.registerFileWatcher watchers taskType fileBlob
           isScriptType enabled) key
  = assoc watchers key.
Proof.
  intros Hne. unfold Extension.registerFileWatcher.
  destruct (Extension.notFalse enabled).
  - now rewrite assoc_assocSet, Hne.
  - destruct (assoc watchers taskType); [|reflexivity].
    now rewrite assoc_assocSet, Hne.
Qed.

(** On the watcher of its type, it adds listeners. *)
Lemma registerFileWatcher_same (watchers : Extension.Watchers)
  (taskType fileBlob : string) (isScriptType : bool) (enabled : JsVal) :
  assoc (Extension.registerFileWatcher watchers taskType fileBlob
           isScriptType enabled) taskType
  = let subscribe w l :=
      Extension.subscribeCreate
        (Extension.subscribeDelete
           (if negb isScriptType then Extension.subscribeChange w l else w)
           l) l in
    if Extension.notFalse enabled
    then Some (subscribe
                 match assoc watchers taskType with
                 | Some w => w
                 | None => Extension.mkWatcher fileBlob [] [] []
                 end (Extension.RefreshTree taskType))
    else match assoc watchers taskType with
         | Some w => Some (subscribe w Extension.Ignore)
         | None => None
         end.
Proof.
  unfold Extension.registerFileWatcher. cbv zeta.
  destruct (Extension.notFalse enabled).
  - now rewrite assoc_assocSet, String.eqb_refl.
  - destruct (assoc watchers taskType) eqn:E; [|assumption].
    now rewrite assoc_assocSet, String.eqb_refl.
Qed.

Lemma registerFileWatcher_grown (watchers : Extension.Watchers)
  (taskType fileBlob : string) (isScriptType : bool) (enabled : JsVal)
  (key : string) (w : Extension.FileSystemWatcher) :
  (exists w0, assoc watchers key = Some w0 /\ grown w w0) ->
  exists w',
    assoc (Extension.registerFileWatcher watchers taskType fileBlob
             isScriptType enabled) key = Some w'
    /\ grown w w'.
Proof.
  intros (w0 & Hw0 & Hg).
  destruct (String.eqb_spec taskType key) as [->|Hne].
  - rewrite registerFileWatcher_same, Hw0. cbv zeta.
    destruct (Extension.notFalse enabled); eexists;
      (split; [reflexivity|]);
      apply (grown_trans Hg); apply subscribe_grown.
  - rewrite registerFileWatcher_other by now apply String.eqb_neq.
    now exists w0.
Qed.

Lemma includeAnt_grown (enabled : JsVal) (key : string)
  (w : Extension.FileSystemWatcher) (includeAnt : list string) :
  forall watchers : Extension.Watchers,
    (exists w0, assoc watchers key = Some w0 /\ grown w w0) ->
    exists w',
      assoc
        (fold_left
           (fun watchers inc =>
              Extension.registerFileWatcher watchers ("ant-" ++ inc) inc
                false enabled) includeAnt watchers) key = Some w'
      /\ grown w w'.
Proof.
  induction includeAnt as [|inc l IH]; intros watchers H; cbn [fold_left];
    [assumption|].
  apply IH. now apply registerFileWatcher_grown.
Qed.

Lemma registerFileWatcherAnt_grown (h : Host) (enabled : JsVal)
  (key : string) (w : Extension.FileSystemWatcher)
  (watchers : Extension.Watchers) :
  (exists w0, assoc watchers key = Some w0 /\ grown w w0) ->
  exists w',
    assoc (Extension.registerFileWatcherAnt h watchers enabled) key = Some w'
    /\ grown w w'.
Proof.
  intros H. unfold Extension.registerFileWatcherAnt.
  apply includeAnt_grown. now apply registerFileWatcher_grown.
Qed.

(** [registerFileWatchers] as the sequence of its steps. *)
Lemma registerFileWatchers_steps (h : Host) (watchers : Extension.Watchers) :
  Extension.registerFileWatchers h watchers
  = whenOn h "enableWorkspace"
      (fun ws => Extension.registerFileWatcher ws "workspace"
                   "**/.vscode/tasks.json" false JUndefined)
   (whenOn h "enableTsc"
      (fun ws => Extension.registerFileWatcher ws "tsc" "**/tsconfig.json"
                   false JUndefined)
   (whenOn h "enableRuby"
      (fun ws => Extension.registerFileWatcher ws "ruby" "**/*.[Rr][Bb]" true
                   JUndefined)
   (whenOn h "enablePython"
      (fun ws => Extension.registerFileWatcher ws "python"
                   "**/[Ss][Ee][Tt][Uu][Pp].[Pp][Yy]" true JUndefined)
   (whenOn h "enablePowershell"
      (fun ws => Extension.registerFileWatcher ws "powershell"
                   "**/*.[Pp][Ss]1" true JUndefined)
   (whenOn h "enablePerl"
      (fun ws => Extension.registerFileWatcher ws "perl" "**/*.[Pp][Ll]" true
                   JUndefined)
   (whenOn h "enableNsis"
      (fun ws => Extension.registerFileWatcher ws "nsis" "**/*.[Nn][Ss][Ii]"
                   true JUndefined)
   (whenOn h "enableNpm"
      (fun ws => Extension.registerFileWatcher ws "npm" "**/package.json"
                   false JUndefined)
   (whenOn h "enableMake"
      (fun ws => Extension.registerFileWatcher ws "make" "**/[Mm]akefile"
                   false JUndefined)
   (whenOn h "enableGulp"
      (fun ws => Extension.registerFileWatcher ws "gulp"
                   "**/[Gg][Uu][Ll][Pp][Ff][Ii][Ll][Ee].[Jj][Ss]" false
                   JUndefined)
   (whenOn h "enableGrunt"
      (fun ws => Extension.registerFileWatcher ws "grunt"
                   "**/[Gg][Rr][Uu][Nn][Tt][Ff][Ii][Ll][Ee].[Jj][Ss]" false
                   JUndefined)
   (whenOn h "enableGradle"
      (fun ws => Extension.registerFileWatcher ws "grunt"
                   "**/*.[Gg][Rr][Aa][Dd][Ll][Ee]" false JUndefined)
   (whenOn h "enableBatch"
      (fun ws =>
         Extension.registerFileWatcher
           (Extension.registerFileWatcher ws "batch" "**/*.[Bb][Aa][Tt]" true
              JUndefined)
           "batch" "**/*.[Cc][Mm][Dd]" true JUndefined)
   (whenOn h "enableBash"
      (fun ws => Extension.registerFileWatcher ws "bash" "**/*.[Ss][Hh]" true
                   JUndefined)
   (whenOn h "enableAppPublisher"
      (fun ws => Extension.registerFileWatcher ws "app-publisher"
                   "**/.publishrc*" true JUndefined)
   (whenOn h "enableApplescript"
      (fun ws => Extension.registerFileWatcher ws "applescript"
                   "**/*.[Aa][Pp][Pp][Ll][Ee][Ss][Cc][Rr][Ii][Pp][tt]" true
                   JUndefined)
   (whenOn h "enableAnt"
      (fun ws => Extension.registerFileWatcherAnt h ws JUndefined)
      watchers)))))))))))))))).
Proof. reflexivity. Qed.

Lemma whenOn_grown (h : Host) (setting key : string)
  (w : Extension.FileSystemWatcher)
  (f : Extension.Watchers -> Extension.Watchers)
  (watchers : Extension.Watchers) :
  (forall ws,
     (exists w0, assoc ws key = Some w0 /\ grown w w0) ->
     exists w', assoc (f ws) key = Some w' /\ grown w w') ->
  (exists w0, assoc watchers key = Some w0 /\ grown w w0) ->
  exists w', assoc (whenOn h setting f watchers) key = Some w' /\ grown w w'.
Proof.
  intros Hf H. unfold whenOn.
  destruct (jsTruthy (configuration h setting)); auto.
Qed.

(** No call removes a watcher, changes what a watcher watches, or takes a
    listener from it: a watcher that the map has is there after a call of
    [registerFileWatcher], of [registerFileWatcherAnt] or of
    [registerFileWatchers], under its key, with its glob and with the
    listeners it had, others coming after them at most.  So it is when a
    type is registered as disabled, which adds listeners that do nothing
    and leaves those that refresh the tree; and a second glob registered
    for a type that has a watcher is not watched. *)
Theorem watchers_only_grow (h : Host) (watchers : Extension.Watchers)
  (key : string) (w : Extension.FileSystemWatcher) :
  assoc watchers key = Some w ->
  (forall taskType fileBlob isScriptType enabled,
     exists w',
       assoc (Extension.registerFileWatcher watchers taskType fileBlob
                isScriptType enabled) key = Some w'
       /\ grown w w')
  /\ (forall enabled,
        exists w',
          assoc (Extension.registerFileWatcherAnt h watchers enabled) key
          = Some w'
          /\ grown w w')
  /\ exists w',
       assoc (Extension.registerFileWatchers h watchers) key = Some w'
       /\ grown w w'.
Proof.
  intros Hw.
  assert (H0 : exists w0, assoc watchers key = Some w0 /\ grown w w0)
    by (exists w; split; [assumption | apply grown_refl]).
  split; [|split].
  - intros. now apply registerFileWatcher_grown.
  - intros. now apply registerFileWatcherAnt_grown.
  - rewrite registerFileWatchers_steps.
    repeat (apply whenOn_grown;
            [intros ws Hws;
             first [now apply registerFileWatcher_grown
                   | now apply registerFileWatcherAnt_grown
                   | now apply registerFileWatcher_grown,
                       registerFileWatcher_grown]|]).
    exact H0.
Qed.

Lemma watchers_only_grow_witness :
  let h := Demo.antHost [] [] in
  let w :=
    Extension.mkWatcher "**/*.[Ss][Hh]" [] [Extension.RefreshTree "bash"]
      [Extension.RefreshTree "bash"] in
  let watchers := [("bash", w)] in
  (forall taskType fileBlob isScriptType enabled,
     exists w',
       assoc (Extension.registerFileWatcher watchers taskType fileBlob
                isScriptType enabled) "bash" = Some w'
       /\ grown w w')
  /\ (forall enabled,
        exists w',
          assoc (Extension.registerFileWatcherAnt h watchers enabled) "bash"
          = Some w'
          /\ grown w w')
  /\ exists w',
       assoc (Extension.registerFileWatchers h watchers) "bash" = Some w'
       /\ grown w w'.
Proof.
  apply (@watchers_only_grow (Demo.antHost [] [])
           [("bash",
             Extension.mkWatcher "**/*.[Ss][Hh]" []
               [Extension.RefreshTree "bash"] [Extension.RefreshTree "bash"])]
           "bash").
  reflexivity.
Defined.

Lemma whenOn_other (h : Host) (setting taskType fileBlob : string)
  (isScriptType : bool) (enabled : JsVal) (watchers : Extension.Watchers)
  (key : string) :
  String.eqb taskType key = false ->
  assoc
    (whenOn h setting
       (fun ws =>
          Extension.registerFileWatcher ws taskType fileBlob isScriptType
            enabled) watchers) key
  = assoc watchers key.
Proof.
  intros Hne. unfold whenOn. destruct (jsTruthy (configuration h setting));
    [now apply registerFileWatcher_other | reflexivity].
Qed.

(** The watchers of the Ant files have keys that begin with [ant]. *)
Lemma registerFileWatcherAnt_other (h : Host) (enabled : JsVal)
  (watchers : Extension.Watchers) (key : string) :
  String.prefix "ant" key = false ->
  assoc (Extension.registerFileWatcherAnt h watchers enabled) key
  = assoc watchers key.
Proof.
  intros Hkey. unfold Extension.registerFileWatcherAnt.
  assert (Hinc : forall inc, String.eqb ("ant-" ++ inc) key = false).
  { intros inc. apply String.eqb_neq. intros <-. revert Hkey.
    cbn [append]. now rewrite !prefix_cons, prefix_nil. }
  assert (Hant : String.eqb "ant" key = false).
  { apply String.eqb_neq. intros <-. revert Hkey.
    now rewrite !prefix_cons, prefix_nil. }
  generalize (match configuration h "includeAnt" with
              | JArray l => l
              | JString s => Extension.characters s
              | _ => []
              end).
  intros includeAnt.
  rewrite <- (registerFileWatcher_other watchers "ant" "**/[Bb]uild.xml"
                false enabled key Hant).
  generalize (Extension.registerFileWatcher watchers "ant" "**/[Bb]uild.xml"
                false enabled).
  induction includeAnt as [|inc l IH]; intros ws; cbn [fold_left];
    [reflexivity|].
  rewrite IH. now apply registerFileWatcher_other.
Qed.

Lemma whenOn_ant_other (h : Host) (enabled : JsVal)
  (watchers : Extension.Watchers) (key : string) :
  String.prefix "ant" key = false ->
  assoc
    (whenOn h "enableAnt"
       (fun ws => Extension.registerFileWatcherAnt h ws enabled) watchers)
    key
  = assoc watchers key.
Proof.
  intros Hkey. unfold whenOn.
  destruct (jsTruthy (configuration h "enableAnt"));
    [now apply registerFileWatcherAnt_other | reflexivity].
Qed.

(** The watchers that the activation leaves for the batch scripts and for
    the Gradle files.  The batch scripts have one watcher, on the files
    [bat]: the glob of the files [cmd], registered second for the same
    type, is not watched, and its registration gives the watcher each of
    its listeners a second time.  The Gradle files are registered under
    the type [grunt]: no watcher has the key [gradle]; the watcher of the
    key [grunt] watches the Gradle files when they are enabled, and then
    no watcher watches the Gruntfiles; and what its listeners refresh is
    the type [grunt]. *)
Theorem watchers_at_activation (h : Host) (p : Providers) :
  let ws := Extension.watchers (Extension.activate h p) in
  let on key := jsTruthy (configuration h key) in
  let batch := Extension.RefreshTree "batch" in
  let grunt := Extension.RefreshTree "grunt" in
  assoc ws "batch"
  = (if on "enableBatch"
     then Some (Extension.mkWatcher "**/*.[Bb][Aa][Tt]" [] [batch; batch]
                  [batch; batch])
     else None)
  /\ assoc ws "gradle" = None
  /\ assoc ws "grunt"
     = if on "enableGradle"
       then
         let l := if on "enableGrunt" then [grunt; grunt] else [grunt] in
         Some (Extension.mkWatcher "**/*.[Gg][Rr][Aa][Dd][Ll][Ee]" l l l)
       else if on "enableGrunt"
       then Some (Extension.mkWatcher
                    "**/[Gg][Rr][Uu][Nn][Tt][Ff][Ii][Ll][Ee].[Jj][Ss]"
                    [grunt] [grunt] [grunt])
       else None.
Proof.
  intros ws on batch grunt. unfold ws, Extension.activate.
  cbn [Extension.watchers]. rewrite registerFileWatchers_steps.
  split; [|split].
  - rewrite !whenOn_other by reflexivity.
    unfold whenOn at 1. fold (on "enableBatch").
    destruct (on "enableBatch").
    + rewrite !registerFileWatcher_same. cbv zeta.
      cbn [Extension.notFalse negb].
      rewrite !whenOn_other, whenOn_ant_other by reflexivity.
      reflexivity.
    + rewrite !whenOn_other, whenOn_ant_other by reflexivity. reflexivity.
  - rewrite !whenOn_other by reflexivity.
    unfold whenOn at 1. destruct (jsTruthy (configuration h "enableBatch"));
      rewrite ?registerFileWatcher_other by reflexivity;
      rewrite !whenOn_other, whenOn_ant_other by reflexivity; reflexivity.
  - rewrite !whenOn_other by reflexivity.
    unfold whenOn at 1. fold (on "enableGrunt").
    assert (Hbefore :
      forall ws0,
        assoc
          (whenOn h "enableBatch"
             (fun ws =>
                Extension.registerFileWatcher
                  (Extension.registerFileWatcher ws "batch"
                     "**/*.[Bb][Aa][Tt]" true JUndefined)
                  "batch" "**/*.[Cc][Mm][Dd]" true JUndefined) ws0) "grunt"
        = assoc ws0 "grunt").
    { intros ws0. unfold whenOn.
      destruct (jsTruthy (configuration h "enableBatch")); [|reflexivity].
      now rewrite !registerFileWatcher_other by reflexivity. }
    destruct (on "enableGrunt").
    + rewrite registerFileWatcher_same. cbv zeta.
      cbn [Extension.notFalse negb].
      unfold whenOn at 1. fold (on "enableGradle").
      destruct (on "enableGradle").
      * rewrite registerFileWatcher_same. cbv zeta.
        cbn [Extension.notFalse negb].
        rewrite Hbefore, !whenOn_other, whenOn_ant_other by reflexivity.
        reflexivity.
      * rewrite Hbefore, !whenOn_other, whenOn_ant_other by reflexivity.
        reflexivity.
    + unfold whenOn at 1. fold (on "enableGradle").
      destruct (on "enableGradle").
      * rewrite registerFileWatcher_same. cbv zeta.
        cbn [Extension.notFalse negb].
        rewrite Hbefore, !whenOn_other, whenOn_ant_other by reflexivity.
        reflexivity.
      * rewrite Hbefore, !whenOn_other, whenOn_ant_other by reflexivity.
        reflexivity.
Qed.

(** ** Refreshing the tree *)

(** What [refreshTree] does to the provider modules: each view that is
    shown invalidates for the same type, the second one too. *)
Lemma refreshTree_providers (h : Host) (taskType : option string)
  (uri : option Uri) (s : Extension.State) :
  Extension.providers (snd (Extension.refreshTree h taskType uri s))
  = let invalidate := refreshedType taskType in
    let p1 :=
      if sideBarShown h s
      then snd (Explorer.invalidateTasksCache h invalidate
                  (Extension.providers s))
      else Extension.providers s in
    if explorerViewShown h s
    then snd (Explorer.invalidateTasksCache h invalidate p1)
    else p1.
Proof.
  unfold Extension.refreshTree, sideBarShown, explorerViewShown,
    refreshedType, occurs.
  assert (Hrefresh : forall t v p,
            Explorer.refresh h (Extension.ofTaskType t) (v, p)
            = (Ok JUndefined,
               (Explorer.mkView None (S (Explorer.fired v)),
                snd (Explorer.invalidateTasksCache h
                       (Extension.ofTaskType t) p)))).
  { intros [t|] v p; reflexivity. }
  set (t' := match taskType with
             | Some t =>
                 if Js.truthy t && negb (Js.indexOf t "ant-" 0 =? -1)
                 then Some "ant" else Some t
             | None => None
             end).
  assert (Ht' : Extension.ofTaskType t'
                = match taskType with
                  | Some t =>
                      if Js.truthy t && negb (Js.indexOf t "ant-" 0 =? -1)
                      then JString "ant" else JString t
                  | None => JUndefined
                  end).
  { unfold t'. destruct taskType as [t|]; [|reflexivity].
    now destruct (Js.truthy t && negb (Js.indexOf t "ant-" 0 =? -1)). }
  rewrite <- Ht'. clearbody t'. clear Ht'.
  assert (Hside : forall x s0 v,
            Extension.treeDataProvider s0 = Some v ->
            Extension.inSideBar (Explorer.refresh h (Extension.ofTaskType x))
              s0
            = (Ok JUndefined,
               Extension.mkState (Extension.watchers s0)
                 (Some (Explorer.mkView None (S (Explorer.fired v))))
                 (Extension.treeDataProvider2 s0)
                 (snd (Explorer.invalidateTasksCache h
                         (Extension.ofTaskType x)
                         (Extension.providers s0))))).
  { intros x s0 v Hv. unfold Extension.inSideBar.
    now rewrite Hv, Hrefresh. }
  assert (Hview : forall x s0 v,
            Extension.treeDataProvider2 s0 = Some v ->
            Extension.inExplorerView
              (Explorer.refresh h (Extension.ofTaskType x)) s0
            = (Ok JUndefined,
               Extension.mkState (Extension.watchers s0)
                 (Extension.treeDataProvider s0)
                 (Some (Explorer.mkView None (S (Explorer.fired v))))
                 (snd (Explorer.invalidateTasksCache h
                         (Extension.ofTaskType x)
                         (Extension.providers s0))))).
  { intros x s0 v Hv. unfold Extension.inExplorerView.
    now rewrite Hv, Hrefresh. }
  unfold bind, Extension.getState, ret.
  destruct s as [ws [v1|] [v2|] p];
    cbn [Extension.treeDataProvider Extension.treeDataProvider2
         Extension.providers Extension.watchers Extension.isDefined];
    destruct (jsTruthy (configuration h "enableSideBar"));
    destruct (jsTruthy (configuration h "enableExplorerView"));
    cbn [andb];
    try (erewrite Hside by reflexivity);
    cbn [Extension.treeDataProvider Extension.treeDataProvider2
         Extension.providers Extension.watchers Extension.isDefined
         jsTruthy negb andb snd fst];
    try (erewrite Hview by reflexivity);
    reflexivity.
Qed.

Lemma invalidateTasksCache_gradle (h : Host) (invalidate : JsVal)
  (p : Providers) :
  gradleModule (snd (Explorer.invalidateTasksCache h invalidate p))
  = gradleModule p.
Proof.
  unfold Explorer.invalidateTasksCache, detach, inAnt, inScript, foreign,
    bind.
  destruct invalidate as [|b|s|l]; try reflexivity;
    repeat match goal with
           | |- context [if ?b then _ else _] => destruct b
           | |- context [let '(_, _) := ?x in _] => destruct x
           end; reflexivity.
Qed.

(** No refresh of the tree reaches the cache of the Gradle provider, which
    the tree view does not know of: whatever the events and the views,
    the module of the Gradle provider is as it was, and once it has
    answered a request it answers the next ones with the same tasks,
    whatever has become of the Gradle files. *)
Theorem gradle_cache_outlives_refresh (h h' : Host)
  (events : list (option string * option Uri)) (s : Extension.State)
  (tasks : list Task) :
  cachedTasks (gradleModule (Extension.providers s)) = Some tasks ->
  let s' :=
    fold_left
      (fun s e => snd (Extension.refreshTree h (fst e) (snd e) s))
      events s in
  gradleModule (Extension.providers s') = gradleModule (Extension.providers s)
  /\ Gradle.provideGradlefiles h' (gradleModule (Extension.providers s'))
     = (Ok tasks, gradleModule (Extension.providers s)).
Proof.
  intros Hc s'.
  assert (Hsame : gradleModule (Extension.providers s')
                  = gradleModule (Extension.providers s)).
  { unfold s'. clear. revert s.
    induction events as [|e events IH]; intros s; cbn [fold_left];
      [reflexivity|].
    rewrite IH, refreshTree_providers. cbv zeta.
    destruct (explorerViewShown h s), (sideBarShown h s);
      now rewrite ?invalidateTasksCache_gradle. }
  split; [assumption|]. rewrite Hsame.
  unfold Gradle.provideGradlefiles, bind, getCache. now rewrite Hc.
Qed.

Lemma gradle_cache_outlives_refresh_witness :
  let h := Demo.gradleHost in
  let s :=
    Extension.mkState [] (Some (Explorer.mkView None 0)) None
      (mkProviders Demo.emptyMem (mkMem (Some []) []) Demo.emptyMem []) in
  let s' :=
    fold_left
      (fun s e => snd (Extension.refreshTree h (fst e) (snd e) s))
      [(Some "grunt", Some (Demo.file "/ws/app/build.gradle"))] s in
  gradleModule (Extension.providers s') = gradleModule (Extension.providers s)
  /\ Gradle.provideGradlefiles h (gradleModule (Extension.providers s'))
     = (Ok [], gradleModule (Extension.providers s)).
Proof.
  apply (@gradle_cache_outlives_refresh Demo.gradleHost Demo.gradleHost
           [(Some "grunt", Some (Demo.file "/ws/app/build.gradle"))]
           (Extension.mkState [] (Some (Explorer.mkView None 0)) None
              (mkProviders Demo.emptyMem (mkMem (Some []) []) Demo.emptyMem
                 []))
           []).
  reflexivity.
Defined.

Lemma invalidate_none (h : Host) (readfile : Uri -> M (list Task))
  (m : Mem) :
  invalidateTasksCache h readfile None m = (Ok tt, mkMem None (reads m)).
Proof.
  unfold invalidateTasksCache, bind, getCache, setCache.
  now destruct (cachedTasks m).
Qed.

(** What the event of a file does to the caches when a view is shown.
    The file is not passed on: the listener of a watcher of Ant files, of
    the build files or of the extra files of the settings, drops the
    whole cache of the Ant provider, and reads nothing; the listener of
    any type other than [ant], [grunt], [gulp] and [make] drops the whole
    cache of the script provider, the types of the scripts and the types
    [npm] and [tsc] alike, and raises nothing, also when that cache is
    not populated.  The other caches are as they were. *)
Theorem file_event_drops_cache (h : Host) (s : Extension.State) (uri : Uri) :
  sideBarShown h s || explorerViewShown h s = true ->
  let p := Extension.providers s in
  let dropped (m : Mem) := mkMem None (reads m) in
  (forall inc l,
     l = Extension.RefreshTree "ant"
     \/ l = Extension.RefreshTree ("ant-" ++ inc) ->
     Extension.providers (snd (Extension.onFileEvent h l uri s))
     = mkProviders (dropped (antModule p)) (gradleModule p) (scriptModule p)
         (foreignCalls p))
  /\ (forall t,
        ~ In t ["ant"; "grunt"; "gulp"; "make"; ""] ->
        occurs "ant-" t = false ->
        Extension.providers
          (snd (Extension.onFileEvent h (Extension.RefreshTree t) uri s))
        = mkProviders (antModule p) (gradleModule p)
            (dropped (scriptModule p)) (foreignCalls p)).
Proof.
  intros Hshown p dropped.
  assert (Hant : forall q,
            snd (Explorer.invalidateTasksCache h (JString "ant") q)
            = mkProviders (dropped (antModule q)) (gradleModule q)
                (scriptModule q) (foreignCalls q)).
  { intros q.
    change (Explorer.invalidateTasksCache h (JString "ant") q)
      with (detach (inAnt (invalidateTasksCacheAnt h None)) q).
    unfold detach, inAnt, invalidateTasksCacheAnt.
    now rewrite invalidate_none. }
  assert (Hscript : forall t q,
            ~ In t ["ant"; "grunt"; "gulp"; "make"; ""] ->
            snd (Explorer.invalidateTasksCache h (JString t) q)
            = mkProviders (antModule q) (gradleModule q)
                (dropped (scriptModule q)) (foreignCalls q)).
  { intros t q Ht. unfold Explorer.invalidateTasksCache.
    assert (Hne : forall x, In x ["ant"; "grunt"; "gulp"; "make"; ""] ->
                            String.eqb t x = false).
    { intros x Hx. apply String.eqb_neq. intros ->. contradiction. }
    unfold Js.truthy. rewrite !Hne by (cbn; tauto). cbn [negb].
    reflexivity. }
  split.
  - intros inc l Hl.
    assert (Hty : exists t, l = Extension.RefreshTree t
                            /\ refreshedType (Some t) = JString "ant").
    { destruct Hl as [-> | ->]; eexists; (split; [reflexivity|]).
      - reflexivity.
      - unfold refreshedType, occurs.
        rewrite indexOf_zero. cbn [append Js.indexOfAux].
        now rewrite !prefix_cons, prefix_nil. }
    destruct Hty as (t & -> & Hty).
    unfold Extension.onFileEvent, detach. cbn [snd].
    rewrite refreshTree_providers, Hty. cbv zeta. fold p.
    destruct (sideBarShown h s), (explorerViewShown h s);
      try discriminate; now rewrite !Hant.
  - intros t Ht Hocc.
    unfold Extension.onFileEvent, detach. cbn [snd].
    rewrite refreshTree_providers. unfold refreshedType. rewrite Hocc.
    rewrite andb_false_r. cbv zeta. fold p.
    destruct (sideBarShown h s), (explorerViewShown h s);
      try discriminate; now rewrite !Hscript.
Qed.

Lemma file_event_drops_cache_witness :
  let h := Demo.scriptsBefore in
  let uri := Demo.file "/ws/a.sh" in
  let p :=
    mkProviders (mkMem (Some [Demo.antInstall]) ["/ws/build.xml"])
      Demo.emptyMem Demo.emptyMem [] in
  let s := Extension.mkState [] (Some (Explorer.mkView None 0)) None p in
  let dropped (m : Mem) := mkMem None (reads m) in
  (forall inc l,
     l = Extension.RefreshTree "ant"
     \/ l = Extension.RefreshTree ("ant-" ++ inc) ->
     Extension.providers (snd (Extension.onFileEvent h l uri s))
     = mkProviders (dropped (antModule p)) (gradleModule p) (scriptModule p)
         (foreignCalls p))
  /\ (forall t,
        ~ In t ["ant"; "grunt"; "gulp"; "make"; ""] ->
        occurs "ant-" t = false ->
        Extension.providers
          (snd (Extension.onFileEvent h (Extension.RefreshTree t) uri s))
        = mkProviders (antModule p) (gradleModule p)
            (dropped (scriptModule p)) (foreignCalls p)).
Proof.
  apply (@file_event_drops_cache Demo.scriptsBefore
           (Extension.mkState [] (Some (Explorer.mkView None 0)) None
              (mkProviders (mkMem (Some [Demo.antInstall]) ["/ws/build.xml"])
                 Demo.emptyMem Demo.emptyMem []))
           (Demo.file "/ws/a.sh")).
  reflexivity.
Defined.

(** When the two views are shown, a refresh invalidates twice: the
    refresh of the first view returns nothing, so that the second view is
    never told that the caches are done with.  The providers of the
    makefiles, of the Gruntfiles and of the gulpfiles see their
    invalidation function called two times for one event. *)
Theorem both_views_invalidate_twice (h : Host) (s : Extension.State)
  (uri : option Uri) (taskType fn : string) :
  sideBarShown h s = true ->
  explorerViewShown h s = true ->
  In (taskType, fn)
     [("make", "invalidateTasksCacheMake");
      ("grunt", "invalidateTasksCacheGrunt");
      ("gulp", "invalidateTasksCacheGulp")] ->
  let p := Extension.providers s in
  Extension.providers (snd (Extension.refreshTree h (Some taskType) uri s))
  = mkProviders (antModule p) (gradleModule p) (scriptModule p)
      (foreignCalls p ++ [fn; fn])%list.
Proof.
  intros H1 H2 Hin p. rewrite refreshTree_providers, H1, H2. fold p.
  destruct Hin as [[= <- <-] | [[= <- <-] | [[= <- <-] | []]]];
    cbn; now rewrite <- app_assoc.
Qed.

Lemma both_views_invalidate_twice_witness :
  let s :=
    Extension.mkState [] (Some (Explorer.mkView None 0))
      (Some (Explorer.mkView None 0))
      (mkProviders Demo.emptyMem Demo.emptyMem Demo.emptyMem []) in
  Extension.providers
    (snd (Extension.refreshTree
            (Demo.host (fun _ => JBool true) [] [] [] Demo.nothingExcluded)
            (Some "make") None s))
  = mkProviders Demo.emptyMem Demo.emptyMem Demo.emptyMem
      ([] ++ ["invalidateTasksCacheMake"; "invalidateTasksCacheMake"])%list.
Proof.
  apply (@both_views_invalidate_twice
           (Demo.host (fun _ => JBool true) [] [] [] Demo.nothingExcluded)
           (Extension.mkState [] (Some (Explorer.mkView None 0))
              (Some (Explorer.mkView None 0))
              (mkProviders Demo.emptyMem Demo.emptyMem Demo.emptyMem []))
           None "make" "invalidateTasksCacheMake").
  - reflexivity.
  - reflexivity.
  - now left.
Defined.
